(** * power-profiles-daemon: the profile arbitration engine

    A shallow embedding of [src/ppd-profile.c], [src/ppd-driver.c] and the
    arbitration core of [src/power-profiles-daemon.c].

    - A [PpdProfile] is the C flags value, kept as an integer with its bit
      operations ([Z.land], [Z.lor]).
    - The daemon state [PpdApp] is threaded explicitly through every function.
      What the daemon does to the outside world (messages put on the bus
      connection, calls into the back-ends' class methods, GLib log lines at
      info level and above, writes of the state file) is appended, in program
      order, to the [trace] field.
    - A back-end's class methods are arbitrary functions on a private state
      of type [HW]; the theorems hold for every such back-end.
    - The hold registry (a [GHashTable] keyed by the watch id) is a [gmap];
      it is iterated in the order of [map_to_list], and nothing proved below
      depends on that order. *)

From Stdlib Require Import ZArith String List Bool Lia DecimalString.
From stdpp Require Import gmap strings list fin_maps.

Local Open Scope string_scope.
Local Open Scope Z_scope.

(* ===================================================================== *)
(** ** Profiles ([ppd-profile.h], [ppd-profile.c])                        *)
(* ===================================================================== *)

(** The C type [PpdProfile] is a flags enumeration. *)
Abbreviation PpdProfile := Z.

(** Modelled from the spec: [ppd-profile.h] is not among the sources.  The
    three profiles are three independent bits (the daemon enumerates them as
    [1 << i] for [i < NUM_PROFILES]), [PPD_PROFILE_UNSET] is the value with
    no bit set, and [PPD_PROFILE_ALL] is the union of the three. *)
Definition PPD_PROFILE_POWER_SAVER : PpdProfile := Z.shiftl 1 0.
Definition PPD_PROFILE_BALANCED    : PpdProfile := Z.shiftl 1 1.
Definition PPD_PROFILE_PERFORMANCE : PpdProfile := Z.shiftl 1 2.
Definition PPD_PROFILE_UNSET       : PpdProfile := 0.
Definition PPD_PROFILE_ALL : PpdProfile :=
  Z.lor PPD_PROFILE_BALANCED
        (Z.lor PPD_PROFILE_POWER_SAVER PPD_PROFILE_PERFORMANCE).
Definition NUM_PROFILES : nat := 3.

(** One row of a [GFlagsClass]. *)
Record GFlagsValue := {
  value      : Z;
  value_name : string;
  value_nick : string
}.

(** Modelled from the spec: the generated [ppd-enums.c] that registers
    [PPD_TYPE_PROFILE] is not among the sources.  The nicks are the profile
    names of the bus interface, in the order of the enumeration. *)
Definition ppd_profile_class : list GFlagsValue :=
  [ {| value := PPD_PROFILE_POWER_SAVER;
       value_name := "PPD_PROFILE_POWER_SAVER"; value_nick := "power-saver" |};
    {| value := PPD_PROFILE_BALANCED;
       value_name := "PPD_PROFILE_BALANCED"; value_nick := "balanced" |};
    {| value := PPD_PROFILE_PERFORMANCE;
       value_name := "PPD_PROFILE_PERFORMANCE"; value_nick := "performance" |} ].

(** GLib's [g_flags_get_first_value]: for a zero [v] the first row whose
    value is zero, otherwise the first row with a non-zero value all of
    whose bits are set in [v]. *)
Definition g_flags_get_first_value (klass : list GFlagsValue) (v : Z)
  : option GFlagsValue :=
  if v =? 0
  then List.find (fun fv => value fv =? 0) klass
  else List.find (fun fv => negb (value fv =? 0)
                            && (Z.land (value fv) v =? value fv)) klass.

(** GLib's [g_flags_get_value_by_nick]: the first row with that nick. *)
Definition g_flags_get_value_by_nick (klass : list GFlagsValue) (nick : string)
  : option GFlagsValue :=
  List.find (fun fv => String.eqb nick (value_nick fv)) klass.

(** [ppd_profile_to_str], ppd-profile.c:13 *)
Definition ppd_profile_to_str (profile : PpdProfile) : string :=
  match g_flags_get_first_value ppd_profile_class profile with
  | Some v => value_nick v
  | None => ""
  end.

(** [ppd_profile_from_str], ppd-profile.c:22 *)
Definition ppd_profile_from_str (str : string) : PpdProfile :=
  match g_flags_get_value_by_nick ppd_profile_class str with
  | Some v => value v
  | None => PPD_PROFILE_UNSET
  end.

(** [ppd_profile_has_single_flag], ppd-profile.c:31 *)
Definition ppd_profile_has_single_flag (profile : PpdProfile) : bool :=
  match g_flags_get_first_value ppd_profile_class profile with
  | Some v => value v =? profile
  | None => false
  end.


(* ===================================================================== *)
(** ** Enumerations and errors                                            *)
(* ===================================================================== *)

(** [PpdProfileActivationReason] (named by
    [ppd_profile_activation_reason_to_str], ppd-driver.c:347). *)
Inductive PpdProfileActivationReason :=
| PPD_PROFILE_ACTIVATION_REASON_INTERNAL
| PPD_PROFILE_ACTIVATION_REASON_RESET
| PPD_PROFILE_ACTIVATION_REASON_USER
| PPD_PROFILE_ACTIVATION_REASON_RESUME
| PPD_PROFILE_ACTIVATION_REASON_PROGRAM_HOLD.

(** [ppd_profile_activation_reason_to_str], ppd-driver.c:347 *)
Definition ppd_profile_activation_reason_to_str
  (reason : PpdProfileActivationReason) : string :=
  match reason with
  | PPD_PROFILE_ACTIVATION_REASON_INTERNAL => "internal"
  | PPD_PROFILE_ACTIVATION_REASON_RESET => "reset"
  | PPD_PROFILE_ACTIVATION_REASON_USER => "user"
  | PPD_PROFILE_ACTIVATION_REASON_RESUME => "resume"
  | PPD_PROFILE_ACTIVATION_REASON_PROGRAM_HOLD => "program-hold"
  end.

Definition reason_eqb (a b : PpdProfileActivationReason) : bool :=
  match a, b with
  | PPD_PROFILE_ACTIVATION_REASON_INTERNAL, PPD_PROFILE_ACTIVATION_REASON_INTERNAL
  | PPD_PROFILE_ACTIVATION_REASON_RESET, PPD_PROFILE_ACTIVATION_REASON_RESET
  | PPD_PROFILE_ACTIVATION_REASON_USER, PPD_PROFILE_ACTIVATION_REASON_USER
  | PPD_PROFILE_ACTIVATION_REASON_RESUME, PPD_PROFILE_ACTIVATION_REASON_RESUME
  | PPD_PROFILE_ACTIVATION_REASON_PROGRAM_HOLD,
    PPD_PROFILE_ACTIVATION_REASON_PROGRAM_HOLD => true
  | _, _ => false
  end.

(** [PpdProbeResult] *)
Inductive PpdProbeResult :=
| PPD_PROBE_RESULT_DEFER
| PPD_PROBE_RESULT_FAIL
| PPD_PROBE_RESULT_SUCCESS.

(** The error codes the daemon itself raises, and the ones of a back-end. *)
Inductive GErrorCode :=
| G_DBUS_ERROR_FAILED
| G_DBUS_ERROR_INVALID_ARGS
| G_DBUS_ERROR_ACCESS_DENIED
| G_DBUS_ERROR_UNKNOWN_INTERFACE
| G_DBUS_ERROR_UNKNOWN_METHOD
| BACKEND_ERROR (code : Z).

(** A [GError]; a [GError *] that may be [NULL] is an [option GError]. *)
Record GError := {
  err_code : GErrorCode;
  message  : string
}.

(** [printf ("%s")] of a C string that may be [NULL], as GLib prints it. *)
Definition str_or_null (s : option string) : string :=
  match s with Some x => x | None => "(null)" end.

(** [g_prefix_error]: does nothing on an unset error. *)
Definition g_prefix_error (error : option GError) (prefix : string)
  : option GError :=
  match error with
  | Some e => Some {| err_code := err_code e; message := prefix +:+ message e |}
  | None => None
  end.

(** [g_strcmp0 (a, b) == 0] on strings that may be [NULL]. *)
Definition g_strcmp0_eq (a b : option string) : bool :=
  match a, b with
  | None, None => true
  | Some x, Some y => String.eqb x y
  | _, _ => false
  end.

(** The two driver slots of [PpdApp]; a [PpdDriver *] held in a slot is
    named by the slot. *)
Inductive Slot := CPU | PLATFORM.

(** The bus names and paths of power-profiles-daemon.c:28. *)
Definition POWER_PROFILES_DBUS_NAME := "org.freedesktop.UPower.PowerProfiles".
Definition POWER_PROFILES_DBUS_PATH := "/org/freedesktop/UPower/PowerProfiles".
Definition POWER_PROFILES_IFACE_NAME := POWER_PROFILES_DBUS_NAME.
Definition POWER_PROFILES_LEGACY_DBUS_NAME := "net.hadess.PowerProfiles".
Definition POWER_PROFILES_LEGACY_DBUS_PATH := "/net/hadess/PowerProfiles".
Definition POWER_PROFILES_LEGACY_IFACE_NAME := POWER_PROFILES_LEGACY_DBUS_NAME.

(** [PropertiesMask], power-profiles-daemon.c:165 *)
Definition PROP_ACTIVE_PROFILE       : Z := Z.shiftl 1 0.
Definition PROP_INHIBITED            : Z := Z.shiftl 1 1.
Definition PROP_PROFILES             : Z := Z.shiftl 1 2.
Definition PROP_ACTIONS              : Z := Z.shiftl 1 3.
Definition PROP_DEGRADED             : Z := Z.shiftl 1 4.
Definition PROP_ACTIVE_PROFILE_HOLDS : Z := Z.shiftl 1 5.
Definition PROP_VERSION              : Z := Z.shiftl 1 6.
Definition PROP_ALL : Z :=
  Z.lor PROP_ACTIVE_PROFILE (Z.lor PROP_INHIBITED (Z.lor PROP_PROFILES
  (Z.lor PROP_ACTIONS (Z.lor PROP_DEGRADED
  (Z.lor PROP_ACTIVE_PROFILE_HOLDS PROP_VERSION))))).

(** The values the daemon publishes: a string, an array of strings, or an
    array of string-valued dictionaries. *)
Inductive GVariant :=
| V_s (s : string)
| V_as (l : list string)
| V_aasv (l : list (list (string * string))).

(** A method call being answered: who sent it and on which interface. *)
Record GDBusMethodInvocation := {
  sender : string;
  interface_name : string
}.

(** [ProfileHold], power-profiles-daemon.c:102 (the fields carry the prefix
    [ph_] to keep [profile] and [reason] free for the local variables of
    the functions below). *)
Record ProfileHold := {
  ph_profile : PpdProfile;
  ph_reason : string;
  ph_application_id : string;
  ph_requester : string;
  ph_requester_iface : string
}.

(** An argument of a log line: a C string (that may be [NULL]), a number,
    or the message of a [GError].  [A_message None] is the message of an
    error that was never set: there the C code reads through a null
    pointer. *)
Inductive LogArg :=
| A_str (s : option string)
| A_num (n : Z)
| A_message (e : option GError).

(** What the daemon does to the outside world, in program order. *)
Inductive Event :=
(* g_info / g_warning / g_critical lines (g_debug lines are left out) *)
| LogSettingActiveProfile (target : PpdProfile)
                          (why : PpdProfileActivationReason) (current : PpdProfile)
| LogInfo (format : string) (args : list LogArg)
| LogWarning (format : string) (args : list LogArg)
| LogCritical (assertion : string)
(* the class method of a bound back-end is entered *)
| DriverActivateProfile (slot : Slot) (p : PpdProfile)
                        (why : PpdProfileActivationReason)
| ActionActivateProfile (index : nat) (p : PpdProfile)
(* g_key_file_save_to_file *)
| SaveToFile (keys : gmap string string)
(* g_bus_watch_name_on_connection / g_bus_unwatch_name *)
| WatchName (name : string) (id : Z)
| UnwatchName (id : Z)
(* g_main_loop_quit *)
| MainLoopQuit
(* messages put on the connection *)
| ProfileReleased (destination path iface : string) (cookie : Z)
| PropertiesChanged (path iface : string) (props : list (string * GVariant))
| ReturnValue (invocation : GDBusMethodInvocation) (result : option Z)
| ReturnError (invocation : GDBusMethodInvocation) (error : GError).

(* ===================================================================== *)
(** ** The daemon                                                         *)
(* ===================================================================== *)

Section Daemon.

(** The private state of a back-end (what it wrote to the hardware). *)
Context {HW : Type}.

(** [VERSION] of the absent [config.h]. *)
Variable VERSION : string.

(** The virtual methods of a driver the core calls (a [None] is a method the
    class leaves [NULL]).  A method that fails returns its error. *)
Record PpdDriverClass := {
  drv_probe : option (HW -> PpdProbeResult * HW);
  drv_activate_profile :
    option (HW -> PpdProfile -> PpdProfileActivationReason -> HW * option GError)
}.

(** A driver object: [PpdDriverPrivate] (ppd-driver.c:31), its class and its
    hardware. *)
Record PpdDriver := {
  driver_name : option string;
  profiles : PpdProfile;
  performance_degraded : option string;
  drv_class : PpdDriverClass;
  drv_hw : HW
}.

Record PpdActionClass := {
  act_probe : option (HW -> PpdProbeResult * HW);
  act_activate_profile : option (HW -> PpdProfile -> HW * option GError)
}.

Record PpdAction := {
  action_name : option string;
  act_class : PpdActionClass;
  act_hw : HW
}.

(** [DebugOptions], power-profiles-daemon.c:57: the two block lists (the
    other options do not reach the arbitration engine). *)
Record DebugOptions := {
  blocked_drivers : option (list string);
  blocked_actions : option (list string)
}.

(** [PpdApp], power-profiles-daemon.c:67, with the parts of the process the
    arbitration engine acts on: the key file in memory ([config], the keys of
    its group State), the name watches of the bus connection
    ([name_watches], [next_watch_id]), the error the next write of the state
    file meets ([save_error]), the answers of the polkit authority to a
    subject and an action ([auth]), whether the main loop was told to quit,
    and the trace. *)
Record PpdApp := {
  quit_requested : bool;
  was_started : bool;
  ret : Z;
  debug_options : DebugOptions;
  config_path : string;
  config : gmap string string;
  active_profile : PpdProfile;
  selected_profile : PpdProfile;
  probed_drivers : list PpdDriver;
  cpu_driver : option PpdDriver;
  platform_driver : option PpdDriver;
  actions : list PpdAction;
  profile_holds : gmap Z ProfileHold;
  name_watches : gmap Z string;
  next_watch_id : Z;
  save_error : option GError;
  auth : string -> string -> bool;
  trace : list Event
}.

Definition EXIT_FAILURE : Z := 1.

(** Field updates. *)
Definition with_trace (t : list Event) (d : PpdApp) : PpdApp :=
  {| quit_requested := quit_requested d; was_started := was_started d;
     ret := ret d; debug_options := debug_options d;
     config_path := config_path d; config := config d;
     active_profile := active_profile d;
     selected_profile := selected_profile d;
     probed_drivers := probed_drivers d; cpu_driver := cpu_driver d;
     platform_driver := platform_driver d; actions := actions d;
     profile_holds := profile_holds d; name_watches := name_watches d;
     next_watch_id := next_watch_id d; save_error := save_error d;
     auth := auth d; trace := t |}.

Definition with_active_profile (p : PpdProfile) (d : PpdApp) : PpdApp :=
  {| quit_requested := quit_requested d; was_started := was_started d;
     ret := ret d; debug_options := debug_options d;
     config_path := config_path d; config := config d; active_profile := p;
     selected_profile := selected_profile d;
     probed_drivers := probed_drivers d; cpu_driver := cpu_driver d;
     platform_driver := platform_driver d; actions := actions d;
     profile_holds := profile_holds d; name_watches := name_watches d;
     next_watch_id := next_watch_id d; save_error := save_error d;
     auth := auth d; trace := trace d |}.

Definition with_selected_profile (p : PpdProfile) (d : PpdApp) : PpdApp :=
  {| quit_requested := quit_requested d; was_started := was_started d;
     ret := ret d; debug_options := debug_options d;
     config_path := config_path d; config := config d;
     active_profile := active_profile d; selected_profile := p;
     probed_drivers := probed_drivers d; cpu_driver := cpu_driver d;
     platform_driver := platform_driver d; actions := actions d;
     profile_holds := profile_holds d; name_watches := name_watches d;
     next_watch_id := next_watch_id d; save_error := save_error d;
     auth := auth d; trace := trace d |}.

Definition with_config (c : gmap string string) (d : PpdApp) : PpdApp :=
  {| quit_requested := quit_requested d; was_started := was_started d;
     ret := ret d; debug_options := debug_options d;
     config_path := config_path d; config := c;
     active_profile := active_profile d;
     selected_profile := selected_profile d;
     probed_drivers := probed_drivers d; cpu_driver := cpu_driver d;
     platform_driver := platform_driver d; actions := actions d;
     profile_holds := profile_holds d; name_watches := name_watches d;
     next_watch_id := next_watch_id d; save_error := save_error d;
     auth := auth d; trace := trace d |}.

Definition with_cpu_driver (x : option PpdDriver) (d : PpdApp) : PpdApp :=
  {| quit_requested := quit_requested d; was_started := was_started d;
     ret := ret d; debug_options := debug_options d;
     config_path := config_path d; config := config d;
     active_profile := active_profile d;
     selected_profile := selected_profile d;
     probed_drivers := probed_drivers d; cpu_driver := x;
     platform_driver := platform_driver d; actions := actions d;
     profile_holds := profile_holds d; name_watches := name_watches d;
     next_watch_id := next_watch_id d; save_error := save_error d;
     auth := auth d; trace := trace d |}.

Definition with_platform_driver (x : option PpdDriver) (d : PpdApp) : PpdApp :=
  {| quit_requested := quit_requested d; was_started := was_started d;
     ret := ret d; debug_options := debug_options d;
     config_path := config_path d; config := config d;
     active_profile := active_profile d;
     selected_profile := selected_profile d;
     probed_drivers := probed_drivers d; cpu_driver := cpu_driver d;
     platform_driver := x; actions := actions d;
     profile_holds := profile_holds d; name_watches := name_watches d;
     next_watch_id := next_watch_id d; save_error := save_error d;
     auth := auth d; trace := trace d |}.

Definition with_actions (x : list PpdAction) (d : PpdApp) : PpdApp :=
  {| quit_requested := quit_requested d; was_started := was_started d;
     ret := ret d; debug_options := debug_options d;
     config_path := config_path d; config := config d;
     active_profile := active_profile d;
     selected_profile := selected_profile d;
     probed_drivers := probed_drivers d; cpu_driver := cpu_driver d;
     platform_driver := platform_driver d; actions := x;
     profile_holds := profile_holds d; name_watches := name_watches d;
     next_watch_id := next_watch_id d; save_error := save_error d;
     auth := auth d; trace := trace d |}.

Definition with_probed_drivers (x : list PpdDriver) (d : PpdApp) : PpdApp :=
  {| quit_requested := quit_requested d; was_started := was_started d;
     ret := ret d; debug_options := debug_options d;
     config_path := config_path d; config := config d;
     active_profile := active_profile d;
     selected_profile := selected_profile d; probed_drivers := x;
     cpu_driver := cpu_driver d; platform_driver := platform_driver d;
     actions := actions d; profile_holds := profile_holds d;
     name_watches := name_watches d; next_watch_id := next_watch_id d;
     save_error := save_error d; auth := auth d; trace := trace d |}.

Definition with_profile_holds (x : gmap Z ProfileHold) (d : PpdApp) : PpdApp :=
  {| quit_requested := quit_requested d; was_started := was_started d;
     ret := ret d; debug_options := debug_options d;
     config_path := config_path d; config := config d;
     active_profile := active_profile d;
     selected_profile := selected_profile d;
     probed_drivers := probed_drivers d; cpu_driver := cpu_driver d;
     platform_driver := platform_driver d; actions := actions d;
     profile_holds := x; name_watches := name_watches d;
     next_watch_id := next_watch_id d; save_error := save_error d;
     auth := auth d; trace := trace d |}.

Definition with_name_watches (x : gmap Z string) (n : Z) (d : PpdApp)
  : PpdApp :=
  {| quit_requested := quit_requested d; was_started := was_started d;
     ret := ret d; debug_options := debug_options d;
     config_path := config_path d; config := config d;
     active_profile := active_profile d;
     selected_profile := selected_profile d;
     probed_drivers := probed_drivers d; cpu_driver := cpu_driver d;
     platform_driver := platform_driver d; actions := actions d;
     profile_holds := profile_holds d; name_watches := x; next_watch_id := n;
     save_error := save_error d; auth := auth d; trace := trace d |}.

Definition with_quit (r : Z) (d : PpdApp) : PpdApp :=
  {| quit_requested := true; was_started := was_started d; ret := r;
     debug_options := debug_options d; config_path := config_path d;
     config := config d; active_profile := active_profile d;
     selected_profile := selected_profile d;
     probed_drivers := probed_drivers d; cpu_driver := cpu_driver d;
     platform_driver := platform_driver d; actions := actions d;
     profile_holds := profile_holds d; name_watches := name_watches d;
     next_watch_id := next_watch_id d; save_error := save_error d;
     auth := auth d; trace := trace d |}.

Definition with_was_started (b : bool) (d : PpdApp) : PpdApp :=
  {| quit_requested := quit_requested d; was_started := b; ret := ret d;
     debug_options := debug_options d; config_path := config_path d;
     config := config d; active_profile := active_profile d;
     selected_profile := selected_profile d;
     probed_drivers := probed_drivers d; cpu_driver := cpu_driver d;
     platform_driver := platform_driver d; actions := actions d;
     profile_holds := profile_holds d; name_watches := name_watches d;
     next_watch_id := next_watch_id d; save_error := save_error d;
     auth := auth d; trace := trace d |}.

(** One more event at the end of the trace. *)
Definition emit (e : Event) (d : PpdApp) : PpdApp :=
  with_trace (trace d ++ [e]) d.

(* --------------------------------------------------------------------- *)
(** *** The driver object ([ppd-driver.c])                                *)
(* --------------------------------------------------------------------- *)

Definition with_hw (hw : HW) (driver : PpdDriver) : PpdDriver :=
  {| driver_name := driver_name driver; profiles := profiles driver;
     performance_degraded := performance_degraded driver;
     drv_class := drv_class driver; drv_hw := hw |}.

(** A write of one of the three properties of ppd-driver.c:39, with the
    value of the type the property was installed with. *)
Inductive DriverPropertyWrite :=
| PROP_DRIVER_NAME (v : option string)
| PROP_PROFILES_FLAGS (v : PpdProfile)
| PROP_PERFORMANCE_DEGRADED (v : option string).

(** [ppd_driver_set_property], ppd-driver.c:57 *)
Definition ppd_driver_set_property (driver : PpdDriver)
  (property : DriverPropertyWrite) : PpdDriver :=
  match property with
  | PROP_DRIVER_NAME v =>
      match driver_name driver with
      | Some _ => driver  (* g_return_if_fail (priv->driver_name == NULL) *)
      | None =>
          {| driver_name := v; profiles := profiles driver;
             performance_degraded := performance_degraded driver;
             drv_class := drv_class driver; drv_hw := drv_hw driver |}
      end
  | PROP_PROFILES_FLAGS v =>
      {| driver_name := driver_name driver; profiles := v;
         performance_degraded := performance_degraded driver;
         drv_class := drv_class driver; drv_hw := drv_hw driver |}
  | PROP_PERFORMANCE_DEGRADED degraded =>
      {| driver_name := driver_name driver; profiles := profiles driver;
         performance_degraded :=
           match degraded with
           | Some (String c rest) => Some (String c rest)
           | Some EmptyString => None
           | None => None
           end;
         drv_class := drv_class driver; drv_hw := drv_hw driver |}
  end.

(** [PPD_IS_DRIVER], [PPD_IS_DRIVER_CPU], [PPD_IS_DRIVER_PLATFORM] on the
    object a slot holds: the null test. *)
Definition PPD_IS_DRIVER (driver : option PpdDriver) : bool :=
  match driver with Some _ => true | None => false end.

(** [ppd_driver_get_driver_name], ppd-driver.c:279 *)
Definition ppd_driver_get_driver_name (driver : option PpdDriver)
  : option string :=
  match driver with
  | None => None
  | Some d => driver_name d
  end.

(** [ppd_driver_get_profiles], ppd-driver.c:290 *)
Definition ppd_driver_get_profiles (driver : option PpdDriver) : PpdProfile :=
  match driver with
  | None => PPD_PROFILE_BALANCED
  | Some d => profiles d
  end.

(** [ppd_driver_get_performance_degraded], ppd-driver.c:312 *)
Definition ppd_driver_get_performance_degraded (driver : option PpdDriver)
  : option string :=
  match driver with
  | None => None
  | Some d => performance_degraded d
  end.

Definition get_driver (slot : Slot) (data : PpdApp) : option PpdDriver :=
  match slot with
  | CPU => cpu_driver data
  | PLATFORM => platform_driver data
  end.

Definition set_driver (slot : Slot) (x : option PpdDriver) (data : PpdApp)
  : PpdApp :=
  match slot with
  | CPU => with_cpu_driver x data
  | PLATFORM => with_platform_driver x data
  end.

(** [ppd_driver_activate_profile], ppd-driver.c:226, on the driver held in
    [slot].  The result is the returned flag, the error left in [error], and
    the state. *)
Definition ppd_driver_activate_profile (slot : Slot) (profile : PpdProfile)
  (reason : PpdProfileActivationReason) (data : PpdApp)
  : bool * option GError * PpdApp :=
  match get_driver slot data with
  | None => (false, None, emit (LogCritical "PPD_IS_DRIVER (driver)") data)
  | Some driver =>
      if negb (ppd_profile_has_single_flag profile)
      then (false, None,
            emit (LogCritical "ppd_profile_has_single_flag (profile)") data)
      else
        match drv_activate_profile (drv_class driver) with
        | None => (true, None, data)
        | Some method =>
            let data := emit (DriverActivateProfile slot profile reason) data in
            let r := method (drv_hw driver) profile reason in
            let data := set_driver slot (Some (with_hw (fst r) driver)) data in
            match snd r with
            | None => (true, None, data)
            | Some e => (false, Some e, data)
            end
        end
  end.

(* --------------------------------------------------------------------- *)
(** *** The action object                                                 *)
(* --------------------------------------------------------------------- *)

Definition with_act_hw (hw : HW) (action : PpdAction) : PpdAction :=
  {| action_name := action_name action; act_class := act_class action;
     act_hw := hw |}.

(** Modelled from the spec: [ppd-action.c] is not among the sources.
    [ppd_action_activate_profile], declared in ppd-action.h, calls the
    class method of the action when the class has one (the operation
    [activate_profile (p, reason)] of a back-end), and succeeds otherwise.
    [index] is the place of the action in [data->actions]. *)
Definition ppd_action_activate_profile (index : nat) (action : PpdAction)
  (profile : PpdProfile) : PpdAction * option GError * list Event :=
  match act_activate_profile (act_class action) with
  | None => (action, None, [])
  | Some method =>
      let r := method (act_hw action) profile in
      (with_act_hw (fst r) action, snd r, [ActionActivateProfile index profile])
  end.

(** [ppd_action_get_action_name], declared in ppd-action.h. *)
Definition ppd_action_get_action_name (action : PpdAction) : option string :=
  action_name action.

(* --------------------------------------------------------------------- *)
(** *** Properties of the daemon                                          *)
(* --------------------------------------------------------------------- *)

(** [driver_profile_support], power-profiles-daemon.c:183 *)
Definition driver_profile_support (driver : option PpdDriver)
  (profile : PpdProfile) : bool :=
  if negb (PPD_IS_DRIVER driver) then false
  else negb (Z.land (ppd_driver_get_profiles driver) profile =? 0).

(** [get_profile_available], power-profiles-daemon.c:192 *)
Definition get_profile_available (data : PpdApp) (profile : PpdProfile)
  : bool :=
  driver_profile_support (cpu_driver data) profile ||
  driver_profile_support (platform_driver data) profile.

(** [get_active_profile], power-profiles-daemon.c:200 *)
Definition get_active_profile (data : PpdApp) : string :=
  ppd_profile_to_str (active_profile data).

(** [get_performance_degraded], power-profiles-daemon.c:206 *)
Definition get_performance_degraded (data : PpdApp) : string :=
  let platform_degraded :=
    if driver_profile_support (platform_driver data) PPD_PROFILE_PERFORMANCE
    then ppd_driver_get_performance_degraded (platform_driver data)
    else None in
  let cpu_degraded :=
    if driver_profile_support (cpu_driver data) PPD_PROFILE_PERFORMANCE
    then ppd_driver_get_performance_degraded (cpu_driver data)
    else None in
  match cpu_degraded, platform_degraded with
  | None, None => ""
  | None, Some p => p
  | Some c, None => c
  | Some c, Some p => c +:+ "," +:+ p  (* g_strjoin (",", cpu, platform) *)
  end.

(** One turn of the loop of [get_profiles_variant]. *)
Definition profile_entry (data : PpdApp) (i : nat)
  : option (list (string * string)) :=
  let platform_driver := platform_driver data in
  let cpu_driver := cpu_driver data in
  let profile := Z.shiftl 1 (Z.of_nat i) in
  if negb (get_profile_available data profile) then None
  else
    let cpu := driver_profile_support cpu_driver profile in
    let platform := driver_profile_support platform_driver profile in
    let driver :=
      if cpu && platform then Some "multiple"
      else if cpu then ppd_driver_get_driver_name cpu_driver
      else if platform then ppd_driver_get_driver_name platform_driver
      else None in
    Some ([("Profile", ppd_profile_to_str profile)]
          ++ (if cpu
              then [("CpuDriver",
                     str_or_null (ppd_driver_get_driver_name cpu_driver))]
              else [])
          ++ (if platform
              then [("PlatformDriver",
                     str_or_null (ppd_driver_get_driver_name platform_driver))]
              else [])
          ++ (match driver with Some n => [("Driver", n)] | None => [] end))%list.

(** [get_profiles_variant], power-profiles-daemon.c:230 *)
Definition get_profiles_variant (data : PpdApp) : GVariant :=
  V_aasv (omap (profile_entry data) (seq 0 NUM_PROFILES)).

(** [get_actions_variant], power-profiles-daemon.c:280 *)
Definition get_actions_variant (data : PpdApp) : GVariant :=
  V_as (List.map (fun action => str_or_null (ppd_action_get_action_name action))
                 (actions data)).

(** [get_profile_holds_variant], power-profiles-daemon.c:297 *)
Definition get_profile_holds_variant (data : PpdApp) : GVariant :=
  V_aasv (List.map
            (fun kv : Z * ProfileHold =>
               let hold := snd kv in
               [("ApplicationId", ph_application_id hold);
                ("Profile", ppd_profile_to_str (ph_profile hold));
                ("Reason", ph_reason hold)])
            (map_to_list (profile_holds data))).

Definition mask_has (mask flag : Z) : bool := negb (Z.land mask flag =? 0).

(** [send_dbus_event_iface], power-profiles-daemon.c:324.  The connection is
    set before the daemon starts its drivers. *)
Definition send_dbus_event_iface (data : PpdApp) (mask : Z)
  (iface path : string) : PpdApp :=
  if mask =? 0 then data
  else if Z.land mask PROP_ALL =? 0
  then emit (LogCritical "(mask & PROP_ALL) != 0") data
  else
    let props :=
      ((if mask_has mask PROP_ACTIVE_PROFILE
        then [("ActiveProfile", V_s (get_active_profile data))] else [])
       ++ (if mask_has mask PROP_INHIBITED
           then [("PerformanceInhibited", V_s "")] else [])
       ++ (if mask_has mask PROP_DEGRADED
           then [("PerformanceDegraded", V_s (get_performance_degraded data))]
           else [])
       ++ (if mask_has mask PROP_PROFILES
           then [("Profiles", get_profiles_variant data)] else [])
       ++ (if mask_has mask PROP_ACTIONS
           then [("Actions", get_actions_variant data)] else [])
       ++ (if mask_has mask PROP_ACTIVE_PROFILE_HOLDS
           then [("ActiveProfileHolds", get_profile_holds_variant data)]
           else [])
       ++ (if mask_has mask PROP_VERSION
           then [("Version", V_s VERSION)] else []))%list in
    emit (PropertiesChanged path iface props) data.

(** [send_dbus_event], power-profiles-daemon.c:384 *)
Definition send_dbus_event (data : PpdApp) (mask : Z) : PpdApp :=
  let data := send_dbus_event_iface data mask
                POWER_PROFILES_IFACE_NAME POWER_PROFILES_DBUS_PATH in
  send_dbus_event_iface data mask
    POWER_PROFILES_LEGACY_IFACE_NAME POWER_PROFILES_LEGACY_DBUS_PATH.

(* --------------------------------------------------------------------- *)
(** *** The stored configuration                                          *)
(* --------------------------------------------------------------------- *)

(** [g_key_file_set_string (data->config, "State", key, v)]; GLib refuses
    a [NULL] value. *)
Definition g_key_file_set_string (key : string) (v : option string)
  (data : PpdApp) : PpdApp :=
  match v with
  | Some s => with_config (<[key := s]> (config data)) data
  | None => emit (LogCritical "string != NULL") data
  end.

(** [save_configuration], power-profiles-daemon.c:396 *)
Definition save_configuration (data : PpdApp) : PpdApp :=
  let data :=
    if PPD_IS_DRIVER (cpu_driver data)
    then g_key_file_set_string "CpuDriver"
           (ppd_driver_get_driver_name (cpu_driver data)) data
    else data in
  let data :=
    if PPD_IS_DRIVER (platform_driver data)
    then g_key_file_set_string "PlatformDriver"
           (ppd_driver_get_driver_name (platform_driver data)) data
    else data in
  let data :=
    g_key_file_set_string "Profile"
      (Some (ppd_profile_to_str (active_profile data))) data in
  let data := emit (SaveToFile (config data)) data in
  match save_error data with
  | Some error =>
      emit (LogWarning "Could not save configuration file '%s': %s"
              [A_str (Some (config_path data)); A_message (Some error)]) data
  | None => data
  end.

(** [apply_configuration], power-profiles-daemon.c:418 *)
Definition apply_configuration (data : PpdApp) : bool * PpdApp :=
  let cpu_driver_key := config data !! "CpuDriver" in
  if PPD_IS_DRIVER (cpu_driver data) &&
     negb (g_strcmp0_eq (ppd_driver_get_driver_name (cpu_driver data))
                        cpu_driver_key)
  then (false, data)
  else
    let platform_driver_key := config data !! "PlatformDriver" in
    if PPD_IS_DRIVER (platform_driver data) &&
       negb (g_strcmp0_eq (ppd_driver_get_driver_name (platform_driver data))
                          platform_driver_key)
    then (false, data)
    else
      match config data !! "Profile" with
      | None => (false, data)
      | Some profile_str =>
          let profile := ppd_profile_from_str profile_str in
          if profile =? PPD_PROFILE_UNSET
          then (false, with_config (delete "Profile" (config data)) data)
          else (true, with_active_profile profile data)
      end.

(* --------------------------------------------------------------------- *)
(** *** Activation                                                        *)
(* --------------------------------------------------------------------- *)

(** The loop of [actions_activate_profile] from index [i] on: the actions
    after their calls, and what was emitted. *)
Fixpoint actions_activate_profile_from (i : nat) (todo : list PpdAction)
  (profile : PpdProfile) : list PpdAction * list Event :=
  match todo with
  | [] => ([], [])
  | action :: rest =>
      let r := ppd_action_activate_profile i action profile in
      let warning :=
        match snd (fst r) with
        | Some error =>
            [LogWarning "Failed to activate action '%s' to profile %s: %s"
               [A_str (Some (ppd_profile_to_str profile));
                A_str (ppd_action_get_action_name action);
                A_message (Some error)]]
        | None => []
        end in
      let k := actions_activate_profile_from (S i) rest profile in
      (fst (fst r) :: fst k, (snd r ++ warning ++ snd k)%list)
  end.

(** [actions_activate_profile], power-profiles-daemon.c:467, on
    [data->actions]. *)
Definition actions_activate_profile (data : PpdApp) (profile : PpdProfile)
  : PpdApp :=
  let r := actions_activate_profile_from 0 (actions data) profile in
  with_trace (trace data ++ snd r) (with_actions (fst r) data).

(** [activate_target_profile], power-profiles-daemon.c:489.  The result is
    the returned flag, the error left in [error], and the state. *)
Definition activate_target_profile (data : PpdApp) (target_profile : PpdProfile)
  (reason : PpdProfileActivationReason) : bool * option GError * PpdApp :=
  let current_profile := active_profile data in
  let data :=
    emit (LogSettingActiveProfile target_profile reason current_profile) data in
  (* Try CPU first *)
  let '(cpu_ok, error, data) :=
    if driver_profile_support (cpu_driver data) target_profile
    then ppd_driver_activate_profile CPU target_profile reason data
    else (true, None, data) in
  if negb cpu_ok
  then
    (false,
     g_prefix_error error
       ("Failed to activate CPU driver '"
        +:+ str_or_null (ppd_driver_get_driver_name (cpu_driver data))
        +:+ "': "),
     data)
  else
    (* Then try platform *)
    let '(platform_ok, error, data) :=
      if driver_profile_support (platform_driver data) target_profile
      then ppd_driver_activate_profile PLATFORM target_profile reason data
      else (true, None, data) in
    if negb platform_ok
    then
      let error :=
        g_prefix_error error
          ("Failed to activate platform driver '"
           +:+ str_or_null (ppd_driver_get_driver_name (platform_driver data))
           +:+ "': ") in
      if negb (PPD_IS_DRIVER (cpu_driver data))
      then (false, error, data)
      else
        let '(reverted, recovery_error, data) :=
          ppd_driver_activate_profile CPU current_profile
            PPD_PROFILE_ACTIVATION_REASON_INTERNAL data in
        let data :=
          if negb reverted
          then emit (LogWarning "Failed to revert CPU driver '%s': %s"
                       [A_str (ppd_driver_get_driver_name (cpu_driver data));
                        A_message recovery_error]) data
          else data in
        (false, error, data)
    else
      let data := actions_activate_profile data target_profile in
      let data := with_active_profile target_profile data in
      let data :=
        if reason_eqb reason PPD_PROFILE_ACTIVATION_REASON_USER ||
           reason_eqb reason PPD_PROFILE_ACTIVATION_REASON_INTERNAL
        then save_configuration data
        else data in
      (true, None, data).

(* --------------------------------------------------------------------- *)
(** *** Holds                                                             *)
(* --------------------------------------------------------------------- *)

(** GLib's [g_bus_watch_name_on_connection]: the ids come from a counter of
    32 bits that starts at one. *)
Definition g_bus_watch_name_on_connection (name : string) (data : PpdApp)
  : Z * PpdApp :=
  let id := next_watch_id data in
  (id, emit (WatchName name id)
         (with_name_watches (<[id := name]> (name_watches data))
                            ((id + 1) mod 2 ^ 32) data)).

(** GLib's [g_bus_unwatch_name]. *)
Definition g_bus_unwatch_name (id : Z) (data : PpdApp) : PpdApp :=
  emit (UnwatchName id)
    (with_name_watches (delete id (name_watches data)) (next_watch_id data)
       data).

(** [release_hold_notify], power-profiles-daemon.c:549 *)
Definition release_hold_notify (data : PpdApp) (hold : ProfileHold)
  (cookie : Z) : PpdApp :=
  let req_path :=
    if String.eqb (ph_requester_iface hold) POWER_PROFILES_LEGACY_IFACE_NAME
    then POWER_PROFILES_LEGACY_DBUS_PATH
    else POWER_PROFILES_DBUS_PATH in
  emit (ProfileReleased (ph_requester hold) req_path
          (ph_requester_iface hold) cookie) data.

(** [release_all_profile_holds], power-profiles-daemon.c:564 *)
Definition release_all_profile_holds (data : PpdApp) : PpdApp :=
  let data :=
    fold_left
      (fun (data : PpdApp) (kv : Z * ProfileHold) =>
         let hold := snd kv in
         let cookie := fst kv in
         g_bus_unwatch_name cookie (release_hold_notify data hold cookie))
      (map_to_list (profile_holds data)) data in
  with_profile_holds ∅ data.

(** The loop of [effective_hold_profile] over the holds still to visit. *)
Fixpoint effective_hold_profile_loop (iter : list (Z * ProfileHold))
  (profile : PpdProfile) : PpdProfile :=
  match iter with
  | [] => profile
  | kv :: rest =>
      let hold := snd kv in
      if ph_profile hold =? PPD_PROFILE_POWER_SAVER
      then PPD_PROFILE_POWER_SAVER   (* break *)
      else effective_hold_profile_loop rest (ph_profile hold)
  end.

(** [effective_hold_profile], power-profiles-daemon.c:621 *)
Definition effective_hold_profile (data : PpdApp) : PpdProfile :=
  effective_hold_profile_loop (map_to_list (profile_holds data))
                              PPD_PROFILE_UNSET.

(** [set_active_profile], power-profiles-daemon.c:581 *)
Definition set_active_profile (data : PpdApp) (profile : string)
  : bool * option GError * PpdApp :=
  let mask := PROP_ACTIVE_PROFILE in
  let target_profile := ppd_profile_from_str profile in
  if target_profile =? PPD_PROFILE_UNSET
  then (false,
        Some {| err_code := G_DBUS_ERROR_FAILED;
                message := "Invalid profile name '" +:+ profile +:+ "'" |},
        data)
  else if negb (get_profile_available data target_profile)
  then (false,
        Some {| err_code := G_DBUS_ERROR_FAILED;
                message := "Cannot switch to unavailable profile '"
                           +:+ profile +:+ "'" |},
        data)
  else if target_profile =? active_profile data
  then (true, None, data)
  else
    let '(data, mask) :=
      if negb (size (profile_holds data) =? 0)%nat
      then (release_all_profile_holds data,
            Z.lor mask PROP_ACTIVE_PROFILE_HOLDS)
      else (data, mask) in
    let '(ok, error, data) :=
      activate_target_profile data target_profile
        PPD_PROFILE_ACTIVATION_REASON_USER in
    if negb ok
    then (false, error, data)
    else
      let data := with_selected_profile target_profile data in
      let data := send_dbus_event data mask in
      (true, None, data).

(** [driver_performance_degraded_changed_cb], power-profiles-daemon.c:641:
    the notification of a change of property [pspec_name] on the driver in
    [slot]. *)
Definition driver_performance_degraded_changed_cb (slot : Slot)
  (pspec_name : string) (data : PpdApp) : PpdApp :=
  let driver := get_driver slot data in
  if negb (String.eqb pspec_name "performance-degraded")
  then emit (LogWarning "Ignoring '%s' property change on profile driver '%s'"
               [A_str (Some pspec_name);
                A_str (ppd_driver_get_driver_name driver)]) data
  else if Z.land (ppd_driver_get_profiles driver) PPD_PROFILE_PERFORMANCE =? 0
  then emit (LogWarning
               "Ignored 'performance-degraded' change on non-performance driver '%s'"
               [A_str (ppd_driver_get_driver_name driver)]) data
  else send_dbus_event data PROP_DEGRADED.

(** [driver_profile_changed_cb], power-profiles-daemon.c:665 *)
Definition driver_profile_changed_cb (new_profile : PpdProfile) (data : PpdApp)
  : PpdApp :=
  if new_profile =? active_profile data then data
  else
    let r := activate_target_profile data new_profile
               PPD_PROFILE_ACTIVATION_REASON_INTERNAL in
    send_dbus_event (snd r) PROP_ACTIVE_PROFILE.

(** [release_profile_hold], power-profiles-daemon.c:683 *)
Definition release_profile_hold (data : PpdApp) (cookie : Z) : PpdApp :=
  let mask := PROP_ACTIVE_PROFILE_HOLDS in
  match profile_holds data !! cookie with
  | None => data
  | Some hold =>
      let data := g_bus_unwatch_name cookie data in
      let hold_profile := ph_profile hold in
      let data := release_hold_notify data hold cookie in
      let data :=
        with_profile_holds (delete cookie (profile_holds data)) data in
      let '(data, mask) :=
        if (size (profile_holds data) =? 0)%nat &&
           negb (hold_profile =? selected_profile data)
        then
          (snd (activate_target_profile data (selected_profile data)
                  PPD_PROFILE_ACTIVATION_REASON_PROGRAM_HOLD),
           Z.lor mask PROP_ACTIVE_PROFILE)
        else if hold_profile =? active_profile data
        then
          let next_profile := effective_hold_profile data in
          if negb (next_profile =? PPD_PROFILE_UNSET) &&
             negb (next_profile =? active_profile data)
          then
            (snd (activate_target_profile data next_profile
                    PPD_PROFILE_ACTIVATION_REASON_PROGRAM_HOLD),
             Z.lor mask PROP_ACTIVE_PROFILE)
          else (data, mask)
        else (data, mask) in
      send_dbus_event data mask
  end.

(** [holder_disappeared], power-profiles-daemon.c:720 *)
Definition holder_disappeared (name : string) (data : PpdApp) : PpdApp :=
  let cookies :=
    omap (fun kv : Z * ProfileHold =>
            if negb (String.eqb (ph_requester (snd kv)) name) then None
            else Some (fst kv))
         (map_to_list (profile_holds data)) in
  fold_left release_profile_hold cookies data.

(** [hold_profile], power-profiles-daemon.c:752; [parameters] is the
    triple (profile name, reason, application id). *)
Definition hold_profile (data : PpdApp) (parameters : string * string * string)
  (invocation : GDBusMethodInvocation) : PpdApp :=
  let '(profile_name, reason, application_id) := parameters in
  let profile := ppd_profile_from_str profile_name in
  if negb (profile =? PPD_PROFILE_PERFORMANCE) &&
     negb (profile =? PPD_PROFILE_POWER_SAVER)
  then
    emit (ReturnError invocation
            {| err_code := G_DBUS_ERROR_INVALID_ARGS;
               message := "Only profiles 'performance' and 'power-saver' can be a hold profile" |})
         data
  else if negb (get_profile_available data profile)
  then
    emit (ReturnError invocation
            {| err_code := G_DBUS_ERROR_INVALID_ARGS;
               message := "Cannot hold profile '" +:+ profile_name
                          +:+ "' as it is not available" |})
         data
  else
    let hold :=
      {| ph_profile := profile;
         ph_reason := reason;
         ph_application_id := application_id;
         ph_requester := sender invocation;
         ph_requester_iface := interface_name invocation |} in
    let '(watch_id, data) :=
      g_bus_watch_name_on_connection (ph_requester hold) data in
    let data :=
      with_profile_holds (<[watch_id := hold]> (profile_holds data)) data in
    let data := emit (ReturnValue invocation (Some watch_id)) data in
    let mask := PROP_ACTIVE_PROFILE_HOLDS in
    let '(data, mask) :=
      if negb (profile =? active_profile data)
      then
        let target_profile := effective_hold_profile data in
        if negb (target_profile =? PPD_PROFILE_UNSET) &&
           negb (target_profile =? active_profile data)
        then
          (snd (activate_target_profile data target_profile
                  PPD_PROFILE_ACTIVATION_REASON_PROGRAM_HOLD),
           Z.lor mask PROP_ACTIVE_PROFILE)
        else (data, mask)
      else (data, mask) in
    send_dbus_event data mask.

(** [printf ("%d")] of an unsigned integer of 32 bits. *)
Definition printf_d (n : Z) : string :=
  let n := n mod 2 ^ 32 in
  NilZero.string_of_int (Z.to_int (if n <? 2 ^ 31 then n else n - 2 ^ 32)).

(** [release_profile], power-profiles-daemon.c:808 *)
Definition release_profile (data : PpdApp) (cookie : Z)
  (invocation : GDBusMethodInvocation) : PpdApp :=
  match profile_holds data !! cookie with
  | None =>
      emit (ReturnError invocation
              {| err_code := G_DBUS_ERROR_INVALID_ARGS;
                 message := "No hold with cookie  " +:+ printf_d cookie |})
           data
  | Some _ =>
      let data := release_profile_hold data cookie in
      emit (ReturnValue invocation None) data
  end.

Definition POWER_PROFILES_POLICY_NAMESPACE :=
  "org.freedesktop.UPower.PowerProfiles".

(** [check_action_permission], power-profiles-daemon.c:824.  [auth] is
    the answer of polkit, authorised or not; an error of polkit itself is
    not modelled: there the message of the refusal carries the text of
    that error instead of the name of the action
    (power-profiles-daemon.c:846), the code of the error and the refusal
    being the same. *)
Definition check_action_permission (data : PpdApp) (sender action : string)
  : option GError :=
  if auth data sender action then None
  else Some {| err_code := G_DBUS_ERROR_ACCESS_DENIED;
               message := "Not Authorized: " +:+ action |}.

(** [handle_set_property], power-profiles-daemon.c:886 *)
Definition handle_set_property (data : PpdApp) (sender property_name : string)
  (value : string) : bool * option GError * PpdApp :=
  if negb (String.eqb property_name "ActiveProfile")
  then (false,
        Some {| err_code := G_DBUS_ERROR_FAILED;
                message := "No such property: " +:+ property_name |},
        data)
  else
    match check_action_permission data sender
            (POWER_PROFILES_POLICY_NAMESPACE +:+ ".switch-profile") with
    | Some error => (false, Some error, data)
    | None => set_active_profile data value
    end.

(** GDBus answering a call of [org.freedesktop.DBus.Properties.Set]: it
    calls the [set_property] entry of the interface table and then replies
    with what the handler returned. *)
Definition properties_set (data : PpdApp) (property_name value : string)
  (invocation : GDBusMethodInvocation) : PpdApp :=
  let '(ok, error, data) :=
    handle_set_property data (sender invocation) property_name value in
  if ok then emit (ReturnValue invocation None) data
  else
    match error with
    | Some e => emit (ReturnError invocation e) data
    | None => emit (LogCritical "error != NULL") data
    end.

(** The two methods of the interface. *)
Inductive MethodCall :=
| HoldProfile (profile reason application_id : string)
| ReleaseProfile (cookie : Z)
| OtherMethod (method_name : string).

(** [handle_method_call], power-profiles-daemon.c:915 *)
Definition handle_method_call (data : PpdApp) (call : MethodCall)
  (invocation : GDBusMethodInvocation) : PpdApp :=
  if negb (String.eqb (interface_name invocation) POWER_PROFILES_IFACE_NAME) &&
     negb (String.eqb (interface_name invocation)
                      POWER_PROFILES_LEGACY_IFACE_NAME)
  then emit (ReturnError invocation
               {| err_code := G_DBUS_ERROR_UNKNOWN_INTERFACE;
                  message := "Unknown interface "
                             +:+ interface_name invocation |}) data
  else
    match call with
    | HoldProfile profile reason application_id =>
        match check_action_permission data (sender invocation)
                (POWER_PROFILES_POLICY_NAMESPACE +:+ ".hold-profile") with
        | Some local_error => emit (ReturnError invocation local_error) data
        | None => hold_profile data (profile, reason, application_id) invocation
        end
    | ReleaseProfile cookie => release_profile data cookie invocation
    | OtherMethod method_name =>
        emit (ReturnError invocation
                {| err_code := G_DBUS_ERROR_UNKNOWN_METHOD;
                   message := "No such method " +:+ interface_name invocation
                              +:+ " in interface " +:+ method_name |}) data
    end.

(* --------------------------------------------------------------------- *)
(** *** Start-up                                                          *)
(* --------------------------------------------------------------------- *)

(** [has_required_drivers], power-profiles-daemon.c:1314 *)
Definition has_required_drivers (data : PpdApp) : bool :=
  if negb (PPD_IS_DRIVER (cpu_driver data)) &&
     negb (PPD_IS_DRIVER (platform_driver data))
  then false
  else if negb (get_profile_available data
                  (Z.lor PPD_PROFILE_BALANCED PPD_PROFILE_POWER_SAVER))
  then false
  else true.

(** An object [g_object_new] returns for an entry of [objects]
    (power-profiles-daemon.c:149), by its type. *)
Inductive Backend :=
| DriverCpu (driver : PpdDriver)
| DriverPlatform (driver : PpdDriver)
| Action (action : PpdAction).

(** [g_strv_contains] on a block list that may be [NULL]; a [NULL] name is
    refused. *)
Definition strv_blocks (list : option (list string)) (name : option string)
  : bool :=
  match list with
  | None => false
  | Some l =>
      if (length l =? 0)%nat then false
      else match name with
           | None => false
           | Some n => existsb (String.eqb n) l
           end
  end.

(** [driver_blocked], power-profiles-daemon.c:1410 *)
Definition driver_blocked (app : PpdApp) (driver : PpdDriver) : bool :=
  strv_blocks (blocked_drivers (debug_options app)) (driver_name driver).

(** [action_blocked], power-profiles-daemon.c:1394 *)
Definition action_blocked (app : PpdApp) (action : PpdAction) : bool :=
  strv_blocks (blocked_actions (debug_options app))
              (ppd_action_get_action_name action).

(** [ppd_driver_probe], ppd-driver.c:215 *)
Definition ppd_driver_probe (driver : PpdDriver) : PpdProbeResult * PpdDriver :=
  match drv_probe (drv_class driver) with
  | None => (PPD_PROBE_RESULT_SUCCESS, driver)
  | Some probe =>
      let r := probe (drv_hw driver) in
      (fst r, with_hw (snd r) driver)
  end.

(** Modelled from the spec: [ppd-action.c] is not among the sources.
    [ppd_action_probe], declared in ppd-action.h, is the operation [probe]
    of a back-end: the class method when there is one, success otherwise. *)
Definition ppd_action_probe (action : PpdAction) : PpdProbeResult * PpdAction :=
  match act_probe (act_class action) with
  | None => (PPD_PROBE_RESULT_SUCCESS, action)
  | Some probe =>
      let r := probe (act_hw action) in
      (fst r, with_act_hw (snd r) action)
  end.

Definition probe_result_eqb (a b : PpdProbeResult) : bool :=
  match a, b with
  | PPD_PROBE_RESULT_DEFER, PPD_PROBE_RESULT_DEFER
  | PPD_PROBE_RESULT_FAIL, PPD_PROBE_RESULT_FAIL
  | PPD_PROBE_RESULT_SUCCESS, PPD_PROBE_RESULT_SUCCESS => true
  | _, _ => false
  end.

(** One turn of the probe loop of [start_profile_drivers] for a driver
    made for [slot]. *)
Definition probe_driver (data : PpdApp) (slot : Slot) (driver : PpdDriver)
  : PpdApp :=
  if driver_blocked data driver then data
  else if PPD_IS_DRIVER (get_driver slot data) then data
  else
    let profiles := profiles driver in
    if Z.land profiles PPD_PROFILE_ALL =? 0
    then emit (LogWarning "Profile Driver '%s' implements invalid profiles '0x%X'"
                 [A_str (driver_name driver); A_num profiles]) data
    else
      let '(result, driver) := ppd_driver_probe driver in
      if probe_result_eqb result PPD_PROBE_RESULT_FAIL then data
      else if probe_result_eqb result PPD_PROBE_RESULT_DEFER
      then with_probed_drivers (probed_drivers data ++ [driver]) data
      else
        let data := set_driver slot (Some driver) data in
        emit (LogInfo "Driver '%s' loaded" [A_str (driver_name driver)]) data.

(** One turn of the probe loop of [start_profile_drivers] for an action. *)
Definition probe_action (data : PpdApp) (action : PpdAction) : PpdApp :=
  if action_blocked data action then data
  else
    let '(result, action) := ppd_action_probe action in
    if probe_result_eqb result PPD_PROBE_RESULT_FAIL then data
    else
      let data :=
        emit (LogInfo "Action '%s' loaded"
                [A_str (ppd_action_get_action_name action)]) data in
      with_actions (actions data ++ [action]) data.

(** The probe loop of [start_profile_drivers] over the objects made from
    the table [objects]. *)
Definition probe_pass (data : PpdApp) (objects : list Backend) : PpdApp :=
  fold_left
    (fun data object =>
       match object with
       | DriverCpu driver => probe_driver data CPU driver
       | DriverPlatform driver => probe_driver data PLATFORM driver
       | Action action => probe_action data action
       end)
    objects data.

(** What [start_profile_drivers] does once the probe loop is over, up to
    [data->was_started = TRUE] (power-profiles-daemon.c:1543-1555); the
    subscriptions to upower and logind that follow are left out. *)
Definition start_after_probe (data : PpdApp) : PpdApp :=
  let data :=
    if negb (has_required_drivers data)
    then
      let data := with_quit EXIT_FAILURE data in
      let data :=
        emit (LogWarning
                "Some non-optional profile drivers are missing, programmer error"
                []) data in
      emit MainLoopQuit data
    else data in
  (* Set initial state either from configuration, or using the currently
     selected profile *)
  let data := snd (apply_configuration data) in
  let '(ok, initial_error, data) :=
    activate_target_profile data (active_profile data)
      PPD_PROFILE_ACTIVATION_REASON_RESET in
  let data :=
    if negb ok
    then emit (LogWarning "Failed to activate initial profile: %s"
                 [A_message initial_error]) data
    else data in
  let data := send_dbus_event data PROP_ALL in
  with_was_started true data.

(** [start_profile_drivers], power-profiles-daemon.c:1425 *)
Definition start_profile_drivers (data : PpdApp) (objects : list Backend)
  : PpdApp :=
  start_after_probe (probe_pass data objects).

(** The value [main] returns once the main loop has quit
    (power-profiles-daemon.c:1936). *)
Definition exit_status (data : PpdApp) : Z := ret data.

End Daemon.

Arguments PpdDriverClass : clear implicits.
Arguments PpdDriver : clear implicits.
Arguments PpdActionClass : clear implicits.
Arguments PpdAction : clear implicits.
Arguments PpdApp : clear implicits.
Arguments Backend : clear implicits.

(* ===================================================================== *)
(** ** A concrete machine                                                 *)
(* ===================================================================== *)

(** Drivers whose hardware state is the last profile written and whose
    class method fails on the profiles of [refuse]. *)
Module Fake.

Definition VERSION : string := "0.21".

Definition io_error (text : string) : GError :=
  {| err_code := BACKEND_ERROR 5; message := text |}.

(** The class method: it writes the profile, or fails on a profile of
    [refuse]. *)
Definition method (refuse : PpdProfile) (hw : Z) (p : PpdProfile)
  (why : PpdProfileActivationReason) : Z * option GError :=
  if Z.land refuse p =? 0 then (p, None)
  else (hw, Some (io_error "write failed")).

Definition class (refuse : PpdProfile) : PpdDriverClass Z :=
  {| drv_probe := None; drv_activate_profile := Some (method refuse) |}.

Definition driver (name : string) (supported refuse : PpdProfile)
  : PpdDriver Z :=
  {| driver_name := Some name; profiles := supported;
     performance_degraded := None; drv_class := class refuse; drv_hw := 0 |}.

(** The state [main] builds before the bus name is acquired
    (power-profiles-daemon.c:1910), with a stored configuration. *)
Definition app (stored : gmap string string) : PpdApp Z :=
  {| quit_requested := false; was_started := false; ret := 0;
     debug_options := {| blocked_drivers := None; blocked_actions := None |};
     config_path := "/var/lib/power-profiles-daemon/state.ini";
     config := stored;
     active_profile := PPD_PROFILE_BALANCED;
     selected_profile := PPD_PROFILE_BALANCED;
     probed_drivers := []; cpu_driver := None; platform_driver := None;
     actions := []; profile_holds := ∅; name_watches := ∅;
     next_watch_id := 1; save_error := None;
     auth := fun _ _ => true;
     trace := [] |}.

(** A CPU driver and a platform driver that both implement the three
    profiles; the platform driver refuses the profiles of [refuse]. *)
Definition objects (refuse : PpdProfile) : list (Backend Z) :=
  [ DriverPlatform (driver "platform_profile" PPD_PROFILE_ALL refuse);
    DriverCpu (driver "intel_pstate" PPD_PROFILE_ALL 0) ].

(** The daemon once started on these back-ends with no stored state. *)
Definition started (refuse : PpdProfile) : PpdApp Z :=
  with_trace [] (start_profile_drivers VERSION (app ∅) (objects refuse)).

Definition peer (name : string) : GDBusMethodInvocation :=
  {| sender := name; interface_name := POWER_PROFILES_IFACE_NAME |}.

End Fake.

(** The states the theorems below are tried on. *)
Module Scenario.

(** The two drivers of the rollback scenario: the platform driver refuses
    performance. *)
Definition cpu0 : PpdDriver Z := Fake.driver "intel_pstate" PPD_PROFILE_ALL 0.
Definition platform0 : PpdDriver Z :=
  Fake.driver "platform_profile" PPD_PROFILE_ALL PPD_PROFILE_PERFORMANCE.
Definition bound : PpdApp Z :=
  with_cpu_driver (Some cpu0) (with_platform_driver (Some platform0) (Fake.app ∅)).

(** A peer holds performance on the started daemon: the active profile is
    performance, the selected one balanced, the cookie 1. *)
Definition held : PpdApp Z :=
  hold_profile Fake.VERSION (Fake.started 0) ("performance", "video", "vlc")
    (Fake.peer ":1.42").

Definition the_hold : ProfileHold :=
  {| ph_profile := PPD_PROFILE_PERFORMANCE; ph_reason := "video";
     ph_application_id := "vlc"; ph_requester := ":1.42";
     ph_requester_iface := POWER_PROFILES_IFACE_NAME |}.

(** A state file written when performance was active on the drivers
    of [Fake.objects]. *)
Definition stored : gmap string string :=
  <["CpuDriver" := "intel_pstate"]>
    (<["PlatformDriver" := "platform_profile"]>
       (<["Profile" := "performance"]> ∅)).

(** The daemon restarted on that file, once its probe pass is over. *)
Definition restarted : PpdApp Z := probe_pass (Fake.app stored) (Fake.objects 0).



(** A CPU driver that implements the balanced profile only. *)
Definition balanced_only_objects : list (Backend Z) :=
  [ DriverCpu (Fake.driver "balanced_only" PPD_PROFILE_BALANCED 0) ].

End Scenario.

(* ===================================================================== *)
(** ** Observations on traces                                             *)
(* ===================================================================== *)

(** The events a profile activation emits after its first log line: calls
    of back-ends, the write of the state file, warnings. *)
Definition backend_event (e : Event) : bool :=
  match e with
  | LogWarning _ _ | LogCritical _ | DriverActivateProfile _ _ _
  | ActionActivateProfile _ _ | SaveToFile _ => true
  | _ => false
  end.

(** The same without the write of the state file. *)
Definition call_event (e : Event) : bool :=
  match e with
  | LogWarning _ _ | LogCritical _ | DriverActivateProfile _ _ _
  | ActionActivateProfile _ _ => true
  | _ => false
  end.

Definition is_save_to_file (e : Event) : bool :=
  match e with
  | SaveToFile _ => true
  | _ => false
  end.

(** The events of [send_dbus_event]. *)
Definition notification_event (e : Event) : bool :=
  match e with
  | PropertiesChanged _ _ _ | LogCritical _ => true
  | _ => false
  end.

(** A [ProfileReleased] signal that carries [cookie]. *)
Definition released_of (cookie : Z) (e : Event) : bool :=
  match e with
  | ProfileReleased _ _ _ c => c =? cookie
  | _ => false
  end.

(** The [ProfileReleased] signal for [cookie] addressed to the peer that
    took [hold], on the interface the hold was taken through and on the
    object path of that interface. *)
Definition released_to (hold : ProfileHold) (cookie : Z) (e : Event) : bool :=
  match e with
  | ProfileReleased destination path iface c =>
      (c =? cookie) && String.eqb destination (ph_requester hold)
      && String.eqb iface (ph_requester_iface hold)
      && String.eqb path
           (if String.eqb iface POWER_PROFILES_LEGACY_IFACE_NAME
            then POWER_PROFILES_LEGACY_DBUS_PATH else POWER_PROFILES_DBUS_PATH)
  | _ => false
  end.

Definition count_events (P : Event -> bool) (tr : list Event) : nat :=
  length (List.filter P tr).

(** The activations a trace records: target and reason of each entry into
    [activate_target_profile]. *)
Fixpoint activations (tr : list Event)
  : list (PpdProfile * PpdProfileActivationReason) :=
  match tr with
  | [] => []
  | LogSettingActiveProfile target why _ :: rest =>
      (target, why) :: activations rest
  | _ :: rest => activations rest
  end.

Definition is_reply (e : Event) : bool :=
  match e with
  | ReturnValue _ _ | ReturnError _ _ => true
  | _ => false
  end.

Definition is_properties_changed (e : Event) : bool :=
  match e with
  | PropertiesChanged _ _ _ => true
  | _ => false
  end.

(** In [tr] no change notification comes after a method reply. *)
Fixpoint reply_after_notifications (tr : list Event) : bool :=
  match tr with
  | [] => true
  | e :: rest =>
      if is_reply e
      then forallb (fun x => negb (is_properties_changed x)) rest
           && reply_after_notifications rest
      else reply_after_notifications rest
  end.

(** The signals [release_all_profile_holds] sends and the watches it drops,
    for the holds in the order [iter]. *)
Definition release_events (iter : list (Z * ProfileHold)) : list Event :=
  flat_map
    (fun kv : Z * ProfileHold =>
       [ProfileReleased (ph_requester (snd kv))
          (if String.eqb (ph_requester_iface (snd kv))
                         POWER_PROFILES_LEGACY_IFACE_NAME
           then POWER_PROFILES_LEGACY_DBUS_PATH else POWER_PROFILES_DBUS_PATH)
          (ph_requester_iface (snd kv)) (fst kv);
        UnwatchName (fst kv)])
    iter.

(** The checks [apply_configuration] makes of the stored driver names
    against the drivers that are bound, as the code makes them
    (power-profiles-daemon.c:426 and :432): [g_strcmp0] of the name of a
    bound driver and of the stored key, which is [NULL] when the key is
    absent.  A bound driver that has a name does not pass on an absent
    key. *)
Definition name_checks_pass {HW : Type} (data : PpdApp HW) : Prop :=
  (PPD_IS_DRIVER (cpu_driver data) = true ->
   ppd_driver_get_driver_name (cpu_driver data) = config data !! "CpuDriver") /\
  (PPD_IS_DRIVER (platform_driver data) = true ->
   ppd_driver_get_driver_name (platform_driver data)
   = config data !! "PlatformDriver").



(** Every hold of the registry is for one of the two profiles
    [hold_profile] accepts. *)
Definition holds_wf (holds : gmap Z ProfileHold) : Prop :=
  forall cookie hold,
    holds !! cookie = Some hold ->
    ph_profile hold = PPD_PROFILE_PERFORMANCE \/
    ph_profile hold = PPD_PROFILE_POWER_SAVER.

(** The reasons the two drivers contribute to the published string, CPU
    first: the reason of a driver counts when the driver advertises the
    performance profile and has a reason set. *)
Definition published_reasons {HW : Type} (data : PpdApp HW) : list string :=
  (match cpu_driver data with
   | Some d =>
       if negb (Z.land (profiles d) PPD_PROFILE_PERFORMANCE =? 0)
       then match performance_degraded d with Some r => [r] | None => [] end
       else []
   | None => []
   end ++
   match platform_driver data with
   | Some d =>
       if negb (Z.land (profiles d) PPD_PROFILE_PERFORMANCE =? 0)
       then match performance_degraded d with Some r => [r] | None => [] end
       else []
   | None => []
   end)%list.

(** [g_object_set (driver, ...)] on the driver held in [slot]. *)
Definition g_object_set {HW : Type} (slot : Slot) (w : DriverPropertyWrite)
  (data : PpdApp HW) : PpdApp HW :=
  set_driver slot
    (option_map (fun d => ppd_driver_set_property d w) (get_driver slot data))
    data.

(** What stays as it is across activations and notifications. *)
Definition frame {HW : Type} (d d' : PpdApp HW) : Prop :=
  selected_profile d' = selected_profile d /\
  profile_holds d' = profile_holds d /\
  name_watches d' = name_watches d /\
  next_watch_id d' = next_watch_id d /\
  quit_requested d' = quit_requested d /\
  ret d' = ret d.

(** [d'] has the trace of [d] followed by events that all satisfy [P]. *)
Definition extends {HW : Type} (P : Event -> bool) (d d' : PpdApp HW) : Prop :=
  exists tr, trace d' = (trace d ++ tr)%list /\ forallb P tr = true.

(** Anything but a [ProfileReleased] signal. *)
Definition not_released (e : Event) : bool :=
  match e with
  | ProfileReleased _ _ _ _ => false
  | _ => true
  end.

(** Anything but a method reply. *)
Definition not_reply (e : Event) : bool := negb (is_reply e).

(** The state of [release_profile_hold] once the hold is taken out of the
    registry. *)
Definition hold_removed {HW : Type} (data : PpdApp HW) (hold : ProfileHold)
  (cookie : Z) : PpdApp HW :=
  with_profile_holds
    (delete cookie
       (profile_holds (release_hold_notify (g_bus_unwatch_name cookie data)
                         hold cookie)))
    (release_hold_notify (g_bus_unwatch_name cookie data) hold cookie).

(** The profiles some bound driver implements. *)
Definition bound_profiles {HW : Type} (data : PpdApp HW) : PpdProfile :=
  Z.lor (match cpu_driver data with Some d => profiles d | None => 0 end)
        (match platform_driver data with Some d => profiles d | None => 0 end).

(* ===================================================================== *)
(** ** The handlers the main loop calls                                   *)
(* ===================================================================== *)

Section Handlers.

Context {HW : Type}.
Variable VERSION : string.

(** [ppd_driver_is_performance_degraded], ppd-driver.c:323 *)
Definition ppd_driver_is_performance_degraded (driver : option (PpdDriver HW))
  : bool :=
  match driver with
  | None => false
  | Some d =>
      match performance_degraded d with Some _ => true | None => false end
  end.

(** [ppd_driver_emit_profile_changed], ppd-driver.c:335, on the driver held
    in [slot]: the signal [profile-changed] runs
    [driver_profile_changed_cb], connected to a driver when it is bound
    (power-profiles-daemon.c:1508). *)
Definition ppd_driver_emit_profile_changed (slot : Slot) (profile : PpdProfile)
  (data : PpdApp HW) : PpdApp HW :=
  if negb (PPD_IS_DRIVER (get_driver slot data))
  then emit (LogCritical "PPD_IS_DRIVER (driver)") data
  else if negb (ppd_profile_has_single_flag profile)
  then emit (LogCritical "ppd_profile_has_single_flag (profile)") data
  else driver_profile_changed_cb VERSION profile data.

(** A bound driver writes its property [performance-degraded]
    ([g_object_set], as in ppd-driver-intel-pstate.c:76): GObject stores
    the value and emits [notify::performance-degraded], which runs
    [driver_performance_degraded_changed_cb]
    (power-profiles-daemon.c:1506). *)
Definition driver_set_performance_degraded (slot : Slot)
  (degraded : option string) (data : PpdApp HW) : PpdApp HW :=
  match get_driver slot data with
  | None => data
  | Some _ =>
      driver_performance_degraded_changed_cb VERSION slot
        "performance-degraded"
        (g_object_set slot (PROP_PERFORMANCE_DEGRADED degraded) data)
  end.

(** What the main loop hands to the daemon once [start_profile_drivers] has
    returned: a method call or a property write on one of the two exported
    objects, the loss of a watched bus name, and the two signals of a bound
    driver. *)
Inductive Input :=
| BusMethodCall (call : MethodCall) (invocation : GDBusMethodInvocation)
| BusPropertySet (property_name value : string)
                 (invocation : GDBusMethodInvocation)
| BusNameVanished (name : string)
| DriverProfileChanged (slot : Slot) (profile : PpdProfile)
| DriverDegradedChanged (slot : Slot) (degraded : option string).

(** One turn of the main loop: the handler registered for the input
    ([interface_vtable], power-profiles-daemon.c:955; [holder_disappeared]
    given to [g_bus_watch_name_on_connection]; the signal handlers of
    power-profiles-daemon.c:1506). *)
Definition main_loop_dispatch (data : PpdApp HW) (input : Input) : PpdApp HW :=
  match input with
  | BusMethodCall call invocation =>
      handle_method_call VERSION data call invocation
  | BusPropertySet property_name value invocation =>
      properties_set VERSION data property_name value invocation
  | BusNameVanished name => holder_disappeared VERSION name data
  | DriverProfileChanged slot profile =>
      ppd_driver_emit_profile_changed slot profile data
  | DriverDegradedChanged slot degraded =>
      driver_set_performance_degraded slot degraded data
  end.

(** The main loop is single-threaded: the handlers run one after the
    other. *)
Definition main_loop_run (data : PpdApp HW) (inputs : list Input) : PpdApp HW :=
  fold_left main_loop_dispatch inputs data.

(** [name_lost_handler], power-profiles-daemon.c:977 *)
Definition name_lost_handler (app : PpdApp HW) : PpdApp HW :=
  let app :=
    emit (LogWarning
            "power-profiles-daemon is already running, or it cannot own its D-Bus name. Verify installation."
            []) app in
  let ret := if negb (was_started app) then EXIT_FAILURE else ret app in
  emit MainLoopQuit (with_quit ret app).

End Handlers.

(* ===================================================================== *)
(** ** The power source, sleep, and the stop of the drivers               *)
(* ===================================================================== *)

(** Modelled from the spec: [ppd-profile.h] is not among the sources.  The
    source of power is one of battery, mains, or unknown. *)
Inductive PpdPowerChangedReason :=
| PPD_POWER_CHANGED_REASON_UNKNOWN
| PPD_POWER_CHANGED_REASON_AC
| PPD_POWER_CHANGED_REASON_BATTERY.

(** [ppd_power_changed_reason_to_str], ppd-profile.c:42.  Modelled from the
    spec: the nicks of the absent [ppd-enums.c] are the names the spec
    gives the three sources. *)
Definition ppd_power_changed_reason_to_str (reason : PpdPowerChangedReason)
  : string :=
  match reason with
  | PPD_POWER_CHANGED_REASON_UNKNOWN => "unknown"
  | PPD_POWER_CHANGED_REASON_AC => "ac"
  | PPD_POWER_CHANGED_REASON_BATTERY => "battery"
  end.

Definition power_reason_eqb (a b : PpdPowerChangedReason) : bool :=
  match a, b with
  | PPD_POWER_CHANGED_REASON_UNKNOWN, PPD_POWER_CHANGED_REASON_UNKNOWN
  | PPD_POWER_CHANGED_REASON_AC, PPD_POWER_CHANGED_REASON_AC
  | PPD_POWER_CHANGED_REASON_BATTERY, PPD_POWER_CHANGED_REASON_BATTERY => true
  | _, _ => false
  end.

Section PowerMonitors.

Context {HW : Type}.
Variable VERSION : string.

(** The methods of a driver class that the arbitration engine does not
    call ([power_changed] and [prepare_to_sleep] of ppd-driver.c:241 and
    ppd-driver.c:266; [battery_changed] takes a floating-point level and is
    left out), and the one of an action class (ppd-action.h:37). *)
Record PpdDriverClassMonitors := {
  drv_power_changed :
    option (HW -> PpdPowerChangedReason -> HW * option GError);
  drv_prepare_to_sleep : option (HW -> bool -> HW * option GError)
}.

Record PpdActionClassMonitors := {
  act_power_changed :
    option (HW -> PpdPowerChangedReason -> HW * option GError)
}.

(** These methods belong to the class: [PPD_DRIVER_GET_CLASS (driver)] and
    [PPD_ACTION_GET_CLASS (action)]. *)
Variable PPD_DRIVER_GET_CLASS : PpdDriverClass HW -> PpdDriverClassMonitors.
Variable PPD_ACTION_GET_CLASS : PpdActionClass HW -> PpdActionClassMonitors.

(** The fields of [PpdApp] (power-profiles-daemon.c:67) that the monitors
    of the power source and of sleep use, next to the state of the
    arbitration engine. *)
Record PpdAppMonitors := {
  app : PpdApp HW;
  power_changed_reason : PpdPowerChangedReason;
  logind_sleep_signal_id : Z
}.

Definition with_app (a : PpdApp HW) (data : PpdAppMonitors) : PpdAppMonitors :=
  {| app := a; power_changed_reason := power_changed_reason data;
     logind_sleep_signal_id := logind_sleep_signal_id data |}.

(** [ppd_driver_power_changed], ppd-driver.c:241, on the driver held in
    [slot]. *)
Definition ppd_driver_power_changed (slot : Slot)
  (reason : PpdPowerChangedReason) (data : PpdApp HW)
  : bool * option GError * PpdApp HW :=
  match get_driver slot data with
  | None => (false, None, emit (LogCritical "PPD_IS_DRIVER (driver)") data)
  | Some driver =>
      match drv_power_changed (PPD_DRIVER_GET_CLASS (drv_class driver)) with
      | None => (true, None, data)
      | Some method =>
          let r := method (drv_hw driver) reason in
          let data := set_driver slot (Some (with_hw (fst r) driver)) data in
          match snd r with
          | None => (true, None, data)
          | Some e => (false, Some e, data)
          end
      end
  end.

(** [ppd_driver_prepare_to_sleep], ppd-driver.c:266, on the driver held in
    [slot]. *)
Definition ppd_driver_prepare_to_sleep (slot : Slot) (start : bool)
  (data : PpdApp HW) : bool * option GError * PpdApp HW :=
  match get_driver slot data with
  | None => (false, None, emit (LogCritical "PPD_IS_DRIVER (driver)") data)
  | Some driver =>
      match drv_prepare_to_sleep (PPD_DRIVER_GET_CLASS (drv_class driver)) with
      | None => (true, None, data)
      | Some method =>
          let r := method (drv_hw driver) start in
          let data := set_driver slot (Some (with_hw (fst r) driver)) data in
          match snd r with
          | None => (true, None, data)
          | Some e => (false, Some e, data)
          end
      end
  end.

(** Modelled from the spec: [ppd-action.c] is not among the sources.
    [ppd_action_power_changed], declared in ppd-action.h, is the operation
    [power_changed] of a back-end: the class method when there is one,
    success otherwise. *)
Definition ppd_action_power_changed (action : PpdAction HW)
  (reason : PpdPowerChangedReason) : PpdAction HW * option GError :=
  match act_power_changed (PPD_ACTION_GET_CLASS (act_class action)) with
  | None => (action, None)
  | Some method =>
      let r := method (act_hw action) reason in
      (with_act_hw (fst r) action, snd r)
  end.

(** The loop over [data->actions] of
    [upower_battery_set_power_changed_reason]. *)
Fixpoint actions_power_changed (todo : list (PpdAction HW))
  (reason : PpdPowerChangedReason) : list (PpdAction HW) * list Event :=
  match todo with
  | [] => ([], [])
  | action :: rest =>
      let r := ppd_action_power_changed action reason in
      let warning :=
        match snd r with
        | Some error =>
            [LogWarning "failed to update action %s: %s"
               [A_str (ppd_action_get_action_name action);
                A_message (Some error)]]
        | None => []
        end in
      let k := actions_power_changed rest reason in
      (fst r :: fst k, (warning ++ snd k)%list)
  end.

(** The two blocks that tell a driver of
    [upower_battery_set_power_changed_reason] and of
    [on_logind_prepare_for_sleep_cb]: the call when the slot holds a
    driver, and the warning when the call fails. *)
Definition notify_driver (slot : Slot) (format : string)
  (call : PpdApp HW -> bool * option GError * PpdApp HW) (data : PpdApp HW)
  : PpdApp HW :=
  if PPD_IS_DRIVER (get_driver slot data)
  then
    let '(ok, error, data) := call data in
    if negb ok
    then emit (LogWarning format
                 [A_str (ppd_driver_get_driver_name (get_driver slot data));
                  A_message error]) data
    else data
  else data.

(** [upower_battery_set_power_changed_reason],
    power-profiles-daemon.c:1132 *)
Definition upower_battery_set_power_changed_reason (data : PpdAppMonitors)
  (reason : PpdPowerChangedReason) : PpdAppMonitors :=
  if power_reason_eqb (power_changed_reason data) reason then data
  else
    let a := app data in
    let a :=
      emit (LogInfo "Power Changed because of reason %s"
              [A_str (Some (ppd_power_changed_reason_to_str reason))]) a in
    let r := actions_power_changed (actions a) reason in
    let a := with_trace (trace a ++ snd r) (with_actions (fst r) a) in
    let a :=
      notify_driver CPU "failed to update driver %s: %s"
        (ppd_driver_power_changed CPU reason) a in
    let a :=
      notify_driver PLATFORM "failed to update driver %s: %s"
        (ppd_driver_power_changed PLATFORM reason) a in
    {| app := a; power_changed_reason := reason;
       logind_sleep_signal_id := logind_sleep_signal_id data |}.

(** [upower_source_update_from_value], power-profiles-daemon.c:1034;
    [battery_val] is the cached property OnBattery, when there is one. *)
Definition upower_source_update_from_value (data : PpdAppMonitors)
  (battery_val : option bool) : PpdAppMonitors :=
  let reason :=
    match battery_val with
    | None => PPD_POWER_CHANGED_REASON_UNKNOWN
    | Some true => PPD_POWER_CHANGED_REASON_BATTERY
    | Some false => PPD_POWER_CHANGED_REASON_AC
    end in
  upower_battery_set_power_changed_reason data reason.

(** [on_logind_prepare_for_sleep_cb], power-profiles-daemon.c:1274 *)
Definition on_logind_prepare_for_sleep_cb (data : PpdAppMonitors)
  (start : bool) : PpdAppMonitors :=
  let a := app data in
  let a :=
    notify_driver CPU "failed to notify driver %s: %s"
      (ppd_driver_prepare_to_sleep CPU start) a in
  let a :=
    notify_driver PLATFORM "failed to notify driver %s: %s"
      (ppd_driver_prepare_to_sleep PLATFORM start) a in
  with_app a data.

(** [stop_profile_drivers], power-profiles-daemon.c:1364 (the cancellable,
    the proxies and the signal handlers are left out). *)
Definition stop_profile_drivers (data : PpdAppMonitors) : PpdAppMonitors :=
  let data :=
    if negb (logind_sleep_signal_id data =? 0)
    then {| app := app data; power_changed_reason := power_changed_reason data;
            logind_sleep_signal_id := 0 |}
    else data in
  let data :=
    upower_battery_set_power_changed_reason data
      PPD_POWER_CHANGED_REASON_UNKNOWN in
  let a := release_all_profile_holds (app data) in
  let a := with_probed_drivers [] a in
  let a := with_actions [] a in
  let a := with_cpu_driver None a in
  let a := with_platform_driver None a in
  with_app a data.

(** [restart_profile_drivers], power-profiles-daemon.c:1327; [objects] are
    the objects [start_profile_drivers] makes anew from its table. *)
Definition restart_profile_drivers (data : PpdAppMonitors)
  (objects : list (Backend HW)) : PpdAppMonitors :=
  let data := stop_profile_drivers data in
  with_app (start_profile_drivers VERSION (app data) objects) data.

End PowerMonitors.

Arguments PpdDriverClassMonitors : clear implicits.
Arguments PpdActionClassMonitors : clear implicits.
Arguments PpdAppMonitors : clear implicits.

(* ===================================================================== *)
(** ** Files ([ppd-utils.c])                                              *)
(* ===================================================================== *)

(** [G_IO_ERROR_NOT_FOUND] of GIO, the code [g_io_error_from_errno] gives
    for a file that does not exist. *)
Definition G_IO_ERROR_NOT_FOUND : Z := 1.

(** What the kernel does with a file that is opened for writing a value:
    [open] fails (with the GIO code of its [errno]), or the first [write]
    fails (a file of sysfs refuses so the values it does not know), or
    every [write] takes the buffer it is given, whole or at most [chunk]
    bytes of it (a [write] of a non-empty buffer takes one byte at
    least). *)
Inductive KernelWrite :=
| OpenFails (code : Z)
| WriteFails (code : Z) (strerror : string)
| Takes (chunk : option positive).

(** The files a driver works on: the files that exist with their contents,
    what the kernel does when a value is written to a file, and the lines
    the driver logs. *)
Record Sys := {
  files : gmap string string;
  kernel : string -> string -> KernelWrite;
  journal : list Event
}.

Definition with_files (f : gmap string string) (sys : Sys) : Sys :=
  {| files := f; kernel := kernel sys; journal := journal sys |}.

Definition log (e : Event) (sys : Sys) : Sys :=
  {| files := files sys; kernel := kernel sys;
     journal := journal sys ++ [e] |}.

(** The first [n] bytes of a buffer. *)
Fixpoint string_take (n : nat) (s : string) : string :=
  match n, s with
  | S n, String c rest => String c (string_take n rest)
  | _, _ => ""
  end.

(** The loop of [ppd_utils_write], ppd-utils.c:55: the bytes handed to
    [write] while [size] is not zero.  Every turn calls
    [write (fd, value, size)], on the start of [value]; [fuel] bounds the
    turns, and [size] turns are enough. *)
Fixpoint write_loop (fuel : nat) (value : string) (size : nat)
  (chunk : option positive) : string :=
  match fuel, size with
  | S fuel, S _ =>
      let written :=
        match chunk with
        | None => size
        | Some k => Nat.min (Pos.to_nat k) size
        end in
      string_take written value
      +:+ write_loop fuel value (size - written) chunk
  | _, _ => ""
  end.

(** [g_file_get_contents] *)
Definition g_file_get_contents (filename : option string) (sys : Sys)
  : option string :=
  match filename with
  | None => None
  | Some f => files sys !! f
  end.

(** [g_ascii_isspace] *)
Definition g_ascii_isspace (c : Ascii.ascii) : bool :=
  let n := Ascii.nat_of_ascii c in
  ((n =? 32) || (n =? 9) || (n =? 10) || (n =? 11) || (n =? 12)
   || (n =? 13))%nat.

(** [g_strchomp]: the string without its trailing white space. *)
Fixpoint g_strchomp (s : string) : string :=
  match s with
  | EmptyString => EmptyString
  | String c rest =>
      match g_strchomp rest with
      | EmptyString => if g_ascii_isspace c then EmptyString
                       else String c EmptyString
      | kept => String c kept
      end
  end.

(** [ppd_utils_write], ppd-utils.c:34; the file is opened with [O_TRUNC]
    and holds afterwards what was written. *)
Definition ppd_utils_write (filename value : option string) (sys : Sys)
  : bool * option GError * Sys :=
  match filename, value with
  | None, _ => (false, None, log (LogCritical "filename") sys)
  | Some _, None => (false, None, log (LogCritical "value") sys)
  | Some filename, Some value =>
      let open_error code :=
        (false,
         Some {| err_code := BACKEND_ERROR code;
                 message := "Could not open '" +:+ filename
                            +:+ "' for writing" |},
         sys) in
      match files sys !! filename with
      | None => open_error G_IO_ERROR_NOT_FOUND
      | Some _ =>
          match kernel sys filename value with
          | OpenFails code => open_error code
          | WriteFails code strerror =>
              let sys := with_files (<[filename := ""]> (files sys)) sys in
              if (String.length value =? 0)%nat then (true, None, sys)
              else
                (false,
                 Some {| err_code := BACKEND_ERROR code;
                         message := "Error writing '" +:+ filename +:+ "': "
                                    +:+ strerror |},
                 sys)
          | Takes chunk =>
              let size := String.length value in
              (true, None,
               with_files
                 (<[filename := write_loop size value size chunk]> (files sys))
                 sys)
          end
      end
  end.

(** The loop of [ppd_utils_write_files]. *)
Fixpoint ppd_utils_write_files_loop (filenames : list string)
  (value : option string) (sys : Sys) : bool * option GError * Sys :=
  match filenames with
  | [] => (true, None, sys)
  | file :: rest =>
      let '(ok, error, sys) := ppd_utils_write (Some file) value sys in
      if negb ok then (false, error, sys)
      else ppd_utils_write_files_loop rest value sys
  end.

(** [ppd_utils_write_files], ppd-utils.c:79; the array may be [NULL]. *)
Definition ppd_utils_write_files (filenames : option (list string))
  (value : option string) (sys : Sys) : bool * option GError * Sys :=
  match filenames with
  | None => (false, None, log (LogCritical "filenames != NULL") sys)
  | Some l => ppd_utils_write_files_loop l value sys
  end.

(* ===================================================================== *)
(** ** The CPU driver of Intel ([ppd-driver-intel-pstate.c])              *)
(* ===================================================================== *)

Module IntelPstate.

(** [struct _PpdDriverIntelPstate], ppd-driver-intel-pstate.c:28 (without
    the file monitor). *)
Record PpdDriverIntelPstate := {
  activated_profile : PpdProfile;
  epp_devices : option (list string);
  epb_devices : option (list string);
  no_turbo_path : option string;
  on_battery : bool
}.

Definition with_activated_profile (p : PpdProfile)
  (pstate : PpdDriverIntelPstate) : PpdDriverIntelPstate :=
  {| activated_profile := p; epp_devices := epp_devices pstate;
     epb_devices := epb_devices pstate; no_turbo_path := no_turbo_path pstate;
     on_battery := on_battery pstate |}.

Definition with_on_battery (b : bool) (pstate : PpdDriverIntelPstate)
  : PpdDriverIntelPstate :=
  {| activated_profile := activated_profile pstate;
     epp_devices := epp_devices pstate; epb_devices := epb_devices pstate;
     no_turbo_path := no_turbo_path pstate; on_battery := b |}.

(** [profile_to_epp_pref], ppd-driver-intel-pstate.c:294; [None] is the
    [NULL] of [g_return_val_if_reached]. *)
Definition profile_to_epp_pref (profile : PpdProfile) (battery : bool)
  : option string :=
  if profile =? PPD_PROFILE_POWER_SAVER then Some "power"
  else if profile =? PPD_PROFILE_BALANCED
  then Some (if battery then "balance_power" else "balance_performance")
  else if profile =? PPD_PROFILE_PERFORMANCE then Some "performance"
  else None.

(** [profile_to_epb_pref], ppd-driver-intel-pstate.c:311 *)
Definition profile_to_epb_pref (profile : PpdProfile) (battery : bool)
  : option string :=
  if profile =? PPD_PROFILE_POWER_SAVER then Some "15"
  else if profile =? PPD_PROFILE_BALANCED
  then Some (if battery then "8" else "6")
  else if profile =? PPD_PROFILE_PERFORMANCE then Some "0"
  else None.

(** The line [g_return_val_if_reached] logs. *)
Definition log_unreached (pref : option string) (sys : Sys) : Sys :=
  match pref with
  | Some _ => sys
  | None => log (LogCritical "should not be reached") sys
  end.

Definition nonempty (devices : option (list string)) : bool :=
  match devices with
  | Some (_ :: _) => true
  | _ => false
  end.

(** [apply_pref_to_devices], ppd-driver-intel-pstate.c:328 *)
Definition apply_pref_to_devices (pstate : PpdDriverIntelPstate)
  (profile : PpdProfile) (sys : Sys)
  : bool * option GError * PpdDriverIntelPstate * Sys :=
  if profile =? PPD_PROFILE_UNSET then (true, None, pstate, sys)
  else
    match epp_devices pstate, epb_devices pstate with
    | None, None =>
        (false, None, pstate,
         log (LogCritical
                "pstate->epp_devices != NULL || pstate->epb_devices != NULL")
             sys)
    | _, _ =>
        if negb (nonempty (epp_devices pstate) || nonempty (epb_devices pstate))
        then
          (false, None, pstate,
           log (LogCritical
                  "(pstate->epp_devices && pstate->epp_devices->len != 0) || (pstate->epb_devices && pstate->epb_devices->len != 0)")
               sys)
        else
          let '(epp_ok, error, sys) :=
            match epp_devices pstate with
            | Some devices =>
                let epp_pref := profile_to_epp_pref profile (on_battery pstate) in
                ppd_utils_write_files (Some devices) epp_pref
                  (log_unreached epp_pref sys)
            | None => (true, None, sys)
            end in
          if negb epp_ok then (false, error, pstate, sys)
          else
            let '(epb_ok, error, sys) :=
              match epb_devices pstate with
              | Some devices =>
                  let epb_pref :=
                    profile_to_epb_pref profile (on_battery pstate) in
                  ppd_utils_write_files (Some devices) epb_pref
                    (log_unreached epb_pref sys)
              | None => (true, None, sys)
              end in
            if negb epb_ok then (false, error, pstate, sys)
            else (true, None, with_activated_profile profile pstate, sys)
    end.

(** [ppd_driver_intel_pstate_activate_profile],
    ppd-driver-intel-pstate.c:386 *)
Definition ppd_driver_intel_pstate_activate_profile
  (pstate : PpdDriverIntelPstate) (profile : PpdProfile)
  (reason : PpdProfileActivationReason) (sys : Sys)
  : bool * option GError * PpdDriverIntelPstate * Sys :=
  apply_pref_to_devices pstate profile sys.

(** [ppd_driver_intel_pstate_power_changed],
    ppd-driver-intel-pstate.c:362 *)
Definition ppd_driver_intel_pstate_power_changed
  (pstate : PpdDriverIntelPstate) (reason : PpdPowerChangedReason) (sys : Sys)
  : bool * option GError * PpdDriverIntelPstate * Sys :=
  let pstate :=
    match reason with
    | PPD_POWER_CHANGED_REASON_UNKNOWN
    | PPD_POWER_CHANGED_REASON_AC => with_on_battery false pstate
    | PPD_POWER_CHANGED_REASON_BATTERY => with_on_battery true pstate
    end in
  apply_pref_to_devices pstate (activated_profile pstate) sys.

(** [ppd_driver_intel_pstate_prepare_for_sleep],
    ppd-driver-intel-pstate.c:133 *)
Definition ppd_driver_intel_pstate_prepare_for_sleep
  (pstate : PpdDriverIntelPstate) (start : bool) (sys : Sys)
  : bool * option GError * PpdDriverIntelPstate * Sys :=
  if start then (true, None, pstate, sys)
  else
    let '(ok, local_error, pstate, sys) :=
      ppd_driver_intel_pstate_activate_profile pstate
        (activated_profile pstate) PPD_PROFILE_ACTIVATION_REASON_RESUME sys in
    if negb ok
    then
      (false,
       g_prefix_error local_error
         "Could not reapply energy_perf_bias preference on resume: ",
       pstate,
       match local_error with
       | Some _ => sys
       | None => log (LogCritical "src != NULL") sys
       end)
    else (true, None, pstate, sys).

(** [update_no_turbo], ppd-driver-intel-pstate.c:66: the value it gives
    the property [performance-degraded] of the driver. *)
Definition update_no_turbo (pstate : PpdDriverIntelPstate) (sys : Sys)
  : option string :=
  let turbo_disabled :=
    match g_file_get_contents (no_turbo_path pstate) sys with
    | Some contents => String.eqb (g_strchomp contents) "1"
    | None => false
    end in
  if turbo_disabled then Some "high-operating-temperature" else None.

End IntelPstate.

(* ===================================================================== *)
(** ** The CPU driver of AMD ([ppd-driver-amd-pstate.c])                  *)
(* ===================================================================== *)

Module AmdPstate.

(** [struct _PpdDriverAmdPstate], ppd-driver-amd-pstate.c:35; the devices
    are the directories of the CPU frequency policies. *)
Record PpdDriverAmdPstate := {
  activated_profile : PpdProfile;
  epp_devices : option (list string);
  on_battery : bool
}.

Definition with_activated_profile (p : PpdProfile)
  (pstate : PpdDriverAmdPstate) : PpdDriverAmdPstate :=
  {| activated_profile := p; epp_devices := epp_devices pstate;
     on_battery := on_battery pstate |}.

Definition with_on_battery (b : bool) (pstate : PpdDriverAmdPstate)
  : PpdDriverAmdPstate :=
  {| activated_profile := activated_profile pstate;
     epp_devices := epp_devices pstate; on_battery := b |}.

(** [profile_to_gov_pref], ppd-driver-amd-pstate.c:165; [None] is the
    [NULL] of [g_return_val_if_reached]. *)
Definition profile_to_gov_pref (profile : PpdProfile) : option string :=
  if profile =? PPD_PROFILE_POWER_SAVER then Some "powersave"
  else if profile =? PPD_PROFILE_BALANCED then Some "powersave"
  else if profile =? PPD_PROFILE_PERFORMANCE then Some "performance"
  else None.

(** [profile_to_epp_pref], ppd-driver-amd-pstate.c:180 *)
Definition profile_to_epp_pref (profile : PpdProfile) (battery : bool)
  : option string :=
  if profile =? PPD_PROFILE_POWER_SAVER then Some "power"
  else if profile =? PPD_PROFILE_BALANCED
  then Some (if battery then "balance_power" else "balance_performance")
  else if profile =? PPD_PROFILE_PERFORMANCE then Some "performance"
  else None.

(** [profile_to_cpb_pref], ppd-driver-amd-pstate.c:197 *)
Definition profile_to_cpb_pref (profile : PpdProfile) : option string :=
  if profile =? PPD_PROFILE_POWER_SAVER then Some "0"
  else if (profile =? PPD_PROFILE_BALANCED)
          || (profile =? PPD_PROFILE_PERFORMANCE) then Some "1"
  else None.

(** [profile_to_min_freq], ppd-driver-amd-pstate.c:212 *)
Definition profile_to_min_freq (profile : PpdProfile) : option string :=
  if profile =? PPD_PROFILE_POWER_SAVER then Some "cpuinfo_min_freq"
  else if (profile =? PPD_PROFILE_BALANCED)
          || (profile =? PPD_PROFILE_PERFORMANCE)
  then Some "amd_pstate_lowest_nonlinear_freq"
  else None.

(** The line [g_return_val_if_reached] logs. *)
Definition log_unreached (pref : option string) (sys : Sys) : Sys :=
  match pref with
  | Some _ => sys
  | None => log (LogCritical "should not be reached") sys
  end.

(** [g_file_test (filename, G_FILE_TEST_EXISTS)] *)
Definition g_file_test_exists (filename : string) (sys : Sys) : bool :=
  match files sys !! filename with
  | Some _ => true
  | None => false
  end.

Section Paths.

(** [g_build_filename (base, name, NULL)], the path of the file [name] of
    the directory [base]. *)
Variable g_build_filename : string -> string -> string.

(** One turn of the loop of [apply_pref_to_devices],
    ppd-driver-amd-pstate.c:245: the files of one device are written in
    the order governor, preference, boost, lowest frequency; the last two
    only where the device has the file.  [g_build_filename] stops at the
    first [NULL], so that without a name of the frequency file the path
    is the directory itself.  A file that exists is read: a failed read
    of the frequency file (ppd-driver-amd-pstate.c:277, the loop then
    returns [FALSE] with the error of the read) is not modelled. *)
Definition apply_pref_to_device (base : string)
  (epp_pref gov_pref cpb_pref min_freq : option string) (sys : Sys)
  : bool * option GError * Sys :=
  let gov := g_build_filename base "scaling_governor" in
  let '(ok, error, sys) := ppd_utils_write (Some gov) gov_pref sys in
  if negb ok then (false, error, sys)
  else
    let epp := g_build_filename base "energy_performance_preference" in
    let '(ok, error, sys) := ppd_utils_write (Some epp) epp_pref sys in
    if negb ok then (false, error, sys)
    else
      let cpb := g_build_filename base "boost" in
      let '(ok, error, sys) :=
        if g_file_test_exists cpb sys
        then ppd_utils_write (Some cpb) cpb_pref sys
        else (true, error, sys) in
      if negb ok then (false, error, sys)
      else
        let min_freq_path :=
          match min_freq with
          | Some name => g_build_filename base name
          | None => base
          end in
        match files sys !! min_freq_path with
        | Some min_freq_val =>
            let scaling_freq_path :=
              g_build_filename base "scaling_min_freq" in
            let '(ok, error, sys) :=
              ppd_utils_write (Some scaling_freq_path)
                (Some (g_strchomp min_freq_val)) sys in
            if negb ok then (false, error, sys) else (true, error, sys)
        | None => (true, error, sys)
        end.

(** The loop of [apply_pref_to_devices]. *)
Fixpoint apply_pref_to_devices_loop (devices : list string)
  (epp_pref gov_pref cpb_pref min_freq : option string) (sys : Sys)
  : bool * option GError * Sys :=
  match devices with
  | [] => (true, None, sys)
  | base :: rest =>
      let '(ok, error, sys) :=
        apply_pref_to_device base epp_pref gov_pref cpb_pref min_freq sys in
      if negb ok then (false, error, sys)
      else
        apply_pref_to_devices_loop rest epp_pref gov_pref cpb_pref min_freq
          sys
  end.

(** [apply_pref_to_devices], ppd-driver-amd-pstate.c:227.  The array is
    read without a test: the result is [None] when the function reads
    [devices->len] through a null pointer. *)
Definition apply_pref_to_devices (devices : option (list string))
  (profile : PpdProfile) (battery : bool) (sys : Sys)
  : option (bool * option GError * Sys) :=
  if profile =? PPD_PROFILE_UNSET then Some (true, None, sys)
  else
    let epp_pref := profile_to_epp_pref profile battery in
    let sys := log_unreached epp_pref sys in
    let gov_pref := profile_to_gov_pref profile in
    let sys := log_unreached gov_pref sys in
    let cpb_pref := profile_to_cpb_pref profile in
    let sys := log_unreached cpb_pref sys in
    let min_freq := profile_to_min_freq profile in
    let sys := log_unreached min_freq sys in
    match devices with
    | None => None
    | Some devices =>
        Some (apply_pref_to_devices_loop devices epp_pref gov_pref cpb_pref
                min_freq sys)
    end.

(** [ppd_driver_amd_pstate_activate_profile],
    ppd-driver-amd-pstate.c:291 *)
Definition ppd_driver_amd_pstate_activate_profile
  (pstate : PpdDriverAmdPstate) (profile : PpdProfile)
  (reason : PpdProfileActivationReason) (sys : Sys)
  : option (bool * option GError * PpdDriverAmdPstate * Sys) :=
  match epp_devices pstate with
  | None =>
      Some (false, None, pstate,
            log (LogCritical "pstate->epp_devices != NULL") sys)
  | Some [] =>
      Some (false, None, pstate,
            log (LogCritical "pstate->epp_devices->len != 0") sys)
  | Some _ =>
      match apply_pref_to_devices (epp_devices pstate) profile
              (on_battery pstate) sys with
      | None => None
      | Some (ret, error, sys) =>
          if negb ret && negb (activated_profile pstate =? PPD_PROFILE_UNSET)
          then
            match apply_pref_to_devices (epp_devices pstate)
                    (activated_profile pstate) (on_battery pstate) sys with
            | None => None
            | Some (restored, error_local, sys) =>
                Some (ret, error, pstate,
                      if negb restored
                      then log (LogWarning
                                  "failed to restore previous profile: %s"
                                  [A_message error_local]) sys
                      else sys)
            end
          else
            Some (ret, error,
                  if ret then with_activated_profile profile pstate
                  else pstate,
                  sys)
      end
  end.

(** [ppd_driver_amd_pstate_power_changed], ppd-driver-amd-pstate.c:321 *)
Definition ppd_driver_amd_pstate_power_changed
  (pstate : PpdDriverAmdPstate) (reason : PpdPowerChangedReason) (sys : Sys)
  : option (bool * option GError * PpdDriverAmdPstate * Sys) :=
  let pstate :=
    match reason with
    | PPD_POWER_CHANGED_REASON_UNKNOWN
    | PPD_POWER_CHANGED_REASON_AC => with_on_battery false pstate
    | PPD_POWER_CHANGED_REASON_BATTERY => with_on_battery true pstate
    end in
  match apply_pref_to_devices (epp_devices pstate) (activated_profile pstate)
          (on_battery pstate) sys with
  | None => None
  | Some (ret, error, sys) => Some (ret, error, pstate, sys)
  end.

(** The files of the attributes of the devices are apart: the governor
    and the preference of a device are no other attribute of a device. *)
Definition attributes_apart (devices : list string) : Prop :=
  forall b b', b ∈ devices -> b' ∈ devices ->
    let gov := g_build_filename b "scaling_governor" in
    let epp := g_build_filename b "energy_performance_preference" in
    gov <> g_build_filename b' "energy_performance_preference" /\
    epp <> g_build_filename b' "scaling_governor" /\
    gov <> g_build_filename b' "boost" /\
    gov <> g_build_filename b' "scaling_min_freq" /\
    epp <> g_build_filename b' "boost" /\
    epp <> g_build_filename b' "scaling_min_freq".

End Paths.

(** The driver never holds a profile without a device: what keeps
    [ppd_driver_amd_pstate_power_changed] from a null array. *)
Definition has_devices (pstate : PpdDriverAmdPstate) : Prop :=
  activated_profile pstate <> PPD_PROFILE_UNSET ->
  exists base rest, epp_devices pstate = Some (base :: rest).

End AmdPstate.

(** A kernel that takes every write whole or not at all. *)
Definition whole_writes (sys : Sys) : Prop :=
  forall filename value k, kernel sys filename value <> Takes (Some k).

(** The bytes one [write] of the loop takes of the [size] bytes it is
    given. *)
Definition turn (size : nat) (chunk : option positive) : nat :=
  match chunk with
  | None => size
  | Some k => Nat.min (Pos.to_nat k) size
  end.

(** A file that exists and to which the kernel writes the value whole. *)
Definition writable (sys : Sys) (filename value : string) : Prop :=
  is_Some (files sys !! filename) /\
  kernel sys filename value = Takes None.

(** The files once [value] is written to each file of a list. *)
Definition written (filenames : list string) (value : string)
  (before : gmap string string) : gmap string string :=
  fold_left (fun m f => <[f := value]> m) filenames before.

(** A machine with two CPUs under the driver of Intel, on mains, before
    the first activation. *)
Module Laptop.

Definition epp0 :=
  "/sys/devices/system/cpu/cpufreq/policy0/energy_performance_preference".
Definition epp1 :=
  "/sys/devices/system/cpu/cpufreq/policy1/energy_performance_preference".
Definition epb0 := "/sys/devices/system/cpu/cpu0/power/energy_perf_bias".
Definition epb1 := "/sys/devices/system/cpu/cpu1/power/energy_perf_bias".
Definition no_turbo := "/sys/devices/system/cpu/intel_pstate/no_turbo".

Definition sys : Sys :=
  {| files :=
       <[epp0 := "balance_performance"]>
         (<[epp1 := "balance_performance"]>
            (<[epb0 := "6"]> (<[epb1 := "6"]> (<[no_turbo := "0"]> ∅))));
     kernel := fun _ _ => Takes None;
     journal := [] |}.

Definition pstate : IntelPstate.PpdDriverIntelPstate :=
  {| IntelPstate.activated_profile := PPD_PROFILE_UNSET;
     IntelPstate.epp_devices := Some [epp0; epp1];
     IntelPstate.epb_devices := Some [epb0; epb1];
     IntelPstate.no_turbo_path := Some no_turbo;
     IntelPstate.on_battery := false |}.

(** The same machine when the kernel takes four bytes a write. *)
Definition slow : Sys :=
  {| files := files sys; kernel := fun _ _ => Takes (Some 4%positive);
     journal := [] |}.

End Laptop.

(** A machine with two CPUs under the driver of AMD, on mains, with the
    balanced profile active; the second CPU has no performance
    governor. *)
Module Desktop.

(** [g_build_filename] on a directory without a separator at its end and
    a name without one at its start. *)
Definition join (base name : string) : string := base +:+ "/" +:+ name.

Definition policy0 := "/sys/devices/system/cpu/cpufreq/policy0".
Definition policy1 := "/sys/devices/system/cpu/cpufreq/policy1".

Definition sys : Sys :=
  {| files :=
       <[join policy0 "scaling_governor" := "powersave"]>
         (<[join policy0 "energy_performance_preference"
            := "balance_performance"]>
            (<[join policy0 "boost" := "1"]>
               (<[join policy0 "amd_pstate_lowest_nonlinear_freq"
                  := "1100000
"]>
                  (<[join policy0 "scaling_min_freq" := "400000"]>
                     (<[join policy1 "scaling_governor" := "powersave"]>
                        (<[join policy1 "energy_performance_preference"
                           := "balance_performance"]> ∅))))));
     kernel := fun filename value =>
       if String.eqb filename (join policy1 "scaling_governor")
          && String.eqb value "performance"
       then WriteFails 13 "Invalid argument"
       else Takes None;
     journal := [] |}.

Definition pstate : AmdPstate.PpdDriverAmdPstate :=
  {| AmdPstate.activated_profile := PPD_PROFILE_BALANCED;
     AmdPstate.epp_devices := Some [policy0; policy1];
     AmdPstate.on_battery := false |}.

End Desktop.

(** A line of the log. *)
Definition log_event (e : Event) : bool :=
  match e with
  | LogInfo _ _ | LogWarning _ _ | LogCritical _ => true
  | _ => false
  end.

(** A driver after the call of a method it may have: the method changes
    the hardware, the object stays. *)
Definition after_method {HW : Type}
  (method : option (HW -> HW * option GError)) (driver : PpdDriver HW)
  : PpdDriver HW :=
  match method with
  | Some f => with_hw (fst (f (drv_hw driver))) driver
  | None => driver
  end.

(** The same for an action. *)
Definition action_after_method {HW : Type}
  (method : option (HW -> HW * option GError)) (action : PpdAction HW)
  : PpdAction HW :=
  match method with
  | Some f => with_act_hw (fst (f (act_hw action))) action
  | None => action
  end.

(** The drivers accept a profile: the class method of each bound driver
    that implements the profile, when its class has one, returns no error
    on the hardware as it stands. *)
Definition drivers_accept {HW : Type} (data : PpdApp HW)
  (profile : PpdProfile) (why : PpdProfileActivationReason) : Prop :=
  forall slot driver method,
    get_driver slot data = Some driver ->
    driver_profile_support (Some driver) profile = true ->
    drv_activate_profile (drv_class driver) = Some method ->
    snd (method (drv_hw driver) profile why) = None.

(** A driver once a profile it implements was activated on it: its class
    method has run on its hardware. *)
Definition driver_activated {HW : Type} (profile : PpdProfile)
  (why : PpdProfileActivationReason) (driver : PpdDriver HW) : PpdDriver HW :=
  if driver_profile_support (Some driver) profile
  then after_method
         (option_map (fun method hw => method hw profile why)
            (drv_activate_profile (drv_class driver)))
         driver
  else driver.

(** The entry into the class method of the driver of a slot for a profile
    it implements, as the trace records it. *)
Definition driver_call {HW : Type} (slot : Slot) (profile : PpdProfile)
  (why : PpdProfileActivationReason) (data : PpdApp HW) : list Event :=
  match get_driver slot data with
  | Some driver =>
      if driver_profile_support (Some driver) profile
      then match drv_activate_profile (drv_class driver) with
           | Some _ => [DriverActivateProfile slot profile why]
           | None => []
           end
      else []
  | None => []
  end.

(** What the monitors of the power source and of sleep leave alone. *)
Definition monitors_frame {HW : Type} (d d' : PpdApp HW) : Prop :=
  frame d d' /\ active_profile d' = active_profile d /\
  config d' = config d /\ probed_drivers d' = probed_drivers d /\
  extends log_event d d'.

(** The state of [hold_profile] once the hold is in the registry and the
    call is answered. *)
Definition hold_added {HW : Type} (data : PpdApp HW) (hold : ProfileHold)
  (invocation : GDBusMethodInvocation) : PpdApp HW :=
  let r := g_bus_watch_name_on_connection (ph_requester hold) data in
  emit (ReturnValue invocation (Some (fst r)))
    (with_profile_holds (<[fst r := hold]> (profile_holds (snd r))) (snd r)).

(** What identifies a driver object apart from the state of its
    hardware. *)
Definition driver_identity {HW : Type} (driver : option (PpdDriver HW))
  : option (option string * PpdProfile * option string * PpdDriverClass HW) :=
  option_map
    (fun d => (driver_name d, profiles d, performance_degraded d, drv_class d))
    driver.

(** The same drivers are bound in [d'] as in [d]. *)
Definition same_drivers {HW : Type} (d d' : PpdApp HW) : Prop :=
  driver_identity (cpu_driver d') = driver_identity (cpu_driver d) /\
  driver_identity (platform_driver d') = driver_identity (platform_driver d).

(** The keys of group State after [save_configuration]: the stored keys
    with the names of the bound drivers and the name of the active
    profile. *)
Definition stored_state {HW : Type} (data : PpdApp HW) : gmap string string :=
  let keys := config data in
  let keys :=
    match ppd_driver_get_driver_name (cpu_driver data) with
    | Some name => <["CpuDriver" := name]> keys
    | None => keys
    end in
  let keys :=
    match ppd_driver_get_driver_name (platform_driver data) with
    | Some name => <["PlatformDriver" := name]> keys
    | None => keys
    end in
  <["Profile" := ppd_profile_to_str (active_profile data)]> keys.

(** The reasons for which [activate_target_profile] writes the state
    file. *)
Definition persisted_reason (why : PpdProfileActivationReason) : bool :=
  reason_eqb why PPD_PROFILE_ACTIVATION_REASON_USER
  || reason_eqb why PPD_PROFILE_ACTIVATION_REASON_INTERNAL.

(** The calls [handle_method_call] answers with an error: a call on
    another interface, a method that is not one of the two, a HoldProfile
    from a peer polkit does not authorise or for a profile that is not
    performance or power-saver or that no driver implements, a
    ReleaseProfile for a cookie that is not in the registry. *)
Definition method_refused {HW : Type} (data : PpdApp HW) (call : MethodCall)
  (invocation : GDBusMethodInvocation) : bool :=
  (negb (String.eqb (interface_name invocation) POWER_PROFILES_IFACE_NAME)
   && negb (String.eqb (interface_name invocation)
                       POWER_PROFILES_LEGACY_IFACE_NAME))
  || match call with
     | HoldProfile profile _ _ =>
         negb (auth data (sender invocation)
                 (POWER_PROFILES_POLICY_NAMESPACE +:+ ".hold-profile"))
         || (negb (ppd_profile_from_str profile =? PPD_PROFILE_PERFORMANCE)
             && negb (ppd_profile_from_str profile =? PPD_PROFILE_POWER_SAVER))
         || negb (get_profile_available data (ppd_profile_from_str profile))
     | ReleaseProfile cookie =>
         match profile_holds data !! cookie with
         | None => true
         | Some _ => false
         end
     | OtherMethod _ => true
     end.

(** [tr] holds one reply, and it answers [invocation]. *)
Definition answered_once (invocation : GDBusMethodInvocation)
  (tr : list Event) : Prop :=
  exists before reply rest,
    tr = (before ++ reply :: rest)%list /\
    forallb not_reply before = true /\ forallb not_reply rest = true /\
    ((exists result, reply = ReturnValue invocation result) \/
     (exists error, reply = ReturnError invocation error)).

(** The invariant of the arbitration state: the active and the selected
    profile are each one of the three profiles, every hold is for
    performance or power-saver, and every cookie of the registry is the id
    of a watch on the bus name of the peer that took the hold. *)
Definition arbitration_invariant {HW : Type} (data : PpdApp HW) : Prop :=
  ppd_profile_has_single_flag (active_profile data) = true /\
  ppd_profile_has_single_flag (selected_profile data) = true /\
  holds_wf (profile_holds data) /\
  (forall cookie hold,
      profile_holds data !! cookie = Some hold ->
      name_watches data !! cookie = Some (ph_requester hold)).

(** One turn of the probe loop. *)
Definition probe_turn {HW : Type} (data : PpdApp HW) (object : Backend HW)
  : PpdApp HW :=
  match object with
  | DriverCpu driver => probe_driver data CPU driver
  | DriverPlatform driver => probe_driver data PLATFORM driver
  | Action action => probe_action data action
  end.

(** The first driver of [objects] made for [slot] that the probe loop
    binds when the slot is empty: not blocked, with a profile among its
    flags, and whose probe succeeds. *)
Definition probe_candidate {HW : Type} (data : PpdApp HW) (slot : Slot)
  (object : Backend HW) : option (PpdDriver HW) :=
  let try driver :=
    if driver_blocked data driver then None
    else if Z.land (profiles driver) PPD_PROFILE_ALL =? 0 then None
    else match ppd_driver_probe driver with
         | (PPD_PROBE_RESULT_SUCCESS, driver) => Some driver
         | _ => None
         end in
  match slot, object with
  | CPU, DriverCpu driver => try driver
  | PLATFORM, DriverPlatform driver => try driver
  | _, _ => None
  end.

(** The actions of [objects] the probe loop loads: not blocked, and whose
    probe does not fail. *)
Definition action_candidate {HW : Type} (data : PpdApp HW)
  (object : Backend HW) : option (PpdAction HW) :=
  match object with
  | Action action =>
      if action_blocked data action then None
      else match ppd_action_probe action with
           | (PPD_PROBE_RESULT_FAIL, _) => None
           | (_, action) => Some action
           end
  | _ => None
  end.

(* ===================================================================== *)
(** ** Lemmas on the trace and the frame                                  *)
(* ===================================================================== *)

(** Case analysis on an innermost scrutinee of the goal. *)
Ltac break_inner :=
  match goal with
  | |- context [match ?x with _ => _ end] =>
      lazymatch x with
      | context [match _ with _ => _ end] => fail
      | _ => destruct x eqn:?
      end
  end.

(** One conjunct at a time (equations are left to be computed). *)
Ltac conj_step := lazymatch goal with |- _ /\ _ => split end.

Section TraceLemmas.
Context {HW : Type}.
Implicit Types d data : PpdApp HW.

Lemma frame_refl d : frame d d.
Proof. repeat split. Qed.

Lemma frame_trans d1 d2 d3 : frame d1 d2 -> frame d2 d3 -> frame d1 d3.
Proof.
  unfold frame.
  intros (a1 & a2 & a3 & a4 & a5 & a6) (b1 & b2 & b3 & b4 & b5 & b6).
  repeat split; congruence.
Qed.

Lemma extends_refl P d : extends P d d.
Proof. exists []. split; [now rewrite app_nil_r | reflexivity]. Qed.

Lemma extends_trans P d1 d2 d3 :
  extends P d1 d2 -> extends P d2 d3 -> extends P d1 d3.
Proof.
  intros (t1 & E1 & F1) (t2 & E2 & F2). exists (t1 ++ t2)%list. split.
  - rewrite E2, E1. now rewrite <- app_assoc.
  - rewrite forallb_app, F1, F2. reflexivity.
Qed.

Lemma extends_emit P e d : P e = true -> extends P d (emit e d).
Proof.
  intros H. exists [e]. split; [reflexivity|]. cbn. now rewrite H.
Qed.

Lemma call_backend (tr : list Event) :
  forallb call_event tr = true -> forallb backend_event tr = true.
Proof.
  rewrite !forallb_forall. intros H e He. specialize (H e He). now destruct e.
Qed.

Lemma ppd_driver_activate_profile_spec slot p why d :
  let r := ppd_driver_activate_profile slot p why d in
  extends call_event d (snd r) /\ frame d (snd r) /\
  active_profile (snd r) = active_profile d /\
  actions (snd r) = actions d /\ config (snd r) = config d /\
  save_error (snd r) = save_error d /\ config_path (snd r) = config_path d /\
  PPD_IS_DRIVER (cpu_driver (snd r)) = PPD_IS_DRIVER (cpu_driver d) /\
  PPD_IS_DRIVER (platform_driver (snd r)) = PPD_IS_DRIVER (platform_driver d).
Proof.
  unfold ppd_driver_activate_profile.
  destruct (get_driver slot d) as [drv|] eqn:Hd; cbn zeta.
  - destruct (negb (ppd_profile_has_single_flag p)).
    + cbn. repeat split; try reflexivity. now apply extends_emit.
    + destruct (drv_activate_profile (drv_class drv)) as [m|].
      * destruct (m (drv_hw drv) p why) as [hw e] eqn:Hm. cbn [fst snd].
        assert (Hx : extends call_event d
                  (set_driver slot (Some (with_hw hw drv))
                     (emit (DriverActivateProfile slot p why) d))).
        { exists [DriverActivateProfile slot p why]. split; [|reflexivity].
          destruct slot; reflexivity. }
        destruct slot; cbn in Hd; destruct e; cbn [snd];
          repeat split; try exact Hx; cbn; try reflexivity; now rewrite Hd.
      * cbn. repeat split; try reflexivity. apply extends_refl.
  - cbn. repeat split; try reflexivity. now apply extends_emit.
Qed.

Lemma actions_activate_profile_from_calls i (l : list (PpdAction HW)) p :
  forallb call_event (snd (actions_activate_profile_from i l p)) = true.
Proof.
  revert i. induction l as [|a l IH]; intros i; [reflexivity|].
  cbn [actions_activate_profile_from snd].
  rewrite !forallb_app, IH, andb_true_r.
  unfold ppd_action_activate_profile.
  destruct (act_activate_profile (act_class a)) as [m|]; cbn; [|reflexivity].
  destruct (snd (m (act_hw a) p)); reflexivity.
Qed.

Lemma save_configuration_spec d :
  extends backend_event d (save_configuration d) /\
  frame d (save_configuration d) /\
  active_profile (save_configuration d) = active_profile d.
Proof.
  destruct d as [q ws r dbg cp cfg ap sp pd cpu pl acts holds nw nid se au tr].
  unfold save_configuration, g_key_file_set_string. cbn.
  repeat (break_inner; cbn);
    (split; [eexists; split; [cbn; try rewrite <- !app_assoc; reflexivity
                             |reflexivity]
            |split; [repeat split|reflexivity]]).
Qed.

Lemma guarded_activate_spec (b : bool) slot p why d :
  let r := if b then ppd_driver_activate_profile slot p why d
           else (true, None, d) in
  extends call_event d (snd r) /\ frame d (snd r) /\
  active_profile (snd r) = active_profile d /\
  actions (snd r) = actions d /\ config (snd r) = config d /\
  save_error (snd r) = save_error d /\ config_path (snd r) = config_path d /\
  PPD_IS_DRIVER (cpu_driver (snd r)) = PPD_IS_DRIVER (cpu_driver d) /\
  PPD_IS_DRIVER (platform_driver (snd r)) = PPD_IS_DRIVER (platform_driver d).
Proof.
  destruct b; [apply ppd_driver_activate_profile_spec|].
  cbn. repeat split. apply extends_refl.
Qed.

Lemma actions_activate_profile_spec d p :
  extends call_event d (actions_activate_profile d p) /\
  frame d (actions_activate_profile d p) /\
  active_profile (actions_activate_profile d p) = active_profile d /\
  config (actions_activate_profile d p) = config d.
Proof.
  unfold actions_activate_profile.
  split; [|split; [repeat split|split; reflexivity]].
  eexists. split; [reflexivity|]. apply actions_activate_profile_from_calls.
Qed.

(** [activate_target_profile] logs its target, then touches back-ends and
    the state file only; it sets the active profile exactly when it
    succeeds, and leaves the selected profile and the holds alone. *)
Lemma activate_target_profile_spec d t why :
  let r := activate_target_profile d t why in
  (exists tr,
      trace (snd r)
      = (trace d ++ LogSettingActiveProfile t why (active_profile d) :: tr)%list
      /\ forallb backend_event tr = true) /\
  frame d (snd r) /\
  active_profile (snd r) = (if fst (fst r) then t else active_profile d).
Proof.
  unfold activate_target_profile. cbn zeta.
  set (d0 := emit (LogSettingActiveProfile t why (active_profile d)) d).
  assert (E0 : trace d0
               = (trace d ++ [LogSettingActiveProfile t why (active_profile d)])%list)
    by reflexivity.
  assert (F0 : frame d d0) by (repeat split).
  assert (A0 : active_profile d0 = active_profile d) by reflexivity.
  pose proof (guarded_activate_spec
                (driver_profile_support (cpu_driver d0) t) CPU t why d0) as H1.
  destruct (if driver_profile_support (cpu_driver d0) t
            then ppd_driver_activate_profile CPU t why d0
            else (true, None, d0)) as [[cpu_ok e1] d1].
  cbn [snd fst] in H1. destruct H1 as ((t1 & E1 & B1) & F1 & A1 & _).
  apply call_backend in B1.
  destruct cpu_ok; cbn [negb].
  2:{ cbn [snd fst]. split; [|split].
      - exists t1. split; [|exact B1]. rewrite E1, E0, <- app_assoc. reflexivity.
      - exact (frame_trans _ _ _ F0 F1).
      - congruence. }
  pose proof (guarded_activate_spec
                (driver_profile_support (platform_driver d1) t) PLATFORM t why d1)
    as H2.
  destruct (if driver_profile_support (platform_driver d1) t
            then ppd_driver_activate_profile PLATFORM t why d1
            else (true, None, d1)) as [[platform_ok e2] d2].
  cbn [snd fst] in H2. destruct H2 as ((t2 & E2 & B2) & F2 & A2 & _).
  apply call_backend in B2.
  destruct platform_ok; cbn [negb].
  - (* both drivers accepted *)
    set (d3 := with_active_profile t (actions_activate_profile d2 t)).
    destruct (actions_activate_profile_spec d2 t)
      as ((t3 & E3 & B3) & F3 & A3 & _).
    apply call_backend in B3.
    assert (E3' : trace d3 = (trace d2 ++ t3)%list) by exact E3.
    assert (F3' : frame d2 d3) by exact F3.
    destruct (save_configuration_spec d3) as ((t4 & E4 & B4) & F4 & A4).
    destruct (reason_eqb why PPD_PROFILE_ACTIVATION_REASON_USER
              || reason_eqb why PPD_PROFILE_ACTIVATION_REASON_INTERNAL);
      cbn [snd fst]; (split; [|split]).
    + exists (t1 ++ t2 ++ t3 ++ t4)%list. split.
      * rewrite E4, E3', E2, E1, E0. rewrite <- !app_assoc. reflexivity.
      * rewrite !forallb_app, B1, B2, B3, B4. reflexivity.
    + exact (frame_trans _ _ _ F0
               (frame_trans _ _ _ F1
                  (frame_trans _ _ _ F2 (frame_trans _ _ _ F3' F4)))).
    + rewrite A4. reflexivity.
    + exists (t1 ++ t2 ++ t3)%list. split.
      * rewrite E3', E2, E1, E0. rewrite <- !app_assoc. reflexivity.
      * rewrite !forallb_app, B1, B2, B3. reflexivity.
    + exact (frame_trans _ _ _ F0
               (frame_trans _ _ _ F1 (frame_trans _ _ _ F2 F3'))).
    + reflexivity.
  - (* the platform driver refused *)
    destruct (negb (PPD_IS_DRIVER (cpu_driver d2))); cbn [snd fst].
    + split; [|split].
      * exists (t1 ++ t2)%list. split.
        -- rewrite E2, E1, E0. rewrite <- !app_assoc. reflexivity.
        -- rewrite !forallb_app, B1, B2. reflexivity.
      * exact (frame_trans _ _ _ F0 (frame_trans _ _ _ F1 F2)).
      * congruence.
    + pose proof (ppd_driver_activate_profile_spec CPU (active_profile d)
                    PPD_PROFILE_ACTIVATION_REASON_INTERNAL d2) as H3.
      destruct (ppd_driver_activate_profile CPU (active_profile d)
                  PPD_PROFILE_ACTIVATION_REASON_INTERNAL d2)
        as [[reverted e3] d3].
      cbn [snd fst] in H3. destruct H3 as ((t3 & E3 & B3) & F3 & A3 & _).
      apply call_backend in B3.
      destruct reverted; cbn [negb snd fst]; (split; [|split]).
      * exists (t1 ++ t2 ++ t3)%list. split.
        -- rewrite E3, E2, E1, E0. rewrite <- !app_assoc. reflexivity.
        -- rewrite !forallb_app, B1, B2, B3. reflexivity.
      * exact (frame_trans _ _ _ F0
                 (frame_trans _ _ _ F1 (frame_trans _ _ _ F2 F3))).
      * congruence.
      * eexists (t1 ++ t2 ++ t3 ++ [_])%list. split.
        -- cbn [emit trace with_trace]. rewrite E3, E2, E1, E0.
           rewrite <- !app_assoc. reflexivity.
        -- rewrite !forallb_app, B1, B2, B3. reflexivity.
      * exact (frame_trans _ _ _ F0
                 (frame_trans _ _ _ F1 (frame_trans _ _ _ F2 F3))).
      * cbn. congruence.
Qed.

(** For a reason other than user and internal, [activate_target_profile]
    neither writes the state file nor touches the stored keys. *)
Lemma activate_target_profile_no_save d t why :
  reason_eqb why PPD_PROFILE_ACTIVATION_REASON_USER
  || reason_eqb why PPD_PROFILE_ACTIVATION_REASON_INTERNAL = false ->
  let r := activate_target_profile d t why in
  (exists tr,
      trace (snd r)
      = (trace d ++ LogSettingActiveProfile t why (active_profile d) :: tr)%list
      /\ forallb call_event tr = true) /\
  config (snd r) = config d.
Proof.
  intros Hwhy. unfold activate_target_profile. cbn zeta. rewrite Hwhy.
  set (d0 := emit (LogSettingActiveProfile t why (active_profile d)) d).
  assert (E0 : trace d0
               = (trace d ++ [LogSettingActiveProfile t why (active_profile d)])%list)
    by reflexivity.
  assert (C0 : config d0 = config d) by reflexivity.
  pose proof (guarded_activate_spec
                (driver_profile_support (cpu_driver d0) t) CPU t why d0) as H1.
  destruct (if driver_profile_support (cpu_driver d0) t
            then ppd_driver_activate_profile CPU t why d0
            else (true, None, d0)) as [[cpu_ok e1] d1].
  cbn [snd fst] in H1. destruct H1 as ((t1 & E1 & B1) & _ & _ & _ & C1 & _).
  destruct cpu_ok; cbn [negb].
  2:{ cbn [snd fst]. split; [|congruence].
      exists t1. split; [|exact B1]. rewrite E1, E0, <- app_assoc. reflexivity. }
  pose proof (guarded_activate_spec
                (driver_profile_support (platform_driver d1) t) PLATFORM t why d1)
    as H2.
  destruct (if driver_profile_support (platform_driver d1) t
            then ppd_driver_activate_profile PLATFORM t why d1
            else (true, None, d1)) as [[platform_ok e2] d2].
  cbn [snd fst] in H2. destruct H2 as ((t2 & E2 & B2) & _ & _ & _ & C2 & _).
  destruct platform_ok; cbn [negb].
  - destruct (actions_activate_profile_spec d2 t)
      as ((t3 & E3 & B3) & _ & _ & C3).
    cbn [snd fst]. split.
    + exists (t1 ++ t2 ++ t3)%list. split.
      * change (trace (with_active_profile t (actions_activate_profile d2 t)))
          with (trace (actions_activate_profile d2 t)).
        rewrite E3, E2, E1, E0. rewrite <- !app_assoc. reflexivity.
      * rewrite !forallb_app, B1, B2, B3. reflexivity.
    + change (config (with_active_profile t (actions_activate_profile d2 t)))
        with (config (actions_activate_profile d2 t)). congruence.
  - destruct (negb (PPD_IS_DRIVER (cpu_driver d2))); cbn [snd fst].
    + split; [|congruence].
      exists (t1 ++ t2)%list. split.
      * rewrite E2, E1, E0. rewrite <- !app_assoc. reflexivity.
      * rewrite !forallb_app, B1, B2. reflexivity.
    + pose proof (ppd_driver_activate_profile_spec CPU (active_profile d)
                    PPD_PROFILE_ACTIVATION_REASON_INTERNAL d2) as H3.
      destruct (ppd_driver_activate_profile CPU (active_profile d)
                  PPD_PROFILE_ACTIVATION_REASON_INTERNAL d2)
        as [[reverted e3] d3].
      cbn [snd fst] in H3.
      destruct H3 as ((t3 & E3 & B3) & _ & _ & _ & C3 & _).
      destruct reverted; cbn [negb snd fst]; (split; [|cbn; congruence]).
      * exists (t1 ++ t2 ++ t3)%list. split.
        -- rewrite E3, E2, E1, E0. rewrite <- !app_assoc. reflexivity.
        -- rewrite !forallb_app, B1, B2, B3. reflexivity.
      * eexists (t1 ++ t2 ++ t3 ++ [_])%list. split.
        -- cbn [emit trace with_trace]. rewrite E3, E2, E1, E0.
           rewrite <- !app_assoc. reflexivity.
        -- rewrite !forallb_app, B1, B2, B3. reflexivity.
Qed.

Lemma send_dbus_event_iface_spec V d m iface path :
  exists tr,
    send_dbus_event_iface V d m iface path = with_trace (trace d ++ tr) d /\
    forallb notification_event tr = true.
Proof.
  unfold send_dbus_event_iface.
  destruct (m =? 0); [|destruct (Z.land m PROP_ALL =? 0)].
  - exists []. split; [|reflexivity]. rewrite app_nil_r. now destruct d.
  - eexists [_]. split; reflexivity.
  - eexists [_]. split; reflexivity.
Qed.

Lemma send_dbus_event_spec V d m :
  exists tr,
    send_dbus_event V d m = with_trace (trace d ++ tr) d /\
    forallb notification_event tr = true.
Proof.
  unfold send_dbus_event.
  destruct (send_dbus_event_iface_spec V d m
              POWER_PROFILES_IFACE_NAME POWER_PROFILES_DBUS_PATH)
    as (t1 & -> & B1).
  destruct (send_dbus_event_iface_spec V (with_trace (trace d ++ t1) d) m
              POWER_PROFILES_LEGACY_IFACE_NAME POWER_PROFILES_LEGACY_DBUS_PATH)
    as (t2 & -> & B2).
  exists (t1 ++ t2)%list. split.
  - cbn. now rewrite app_assoc.
  - now rewrite forallb_app, B1, B2.
Qed.

Lemma release_fold_spec (l : list (Z * ProfileHold)) d :
  let d' :=
    fold_left
      (fun (data : PpdApp HW) (kv : Z * ProfileHold) =>
         g_bus_unwatch_name (fst kv) (release_hold_notify data (snd kv) (fst kv)))
      l d in
  trace d' = (trace d ++ release_events l)%list /\
  active_profile d' = active_profile d /\
  selected_profile d' = selected_profile d.
Proof.
  revert d. induction l as [|kv l IH]; intros d; cbn [fold_left].
  - cbn. now rewrite app_nil_r.
  - destruct (IH (g_bus_unwatch_name (fst kv)
                    (release_hold_notify d (snd kv) (fst kv))))
      as (E & A & S).
    cbn zeta. rewrite E, A, S. repeat split.
    cbn. now rewrite <- !app_assoc.
Qed.

Lemma release_all_profile_holds_spec d :
  let d' := release_all_profile_holds d in
  trace d' = (trace d ++ release_events (map_to_list (profile_holds d)))%list /\
  active_profile d' = active_profile d /\
  selected_profile d' = selected_profile d /\
  profile_holds d' = ∅.
Proof.
  unfold release_all_profile_holds.
  destruct (release_fold_spec (map_to_list (profile_holds d)) d) as (E & A & S).
  cbn zeta in *. cbn. auto.
Qed.

Lemma count_events_app P (l1 l2 : list Event) :
  count_events P (l1 ++ l2) = (count_events P l1 + count_events P l2)%nat.
Proof. unfold count_events. now rewrite List.filter_app, length_app. Qed.

Lemma count_events_none P Q (tr : list Event) :
  (forall e, Q e = true -> P e = false) ->
  forallb Q tr = true -> count_events P tr = 0%nat.
Proof.
  intros H. induction tr as [|e tr IH]; [reflexivity|].
  cbn [forallb]. intros [He Ht]%andb_true_iff.
  unfold count_events in *. cbn [List.filter]. rewrite (H e He). auto.
Qed.

Lemma released_to_of hold cookie e :
  released_to hold cookie e = true -> released_of cookie e = true.
Proof.
  destruct e; cbn; try discriminate.
  intros H. repeat (apply andb_true_iff in H; destruct H as [H _]). exact H.
Qed.

Lemma count_release_events_other cookie (l : list (Z * ProfileHold)) :
  cookie ∉ l.*1 ->
  count_events (released_of cookie) (release_events l) = 0%nat.
Proof.
  induction l as [|[c h] l IH]; [reflexivity|].
  cbn [fmap list_fmap fst]. intros Hn.
  apply not_elem_of_cons in Hn as [Hc Hl].
  unfold count_events in *. cbn.
  destruct (Z.eqb_spec c cookie) as [->|_]; [congruence|]. cbn. auto.
Qed.

Lemma count_released_to_le hold cookie (tr : list Event) :
  count_events (released_of cookie) tr = 0%nat ->
  count_events (released_to hold cookie) tr = 0%nat.
Proof.
  unfold count_events. induction tr as [|e tr IH]; [reflexivity|].
  cbn [List.filter].
  destruct (released_to hold cookie e) eqn:Ht.
  - rewrite (released_to_of _ _ _ Ht). discriminate.
  - destruct (released_of cookie e); [discriminate|exact IH].
Qed.

Lemma count_release_events_one cookie hold (l : list (Z * ProfileHold)) :
  NoDup l.*1 -> (cookie, hold) ∈ l ->
  count_events (released_of cookie) (release_events l) = 1%nat /\
  count_events (released_to hold cookie) (release_events l) = 1%nat.
Proof.
  induction l as [|[c h] l IH]; intros Hnd Hin.
  - now apply elem_of_nil in Hin.
  - cbn [fmap list_fmap fst] in Hnd.
    apply NoDup_cons in Hnd as [Hc Hnd].
    change (release_events ((c, h) :: l))
      with ([ProfileReleased (ph_requester h)
               (if String.eqb (ph_requester_iface h)
                              POWER_PROFILES_LEGACY_IFACE_NAME
                then POWER_PROFILES_LEGACY_DBUS_PATH
                else POWER_PROFILES_DBUS_PATH)
               (ph_requester_iface h) c; UnwatchName c]
            ++ release_events l)%list.
    rewrite !count_events_app.
    apply elem_of_cons in Hin as [Heq|Hin].
    + injection Heq as <- <-.
      pose proof (count_release_events_other cookie l Hc) as H0.
      rewrite H0, (count_released_to_le hold cookie _ H0).
      unfold count_events. cbn.
      rewrite Z.eqb_refl, !String.eqb_refl. cbn. auto.
    + destruct (IH Hnd Hin) as [I1 I2]. rewrite I1, I2.
      assert (c <> cookie) as Hne.
      { intros ->. apply Hc. apply list_elem_of_fmap. now exists (cookie, hold). }
      unfold count_events. cbn.
      destruct (Z.eqb_spec c cookie) as [|_]; [contradiction|]. cbn. auto.
Qed.

End TraceLemmas.

(* ===================================================================== *)
(** ** User sets of the active profile                                    *)
(* ===================================================================== *)

Section UserSet.
Context {HW : Type} (VERSION : string).
Implicit Types d data : PpdApp HW.

Lemma backend_not_released (tr : list Event) :
  forallb backend_event tr = true -> forallb not_released tr = true.
Proof.
  induction tr as [|e tr IH]; [reflexivity|]. cbn [forallb].
  intros [He Ht]%andb_true_iff. rewrite (IH Ht), andb_true_r.
  now destruct e.
Qed.

Lemma notification_not_released (tr : list Event) :
  forallb notification_event tr = true -> forallb not_released tr = true.
Proof.
  induction tr as [|e tr IH]; [reflexivity|]. cbn [forallb].
  intros [He Ht]%andb_true_iff. rewrite (IH Ht), andb_true_r.
  now destruct e.
Qed.

Lemma not_released_count cookie (tr : list Event) :
  forallb not_released tr = true ->
  count_events (released_of cookie) tr = 0%nat.
Proof.
  apply count_events_none. intros e. now destruct e.
Qed.

(** The part of [set_active_profile] after the holds are released: the
    activation for reason user, the update of the selected profile and the
    notification. *)
Lemma user_activation_tail d1 (mask target : Z) :
  let a := activate_target_profile d1 target
             PPD_PROFILE_ACTIVATION_REASON_USER in
  let r :=
    let '(ok, error, data) := a in
    if negb ok then (false, error, data)
    else (true, None,
          send_dbus_event VERSION (with_selected_profile target data) mask) in
  fst (fst r) = true ->
  selected_profile (snd r) = target /\
  active_profile (snd r) = target /\
  profile_holds (snd r) = profile_holds d1 /\
  exists tr,
    trace (snd r)
    = (trace d1 ++ LogSettingActiveProfile target
                     PPD_PROFILE_ACTIVATION_REASON_USER (active_profile d1)
                   :: tr)%list /\
    forallb not_released tr = true.
Proof.
  cbn zeta.
  pose proof (activate_target_profile_spec d1 target
                PPD_PROFILE_ACTIVATION_REASON_USER) as H.
  destruct (activate_target_profile d1 target
              PPD_PROFILE_ACTIVATION_REASON_USER) as [[ok e] d2].
  cbn [fst snd] in H. destruct H as ((t1 & E1 & B1) & F & A).
  destruct ok; cbn [negb fst snd]; [intros _|discriminate].
  destruct (send_dbus_event_spec VERSION (with_selected_profile target d2) mask)
    as (t2 & -> & B2).
  destruct F as (_ & Fh & _).
  cbn. repeat split; try assumption.
  exists (t1 ++ t2)%list. split.
  - rewrite E1, <- app_assoc. reflexivity.
  - rewrite forallb_app, (backend_not_released _ B1),
      (notification_not_released _ B2). reflexivity.
Qed.

(** C2 (as amended): a user set of ActiveProfile to a valid, available
    profile that differs from the active one and whose activation succeeds
    leaves the selected and the active profile equal to the requested one and
    the hold registry empty; for every hold of the registry before the call
    exactly one ProfileReleased signal with its cookie was sent, that one to
    the peer that took the hold; and these signals come before the
    activation. *)
Theorem C2_user_set_releases_holds data (profile : string) :
  let target := ppd_profile_from_str profile in
  let r := set_active_profile VERSION data profile in
  target <> PPD_PROFILE_UNSET ->
  get_profile_available data target = true ->
  target <> active_profile data ->
  fst (fst r) = true ->
  selected_profile (snd r) = target /\
  active_profile (snd r) = target /\
  profile_holds (snd r) = ∅ /\
  (forall cookie hold,
      profile_holds data !! cookie = Some hold ->
      count_events (released_of cookie) (trace (snd r))
      = S (count_events (released_of cookie) (trace data)) /\
      count_events (released_to hold cookie) (trace (snd r))
      = S (count_events (released_to hold cookie) (trace data))) /\
  (exists tr,
      trace (snd r)
      = (trace data ++ release_events (map_to_list (profile_holds data))
           ++ LogSettingActiveProfile target PPD_PROFILE_ACTIVATION_REASON_USER
                (active_profile data) :: tr)%list /\
      forallb not_released tr = true).
Proof.
  intros target r Hvalid Havail Hdiff Hok.
  (* the state once the holds are released, in both branches *)
  assert (exists d1 mask,
             r = (let '(ok, error, data) :=
                    activate_target_profile d1 target
                      PPD_PROFILE_ACTIVATION_REASON_USER in
                  if negb ok then (false, error, data)
                  else (true, None,
                        send_dbus_event VERSION
                          (with_selected_profile target data) mask)) /\
             trace d1 = (trace data
                         ++ release_events (map_to_list (profile_holds data)))%list /\
             active_profile d1 = active_profile data /\
             profile_holds d1 = ∅) as (d1 & mask & Hr & E1 & A1 & H1).
  { subst r. unfold set_active_profile. fold target.
    destruct (Z.eqb_spec target PPD_PROFILE_UNSET) as [|_]; [contradiction|].
    rewrite Havail. cbn [negb].
    destruct (Z.eqb_spec target (active_profile data)) as [|_]; [contradiction|].
    destruct (Nat.eqb_spec (size (profile_holds data)) 0) as [Hz|Hnz]; cbn [negb].
    - exists data, PROP_ACTIVE_PROFILE. split; [reflexivity|].
      apply map_size_empty_inv in Hz. rewrite Hz, map_to_list_empty. cbn.
      now rewrite app_nil_r.
    - exists (release_all_profile_holds data),
        (Z.lor PROP_ACTIVE_PROFILE PROP_ACTIVE_PROFILE_HOLDS).
      split; [reflexivity|].
      destruct (release_all_profile_holds_spec data) as (E & A & _ & H).
      auto. }
  rewrite Hr in Hok |- *.
  destruct (user_activation_tail d1 mask target Hok) as (S & A & H & tr & E & N).
  split; [exact S|]. split; [exact A|]. split; [now rewrite H|].
  assert (Et : trace (snd (let '(ok, error, data0) :=
                             activate_target_profile d1 target
                               PPD_PROFILE_ACTIVATION_REASON_USER in
                           if negb ok then (false, error, data0)
                           else (true, None,
                                 send_dbus_event VERSION
                                   (with_selected_profile target data0) mask)))
               = (trace data ++ release_events (map_to_list (profile_holds data))
                    ++ LogSettingActiveProfile target
                         PPD_PROFILE_ACTIVATION_REASON_USER
                         (active_profile data) :: tr)%list).
  { rewrite E, E1, A1, <- app_assoc. reflexivity. }
  split.
  - intros cookie hold Hl. rewrite Et.
    assert (Hin : (cookie, hold) ∈ map_to_list (profile_holds data))
      by now apply elem_of_map_to_list.
    destruct (count_release_events_one cookie hold _
                (NoDup_fst_map_to_list (profile_holds data)) Hin) as [C1 C2].
    pose proof (not_released_count cookie tr N) as Z1.
    pose proof (count_released_to_le hold cookie tr Z1) as Z2.
    rewrite !count_events_app, C1, C2.
    change (LogSettingActiveProfile target PPD_PROFILE_ACTIVATION_REASON_USER
              (active_profile data) :: tr)
      with ([LogSettingActiveProfile target PPD_PROFILE_ACTIVATION_REASON_USER
               (active_profile data)] ++ tr)%list.
    rewrite !count_events_app, Z1, Z2. cbn. lia.
  - exists tr. split; [exact Et | exact N].
Qed.

End UserSet.

(* ===================================================================== *)
(** ** Rollback of the CPU driver                                         *)
(* ===================================================================== *)

Section Rollback.
Context {HW : Type}.
Implicit Types d data : PpdApp HW.

(** C1: when the CPU driver was called for the target and accepted it, and
    the platform driver, which supports the target, then fails, the
    activation re-enters the CPU driver with the previous active profile
    and reason internal; a failure of that call only adds a warning to the
    log; the caller gets the error of the platform driver (under the prefix
    that names the driver); and the active profile, the selected profile,
    the holds and the stored configuration are as before.  The target and
    the previous active profile are single profiles, as
    [ppd_driver_activate_profile] asks of every profile it passes on to a
    class method. *)
Theorem C1_platform_failure_rolls_back data target why
    (cpu pl : PpdDriver HW) cpu_method pl_method (platform_error : GError) :
  cpu_driver data = Some cpu ->
  platform_driver data = Some pl ->
  drv_activate_profile (drv_class cpu) = Some cpu_method ->
  drv_activate_profile (drv_class pl) = Some pl_method ->
  ppd_profile_has_single_flag target = true ->
  ppd_profile_has_single_flag (active_profile data) = true ->
  driver_profile_support (cpu_driver data) target = true ->
  driver_profile_support (platform_driver data) target = true ->
  snd (cpu_method (drv_hw cpu) target why) = None ->
  snd (pl_method (drv_hw pl) target why) = Some platform_error ->
  let previous := active_profile data in
  let rollback :=
    cpu_method (fst (cpu_method (drv_hw cpu) target why)) previous
      PPD_PROFILE_ACTIVATION_REASON_INTERNAL in
  let r := activate_target_profile data target why in
  fst (fst r) = false /\
  snd (fst r)
  = Some {| err_code := err_code platform_error;
            message := ("Failed to activate platform driver '"
                        +:+ str_or_null (driver_name pl) +:+ "': ")
                       +:+ message platform_error |} /\
  active_profile (snd r) = previous /\
  selected_profile (snd r) = selected_profile data /\
  profile_holds (snd r) = profile_holds data /\
  config (snd r) = config data /\
  cpu_driver (snd r) = Some (with_hw (fst rollback) cpu) /\
  trace (snd r)
  = (trace data
     ++ [LogSettingActiveProfile target why previous;
         DriverActivateProfile CPU target why;
         DriverActivateProfile PLATFORM target why;
         DriverActivateProfile CPU previous
           PPD_PROFILE_ACTIVATION_REASON_INTERNAL]
     ++ match snd rollback with
        | None => []
        | Some recovery_error =>
            [LogWarning "Failed to revert CPU driver '%s': %s"
               [A_str (driver_name cpu); A_message (Some recovery_error)]]
        end)%list.
Proof.
  intros Hcpu Hpl Hcm Hpm Ht Ha Hsc Hsp Hok Hfail previous rollback r.
  subst previous rollback r.
  destruct data as [q ws rt dbg cp cfg ap sp pd c p acts holds nw nid se au tr].
  cbn in Hcpu, Hpl, Ha, Hsc, Hsp. subst c p.
  unfold activate_target_profile, ppd_driver_activate_profile.
  cbn -[ppd_profile_has_single_flag String.append].
  cbn in Hsc, Hsp. rewrite Hsc, Ht, Hcm.
  cbn -[ppd_profile_has_single_flag String.append]. rewrite Hok.
  cbn -[ppd_profile_has_single_flag String.append]. rewrite Hsp, Hpm.
  cbn -[ppd_profile_has_single_flag String.append]. rewrite Hfail.
  cbn -[ppd_profile_has_single_flag String.append]. rewrite Ha, Hcm.
  cbn -[ppd_profile_has_single_flag String.append].
  destruct (snd (cpu_method (fst (cpu_method (drv_hw cpu) target why)) ap
                   PPD_PROFILE_ACTIVATION_REASON_INTERNAL)) as [re|];
    cbn -[String.append]; rewrite <- !app_assoc; repeat split.
Qed.

End Rollback.

(* ===================================================================== *)
(** ** Setting the profile that is already active                         *)
(* ===================================================================== *)

Section Idempotence.
Context {HW : Type} (VERSION : string).
Implicit Types d data : PpdApp HW.

(** C5: setting ActiveProfile to a valid, available profile that is the
    active one returns success and leaves the whole state as it is, the
    trace included: nothing is sent, no back-end is called, nothing is
    written.  Through the bus, the one message is the success reply. *)
Theorem C5_set_current_profile_changes_nothing data (profile : string) :
  ppd_profile_from_str profile <> PPD_PROFILE_UNSET ->
  get_profile_available data (ppd_profile_from_str profile) = true ->
  ppd_profile_from_str profile = active_profile data ->
  set_active_profile VERSION data profile = (true, None, data) /\
  forall invocation,
    auth data (sender invocation)
         (POWER_PROFILES_POLICY_NAMESPACE +:+ ".switch-profile") = true ->
    properties_set VERSION data "ActiveProfile" profile invocation
    = emit (ReturnValue invocation None) data.
Proof.
  intros Hvalid Havail Hsame.
  assert (E : set_active_profile VERSION data profile = (true, None, data)).
  { unfold set_active_profile.
    destruct (Z.eqb_spec (ppd_profile_from_str profile) PPD_PROFILE_UNSET)
      as [|_]; [contradiction|].
    rewrite Havail. cbn [negb].
    destruct (Z.eqb_spec (ppd_profile_from_str profile) (active_profile data))
      as [_|]; [reflexivity|contradiction]. }
  split; [exact E|].
  intros invocation Hauth.
  unfold properties_set, handle_set_property, check_action_permission.
  cbn [String.eqb Ascii.eqb Bool.eqb negb]. rewrite Hauth, E. reflexivity.
Qed.

End Idempotence.

(* ===================================================================== *)
(** ** The effective hold profile                                         *)
(* ===================================================================== *)

Section EffectiveHold.
Context {HW : Type}.
Implicit Types d data : PpdApp HW.

Lemma loop_power_saver (l : list (Z * ProfileHold)) acc :
  (exists kv, kv ∈ l /\ ph_profile (snd kv) = PPD_PROFILE_POWER_SAVER) ->
  effective_hold_profile_loop l acc = PPD_PROFILE_POWER_SAVER.
Proof.
  revert acc. induction l as [|kv l IH]; intros acc (x & Hin & Hx).
  - now apply elem_of_nil in Hin.
  - cbn [effective_hold_profile_loop].
    destruct (Z.eqb_spec (ph_profile (snd kv)) PPD_PROFILE_POWER_SAVER)
      as [|Hne]; [reflexivity|].
    apply elem_of_cons in Hin as [->|Hin]; [contradiction|].
    apply IH. eauto.
Qed.

Lemma loop_no_power_saver (l : list (Z * ProfileHold)) acc :
  (forall kv, kv ∈ l -> ph_profile (snd kv) <> PPD_PROFILE_POWER_SAVER) ->
  (l = [] /\ effective_hold_profile_loop l acc = acc) \/
  (exists kv, kv ∈ l /\ effective_hold_profile_loop l acc = ph_profile (snd kv)).
Proof.
  revert acc. induction l as [|kv l IH]; intros acc Hall; [now left|].
  right. cbn [effective_hold_profile_loop].
  destruct (Z.eqb_spec (ph_profile (snd kv)) PPD_PROFILE_POWER_SAVER) as [He|_].
  { exfalso. apply (Hall kv); [apply elem_of_cons; now left|exact He]. }
  destruct (IH (ph_profile (snd kv))) as [[-> E]|(x & Hin & E)].
  - intros x Hx. apply Hall. apply elem_of_cons. now right.
  - exists kv. split; [apply elem_of_cons; now left|exact E].
  - exists x. split; [apply elem_of_cons; now right|exact E].
Qed.

(** C6: with a hold for power-saver in the registry the effective hold
    profile is power-saver; with holds but none for power-saver it is the
    profile of one of the holds, which is performance, the profile of them
    all, when the holds are for the two profiles a hold can be taken for;
    with no hold it is unset. *)
Theorem C6_effective_hold_profile data :
  ((exists cookie hold,
       profile_holds data !! cookie = Some hold /\
       ph_profile hold = PPD_PROFILE_POWER_SAVER) ->
   effective_hold_profile data = PPD_PROFILE_POWER_SAVER) /\
  ((forall cookie hold,
       profile_holds data !! cookie = Some hold ->
       ph_profile hold <> PPD_PROFILE_POWER_SAVER) ->
   profile_holds data <> ∅ ->
   (exists cookie hold,
       profile_holds data !! cookie = Some hold /\
       effective_hold_profile data = ph_profile hold) /\
   (holds_wf (profile_holds data) ->
    effective_hold_profile data = PPD_PROFILE_PERFORMANCE /\
    forall cookie hold,
      profile_holds data !! cookie = Some hold ->
      effective_hold_profile data = ph_profile hold)) /\
  (profile_holds data = ∅ -> effective_hold_profile data = PPD_PROFILE_UNSET).
Proof.
  unfold effective_hold_profile. split; [|split].
  - intros (cookie & hold & Hl & Hp). apply loop_power_saver.
    exists (cookie, hold). split; [now apply elem_of_map_to_list|exact Hp].
  - intros Hnone Hne.
    destruct (loop_no_power_saver (map_to_list (profile_holds data))
                PPD_PROFILE_UNSET) as [[Hnil _]|([c h] & Hin & E)].
    + intros [c h] Hin. apply elem_of_map_to_list in Hin. eapply Hnone, Hin.
    + apply map_to_list_empty_iff in Hnil. contradiction.
    + apply elem_of_map_to_list in Hin. split; [now exists c, h|].
      intros Hwf.
      assert (Hperf : forall c' h', profile_holds data !! c' = Some h' ->
                                    ph_profile h' = PPD_PROFILE_PERFORMANCE).
      { intros c' h' Hl. destruct (Hwf c' h' Hl) as [|Hps]; [assumption|].
        now apply Hnone in Hl. }
      rewrite E. cbn [snd]. split; [eauto|].
      intros c' h' Hl. rewrite (Hperf c h Hin), (Hperf c' h' Hl). reflexivity.
  - intros ->. now rewrite map_to_list_empty.
Qed.

Lemma profile_holds_send_dbus_event V d m :
  profile_holds (send_dbus_event V d m) = profile_holds d.
Proof. destruct (send_dbus_event_spec V d m) as (t & -> & _). reflexivity. Qed.

Lemma profile_holds_activate d t why :
  profile_holds (snd (activate_target_profile d t why)) = profile_holds d.
Proof.
  destruct (activate_target_profile_spec d t why) as (_ & (_ & H & _) & _).
  exact H.
Qed.

(** The registry after a call of [hold_profile]: unchanged when the call is
    refused, and with the new hold under the new watch id otherwise. *)
Lemma hold_profile_registry V data profile_name why app_id invocation :
  let profile := ppd_profile_from_str profile_name in
  profile_holds (hold_profile V data (profile_name, why, app_id) invocation)
  = if (negb (profile =? PPD_PROFILE_PERFORMANCE)
        && negb (profile =? PPD_PROFILE_POWER_SAVER))
       || negb (get_profile_available data profile)
    then profile_holds data
    else <[next_watch_id data :=
             {| ph_profile := profile; ph_reason := why;
                ph_application_id := app_id;
                ph_requester := sender invocation;
                ph_requester_iface := interface_name invocation |}]>
           (profile_holds data).
Proof.
  cbn zeta. unfold hold_profile.
  destruct (negb (ppd_profile_from_str profile_name =? PPD_PROFILE_PERFORMANCE)
            && negb (ppd_profile_from_str profile_name
                     =? PPD_PROFILE_POWER_SAVER)); [reflexivity|].
  destruct (negb (get_profile_available data
                    (ppd_profile_from_str profile_name))); [reflexivity|].
  cbn [orb g_bus_watch_name_on_connection].
  match goal with
  | |- context [if ?c then _ else _] => destruct c
  end.
  - match goal with
    | |- context [if ?c then _ else _] => destruct c
    end; rewrite profile_holds_send_dbus_event, ?profile_holds_activate;
      reflexivity.
  - rewrite profile_holds_send_dbus_event. reflexivity.
Qed.

(** The holds [hold_profile] stores are for performance or
    power-saver. *)
Lemma hold_profile_keeps_holds_wf V data parameters invocation :
  holds_wf (profile_holds data) ->
  holds_wf (profile_holds (hold_profile V data parameters invocation)).
Proof.
  intros Hwf. destruct parameters as [[profile_name why] app_id].
  rewrite hold_profile_registry.
  destruct (Z.eqb_spec (ppd_profile_from_str profile_name)
              PPD_PROFILE_PERFORMANCE) as [Hp|Hp]; cbn [negb andb orb].
  2: destruct (Z.eqb_spec (ppd_profile_from_str profile_name)
                 PPD_PROFILE_POWER_SAVER) as [Hs|Hs]; cbn [negb orb].
  3: exact Hwf.
  all: destruct (get_profile_available data (ppd_profile_from_str profile_name));
    cbn [negb]; [|exact Hwf].
  all: intros c h [[_ <-]|[_ Hl]]%lookup_insert_Some; cbn; eauto.
Qed.

End EffectiveHold.

(* ===================================================================== *)
(** ** Release of a hold                                                  *)
(* ===================================================================== *)

Section Release.
Context {HW : Type} (VERSION : string).
Implicit Types d data : PpdApp HW.

Lemma activations_app (l1 l2 : list Event) :
  activations (l1 ++ l2) = (activations l1 ++ activations l2)%list.
Proof.
  induction l1 as [|e l1 IH]; [reflexivity|].
  destruct e; cbn; rewrite ?IH; reflexivity.
Qed.

Lemma activations_backend (tr : list Event) :
  forallb backend_event tr = true -> activations tr = [].
Proof.
  induction tr as [|e tr IH]; [reflexivity|]. cbn [forallb].
  intros [He Ht]%andb_true_iff. destruct e; try discriminate; cbn; auto.
Qed.

Lemma activations_notification (tr : list Event) :
  forallb notification_event tr = true -> activations tr = [].
Proof.
  induction tr as [|e tr IH]; [reflexivity|]. cbn [forallb].
  intros [He Ht]%andb_true_iff. destruct e; try discriminate; cbn; auto.
Qed.

(** An activation is recorded once, with its target and reason. *)
Lemma activations_activate d t why :
  activations (trace (snd (activate_target_profile d t why)))
  = (activations (trace d) ++ [(t, why)])%list.
Proof.
  destruct (activate_target_profile_spec d t why) as ((tr & -> & B) & _).
  rewrite activations_app. cbn. now rewrite (activations_backend _ B).
Qed.

Lemma activations_send_dbus_event d m :
  activations (trace (send_dbus_event VERSION d m)) = activations (trace d).
Proof.
  destruct (send_dbus_event_spec VERSION d m) as (tr & -> & B).
  cbn. now rewrite activations_app, (activations_notification _ B), app_nil_r.
Qed.

(** An activation the drivers accept: it succeeds, the profile is the
    active one, each bound driver that implements the profile was entered
    once, CPU first, then the actions, and nothing else happened. *)
Lemma activate_target_profile_accepted d t why :
  ppd_profile_has_single_flag t = true ->
  drivers_accept d t why ->
  persisted_reason why = false ->
  let r := activate_target_profile d t why in
  fst (fst r) = true /\ active_profile (snd r) = t /\
  (forall slot,
      get_driver slot (snd r)
      = option_map (driver_activated t why) (get_driver slot d)) /\
  actions (snd r) = fst (actions_activate_profile_from 0 (actions d) t) /\
  trace (snd r)
  = (trace d
     ++ LogSettingActiveProfile t why (active_profile d)
     :: driver_call CPU t why d ++ driver_call PLATFORM t why d
     ++ snd (actions_activate_profile_from 0 (actions d) t))%list.
Proof.
  intros Hsingle Hacc Hwhy.
  destruct d as [q ws rt dbg cp cfg ap sp pd c p acts holds nw nid se au tr].
  assert (Hc : forall driver method,
             c = Some driver ->
             driver_profile_support (Some driver) t = true ->
             drv_activate_profile (drv_class driver) = Some method ->
             snd (method (drv_hw driver) t why) = None).
  { intros driver method E. apply (Hacc CPU). exact E. }
  assert (Hp : forall driver method,
             p = Some driver ->
             driver_profile_support (Some driver) t = true ->
             drv_activate_profile (drv_class driver) = Some method ->
             snd (method (drv_hw driver) t why) = None).
  { intros driver method E. apply (Hacc PLATFORM). exact E. }
  clear Hacc. unfold persisted_reason in Hwhy.
  unfold activate_target_profile, ppd_driver_activate_profile, driver_call,
    driver_activated.
  cbn -[ppd_profile_has_single_flag String.append driver_profile_support
        actions_activate_profile_from].
  rewrite Hwhy, Hsingle.
  clear Hwhy Hsingle.
  destruct c as [cpu|];
    [destruct (driver_profile_support (Some cpu) t) eqn:Sc;
     [destruct (drv_activate_profile (drv_class cpu)) as [m|] eqn:Mc;
      [rewrite (Hc cpu m eq_refl Sc Mc)|]|]
    |change (driver_profile_support None t) with false];
    cbn -[String.append driver_profile_support actions_activate_profile_from];
    clear Hc;
    (destruct p as [pl|];
     [destruct (driver_profile_support (Some pl) t) eqn:Sp;
      [destruct (drv_activate_profile (drv_class pl)) as [m'|] eqn:Mp;
       [rewrite (Hp pl m' eq_refl Sp Mp)|]|]
     |change (driver_profile_support None t) with false]);
    cbn -[String.append driver_profile_support actions_activate_profile_from];
    rewrite ?Sc, ?Sp, ?Mc, ?Mp;
    cbn -[String.append driver_profile_support actions_activate_profile_from];
    (split; [reflexivity|]); (split; [reflexivity|]);
    (split; [intros slot; destruct slot; cbn -[driver_profile_support];
             rewrite ?Sc, ?Sp, ?Mc, ?Mp; reflexivity|]);
    (split; [reflexivity|]);
    rewrite <- ?app_assoc; reflexivity.
Qed.


(** The state once the hold is taken out of the registry: the watch is
    dropped and the peer is told, nothing else moves. *)
Lemma hold_removed_spec data (hold : ProfileHold) (cookie : Z) :
  let removed := hold_removed data hold cookie in
  trace removed
  = (trace data
     ++ [UnwatchName cookie;
         ProfileReleased (ph_requester hold)
           (if String.eqb (ph_requester_iface hold)
                          POWER_PROFILES_LEGACY_IFACE_NAME
            then POWER_PROFILES_LEGACY_DBUS_PATH else POWER_PROFILES_DBUS_PATH)
           (ph_requester_iface hold) cookie])%list /\
  profile_holds removed = delete cookie (profile_holds data) /\
  active_profile removed = active_profile data /\
  selected_profile removed = selected_profile data /\
  config removed = config data /\
  actions removed = actions data /\
  (forall slot, get_driver slot removed = get_driver slot data).
Proof.
  cbn zeta. unfold hold_removed, release_hold_notify, g_bus_unwatch_name.
  cbn. rewrite <- app_assoc. repeat split.
Qed.

(** The three ways out of [release_profile_hold] for a hold of the
    registry. *)
Lemma release_profile_hold_branches data (cookie : Z) (hold : ProfileHold) :
  profile_holds data !! cookie = Some hold ->
  let after := release_profile_hold VERSION data cookie in
  let remaining := delete cookie (profile_holds data) in
  let removed := hold_removed data hold cookie in
  let next := effective_hold_profile removed in
  let back := remaining = ∅ /\ ph_profile hold <> selected_profile data in
  (back /\
   exists mask,
     after
     = send_dbus_event VERSION
         (snd (activate_target_profile removed (selected_profile data)
                 PPD_PROFILE_ACTIVATION_REASON_PROGRAM_HOLD)) mask) \/
  (~ back /\ ph_profile hold = active_profile data /\
   next <> PPD_PROFILE_UNSET /\ next <> active_profile data /\
   exists mask,
     after
     = send_dbus_event VERSION
         (snd (activate_target_profile removed next
                 PPD_PROFILE_ACTIVATION_REASON_PROGRAM_HOLD)) mask) \/
  (~ back /\
   (ph_profile hold = active_profile data ->
    next = PPD_PROFILE_UNSET \/ next = active_profile data) /\
   exists mask, after = send_dbus_event VERSION removed mask).
Proof.
  intros Hl after remaining removed next back.
  subst after. unfold release_profile_hold. rewrite Hl.
  fold (hold_removed data hold cookie). fold removed. fold next.
  assert (Hh : profile_holds removed = remaining) by reflexivity.
  assert (Hs : selected_profile removed = selected_profile data) by reflexivity.
  assert (Ha : active_profile removed = active_profile data) by reflexivity.
  rewrite Hh, Hs, Ha.
  destruct (Nat.eqb_spec (size remaining) 0) as [Hz|Hnz];
    [destruct (Z.eqb_spec (ph_profile hold) (selected_profile data))
       as [Hsel|Hsel]|]; cbn [andb negb].
  2:{ left. split; [split; [now apply map_size_empty_inv|exact Hsel]|].
      eexists. reflexivity. }
  all: assert (Hnot : ~ back)
    by (intros [He Hd];
        first [contradiction | apply Hnz; now rewrite He, map_size_empty]).
  all: destruct (Z.eqb_spec (ph_profile hold) (active_profile data))
         as [Hact|Hact];
    [destruct (Z.eqb_spec next PPD_PROFILE_UNSET) as [Hu|Hu];
     [|destruct (Z.eqb_spec next (active_profile data)) as [Hn|Hn]]|];
    cbn [andb negb].
  all: first
         [ right; left; split; [exact Hnot|];
           split; [exact Hact|]; split; [exact Hu|]; split; [exact Hn|];
           eexists; reflexivity
         | right; right; split; [exact Hnot|];
           split; [intros; auto; contradiction|]; eexists; reflexivity ].
Qed.

(** C7: the release of a hold of the registry.  The watch on the peer is
    dropped and the peer gets its ProfileReleased signal.  When the
    registry is then empty and the profile of the hold is not the selected
    profile, there is one activation, of the selected profile for reason
    program-hold.  Otherwise, when the profile of the hold is the active
    profile, the effective hold profile is computed on the registry
    without the hold, and there is an activation, of that profile for
    reason program-hold, only if it differs from the active profile (and
    exactly when, besides, it is set).  Otherwise there is no activation.
    Where there is no activation, the active profile, the drivers and the
    actions are as before and only notifications follow.  Where there is
    one, the active profile is afterwards the target when the activation
    succeeds and the previous one when it fails; and when the drivers
    accept the target, it does succeed: the target is the active profile,
    the class method of each bound driver that implements the target has
    run on its hardware, the actions have been called, and the trace
    shows these calls, CPU driver first, between the log line of the
    activation and the notifications.  The selected profile and the stored
    keys stay in every case. *)
Theorem C7_release_profile_hold data (cookie : Z) (hold : ProfileHold) :
  profile_holds data !! cookie = Some hold ->
  let after := release_profile_hold VERSION data cookie in
  let remaining := delete cookie (profile_holds data) in
  let next := effective_hold_profile (hold_removed data hold cookie) in
  profile_holds (hold_removed data hold cookie) = remaining /\
  profile_holds after = remaining /\
  exists new,
    activations (trace after) = (activations (trace data) ++ new)%list /\
    (remaining = ∅ /\ ph_profile hold <> selected_profile data ->
     new = [(selected_profile data,
             PPD_PROFILE_ACTIVATION_REASON_PROGRAM_HOLD)]) /\
    (~ (remaining = ∅ /\ ph_profile hold <> selected_profile data) ->
     ph_profile hold = active_profile data ->
     (new = [(next, PPD_PROFILE_ACTIVATION_REASON_PROGRAM_HOLD)] \/ new = []) /\
     (new <> [] -> next <> active_profile data) /\
     (new <> [] <-> next <> PPD_PROFILE_UNSET /\ next <> active_profile data)) /\
    (~ (remaining = ∅ /\ ph_profile hold <> selected_profile data) ->
     ph_profile hold <> active_profile data ->
     new = []) /\
    selected_profile after = selected_profile data /\
    config after = config data /\
    (new = [] ->
     active_profile after = active_profile data /\
     (forall slot, get_driver slot after = get_driver slot data) /\
     actions after = actions data /\
     exists notifications,
       trace after
       = (trace data
          ++ [UnwatchName cookie;
              ProfileReleased (ph_requester hold)
                (if String.eqb (ph_requester_iface hold)
                               POWER_PROFILES_LEGACY_IFACE_NAME
                 then POWER_PROFILES_LEGACY_DBUS_PATH
                 else POWER_PROFILES_DBUS_PATH)
                (ph_requester_iface hold) cookie]
          ++ notifications)%list /\
       forallb notification_event notifications = true) /\
    (forall target,
        new = [(target, PPD_PROFILE_ACTIVATION_REASON_PROGRAM_HOLD)] ->
        active_profile after
        = (if fst (fst (activate_target_profile
                          (hold_removed data hold cookie) target
                          PPD_PROFILE_ACTIVATION_REASON_PROGRAM_HOLD))
           then target else active_profile data) /\
        (ppd_profile_has_single_flag target = true ->
         drivers_accept data target
           PPD_PROFILE_ACTIVATION_REASON_PROGRAM_HOLD ->
         active_profile after = target /\
         (forall slot,
             get_driver slot after
             = option_map
                 (driver_activated target
                    PPD_PROFILE_ACTIVATION_REASON_PROGRAM_HOLD)
                 (get_driver slot data)) /\
         actions after
         = fst (actions_activate_profile_from 0 (actions data) target) /\
         exists notifications,
           trace after
           = (trace data
              ++ [UnwatchName cookie;
                  ProfileReleased (ph_requester hold)
                    (if String.eqb (ph_requester_iface hold)
                                   POWER_PROFILES_LEGACY_IFACE_NAME
                     then POWER_PROFILES_LEGACY_DBUS_PATH
                     else POWER_PROFILES_DBUS_PATH)
                    (ph_requester_iface hold) cookie]
              ++ LogSettingActiveProfile target
                   PPD_PROFILE_ACTIVATION_REASON_PROGRAM_HOLD
                   (active_profile data)
              :: driver_call CPU target
                   PPD_PROFILE_ACTIVATION_REASON_PROGRAM_HOLD data
              ++ driver_call PLATFORM target
                   PPD_PROFILE_ACTIVATION_REASON_PROGRAM_HOLD data
              ++ snd (actions_activate_profile_from 0 (actions data) target)
              ++ notifications)%list /\
           forallb notification_event notifications = true)).
Proof.
  intros Hl after remaining next.
  split; [reflexivity|].
  set (removed := hold_removed data hold cookie) in *.
  destruct (hold_removed_spec data hold cookie)
    as (Ht & Hh & Ha & Hs & Hc & Hacts & Hdrv).
  fold removed in Ht, Hh, Ha, Hs, Hc, Hacts, Hdrv.
  assert (Hra : activations (trace removed) = activations (trace data)).
  { rewrite Ht, activations_app. cbn. now rewrite app_nil_r. }
  (* what an activation on the way out leaves *)
  assert (Hactivated : forall t mask,
             after
             = send_dbus_event VERSION
                 (snd (activate_target_profile removed t
                         PPD_PROFILE_ACTIVATION_REASON_PROGRAM_HOLD)) mask ->
             profile_holds after = remaining /\
             activations (trace after)
             = (activations (trace data)
                ++ [(t, PPD_PROFILE_ACTIVATION_REASON_PROGRAM_HOLD)])%list /\
             selected_profile after = selected_profile data /\
             config after = config data /\
             active_profile after
             = (if fst (fst (activate_target_profile removed t
                               PPD_PROFILE_ACTIVATION_REASON_PROGRAM_HOLD))
                then t else active_profile data) /\
             (ppd_profile_has_single_flag t = true ->
              drivers_accept data t
                PPD_PROFILE_ACTIVATION_REASON_PROGRAM_HOLD ->
              active_profile after = t /\
              (forall slot,
                  get_driver slot after
                  = option_map
                      (driver_activated t
                         PPD_PROFILE_ACTIVATION_REASON_PROGRAM_HOLD)
                      (get_driver slot data)) /\
              actions after
              = fst (actions_activate_profile_from 0 (actions data) t) /\
              exists notifications,
                trace after
                = (trace removed
                   ++ LogSettingActiveProfile t
                        PPD_PROFILE_ACTIVATION_REASON_PROGRAM_HOLD
                        (active_profile data)
                   :: driver_call CPU t
                        PPD_PROFILE_ACTIVATION_REASON_PROGRAM_HOLD data
                   ++ driver_call PLATFORM t
                        PPD_PROFILE_ACTIVATION_REASON_PROGRAM_HOLD data
                   ++ snd (actions_activate_profile_from 0 (actions data) t)
                   ++ notifications)%list /\
                forallb notification_event notifications = true)).
  { intros t mask ->.
    rewrite profile_holds_send_dbus_event, profile_holds_activate.
    split; [exact Hh|].
    rewrite activations_send_dbus_event, activations_activate, Hra.
    split; [reflexivity|].
    destruct (activate_target_profile_spec removed t
                PPD_PROFILE_ACTIVATION_REASON_PROGRAM_HOLD)
      as (_ & (Fs & _) & Fa).
    destruct (activate_target_profile_no_save removed t
                PPD_PROFILE_ACTIVATION_REASON_PROGRAM_HOLD eq_refl)
      as (_ & Fc).
    pose proof (activate_target_profile_accepted removed t
                  PPD_PROFILE_ACTIVATION_REASON_PROGRAM_HOLD) as Facc.
    cbn zeta in Fs, Fa, Fc, Facc.
    destruct (send_dbus_event_spec VERSION
                (snd (activate_target_profile removed t
                        PPD_PROFILE_ACTIVATION_REASON_PROGRAM_HOLD)) mask)
      as (notifications & -> & Hn).
    cbn [selected_profile config active_profile with_trace].
    split; [now rewrite Fs, Hs|]. split; [now rewrite Fc, Hc|].
    split; [now rewrite Fa, Ha|].
    intros Hsingle Haccept.
    destruct Facc as (_ & Fact & Fdrv & Factions & Ftrace);
      [exact Hsingle| |reflexivity|].
    { intros slot driver method Hd. apply (Haccept slot).
      now rewrite <- Hdrv. }
    split; [exact Fact|].
    split.
    { intros slot. rewrite <- Hdrv, <- Fdrv. now destruct slot. }
    split; [cbn; now rewrite Factions, Hacts|].
    exists notifications. split; [|exact Hn].
    cbn [trace with_trace]. rewrite Ftrace, Ha, Hacts.
    assert (Hcall : forall slot,
               driver_call slot t PPD_PROFILE_ACTIVATION_REASON_PROGRAM_HOLD
                 removed
               = driver_call slot t PPD_PROFILE_ACTIVATION_REASON_PROGRAM_HOLD
                   data)
      by (intros slot; unfold driver_call; now rewrite Hdrv).
    rewrite !Hcall. repeat rewrite <- ?app_assoc, <- ?app_comm_cons.
    reflexivity. }
  (* what a way out without activation leaves *)
  assert (Hquiet : forall mask,
             after = send_dbus_event VERSION removed mask ->
             profile_holds after = remaining /\
             activations (trace after) = activations (trace data) /\
             selected_profile after = selected_profile data /\
             config after = config data /\
             active_profile after = active_profile data /\
             (forall slot, get_driver slot after = get_driver slot data) /\
             actions after = actions data /\
             exists notifications,
               trace after = (trace removed ++ notifications)%list /\
               forallb notification_event notifications = true).
  { intros mask ->.
    rewrite profile_holds_send_dbus_event, activations_send_dbus_event.
    split; [exact Hh|]. split; [exact Hra|].
    destruct (send_dbus_event_spec VERSION removed mask)
      as (notifications & -> & Hn).
    cbn [selected_profile config active_profile actions with_trace].
    split; [exact Hs|]. split; [exact Hc|]. split; [exact Ha|].
    split; [intros slot; rewrite <- Hdrv; now destruct slot|].
    split; [exact Hacts|]. exists notifications. split; [reflexivity|exact Hn]. }
  destruct (release_profile_hold_branches data cookie hold Hl)
    as [(Hback & mask & Hafter)
       |[(Hnot & Hact & Hu & Hn & mask & Hafter)
        |(Hnot & Hstay & mask & Hafter)]];
    fold after removed remaining in Hafter, Hback || idtac.
  - (* back to the selected profile *)
    fold after removed in Hafter.
    destruct (Hactivated _ _ Hafter) as (P1 & P2 & P3 & P4 & P5 & P6).
    split; [exact P1|].
    exists [(selected_profile data, PPD_PROFILE_ACTIVATION_REASON_PROGRAM_HOLD)].
    split; [exact P2|]. split; [reflexivity|].
    split; [intros Hx; contradiction|]. split; [intros Hx; contradiction|].
    split; [exact P3|]. split; [exact P4|]. split; [discriminate|].
    intros target E. injection E as <-. split; [exact P5|].
    intros Hsingle Haccept.
    destruct (P6 Hsingle Haccept) as (Q1 & Q2 & Q3 & notifications & Q4 & Q5).
    split; [exact Q1|]. split; [exact Q2|]. split; [exact Q3|].
    exists notifications. split; [|exact Q5].
    rewrite Q4, Ht. repeat rewrite <- ?app_assoc, <- ?app_comm_cons.
    reflexivity.
  - (* the next hold takes over *)
    fold after removed next in Hafter, Hu, Hn.
    destruct (Hactivated _ _ Hafter) as (P1 & P2 & P3 & P4 & P5 & P6).
    split; [exact P1|].
    exists [(next, PPD_PROFILE_ACTIVATION_REASON_PROGRAM_HOLD)].
    split; [exact P2|]. split; [intros Hx; contradiction|].
    split.
    { intros _ _. split; [now left|]. split; [auto|].
      split; [auto|discriminate]. }
    split; [intros _ Hx; contradiction|].
    split; [exact P3|]. split; [exact P4|]. split; [discriminate|].
    intros target E. injection E as <-. split; [exact P5|].
    intros Hsingle Haccept.
    destruct (P6 Hsingle Haccept) as (Q1 & Q2 & Q3 & notifications & Q4 & Q5).
    split; [exact Q1|]. split; [exact Q2|]. split; [exact Q3|].
    exists notifications. split; [|exact Q5].
    rewrite Q4, Ht. repeat rewrite <- ?app_assoc, <- ?app_comm_cons.
    reflexivity.
  - (* no activation *)
    fold after removed next in Hafter, Hstay.
    destruct (Hquiet _ Hafter)
      as (P1 & P2 & P3 & P4 & P5 & P6 & P7 & notifications & P8 & P9).
    split; [exact P1|]. exists [].
    split; [now rewrite app_nil_r|]. split; [intros Hx; contradiction|].
    split.
    { intros _ Hact. split; [now right|]. split; [congruence|].
      split; [congruence|]. intros [Hu Hn].
      destruct (Hstay Hact); contradiction. }
    split; [reflexivity|].
    split; [exact P3|]. split; [exact P4|].
    split.
    { intros _. split; [exact P5|]. split; [exact P6|]. split; [exact P7|].
      exists notifications. split; [|exact P9].
      rewrite P8, Ht. repeat rewrite <- ?app_assoc, <- ?app_comm_cons.
    reflexivity. }
    intros target E. discriminate E.
Qed.

End Release.

(* ===================================================================== *)
(** ** The stored configuration at start-up                               *)
(* ===================================================================== *)

Section Configuration.
Context {HW : Type} (VERSION : string).
Implicit Types d data : PpdApp HW.

Lemma g_strcmp0_eq_true (a b : option string) :
  a = b -> g_strcmp0_eq a b = true.
Proof. intros <-. destruct a; cbn; [apply String.eqb_refl|reflexivity]. Qed.

(** What [apply_configuration] does once the two name checks pass. *)
Lemma apply_configuration_cases data :
  name_checks_pass data ->
  apply_configuration data
  = match config data !! "Profile" with
    | None => (false, data)
    | Some profile_str =>
        if ppd_profile_from_str profile_str =? PPD_PROFILE_UNSET
        then (false, with_config (delete "Profile" (config data)) data)
        else (true, with_active_profile (ppd_profile_from_str profile_str) data)
    end.
Proof.
  intros [Hc Hp]. unfold apply_configuration.
  destruct (PPD_IS_DRIVER (cpu_driver data)); cbn [andb].
  - rewrite (g_strcmp0_eq_true _ _ (Hc eq_refl)). cbn [negb].
    destruct (PPD_IS_DRIVER (platform_driver data)); cbn [andb]; [|reflexivity].
    rewrite (g_strcmp0_eq_true _ _ (Hp eq_refl)). reflexivity.
  - destruct (PPD_IS_DRIVER (platform_driver data)); cbn [andb]; [|reflexivity].
    rewrite (g_strcmp0_eq_true _ _ (Hp eq_refl)). reflexivity.
Qed.

(** No path of [apply_configuration] writes the selected profile. *)
Lemma apply_configuration_selected data :
  selected_profile (snd (apply_configuration data)) = selected_profile data /\
  trace (snd (apply_configuration data)) = trace data.
Proof.
  unfold apply_configuration.
  repeat (break_inner; cbn [snd]); split; reflexivity.
Qed.

(** The first step of [start_after_probe], the gate on the drivers, changes
    neither the configuration nor the drivers nor the two profiles. *)
Lemma start_after_probe_spec data :
  exists d1,
    config d1 = config data /\ cpu_driver d1 = cpu_driver data /\
    platform_driver d1 = platform_driver data /\
    active_profile d1 = active_profile data /\
    selected_profile d1 = selected_profile data /\
    activations (trace d1) = activations (trace data) /\
    activations (trace (start_after_probe VERSION data))
    = (activations (trace d1)
       ++ [(active_profile (snd (apply_configuration d1)),
            PPD_PROFILE_ACTIVATION_REASON_RESET)])%list /\
    selected_profile (start_after_probe VERSION data) = selected_profile data.
Proof.
  unfold start_after_probe.
  match goal with
  | |- context [snd (apply_configuration ?x)] => set (d1 := x)
  end.
  exists d1.
  assert (H1 : config d1 = config data /\ cpu_driver d1 = cpu_driver data /\
               platform_driver d1 = platform_driver data /\
               active_profile d1 = active_profile data /\
               selected_profile d1 = selected_profile data /\
               activations (trace d1) = activations (trace data)).
  { subst d1. destruct (negb (has_required_drivers data)); cbn.
    - rewrite <- app_assoc, activations_app. cbn. rewrite app_nil_r.
      repeat split.
    - repeat split. }
  destruct H1 as (C & Cc & Cp & A & S & T).
  repeat (split; [assumption|]).
  destruct (apply_configuration_selected d1) as [S2 T2].
  set (d2 := snd (apply_configuration d1)) in *.
  pose proof (activate_target_profile_spec d2 (active_profile d2)
                PPD_PROFILE_ACTIVATION_REASON_RESET) as H3.
  pose proof (activations_activate d2 (active_profile d2)
                PPD_PROFILE_ACTIVATION_REASON_RESET) as H4.
  destruct (activate_target_profile d2 (active_profile d2)
              PPD_PROFILE_ACTIVATION_REASON_RESET) as [[ok e] d3].
  cbn [fst snd] in H3, H4. destruct H3 as (_ & (S3 & _) & _).
  cbn zeta.
  match goal with
  | |- context [send_dbus_event VERSION ?x ?m] =>
      destruct (send_dbus_event_spec VERSION x m) as (t & -> & B);
      assert (S4 : selected_profile x = selected_profile d3)
        by (destruct ok; reflexivity);
      assert (T4 : activations (trace x) = activations (trace d3))
        by (destruct ok; cbn; [reflexivity|];
            rewrite activations_app; cbn; now rewrite app_nil_r)
  end.
  cbn. rewrite activations_app, (activations_notification _ B), app_nil_r.
  rewrite T4, H4, T2, S4, S3, S2. split; [reflexivity|exact S].
Qed.





End Configuration.

(* ===================================================================== *)
(** ** The gate on the drivers at start-up                                *)
(* ===================================================================== *)

Section RequiredDrivers.
Context {HW : Type} (VERSION : string).
Implicit Types d data : PpdApp HW.

(** What [has_required_drivers] tests: some bound driver implements
    balanced or power-saver (one of the two is enough). *)
Lemma has_required_drivers_iff data :
  has_required_drivers data = true <->
  Z.land (bound_profiles data)
         (Z.lor PPD_PROFILE_BALANCED PPD_PROFILE_POWER_SAVER) <> 0.
Proof.
  unfold has_required_drivers, get_profile_available, driver_profile_support,
    bound_profiles.
  destruct (cpu_driver data) as [c|], (platform_driver data) as [p|];
    cbn [PPD_IS_DRIVER negb andb orb ppd_driver_get_profiles];
    rewrite ?Z.land_lor_distr_l, ?Z.lor_0_l, ?Z.lor_0_r.
  - rewrite Z.lor_eq_0_iff.
    destruct (Z.eqb_spec (Z.land (profiles c)
                (Z.lor PPD_PROFILE_BALANCED PPD_PROFILE_POWER_SAVER)) 0);
      destruct (Z.eqb_spec (Z.land (profiles p)
                (Z.lor PPD_PROFILE_BALANCED PPD_PROFILE_POWER_SAVER)) 0);
      cbn; intuition congruence.
  - destruct (Z.eqb_spec (Z.land (profiles c)
                (Z.lor PPD_PROFILE_BALANCED PPD_PROFILE_POWER_SAVER)) 0);
      cbn; intuition congruence.
  - destruct (Z.eqb_spec (Z.land (profiles p)
                (Z.lor PPD_PROFILE_BALANCED PPD_PROFILE_POWER_SAVER)) 0);
      cbn; intuition congruence.
  - cbn. intuition congruence.
Qed.

(** X5: with no driver bound the daemon is told to quit with a failure. *)
Lemma no_driver_fails_start data :
  cpu_driver data = None -> platform_driver data = None ->
  exit_status (start_after_probe VERSION data) = EXIT_FAILURE /\
  quit_requested (start_after_probe VERSION data) = true.
Proof.
  intros Hc Hp. unfold start_after_probe, has_required_drivers.
  rewrite Hc, Hp. cbn [PPD_IS_DRIVER negb andb].
  match goal with
  | |- context [activate_target_profile ?x ?t ?w] =>
      pose proof (activate_target_profile_spec x t w) as H;
      destruct (activate_target_profile x t w) as [[ok e] d3]
  end.
  cbn [fst snd] in H. destruct H as (_ & (_ & _ & _ & _ & Q & R) & _).
  cbn zeta.
  match goal with
  | |- context [send_dbus_event VERSION ?x ?m] =>
      destruct (send_dbus_event_spec VERSION x m) as (t & -> & _);
      assert (Q4 : quit_requested x = quit_requested d3)
        by (destruct ok; reflexivity);
      assert (R4 : ret x = ret d3) by (destruct ok; reflexivity)
  end.
  unfold exit_status. cbn. rewrite Q4, R4, Q, R.
  unfold apply_configuration.
  repeat (break_inner; cbn [snd]); split; reflexivity.
Qed.

(** When the bound drivers implement balanced and power-saver between
    them, the gate lets start-up proceed. *)
Lemma covering_drivers_pass_gate data :
  Z.land (bound_profiles data)
         (Z.lor PPD_PROFILE_BALANCED PPD_PROFILE_POWER_SAVER)
  = Z.lor PPD_PROFILE_BALANCED PPD_PROFILE_POWER_SAVER ->
  has_required_drivers data = true.
Proof.
  intros H. apply has_required_drivers_iff. rewrite H. discriminate.
Qed.

End RequiredDrivers.

(** C3, at an input on which the code departs from the specification: after a
    probe pass that binds one CPU driver implementing balanced only, the
    bound drivers do not cover power-saver, yet [has_required_drivers]
    holds and start-up proceeds: exit status zero, no request to quit. *)
Theorem C3_gate_passes_without_power_saver :
  let data := probe_pass (Fake.app ∅) Scenario.balanced_only_objects in
  let started := start_after_probe Fake.VERSION data in
  PPD_IS_DRIVER (cpu_driver data) = true /\
  bound_profiles data = PPD_PROFILE_BALANCED /\
  get_profile_available data PPD_PROFILE_BALANCED = true /\
  get_profile_available data PPD_PROFILE_POWER_SAVER = false /\
  has_required_drivers data = true /\
  exit_status started = 0 /\
  quit_requested started = false /\
  was_started started = true.
Proof. vm_compute. repeat conj_step; reflexivity. Qed.

(* ===================================================================== *)
(** ** Replies and change notifications                                   *)
(* ===================================================================== *)

Section Replies.
Context {HW : Type} (VERSION : string).
Implicit Types d data : PpdApp HW.

Lemma extends_weaken (P Q : Event -> bool) d d' :
  (forall e, P e = true -> Q e = true) -> extends P d d' -> extends Q d d'.
Proof.
  intros H (tr & E & F). exists tr. split; [exact E|].
  rewrite forallb_forall in *. auto.
Qed.

Lemma extends_activate d t why :
  extends not_reply d (snd (activate_target_profile d t why)).
Proof.
  destruct (activate_target_profile_spec d t why) as ((tr & E & B) & _).
  exists (LogSettingActiveProfile t why (active_profile d) :: tr).
  split; [exact E|]. cbn. rewrite forallb_forall in *.
  intros e He. specialize (B e He). now destruct e.
Qed.

Lemma extends_send_dbus_event d m :
  extends not_reply d (send_dbus_event VERSION d m).
Proof.
  destruct (send_dbus_event_spec VERSION d m) as (tr & -> & B).
  exists tr. split; [reflexivity|]. rewrite forallb_forall in *.
  intros e He. specialize (B e He). now destruct e.
Qed.

(** A mask with a bit of [PROP_ALL] set gives one signal on each of the two
    interfaces. *)
Lemma send_dbus_event_two d mask :
  (mask =? 0) = false -> (Z.land mask PROP_ALL =? 0) = false ->
  exists p1 p2,
    trace (send_dbus_event VERSION d mask)
    = (trace d
       ++ [PropertiesChanged POWER_PROFILES_DBUS_PATH
             POWER_PROFILES_IFACE_NAME p1;
           PropertiesChanged POWER_PROFILES_LEGACY_DBUS_PATH
             POWER_PROFILES_LEGACY_IFACE_NAME p2])%list.
Proof.
  intros H1 H2. unfold send_dbus_event, send_dbus_event_iface.
  rewrite !H1, !H2. eexists _, _. cbn [emit trace with_trace].
  rewrite <- app_assoc. reflexivity.
Qed.

Lemma release_events_not_reply (l : list (Z * ProfileHold)) :
  forallb not_reply (release_events l) = true.
Proof. induction l as [|kv l IH]; [reflexivity|]. cbn. exact IH. Qed.

(** [release_profile_hold] answers no call. *)
Lemma release_profile_hold_no_reply d cookie :
  extends not_reply d (release_profile_hold VERSION d cookie).
Proof.
  unfold release_profile_hold.
  destruct (profile_holds d !! cookie) as [hold|]; [|apply extends_refl].
  fold (hold_removed d hold cookie).
  assert (H1 : extends not_reply d (hold_removed d hold cookie)).
  { eexists [_; _]. split; [cbn; now rewrite <- app_assoc|reflexivity]. }
  repeat break_inner;
    (eapply extends_trans; [exact H1|]);
    first [ apply extends_send_dbus_event
          | eapply extends_trans;
            [apply extends_activate|apply extends_send_dbus_event] ].
Qed.

(** [set_active_profile] answers no call either: GDBus does, afterwards. *)
Lemma set_active_profile_no_reply d profile :
  extends not_reply d (snd (set_active_profile VERSION d profile)).
Proof.
  unfold set_active_profile.
  destruct (ppd_profile_from_str profile =? PPD_PROFILE_UNSET);
    [apply extends_refl|].
  destruct (negb (get_profile_available d (ppd_profile_from_str profile)));
    [apply extends_refl|].
  destruct (ppd_profile_from_str profile =? active_profile d);
    [apply extends_refl|].
  assert (H1 : extends not_reply d (release_all_profile_holds d)).
  { destruct (release_all_profile_holds_spec d) as (E & _).
    eexists. split; [exact E|apply release_events_not_reply]. }
  destruct (negb (size (profile_holds d) =? 0)%nat).
  - pose proof (extends_activate (release_all_profile_holds d)
                  (ppd_profile_from_str profile)
                  PPD_PROFILE_ACTIVATION_REASON_USER) as H2.
    destruct (activate_target_profile (release_all_profile_holds d)
                (ppd_profile_from_str profile)
                PPD_PROFILE_ACTIVATION_REASON_USER) as [[ok e] d2].
    cbn [snd] in H2. destruct ok; cbn [negb snd].
    + eapply extends_trans; [exact H1|]. eapply extends_trans; [exact H2|].
      apply (extends_send_dbus_event
               (with_selected_profile (ppd_profile_from_str profile) d2)).
    + eapply extends_trans; [exact H1|exact H2].
  - pose proof (extends_activate d (ppd_profile_from_str profile)
                  PPD_PROFILE_ACTIVATION_REASON_USER) as H2.
    destruct (activate_target_profile d (ppd_profile_from_str profile)
                PPD_PROFILE_ACTIVATION_REASON_USER) as [[ok e] d2].
    cbn [snd] in H2. destruct ok; cbn [negb snd]; [|exact H2].
    eapply extends_trans; [exact H2|].
    apply (extends_send_dbus_event
             (with_selected_profile (ppd_profile_from_str profile) d2)).
Qed.

(** X3: ReleaseProfile: whatever the call does comes before its reply. *)
Lemma release_profile_reply_last data cookie invocation :
  exists tr reply,
    trace (release_profile VERSION data cookie invocation)
    = (trace data ++ tr ++ [reply])%list /\
    forallb not_reply tr = true /\ is_reply reply = true.
Proof.
  unfold release_profile.
  destruct (profile_holds data !! cookie) as [hold|] eqn:Hl.
  - destruct (release_profile_hold_no_reply data cookie) as (tr & E & F).
    exists tr, (ReturnValue invocation None). cbn. rewrite E, <- app_assoc. auto.
  - exists [], (ReturnError invocation
                  {| err_code := G_DBUS_ERROR_INVALID_ARGS;
                     message := "No hold with cookie  " +:+ printf_d cookie |}).
    cbn. auto.
Qed.

(** Setting ActiveProfile: whatever the call does comes before its reply. *)
Lemma properties_set_reply_last data property_name value invocation :
  exists tr last,
    trace (properties_set VERSION data property_name value invocation)
    = (trace data ++ tr ++ [last])%list /\
    forallb not_reply tr = true /\
    (is_reply last = true \/ last = LogCritical "error != NULL").
Proof.
  unfold properties_set, handle_set_property.
  destruct (negb (String.eqb property_name "ActiveProfile")).
  { eexists [], _. cbn. split; [reflexivity|]. auto. }
  destruct (check_action_permission data (sender invocation)
              (POWER_PROFILES_POLICY_NAMESPACE +:+ ".switch-profile")).
  { eexists [], _. cbn. split; [reflexivity|]. auto. }
  pose proof (set_active_profile_no_reply data value) as (tr & E & F).
  destruct (set_active_profile VERSION data value) as [[ok e] d2].
  cbn [snd] in E. exists tr.
  destruct ok; [|destruct e]; eexists; cbn; rewrite E, <- app_assoc;
    (split; [reflexivity|]); auto.
Qed.

(** X4: HoldProfile: every accepted call is answered before it is acted on;
    the change notification comes after the reply. *)
Lemma hold_profile_reply_first data profile_name why app_id invocation :
  let profile := ppd_profile_from_str profile_name in
  profile = PPD_PROFILE_PERFORMANCE \/ profile = PPD_PROFILE_POWER_SAVER ->
  get_profile_available data profile = true ->
  exists tr notification,
    trace (hold_profile VERSION data (profile_name, why, app_id) invocation)
    = (trace data
       ++ WatchName (sender invocation) (next_watch_id data)
       :: ReturnValue invocation (Some (next_watch_id data))
       :: tr ++ [notification])%list /\
    is_properties_changed notification = true.
Proof.
  intros profile Hp Ha. unfold hold_profile. fold profile.
  assert (Hc : negb (profile =? PPD_PROFILE_PERFORMANCE)
               && negb (profile =? PPD_PROFILE_POWER_SAVER) = false).
  { destruct Hp as [->| ->]; reflexivity. }
  rewrite Hc, Ha. cbn [negb g_bus_watch_name_on_connection].
  set (d1 := emit (ReturnValue invocation (Some (next_watch_id data))) _).
  assert (E1 : trace d1
               = (trace data
                  ++ [WatchName (sender invocation) (next_watch_id data);
                      ReturnValue invocation (Some (next_watch_id data))])%list).
  { subst d1. cbn. now rewrite <- app_assoc. }
  assert (Hsend : forall d mask,
             mask = PROP_ACTIVE_PROFILE_HOLDS \/
             mask = Z.lor PROP_ACTIVE_PROFILE_HOLDS PROP_ACTIVE_PROFILE ->
             exists e1 e2,
               trace (send_dbus_event VERSION d mask) = (trace d ++ [e1; e2])%list
               /\ is_properties_changed e2 = true).
  { intros d mask Hm.
    destruct (send_dbus_event_two d mask) as (p1 & p2 & E).
    - destruct Hm as [->| ->]; reflexivity.
    - destruct Hm as [->| ->]; reflexivity.
    - eexists _, _. split; [exact E|reflexivity]. }
  assert (Hext : forall d, extends not_reply d1 d ->
             forall mask,
               mask = PROP_ACTIVE_PROFILE_HOLDS \/
               mask = Z.lor PROP_ACTIVE_PROFILE_HOLDS PROP_ACTIVE_PROFILE ->
               exists tr notification,
                 trace (send_dbus_event VERSION d mask)
                 = (trace data
                    ++ WatchName (sender invocation) (next_watch_id data)
                    :: ReturnValue invocation (Some (next_watch_id data))
                    :: tr ++ [notification])%list /\
                 is_properties_changed notification = true).
  { intros d (tr & E & _) mask Hm.
    destruct (Hsend d mask Hm) as (e1 & e2 & Es & Hn).
    exists (tr ++ [e1])%list, e2. split; [|exact Hn].
    rewrite Es, E, E1. rewrite <- !app_assoc. reflexivity. }
  repeat break_inner.
  - apply Hext; [apply extends_activate|now right].
  - apply Hext; [apply extends_refl|now left].
  - apply Hext; [apply extends_refl|now left].
Qed.

End Replies.

(** C8, at an input on which the code departs from the specification: a
    peer takes a hold for performance while balanced is active.  The reply
    with the cookie is the second event of the call; the two
    PropertiesChanged signals for the new hold and the new active profile
    are the last ones, after the reply. *)
Theorem C8_hold_profile_replies_before_it_notifies :
  let data := Fake.started 0 in
  let after :=
    hold_profile Fake.VERSION data ("performance", "video", "vlc")
      (Fake.peer ":1.42") in
  trace data = [] /\
  List.map (fun e => (is_reply e, is_properties_changed e)) (trace after)
  = [(false, false); (true, false); (false, false); (false, false);
     (false, false); (false, true); (false, true)] /\
  nth_error (trace after) 1 = Some (ReturnValue (Fake.peer ":1.42") (Some 1)) /\
  reply_after_notifications (trace after) = false /\
  active_profile after = PPD_PROFILE_PERFORMANCE.
Proof. vm_compute. repeat conj_step; reflexivity. Qed.

(* ===================================================================== *)
(** ** The published reason of degraded performance                       *)
(* ===================================================================== *)

Section Degraded.
Context {HW : Type}.
Implicit Types d data : PpdApp HW.

Lemma get_driver_g_object_set slot w data :
  get_driver slot (g_object_set slot w data)
  = option_map (fun drv => ppd_driver_set_property drv w)
               (get_driver slot data).
Proof. destruct slot; reflexivity. Qed.

(** C10: the published string is the comma-join of the reasons of the
    drivers that advertise performance and have a reason set, CPU first.
    So it is empty when neither bound driver advertises performance,
    whatever their reasons; a write to the reason of a driver that does not
    advertise performance does not change it; and a reason written as the
    empty string is stored as no reason, so that the published string is the
    one published for a driver without reason (no empty item, no comma). *)
Theorem C10_performance_degraded data :
  get_performance_degraded data = String.concat "," (published_reasons data) /\
  (driver_profile_support (cpu_driver data) PPD_PROFILE_PERFORMANCE = false ->
   driver_profile_support (platform_driver data) PPD_PROFILE_PERFORMANCE = false ->
   get_performance_degraded data = "") /\
  (forall slot v,
      driver_profile_support (get_driver slot data) PPD_PROFILE_PERFORMANCE
      = false ->
      get_performance_degraded
        (g_object_set slot (PROP_PERFORMANCE_DEGRADED v) data)
      = get_performance_degraded data) /\
  (forall slot,
      let cleared :=
        g_object_set slot (PROP_PERFORMANCE_DEGRADED (Some "")) data in
      ppd_driver_get_performance_degraded (get_driver slot cleared) = None /\
      cleared = g_object_set slot (PROP_PERFORMANCE_DEGRADED None) data /\
      get_performance_degraded cleared
      = String.concat ","
          (published_reasons
             (g_object_set slot (PROP_PERFORMANCE_DEGRADED None) data))).
Proof.
  assert (Hjoin : forall d : PpdApp HW,
             get_performance_degraded d
             = String.concat "," (published_reasons d)).
  { intros d. unfold get_performance_degraded, published_reasons,
      driver_profile_support.
    destruct (cpu_driver d) as [c|], (platform_driver d) as [p|];
      cbn [PPD_IS_DRIVER negb ppd_driver_get_profiles
             ppd_driver_get_performance_degraded];
      repeat break_inner; reflexivity. }
  split; [apply Hjoin|]. split; [|split].
  - intros Hc Hp. unfold get_performance_degraded. now rewrite Hc, Hp.
  - intros slot v Hs. unfold get_performance_degraded.
    destruct slot; cbn [get_driver] in Hs;
      destruct data as [q ws r dbg cp cfg ap sp pd c p acts holds nw nid se au tr];
      cbn in Hs |- *.
    + destruct c as [c|]; cbn in Hs |- *; [|reflexivity].
      unfold driver_profile_support in *. cbn in Hs |- *. now rewrite Hs.
    + destruct p as [p|]; cbn in Hs |- *; [|reflexivity].
      unfold driver_profile_support in *. cbn in Hs |- *. now rewrite Hs.
  - intros slot cleared.
    assert (E : cleared = g_object_set slot (PROP_PERFORMANCE_DEGRADED None) data)
      by reflexivity.
    split; [|split; [exact E|rewrite E; apply Hjoin]].
    subst cleared. rewrite get_driver_g_object_set.
    destruct (get_driver slot data); reflexivity.
Qed.

End Degraded.

(* ===================================================================== *)
(** ** Profile names                                                      *)
(* ===================================================================== *)

(** The profile names are told apart by their first characters. *)
Lemma from_str_unknown (s : string) :
  s <> "power-saver" -> s <> "balanced" -> s <> "performance" ->
  ppd_profile_from_str s = PPD_PROFILE_UNSET.
Proof.
  intros Hps Hb Hp.
  unfold ppd_profile_from_str, g_flags_get_value_by_nick, ppd_profile_class.
  cbn [List.find value_nick].
  destruct (String.eqb_spec s "power-saver") as [->|_]; [congruence|].
  destruct (String.eqb_spec s "balanced") as [->|_]; [congruence|].
  destruct (String.eqb_spec s "performance") as [->|_]; [congruence|].
  reflexivity.
Qed.



(** C9: the names of the three profiles round-trip through
    [ppd_profile_to_str] and [ppd_profile_from_str]; the unset profile prints
    as the empty string; every string that is not one of the three names
    parses to the unset profile. *)
Theorem C9_profile_names_roundtrip :
  (forall p : Z,
      p = PPD_PROFILE_POWER_SAVER \/ p = PPD_PROFILE_BALANCED \/
      p = PPD_PROFILE_PERFORMANCE ->
      ppd_profile_from_str (ppd_profile_to_str p) = p) /\
  ppd_profile_to_str PPD_PROFILE_UNSET = "" /\
  (forall s : string,
      (forall p : Z,
          p = PPD_PROFILE_POWER_SAVER \/ p = PPD_PROFILE_BALANCED \/
          p = PPD_PROFILE_PERFORMANCE -> s <> ppd_profile_to_str p) ->
      ppd_profile_from_str s = PPD_PROFILE_UNSET).
Proof.
  split; [|split].
  - intros p [-> | [-> | ->]]; reflexivity.
  - reflexivity.
  - intros s Hs. apply from_str_unknown.
    + apply (Hs PPD_PROFILE_POWER_SAVER); auto.
    + apply (Hs PPD_PROFILE_BALANCED); auto.
    + apply (Hs PPD_PROFILE_PERFORMANCE); auto.
Qed.

(* ===================================================================== *)
(** ** The theorems on the concrete machine                               *)
(* ===================================================================== *)

Lemma C1_witness :
  let r := activate_target_profile Scenario.bound PPD_PROFILE_PERFORMANCE
             PPD_PROFILE_ACTIVATION_REASON_USER in
  fst (fst r) = false /\
  snd (fst r)
  = Some {| err_code := BACKEND_ERROR 5;
            message := "Failed to activate platform driver 'platform_profile': write failed" |} /\
  active_profile (snd r) = PPD_PROFILE_BALANCED /\
  trace (snd r)
  = [LogSettingActiveProfile PPD_PROFILE_PERFORMANCE
       PPD_PROFILE_ACTIVATION_REASON_USER PPD_PROFILE_BALANCED;
     DriverActivateProfile CPU PPD_PROFILE_PERFORMANCE
       PPD_PROFILE_ACTIVATION_REASON_USER;
     DriverActivateProfile PLATFORM PPD_PROFILE_PERFORMANCE
       PPD_PROFILE_ACTIVATION_REASON_USER;
     DriverActivateProfile CPU PPD_PROFILE_BALANCED
       PPD_PROFILE_ACTIVATION_REASON_INTERNAL].
Proof.
  destruct (C1_platform_failure_rolls_back Scenario.bound
              PPD_PROFILE_PERFORMANCE PPD_PROFILE_ACTIVATION_REASON_USER
              Scenario.cpu0 Scenario.platform0
              (Fake.method 0) (Fake.method PPD_PROFILE_PERFORMANCE)
              (Fake.io_error "write failed")
              eq_refl eq_refl eq_refl eq_refl eq_refl eq_refl eq_refl eq_refl
              eq_refl eq_refl)
    as (H1 & H2 & H3 & _ & _ & _ & _ & H4).
  exact (conj H1 (conj H2 (conj H3 H4))).
Defined.

Lemma C2_witness :
  let r := set_active_profile Fake.VERSION Scenario.held "power-saver" in
  selected_profile (snd r) = PPD_PROFILE_POWER_SAVER /\
  active_profile (snd r) = PPD_PROFILE_POWER_SAVER /\
  profile_holds (snd r) = ∅ /\
  count_events (released_of 1) (trace (snd r))
  = S (count_events (released_of 1) (trace Scenario.held)) /\
  count_events (released_to Scenario.the_hold 1) (trace (snd r))
  = S (count_events (released_to Scenario.the_hold 1) (trace Scenario.held)).
Proof.
  destruct (C2_user_set_releases_holds Fake.VERSION Scenario.held "power-saver")
    as (S & A & H & C & _).
  - vm_compute. discriminate.
  - vm_compute. reflexivity.
  - vm_compute. discriminate.
  - vm_compute. reflexivity.
  - destruct (C 1 Scenario.the_hold) as [C1 C2]; [vm_compute; reflexivity|].
    exact (conj S (conj A (conj H (conj C1 C2)))).
Defined.

(** C2, as stated, fails when the requested profile is the active one: a
    peer holds performance (active performance, selected balanced) and the
    user sets performance.  The set succeeds, yet the selected profile is
    not the active one, the hold is still in the registry and no
    ProfileReleased signal was sent. *)
Lemma C2_counterexample :
  let data := Scenario.held in
  let r := set_active_profile Fake.VERSION data "performance" in
  ppd_profile_from_str "performance" = PPD_PROFILE_PERFORMANCE /\
  get_profile_available data PPD_PROFILE_PERFORMANCE = true /\
  fst (fst r) = true /\
  selected_profile (snd r) = PPD_PROFILE_BALANCED /\
  active_profile (snd r) = PPD_PROFILE_PERFORMANCE /\
  selected_profile (snd r) <> active_profile (snd r) /\
  profile_holds (snd r) !! 1 = Some Scenario.the_hold /\
  profile_holds (snd r) <> ∅ /\
  count_events (released_of 1) (trace (snd r))
  = count_events (released_of 1) (trace data).
Proof.
  cbv zeta.
  assert (H : profile_holds
                (snd (set_active_profile Fake.VERSION Scenario.held "performance"))
              !! 1 = Some Scenario.the_hold) by (vm_compute; reflexivity).
  do 5 (split; [vm_compute; reflexivity|]).
  split; [vm_compute; discriminate|].
  split; [exact H|].
  split; [|vm_compute; reflexivity].
  intros E. rewrite E, lookup_empty in H. discriminate H.
Qed.

Lemma C5_witness :
  set_active_profile Fake.VERSION (Fake.started 0) "balanced"
  = (true, None, Fake.started 0).
Proof.
  apply (C5_set_current_profile_changes_nothing Fake.VERSION (Fake.started 0)
           "balanced").
  - vm_compute. discriminate.
  - vm_compute. reflexivity.
  - vm_compute. reflexivity.
Defined.

Lemma C7_witness :
  let after := release_profile_hold Fake.VERSION Scenario.held 1 in
  profile_holds after = delete 1 (profile_holds Scenario.held) /\
  (exists new,
      activations (trace after)
      = (activations (trace Scenario.held) ++ new)%list /\
      new = [(PPD_PROFILE_BALANCED, PPD_PROFILE_ACTIVATION_REASON_PROGRAM_HOLD)]) /\
  active_profile Scenario.held = PPD_PROFILE_PERFORMANCE /\
  active_profile after = PPD_PROFILE_BALANCED /\
  option_map drv_hw (get_driver CPU Scenario.held)
  = Some PPD_PROFILE_PERFORMANCE /\
  option_map drv_hw (get_driver CPU after) = Some PPD_PROFILE_BALANCED.
Proof.
  destruct (C7_release_profile_hold Fake.VERSION Scenario.held 1
              Scenario.the_hold)
    as (_ & H & new & E & N & _ & _ & _ & _ & _ & Hactivated).
  - vm_compute. reflexivity.
  - assert (Hnew : new = [(PPD_PROFILE_BALANCED,
                           PPD_PROFILE_ACTIVATION_REASON_PROGRAM_HOLD)]).
    { apply N. split.
      + apply map_empty. intros i.
        destruct (decide (i = 1)) as [->|Hne];
          [apply lookup_delete_eq|rewrite lookup_delete_ne by congruence].
        destruct (Scenario.held.(profile_holds) !! i) eqn:Hi; [|reflexivity].
        exfalso.
        assert (Hd : dom (profile_holds Scenario.held) = {[1]})
          by (vm_compute; reflexivity).
        assert (Hin : i ∈ dom (profile_holds Scenario.held))
          by (apply elem_of_dom; eauto).
        rewrite Hd in Hin. apply elem_of_singleton in Hin. congruence.
      + vm_compute. discriminate. }
    destruct (Hactivated PPD_PROFILE_BALANCED Hnew) as (_ & Haccepted).
    destruct Haccepted as (Hactive & Hdrivers & _).
    + reflexivity.
    + intros slot driver method Hd _ Hm.
      destruct slot; vm_compute in Hd; injection Hd as <-;
        vm_compute in Hm; injection Hm as <-; vm_compute; reflexivity.
    + split; [exact H|]. split; [exists new; split; [exact E|exact Hnew]|].
      split; [vm_compute; reflexivity|]. split; [exact Hactive|].
      split; [vm_compute; reflexivity|].
      rewrite (Hdrivers CPU). vm_compute. reflexivity.
Defined.



(* ===================================================================== *)
(** ** Further properties of the engine                                   *)
(* ===================================================================== *)

(** X1: an activation commits or keeps: it leaves the selected profile, the
    holds and the name watches alone, and the active profile is the target
    when it returns success and the previous one when it fails. *)
Theorem activation_commits_or_keeps {HW : Type} (data : PpdApp HW)
    (target : PpdProfile) (why : PpdProfileActivationReason) :
  let r := activate_target_profile data target why in
  selected_profile (snd r) = selected_profile data /\
  profile_holds (snd r) = profile_holds data /\
  name_watches (snd r) = name_watches data /\
  active_profile (snd r)
  = (if fst (fst r) then target else active_profile data) /\
  activations (trace (snd r))
  = (activations (trace data) ++ [(target, why)])%list.
Proof.
  cbn zeta.
  destruct (activate_target_profile_spec data target why)
    as (_ & (S & H & W & _) & A).
  pose proof (activations_activate data target why) as T.
  auto.
Qed.

(** X2: for the reasons reset, resume and program-hold an activation writes
    no state file and leaves the stored keys as they are. *)
Theorem transient_reasons_write_no_state {HW : Type} (data : PpdApp HW)
    (target : PpdProfile) (why : PpdProfileActivationReason) :
  why = PPD_PROFILE_ACTIVATION_REASON_RESET \/
  why = PPD_PROFILE_ACTIVATION_REASON_RESUME \/
  why = PPD_PROFILE_ACTIVATION_REASON_PROGRAM_HOLD ->
  let r := activate_target_profile data target why in
  config (snd r) = config data /\
  count_events is_save_to_file (trace (snd r))
  = count_events is_save_to_file (trace data).
Proof.
  intros Hwhy. cbn zeta.
  destruct (activate_target_profile_no_save data target why)
    as ((tr & E & B) & C).
  { destruct Hwhy as [->|[->| ->]]; reflexivity. }
  split; [exact C|]. rewrite E, count_events_app.
  change (LogSettingActiveProfile target why (active_profile data) :: tr)
    with ([LogSettingActiveProfile target why (active_profile data)] ++ tr)%list.
  rewrite count_events_app.
  rewrite (count_events_none is_save_to_file call_event tr);
    [cbn; lia| |exact B].
  intros e. now destruct e.
Qed.

Lemma transient_reasons_write_no_state_witness :
  let r := activate_target_profile (Fake.started 0) PPD_PROFILE_PERFORMANCE
             PPD_PROFILE_ACTIVATION_REASON_PROGRAM_HOLD in
  config (snd r) = config (Fake.started 0) /\
  count_events is_save_to_file (trace (snd r))
  = count_events is_save_to_file (trace (Fake.started 0)).
Proof.
  apply (transient_reasons_write_no_state (Fake.started 0)
           PPD_PROFILE_PERFORMANCE PPD_PROFILE_ACTIVATION_REASON_PROGRAM_HOLD).
  right. right. reflexivity.
Defined.

(** What the gate on the drivers tests: that some bound driver
    implements balanced or power-saver, one of the two being enough. *)
Theorem required_drivers_gate_tests_one_bit {HW : Type} (data : PpdApp HW) :
  has_required_drivers data = true <->
  Z.land (bound_profiles data)
         (Z.lor PPD_PROFILE_BALANCED PPD_PROFILE_POWER_SAVER) <> 0.
Proof. apply has_required_drivers_iff. Qed.

Lemma hold_profile_reply_first_witness :
  exists tr notification,
    trace (hold_profile Fake.VERSION (Fake.started 0)
             ("power-saver", "battery", "updater") (Fake.peer ":1.7"))
    = (trace (Fake.started 0)
       ++ WatchName ":1.7" 1
       :: ReturnValue (Fake.peer ":1.7") (Some 1)
       :: tr ++ [notification])%list /\
    is_properties_changed notification = true.
Proof.
  apply (hold_profile_reply_first Fake.VERSION (Fake.started 0)
           "power-saver" "battery" "updater" (Fake.peer ":1.7")).
  - right. reflexivity.
  - vm_compute. reflexivity.
Defined.

Lemma hold_profile_keeps_holds_wf_witness :
  holds_wf (profile_holds Scenario.held).
Proof.
  apply (hold_profile_keeps_holds_wf Fake.VERSION (Fake.started 0)
           ("performance", "video", "vlc") (Fake.peer ":1.42")).
  intros cookie hold H. vm_compute in H. discriminate H.
Defined.

Lemma no_driver_fails_start_witness :
  exit_status (start_after_probe Fake.VERSION (Fake.app ∅)) = EXIT_FAILURE /\
  quit_requested (start_after_probe Fake.VERSION (Fake.app ∅)) = true.
Proof.
  apply (no_driver_fails_start Fake.VERSION (Fake.app ∅)); reflexivity.
Defined.

(** The scenario of the dominant power-saver hold: peer A holds
    performance, peer B holds power-saver, and power-saver is active; B
    releases and performance is active; A releases and the selected profile,
    balanced, is active again, with no hold left.  Each peer got the
    ProfileReleased signal for its cookie, once. *)
Theorem dominant_power_saver_hold_scenario :
  let a := Fake.peer ":1.42" in
  let b := Fake.peer ":1.43" in
  let s1 := handle_method_call Fake.VERSION (Fake.started 0)
              (HoldProfile "performance" "video" "vlc") a in
  let s2 := handle_method_call Fake.VERSION s1
              (HoldProfile "power-saver" "battery" "updater") b in
  let s3 := handle_method_call Fake.VERSION s2 (ReleaseProfile 2) b in
  let s4 := handle_method_call Fake.VERSION s3 (ReleaseProfile 1) a in
  active_profile s1 = PPD_PROFILE_PERFORMANCE /\
  active_profile s2 = PPD_PROFILE_POWER_SAVER /\
  active_profile s3 = PPD_PROFILE_PERFORMANCE /\
  active_profile s4 = PPD_PROFILE_BALANCED /\
  selected_profile s4 = PPD_PROFILE_BALANCED /\
  size (profile_holds s4) = 0%nat /\
  List.filter (fun e => negb (not_released e)) (trace s4)
  = [ProfileReleased ":1.43" POWER_PROFILES_DBUS_PATH
       POWER_PROFILES_IFACE_NAME 2;
     ProfileReleased ":1.42" POWER_PROFILES_DBUS_PATH
       POWER_PROFILES_IFACE_NAME 1] /\
  activations (trace s4)
  = [(PPD_PROFILE_PERFORMANCE, PPD_PROFILE_ACTIVATION_REASON_PROGRAM_HOLD);
     (PPD_PROFILE_POWER_SAVER, PPD_PROFILE_ACTIVATION_REASON_PROGRAM_HOLD);
     (PPD_PROFILE_PERFORMANCE, PPD_PROFILE_ACTIVATION_REASON_PROGRAM_HOLD);
     (PPD_PROFILE_BALANCED, PPD_PROFILE_ACTIVATION_REASON_PROGRAM_HOLD)].
Proof. vm_compute. repeat conj_step; reflexivity. Qed.

(** The scenario of a user set during a hold: peer A holds performance
    (cookie 1) and the user sets power-saver.  A gets ProfileReleased for
    its cookie before the activation for reason user; afterwards the
    selected and the active profile are power-saver, no hold is left, and
    the state file names power-saver. *)
Theorem user_set_during_hold_scenario :
  let s := properties_set Fake.VERSION Scenario.held "ActiveProfile"
             "power-saver" (Fake.peer ":1.9") in
  active_profile s = PPD_PROFILE_POWER_SAVER /\
  selected_profile s = PPD_PROFILE_POWER_SAVER /\
  size (profile_holds s) = 0%nat /\
  config s !! "Profile" = Some "power-saver" /\
  firstn 3 (skipn (length (trace Scenario.held)) (trace s))
  = [ProfileReleased ":1.42" POWER_PROFILES_DBUS_PATH
       POWER_PROFILES_IFACE_NAME 1;
     UnwatchName 1;
     LogSettingActiveProfile PPD_PROFILE_POWER_SAVER
       PPD_PROFILE_ACTIVATION_REASON_USER PPD_PROFILE_PERFORMANCE] /\
  last (trace s) = Some (ReturnValue (Fake.peer ":1.9") None).
Proof. vm_compute. repeat conj_step; reflexivity. Qed.

(* ===================================================================== *)
(** ** The invariant of the arbitration state                             *)
(* ===================================================================== *)

Section Invariant.
Context {HW : Type} (VERSION : string).
Implicit Types d data : PpdApp HW.

Lemma single_flag_cases (p : PpdProfile) :
  ppd_profile_has_single_flag p = true <->
  p = PPD_PROFILE_POWER_SAVER \/ p = PPD_PROFILE_BALANCED \/
  p = PPD_PROFILE_PERFORMANCE.
Proof.
  split.
  - unfold ppd_profile_has_single_flag, g_flags_get_first_value,
      ppd_profile_class, PPD_PROFILE_POWER_SAVER, PPD_PROFILE_BALANCED,
      PPD_PROFILE_PERFORMANCE.
    change (Z.shiftl 1 0) with 1. change (Z.shiftl 1 1) with 2.
    change (Z.shiftl 1 2) with 4.
    cbv beta iota delta [List.find value].
    change (1 =? 0) with false. change (2 =? 0) with false.
    change (4 =? 0) with false. cbv beta iota delta [negb andb].
    destruct (p =? 0) eqn:E0; [discriminate|].
    destruct (Z.land 1 p =? 1).
    { intros H%Z.eqb_eq. now left. }
    destruct (Z.land 2 p =? 2).
    { intros H%Z.eqb_eq. right. now left. }
    destruct (Z.land 4 p =? 4).
    { intros H%Z.eqb_eq. right. now right. }
    discriminate.
  - intros [-> | [-> | ->]]; reflexivity.
Qed.

Lemma from_str_single_flag (s : string) :
  ppd_profile_from_str s <> PPD_PROFILE_UNSET ->
  ppd_profile_has_single_flag (ppd_profile_from_str s) = true.
Proof.
  unfold ppd_profile_from_str, g_flags_get_value_by_nick. cbn.
  repeat (break_inner; cbn); try reflexivity. intros H. now elim H.
Qed.

Lemma loop_wf (l : list (Z * ProfileHold)) acc :
  (forall kv, kv ∈ l ->
     ph_profile (snd kv) = PPD_PROFILE_PERFORMANCE \/
     ph_profile (snd kv) = PPD_PROFILE_POWER_SAVER) ->
  effective_hold_profile_loop l acc = acc \/
  effective_hold_profile_loop l acc = PPD_PROFILE_PERFORMANCE \/
  effective_hold_profile_loop l acc = PPD_PROFILE_POWER_SAVER.
Proof.
  revert acc. induction l as [|kv l IH]; intros acc Hwf; cbn; [now left|].
  destruct (ph_profile (snd kv) =? PPD_PROFILE_POWER_SAVER) eqn:E.
  - right. now right.
  - right. destruct (IH (ph_profile (snd kv))) as [H | H].
    + intros x Hx. apply Hwf. now right.
    + rewrite H. destruct (Hwf kv) as [Hk | Hk]; [now left| |].
      * now left.
      * apply Z.eqb_neq in E. now elim E.
    + exact H.
Qed.

Lemma effective_hold_profile_wf d :
  holds_wf (profile_holds d) ->
  effective_hold_profile d = PPD_PROFILE_UNSET \/
  effective_hold_profile d = PPD_PROFILE_PERFORMANCE \/
  effective_hold_profile d = PPD_PROFILE_POWER_SAVER.
Proof.
  intros Hwf. apply loop_wf. intros [c h] Hin. cbn.
  apply elem_of_map_to_list in Hin. exact (Hwf c h Hin).
Qed.

Lemma effective_hold_profile_ext d d' :
  profile_holds d' = profile_holds d ->
  effective_hold_profile d' = effective_hold_profile d.
Proof. unfold effective_hold_profile. now intros ->. Qed.

Lemma fields_send_dbus_event d m :
  frame d (send_dbus_event VERSION d m) /\
  active_profile (send_dbus_event VERSION d m) = active_profile d.
Proof.
  destruct (send_dbus_event_spec VERSION d m) as (t & -> & _).
  split; [repeat split|reflexivity].
Qed.

Lemma fields_activate d t why :
  let r := activate_target_profile d t why in
  frame d (snd r) /\
  (active_profile (snd r) = t \/ active_profile (snd r) = active_profile d).
Proof.
  destruct (activate_target_profile_spec d t why) as (_ & F & A).
  split; [exact F|]. cbn zeta. rewrite A.
  destruct (fst (fst _)); auto.
Qed.

Lemma release_profile_hold_shape d cookie hold :
  profile_holds d !! cookie = Some hold ->
  let d1 := hold_removed d hold cookie in
  exists X m,
    release_profile_hold VERSION d cookie = send_dbus_event VERSION X m /\
    (X = d1 \/
     exists t,
       X = snd (activate_target_profile d1 t
                  PPD_PROFILE_ACTIVATION_REASON_PROGRAM_HOLD) /\
       (t = selected_profile d \/
        (t = effective_hold_profile d1 /\ t <> PPD_PROFILE_UNSET))).
Proof.
  intros Hl d1. unfold release_profile_hold. rewrite Hl.
  fold (hold_removed d hold cookie). fold d1.
  destruct ((size (profile_holds d1) =? 0)%nat
            && negb (ph_profile hold =? selected_profile d1)).
  { eexists _, _. split; [reflexivity|]. right. eexists. split; [reflexivity|].
    now left. }
  destruct (ph_profile hold =? active_profile d1).
  2: { eexists _, _. split; [reflexivity|]. now left. }
  destruct (Z.eqb_spec (effective_hold_profile d1) PPD_PROFILE_UNSET) as [E|E];
    cbn [negb andb].
  { eexists _, _. split; [reflexivity|]. now left. }
  destruct (effective_hold_profile d1 =? active_profile d1); cbn [negb].
  { eexists _, _. split; [reflexivity|]. now left. }
  eexists _, _. split; [reflexivity|]. right. eexists. split; [reflexivity|].
  right. now split.
Qed.

Lemma hold_profile_shape d profile_name why app_id invocation :
  let profile := ppd_profile_from_str profile_name in
  let hold :=
    {| ph_profile := profile; ph_reason := why; ph_application_id := app_id;
       ph_requester := sender invocation;
       ph_requester_iface := interface_name invocation |} in
  let d1 := hold_added d hold invocation in
  let after := hold_profile VERSION d (profile_name, why, app_id) invocation in
  ((profile <> PPD_PROFILE_PERFORMANCE /\ profile <> PPD_PROFILE_POWER_SAVER) \/
   get_profile_available d profile = false) /\
  (exists text,
      after = emit (ReturnError invocation
                      {| err_code := G_DBUS_ERROR_INVALID_ARGS;
                         message := text |}) d)
  \/
  (profile = PPD_PROFILE_PERFORMANCE \/ profile = PPD_PROFILE_POWER_SAVER) /\
  get_profile_available d profile = true /\
  exists X m,
    after = send_dbus_event VERSION X m /\
    (X = d1 \/
     exists t,
       X = snd (activate_target_profile d1 t
                  PPD_PROFILE_ACTIVATION_REASON_PROGRAM_HOLD) /\
       t = effective_hold_profile d1 /\ t <> PPD_PROFILE_UNSET).
Proof.
  cbn zeta. unfold hold_profile.
  destruct (Z.eqb_spec (ppd_profile_from_str profile_name)
              PPD_PROFILE_PERFORMANCE) as [Hp|Hp];
    [|destruct (Z.eqb_spec (ppd_profile_from_str profile_name)
                  PPD_PROFILE_POWER_SAVER) as [Hs|Hs]];
    cbn [negb andb].
  3: { left. split; [left; now split|]. eexists. reflexivity. }
  all: destruct (get_profile_available d (ppd_profile_from_str profile_name))
         eqn:Hav; cbn [negb];
    [|left; split; [now right|]; eexists; reflexivity].
  all: right; split; [auto|]; split; [reflexivity|].
  all: cbn [g_bus_watch_name_on_connection].
  all: match goal with
       | |- context [send_dbus_event _ ?x _] => idtac
       | _ => idtac
       end.
  all: match goal with
       | |- context [negb (?p =? active_profile ?x)] =>
           change x with (hold_added d
             {| ph_profile := ppd_profile_from_str profile_name;
                ph_reason := why; ph_application_id := app_id;
                ph_requester := sender invocation;
                ph_requester_iface := interface_name invocation |} invocation);
           set (d1 := hold_added d _ invocation)
       end.
  all: destruct (negb (_ =? active_profile d1));
    [|eexists _, _; split; [reflexivity|]; now left].
  all: destruct (Z.eqb_spec (effective_hold_profile d1) PPD_PROFILE_UNSET)
         as [E|E]; cbn [negb andb];
    [eexists _, _; split; [reflexivity|]; now left|].
  all: destruct (effective_hold_profile d1 =? active_profile d1); cbn [negb];
    [eexists _, _; split; [reflexivity|]; now left|].
  all: eexists _, _; split; [reflexivity|]; right; eexists;
    split; [reflexivity|]; now split.
Qed.

Lemma invariant_frame d d' :
  arbitration_invariant d -> frame d d' ->
  ppd_profile_has_single_flag (active_profile d') = true ->
  arbitration_invariant d'.
Proof.
  intros (Ha & Hs & Hw & Hn) (Fs & Fh & Fn & _) Ha'.
  split; [exact Ha'|]. rewrite Fs, Fh, Fn. auto.
Qed.

Lemma invariant_send_activate d1 X m :
  arbitration_invariant d1 ->
  (X = d1 \/
   exists t,
     X = snd (activate_target_profile d1 t
                PPD_PROFILE_ACTIVATION_REASON_PROGRAM_HOLD) /\
     ppd_profile_has_single_flag t = true) ->
  arbitration_invariant (send_dbus_event VERSION X m).
Proof.
  intros Hinv HX.
  destruct (fields_send_dbus_event X m) as (F & A).
  assert (HinvX : arbitration_invariant X).
  { destruct HX as [->|(t & -> & Ht)]; [exact Hinv|].
    destruct (fields_activate d1 t PPD_PROFILE_ACTIVATION_REASON_PROGRAM_HOLD)
      as (F1 & A1).
    eapply invariant_frame; [exact Hinv|exact F1|].
    destruct A1 as [-> | ->]; [exact Ht|apply Hinv]. }
  eapply invariant_frame; [exact HinvX|exact F|].
  rewrite A. apply HinvX.
Qed.

Lemma invariant_hold_removed d cookie hold :
  arbitration_invariant d ->
  arbitration_invariant (hold_removed d hold cookie).
Proof.
  intros (Ha & Hs & Hw & Hn).
  split; [exact Ha|]. split; [exact Hs|]. cbn. split.
  - intros c h [_ Hl]%lookup_delete_Some. exact (Hw c h Hl).
  - intros c h [Hne Hl]%lookup_delete_Some.
    rewrite lookup_delete_ne by exact Hne. exact (Hn c h Hl).
Qed.

Lemma invariant_release_profile_hold d cookie :
  arbitration_invariant d ->
  arbitration_invariant (release_profile_hold VERSION d cookie).
Proof.
  intros Hinv.
  destruct (profile_holds d !! cookie) as [hold|] eqn:Hl.
  2: { unfold release_profile_hold. now rewrite Hl. }
  destruct (release_profile_hold_shape d cookie hold Hl) as (X & m & -> & HX).
  pose proof (invariant_hold_removed d cookie hold Hinv) as H1.
  apply (invariant_send_activate (hold_removed d hold cookie)); [exact H1|].
  destruct HX as [->|(t & -> & Ht)]; [now left|right].
  exists t. split; [reflexivity|].
  destruct Ht as [->|[-> Hne]]; [apply Hinv|].
  destruct (effective_hold_profile_wf (hold_removed d hold cookie))
    as [E|[E|E]]; [apply H1|contradiction|rewrite E; reflexivity..].
Qed.

Lemma invariant_hold_added d hold invocation :
  arbitration_invariant d ->
  ph_profile hold = PPD_PROFILE_PERFORMANCE \/
  ph_profile hold = PPD_PROFILE_POWER_SAVER ->
  ph_requester hold = sender invocation ->
  arbitration_invariant (hold_added d hold invocation).
Proof.
  intros (Ha & Hs & Hw & Hn) Hp Hr.
  split; [exact Ha|]. split; [exact Hs|]. cbn. split.
  - intros c h [[_ <-]|[_ Hl]]%lookup_insert_Some; [exact Hp|exact (Hw c h Hl)].
  - intros c h [[<- <-]|[Hne Hl]]%lookup_insert_Some.
    + now rewrite lookup_insert_eq.
    + rewrite lookup_insert_ne by exact Hne. exact (Hn c h Hl).
Qed.

Lemma invariant_emit d e :
  arbitration_invariant d -> arbitration_invariant (emit e d).
Proof. intros H. exact H. Qed.

Lemma invariant_hold_profile d parameters invocation :
  arbitration_invariant d ->
  arbitration_invariant (hold_profile VERSION d parameters invocation).
Proof.
  intros Hinv. destruct parameters as [[profile_name why] app_id].
  destruct (hold_profile_shape d profile_name why app_id invocation)
    as [(_ & text & ->)|(Hp & _ & X & m & -> & HX)]; [exact Hinv|].
  match type of HX with
  | X = ?d1 \/ _ => assert (H1 : arbitration_invariant d1)
  end.
  { apply invariant_hold_added; [exact Hinv|exact Hp|reflexivity]. }
  eapply invariant_send_activate; [exact H1|].
  destruct HX as [->|(t & -> & -> & Hne)]; [now left|right].
  eexists. split; [reflexivity|].
  match goal with
  | |- context [effective_hold_profile ?d1] =>
      destruct (effective_hold_profile_wf d1) as [E|[E|E]];
        [apply H1|contradiction|rewrite E; reflexivity..]
  end.
Qed.

Lemma set_active_profile_shape d (profile : string) :
  let target := ppd_profile_from_str profile in
  let r := set_active_profile VERSION d profile in
  (exists text,
      r = (false, Some {| err_code := G_DBUS_ERROR_FAILED; message := text |}, d)
      /\ (target = PPD_PROFILE_UNSET \/ get_profile_available d target = false))
  \/
  (r = (true, None, d) /\ target = active_profile d /\
   target <> PPD_PROFILE_UNSET /\ get_profile_available d target = true)
  \/
  (target <> PPD_PROFILE_UNSET /\ get_profile_available d target = true /\
   target <> active_profile d /\
   exists d0 m,
     ((d0 = d /\ profile_holds d = ∅) \/
      (d0 = release_all_profile_holds d /\ profile_holds d <> ∅)) /\
     let a := activate_target_profile d0 target
                PPD_PROFILE_ACTIVATION_REASON_USER in
     r = if fst (fst a)
         then (true, None,
               send_dbus_event VERSION (with_selected_profile target (snd a)) m)
         else (false, snd (fst a), snd a)).
Proof.
  cbn zeta. unfold set_active_profile.
  destruct (Z.eqb_spec (ppd_profile_from_str profile) PPD_PROFILE_UNSET)
    as [Hu|Hu].
  { left. eexists. split; [reflexivity|now left]. }
  destruct (get_profile_available d (ppd_profile_from_str profile)) eqn:Hav;
    cbn [negb].
  2: { left. eexists. split; [reflexivity|now right]. }
  destruct (Z.eqb_spec (ppd_profile_from_str profile) (active_profile d))
    as [Ha|Ha].
  { right. left. auto. }
  right. right. split; [exact Hu|]. split; [reflexivity|]. split; [exact Ha|].
  destruct (Nat.eqb_spec (size (profile_holds d)) 0) as [Hz|Hz]; cbn [negb].
  - exists d. eexists. split; [left; split; [reflexivity|]|].
    { now apply map_size_empty_inv. }
    destruct (activate_target_profile d _ _) as [[ok err] dd]. cbn.
    destruct ok; reflexivity.
  - exists (release_all_profile_holds d). eexists.
    split; [right; split; [reflexivity|]|].
    { intros E. apply Hz. now rewrite E, map_size_empty. }
    destruct (activate_target_profile _ _ _) as [[ok err] dd]. cbn.
    destruct ok; reflexivity.
Qed.

Lemma invariant_release_all d :
  arbitration_invariant d ->
  arbitration_invariant (release_all_profile_holds d).
Proof.
  intros (Ha & Hs & _ & _).
  destruct (release_all_profile_holds_spec d) as (_ & A & S & H).
  split; [now rewrite A|]. split; [now rewrite S|].
  rewrite H. split; intros c h Hl; rewrite lookup_empty in Hl; discriminate Hl.
Qed.

Lemma invariant_set_active_profile d (profile : string) :
  arbitration_invariant d ->
  arbitration_invariant (snd (set_active_profile VERSION d profile)).
Proof.
  intros Hinv.
  destruct (set_active_profile_shape d profile)
    as [(text & -> & _)|[(-> & _)|(Hu & _ & _ & d0 & m & Hd0 & Hr)]];
    [exact Hinv..|].
  cbn zeta in Hr. rewrite Hr. clear Hr.
  assert (H0 : arbitration_invariant d0).
  { destruct Hd0 as [[-> _]|[-> _]];
      [exact Hinv|now apply invariant_release_all]. }
  pose proof (from_str_single_flag profile Hu) as Ht.
  destruct (fields_activate d0 (ppd_profile_from_str profile)
              PPD_PROFILE_ACTIVATION_REASON_USER) as (F & A).
  assert (H1 : arbitration_invariant
                 (snd (activate_target_profile d0 (ppd_profile_from_str profile)
                         PPD_PROFILE_ACTIVATION_REASON_USER))).
  { eapply invariant_frame; [exact H0|exact F|].
    destruct A as [-> | ->]; [exact Ht|apply H0]. }
  destruct (fst (fst _)); cbn [snd]; [|exact H1].
  destruct (fields_send_dbus_event
              (with_selected_profile (ppd_profile_from_str profile)
                 (snd (activate_target_profile d0 (ppd_profile_from_str profile)
                         PPD_PROFILE_ACTIVATION_REASON_USER))) m) as (F2 & A2).
  destruct H1 as (Ha1 & _ & Hw1 & Hn1). destruct F2 as (Fs & Fh & Fn & _).
  split; [now rewrite A2|]. rewrite Fs, Fh, Fn. cbn. auto.
Qed.

Lemma invariant_properties_set d property_name value invocation :
  arbitration_invariant d ->
  arbitration_invariant
    (properties_set VERSION d property_name value invocation).
Proof.
  intros Hinv. unfold properties_set, handle_set_property.
  destruct (negb (String.eqb property_name "ActiveProfile")); [exact Hinv|].
  destruct (check_action_permission _ _ _); [exact Hinv|].
  pose proof (invariant_set_active_profile d value Hinv) as H.
  destruct (set_active_profile VERSION d value) as [[ok err] dd].
  destruct ok; [exact H|]. destruct err; exact H.
Qed.

Lemma invariant_fold_release (cookies : list Z) d :
  arbitration_invariant d ->
  arbitration_invariant (fold_left (release_profile_hold VERSION) cookies d).
Proof.
  revert d. induction cookies as [|c l IH]; intros d Hinv; [exact Hinv|].
  cbn. apply IH. now apply invariant_release_profile_hold.
Qed.

Lemma invariant_handle_method_call d call invocation :
  arbitration_invariant d ->
  arbitration_invariant (handle_method_call VERSION d call invocation).
Proof.
  intros Hinv. unfold handle_method_call.
  destruct (_ && _); [exact Hinv|].
  destruct call as [pn why app|cookie|name].
  - destruct (check_action_permission _ _ _); [exact Hinv|].
    now apply invariant_hold_profile.
  - unfold release_profile.
    destruct (profile_holds d !! cookie); [|exact Hinv].
    apply invariant_emit. now apply invariant_release_profile_hold.
  - exact Hinv.
Qed.

Lemma invariant_driver_profile_changed d slot (profile : PpdProfile) :
  arbitration_invariant d ->
  arbitration_invariant (ppd_driver_emit_profile_changed VERSION slot profile d).
Proof.
  intros Hinv. unfold ppd_driver_emit_profile_changed.
  destruct (negb (PPD_IS_DRIVER (get_driver slot d))); [exact Hinv|].
  destruct (ppd_profile_has_single_flag profile) eqn:Hp; cbn [negb];
    [|exact Hinv].
  unfold driver_profile_changed_cb.
  destruct (profile =? active_profile d); [exact Hinv|].
  destruct (fields_send_dbus_event
              (snd (activate_target_profile d profile
                      PPD_PROFILE_ACTIVATION_REASON_INTERNAL))
              PROP_ACTIVE_PROFILE) as (F2 & A2).
  destruct (fields_activate d profile PPD_PROFILE_ACTIVATION_REASON_INTERNAL)
    as (F & A).
  eapply invariant_frame; [exact Hinv|exact (frame_trans _ _ _ F F2)|].
  rewrite A2. destruct A as [-> | ->]; [exact Hp|apply Hinv].
Qed.

Lemma invariant_driver_set_performance_degraded d slot degraded :
  arbitration_invariant d ->
  arbitration_invariant
    (driver_set_performance_degraded VERSION slot degraded d).
Proof.
  intros Hinv. unfold driver_set_performance_degraded.
  destruct (get_driver slot d); [|exact Hinv].
  assert (H1 : arbitration_invariant
                 (g_object_set slot (PROP_PERFORMANCE_DEGRADED degraded) d)).
  { destruct slot; exact Hinv. }
  unfold driver_performance_degraded_changed_cb.
  cbn [String.eqb Ascii.eqb Bool.eqb negb].
  destruct (_ =? 0); [exact H1|].
  destruct (fields_send_dbus_event
              (g_object_set slot (PROP_PERFORMANCE_DEGRADED degraded) d)
              PROP_DEGRADED) as (F & A).
  eapply invariant_frame; [exact H1|exact F|]. rewrite A. apply H1.
Qed.

Lemma invariant_dispatch d input :
  arbitration_invariant d ->
  arbitration_invariant (main_loop_dispatch VERSION d input).
Proof.
  intros Hinv. destruct input; cbn [main_loop_dispatch].
  - now apply invariant_handle_method_call.
  - now apply invariant_properties_set.
  - now apply invariant_fold_release.
  - now apply invariant_driver_profile_changed.
  - now apply invariant_driver_set_performance_degraded.
Qed.

Lemma invariant_probe_pass d (objects : list (Backend HW)) :
  arbitration_invariant d -> arbitration_invariant (probe_pass d objects).
Proof.
  revert d. unfold probe_pass.
  induction objects as [|o l IH]; intros d Hinv; [exact Hinv|].
  cbn [fold_left]. apply IH. clear IH.
  destruct o as [driver|driver|action].
  - unfold probe_driver. repeat (break_inner; try exact Hinv).
  - unfold probe_driver. repeat (break_inner; try exact Hinv).
  - unfold probe_action. repeat (break_inner; try exact Hinv).
Qed.

Lemma invariant_start_after_probe d :
  arbitration_invariant d ->
  arbitration_invariant (start_after_probe VERSION d).
Proof.
  intros Hinv. unfold start_after_probe.
  set (d0 := if negb (has_required_drivers d) then _ else d).
  assert (H0 : arbitration_invariant d0).
  { subst d0. destruct (negb _); exact Hinv. }
  clearbody d0.
  assert (H1 : arbitration_invariant (snd (apply_configuration d0))).
  { unfold apply_configuration. repeat (break_inner; try exact H0).
    cbn [snd]. destruct H0 as (_ & Hs & Hw & Hn).
    split; [|now split]. cbn. apply from_str_single_flag.
    now apply Z.eqb_neq. }
  set (d1 := snd (apply_configuration d0)) in *. clearbody d1.
  destruct (fields_activate d1 (active_profile d1)
              PPD_PROFILE_ACTIVATION_REASON_RESET) as (F & A).
  destruct (activate_target_profile d1 (active_profile d1)
              PPD_PROFILE_ACTIVATION_REASON_RESET) as [[ok err] d2].
  cbn [fst snd] in *.
  assert (H2 : arbitration_invariant d2).
  { eapply invariant_frame; [exact H1|exact F|].
    destruct A as [-> | ->]; apply H1. }
  set (d3 := if negb ok then _ else d2).
  assert (H3 : arbitration_invariant d3).
  { subst d3. destruct (negb ok); exact H2. }
  clearbody d3.
  destruct (fields_send_dbus_event d3 PROP_ALL) as (F3 & A3).
  assert (H4 : arbitration_invariant (send_dbus_event VERSION d3 PROP_ALL)).
  { eapply invariant_frame; [exact H3|exact F3|]. rewrite A3. apply H3. }
  exact H4.
Qed.

End Invariant.

(* ===================================================================== *)
(** ** What an activation stores                                          *)
(* ===================================================================== *)

Section Persistence.
Context {HW : Type} (VERSION : string).
Implicit Types d data : PpdApp HW.

Lemma same_drivers_refl d : same_drivers d d.
Proof. split; reflexivity. Qed.

Lemma same_drivers_trans d1 d2 d3 :
  same_drivers d1 d2 -> same_drivers d2 d3 -> same_drivers d1 d3.
Proof. intros [A B] [C D]. split; congruence. Qed.

Lemma driver_identity_name (x y : option (PpdDriver HW)) :
  driver_identity x = driver_identity y ->
  ppd_driver_get_driver_name x = ppd_driver_get_driver_name y /\
  PPD_IS_DRIVER x = PPD_IS_DRIVER y /\
  ppd_driver_get_profiles x = ppd_driver_get_profiles y /\
  ppd_driver_get_performance_degraded x
  = ppd_driver_get_performance_degraded y.
Proof.
  destruct x as [x|], y as [y|]; cbn; intros H; try discriminate H;
    [|repeat split].
  injection H as -> -> -> _. repeat split.
Qed.

Lemma driver_identity_support (x y : option (PpdDriver HW)) p :
  driver_identity x = driver_identity y ->
  driver_profile_support x p = driver_profile_support y p.
Proof.
  intros H. destruct (driver_identity_name x y H) as (_ & I & P & _).
  unfold driver_profile_support. now rewrite I, P.
Qed.

Lemma ppd_driver_activate_profile_drivers slot p why d :
  same_drivers d (snd (ppd_driver_activate_profile slot p why d)).
Proof.
  unfold ppd_driver_activate_profile.
  destruct (get_driver slot d) as [driver|] eqn:Hd; [|split; reflexivity].
  destruct (negb (ppd_profile_has_single_flag p)); [split; reflexivity|].
  destruct (drv_activate_profile (drv_class driver)) as [method|];
    [|split; reflexivity].
  destruct (snd (method (drv_hw driver) p why)); cbn [snd];
    destruct slot; cbn in Hd |- *; split; cbn; rewrite ?Hd; reflexivity.
Qed.

Lemma activate_target_profile_drivers d t why :
  same_drivers d (snd (activate_target_profile d t why)).
Proof.
  unfold activate_target_profile. cbn zeta.
  set (d0 := emit (LogSettingActiveProfile t why (active_profile d)) d).
  assert (S0 : same_drivers d d0) by (split; reflexivity).
  assert (S1 : same_drivers d0
            (snd (if driver_profile_support (cpu_driver d0) t
                  then ppd_driver_activate_profile CPU t why d0
                  else (true, None, d0)))).
  { destruct (driver_profile_support (cpu_driver d0) t);
      [apply ppd_driver_activate_profile_drivers|apply same_drivers_refl]. }
  destruct (if driver_profile_support (cpu_driver d0) t
            then ppd_driver_activate_profile CPU t why d0
            else (true, None, d0)) as [[cpu_ok e1] d1].
  cbn [snd] in S1. pose proof (same_drivers_trans _ _ _ S0 S1) as S01.
  destruct cpu_ok; cbn [negb snd]; [|exact S01].
  assert (S2 : same_drivers d1
            (snd (if driver_profile_support (platform_driver d1) t
                  then ppd_driver_activate_profile PLATFORM t why d1
                  else (true, None, d1)))).
  { destruct (driver_profile_support (platform_driver d1) t);
      [apply ppd_driver_activate_profile_drivers|apply same_drivers_refl]. }
  destruct (if driver_profile_support (platform_driver d1) t
            then ppd_driver_activate_profile PLATFORM t why d1
            else (true, None, d1)) as [[platform_ok e2] d2].
  cbn [snd] in S2. pose proof (same_drivers_trans _ _ _ S01 S2) as S02.
  destruct platform_ok; cbn [negb].
  - assert (S3 : same_drivers d
                   (with_active_profile t (actions_activate_profile d2 t)))
      by exact S02.
    destruct (_ || _); cbn [snd]; [|exact S3].
    eapply same_drivers_trans; [exact S3|].
    set (d3 := with_active_profile t (actions_activate_profile d2 t)).
    clearbody d3. clear.
    destruct d3 as [q ws r dbg cp cfg ap sp pd cpu pl acts holds nw nid se au tr].
    unfold save_configuration, g_key_file_set_string. cbn.
    repeat (break_inner; cbn); split; reflexivity.
  - destruct (negb (PPD_IS_DRIVER (cpu_driver d2))); cbn [snd]; [exact S02|].
    pose proof (ppd_driver_activate_profile_drivers CPU (active_profile d)
                  PPD_PROFILE_ACTIVATION_REASON_INTERNAL d2) as S3.
    destruct (ppd_driver_activate_profile CPU (active_profile d)
                PPD_PROFILE_ACTIVATION_REASON_INTERNAL d2)
      as [[reverted e3] d3].
    cbn [snd] in S3. pose proof (same_drivers_trans _ _ _ S02 S3) as S03.
    destruct reverted; cbn [negb snd]; exact S03.
Qed.

Lemma config_save_configuration d :
  config (save_configuration d) = stored_state d /\
  exists before after,
    trace (save_configuration d)
    = (trace d ++ before ++ SaveToFile (stored_state d) :: after)%list /\
    forallb call_event before = true /\ forallb call_event after = true.
Proof.
  destruct d as [q ws r dbg cp cfg ap sp pd cpu pl acts holds nw nid se au tr].
  unfold save_configuration, g_key_file_set_string, stored_state.
  cbn -[ppd_profile_to_str].
  destruct cpu as [[[cn|] ? ? ? ?]|], pl as [[[pn|] ? ? ? ?]|], se as [e|];
    cbn -[ppd_profile_to_str]; (split; [reflexivity|]);
    rewrite <- ?app_assoc; cbn -[ppd_profile_to_str].
  all: first
    [ eexists [], _; split; [reflexivity|split; reflexivity]
    | eexists [_], _; split; [reflexivity|split; reflexivity]
    | eexists [_; _], _; split; [reflexivity|split; reflexivity] ].
Qed.

Lemma stored_state_ext d d' :
  config d' = config d -> same_drivers d d' ->
  active_profile d' = active_profile d ->
  stored_state d' = stored_state d.
Proof.
  intros Hc [Hcpu Hpl] Ha. unfold stored_state.
  destruct (driver_identity_name _ _ Hcpu) as (-> & _).
  destruct (driver_identity_name _ _ Hpl) as (-> & _).
  now rewrite Hc, Ha.
Qed.

Lemma guarded_activate_drivers (b : bool) slot p why d :
  same_drivers d (snd (if b then ppd_driver_activate_profile slot p why d
                       else (true, None, d))).
Proof.
  destruct b; [apply ppd_driver_activate_profile_drivers|split; reflexivity].
Qed.

Lemma activate_target_profile_success d t why :
  let r := activate_target_profile d t why in
  fst (fst r) = true ->
  snd (fst r) = None /\
  active_profile (snd r) = t /\
  (persisted_reason why = true ->
   config (snd r) = stored_state (with_active_profile t d) /\
   exists before after,
     trace (snd r)
     = (trace d ++ LogSettingActiveProfile t why (active_profile d)
          :: before
          ++ SaveToFile (stored_state (with_active_profile t d)) :: after)%list
     /\ forallb call_event before = true /\ forallb call_event after = true).
Proof.
  unfold activate_target_profile. cbn zeta.
  set (d0 := emit (LogSettingActiveProfile t why (active_profile d)) d).
  assert (E0 : trace d0
               = (trace d ++ [LogSettingActiveProfile t why (active_profile d)])%list)
    by reflexivity.
  pose proof (guarded_activate_spec
                (driver_profile_support (cpu_driver d0) t) CPU t why d0) as H1.
  pose proof (guarded_activate_drivers
                (driver_profile_support (cpu_driver d0) t) CPU t why d0) as S1.
  destruct (if driver_profile_support (cpu_driver d0) t
            then ppd_driver_activate_profile CPU t why d0
            else (true, None, d0)) as [[cpu_ok e1] d1].
  cbn [snd fst] in H1, S1.
  destruct H1 as ((t1 & E1 & B1) & _ & _ & _ & C1 & _).
  destruct cpu_ok; cbn [negb]; [|discriminate].
  pose proof (guarded_activate_spec
                (driver_profile_support (platform_driver d1) t) PLATFORM t why d1)
    as H2.
  pose proof (guarded_activate_drivers
                (driver_profile_support (platform_driver d1) t) PLATFORM t why d1)
    as S2.
  destruct (if driver_profile_support (platform_driver d1) t
            then ppd_driver_activate_profile PLATFORM t why d1
            else (true, None, d1)) as [[platform_ok e2] d2].
  cbn [snd fst] in H2, S2.
  destruct H2 as ((t2 & E2 & B2) & _ & _ & _ & C2 & _).
  destruct platform_ok; cbn [negb].
  2: { destruct (negb (PPD_IS_DRIVER (cpu_driver d2))); [discriminate|].
       destruct (ppd_driver_activate_profile CPU (active_profile d)
                   PPD_PROFILE_ACTIVATION_REASON_INTERNAL d2) as [[? ?] ?].
       discriminate. }
  set (d3 := with_active_profile t (actions_activate_profile d2 t)).
  destruct (actions_activate_profile_spec d2 t) as ((t3 & E3 & B3) & _ & _ & C3).
  assert (E3' : trace d3 = (trace d2 ++ t3)%list) by exact E3.
  assert (C3' : config d3 = config d).
  { change (config d3) with (config (actions_activate_profile d2 t)).
    rewrite C3, C2, C1. reflexivity. }
  assert (S3 : same_drivers (with_active_profile t d) d3).
  { assert (S : same_drivers d0 d2) by exact (same_drivers_trans _ _ _ S1 S2).
    exact S. }
  intros _. fold (persisted_reason why).
  destruct (persisted_reason why); cbn [snd fst].
  - split; [reflexivity|].
    destruct (save_configuration_spec d3) as (_ & _ & A4).
    split; [exact A4|]. intros _.
    destruct (config_save_configuration d3) as (C4 & before & after & E4 & Bb & Ba).
    assert (St : stored_state d3 = stored_state (with_active_profile t d)).
    { apply stored_state_ext; [exact C3'|exact S3|reflexivity]. }
    rewrite St in C4, E4. split; [exact C4|].
    exists (t1 ++ t2 ++ t3 ++ before)%list, after.
    split; [|split; [|exact Ba]].
    + rewrite E4, E3', E2, E1, E0. rewrite <- !app_assoc. reflexivity.
    + rewrite !forallb_app, B1, B2, B3, Bb. reflexivity.
  - split; [reflexivity|]. split; [reflexivity|]. discriminate.
Qed.

Lemma to_str_from_str (t : PpdProfile) :
  ppd_profile_has_single_flag t = true ->
  ppd_profile_from_str (ppd_profile_to_str t) = t /\ t <> PPD_PROFILE_UNSET.
Proof.
  intros [-> | [-> | ->]]%single_flag_cases; split; (reflexivity || discriminate).
Qed.

(** X14: the profile a successful activation stores is the one start-up
    restores when the same drivers are bound again, and is ignored when a
    slot is bound to a driver of another name: for an activation of a
    single profile that succeeds for reason user or internal, on drivers
    that have names, [apply_configuration] on the stored keys returns the
    profile as the active one; with a CPU or platform driver whose name
    differs from the stored one it returns failure and changes nothing. *)
Theorem stored_profile_round_trip data target why :
  let r := activate_target_profile data target why in
  fst (fst r) = true ->
  persisted_reason why = true ->
  ppd_profile_has_single_flag target = true ->
  (forall slot driver,
      get_driver slot data = Some driver -> driver_name driver <> None) ->
  config (snd r) !! "Profile" = Some (ppd_profile_to_str target) /\
  (forall restarted : PpdApp HW,
      config restarted = config (snd r) ->
      same_drivers data restarted ->
      apply_configuration restarted
      = (true, with_active_profile target restarted)) /\
  (forall (restarted : PpdApp HW) slot,
      config restarted = config (snd r) ->
      PPD_IS_DRIVER (get_driver slot data) = true ->
      PPD_IS_DRIVER (get_driver slot restarted) = true ->
      ppd_driver_get_driver_name (get_driver slot restarted)
      <> ppd_driver_get_driver_name (get_driver slot data) ->
      apply_configuration restarted = (false, restarted)).
Proof.
  intros r Hok Hwhy Ht Hnames. subst r.
  destruct (activate_target_profile_success data target why Hok)
    as (_ & _ & Hcfg).
  destruct (Hcfg Hwhy) as (Hc & _). clear Hcfg.
  assert (Hcpu : forall n, ppd_driver_get_driver_name (cpu_driver data) = Some n ->
                           config (snd (activate_target_profile data target why))
                           !! "CpuDriver" = Some n).
  { intros n Hn. rewrite Hc. unfold stored_state.
    cbn [cpu_driver platform_driver with_active_profile config active_profile].
    rewrite Hn. rewrite lookup_insert_ne by discriminate.
    destruct (ppd_driver_get_driver_name (platform_driver data));
      [rewrite lookup_insert_ne by discriminate|]; apply lookup_insert_eq. }
  assert (Hpl : forall n,
             ppd_driver_get_driver_name (platform_driver data) = Some n ->
             config (snd (activate_target_profile data target why))
             !! "PlatformDriver" = Some n).
  { intros n Hn. rewrite Hc. unfold stored_state.
    cbn [cpu_driver platform_driver with_active_profile config active_profile].
    rewrite Hn. rewrite lookup_insert_ne by discriminate.
    apply lookup_insert_eq. }
  assert (Hp : config (snd (activate_target_profile data target why))
               !! "Profile" = Some (ppd_profile_to_str target)).
  { rewrite Hc. unfold stored_state. apply lookup_insert_eq. }
  assert (Hbound : forall slot,
             PPD_IS_DRIVER (get_driver slot data) = true ->
             exists n, ppd_driver_get_driver_name (get_driver slot data) = Some n).
  { intros slot Hb. destruct (get_driver slot data) as [x|] eqn:Hx;
      [|discriminate Hb].
    cbn. destruct (driver_name x) as [n|] eqn:Hn; [now exists n|].
    now elim (Hnames slot x Hx). }
  split; [exact Hp|]. split.
  - intros d' Hcd' [Scpu Spl].
    destruct (driver_identity_name _ _ Scpu) as (Ncpu & Icpu & _).
    destruct (driver_identity_name _ _ Spl) as (Npl & Ipl & _).
    rewrite apply_configuration_cases.
    + rewrite Hcd', Hp.
      destruct (to_str_from_str target Ht) as (-> & Hne).
      apply Z.eqb_neq in Hne. now rewrite Hne.
    + split; intros Hb; rewrite Hcd'.
      * rewrite Icpu in Hb. destruct (Hbound CPU Hb) as (n & Hn).
        rewrite Ncpu. cbn in Hn. rewrite Hn. symmetry. now apply Hcpu.
      * rewrite Ipl in Hb. destruct (Hbound PLATFORM Hb) as (n & Hn).
        rewrite Npl. cbn in Hn. rewrite Hn. symmetry. now apply Hpl.
  - intros d' slot Hcd' Hb Hb' Hdiff.
    destruct (Hbound slot Hb) as (n & Hn). rewrite Hn in Hdiff.
    unfold apply_configuration. rewrite Hcd'.
    destruct slot; cbn [get_driver] in *.
    + rewrite (Hcpu n Hn), Hb'. cbn [andb].
      destruct (ppd_driver_get_driver_name (cpu_driver d')) as [m|]; cbn;
        [|reflexivity].
      destruct (String.eqb_spec m n) as [->|]; [now elim Hdiff|reflexivity].
    + destruct (PPD_IS_DRIVER (cpu_driver d')
                && negb (g_strcmp0_eq
                           (ppd_driver_get_driver_name (cpu_driver d'))
                           (config (snd (activate_target_profile data target why))
                            !! "CpuDriver"))); [reflexivity|].
      rewrite (Hpl n Hn), Hb'. cbn [andb].
      destruct (ppd_driver_get_driver_name (platform_driver d')) as [m|]; cbn;
        [|reflexivity].
      destruct (String.eqb_spec m n) as [->|]; [now elim Hdiff|reflexivity].
Qed.

(** X13: when the class method of the CPU driver fails, the activation stops
    there: the error of the driver comes back under the prefix that names
    the CPU driver, and the state is the one before the call but for the
    hardware of the CPU driver and two trace events; the platform driver
    and the actions are not called, the active profile and the stored keys
    stay. *)
Theorem cpu_failure_aborts_activation data target why
    (cpu : PpdDriver HW) method (cpu_error : GError) :
  cpu_driver data = Some cpu ->
  drv_activate_profile (drv_class cpu) = Some method ->
  ppd_profile_has_single_flag target = true ->
  driver_profile_support (cpu_driver data) target = true ->
  snd (method (drv_hw cpu) target why) = Some cpu_error ->
  activate_target_profile data target why
  = (false,
     Some {| err_code := err_code cpu_error;
             message := ("Failed to activate CPU driver '"
                         +:+ str_or_null (driver_name cpu) +:+ "': ")
                        +:+ message cpu_error |},
     with_cpu_driver
       (Some (with_hw (fst (method (drv_hw cpu) target why)) cpu))
       (with_trace
          (trace data
           ++ [LogSettingActiveProfile target why (active_profile data);
               DriverActivateProfile CPU target why])%list
          data)).
Proof.
  intros Hcpu Hm Ht Hs Hfail.
  destruct data as [q ws rt dbg cp cfg ap sp pd c p acts holds nw nid se au tr].
  cbn in Hcpu, Hs. subst c.
  unfold activate_target_profile, ppd_driver_activate_profile.
  cbn -[ppd_profile_has_single_flag String.append].
  cbn in Hs. rewrite Hs, Ht, Hm.
  cbn -[ppd_profile_has_single_flag String.append]. rewrite Hfail.
  unfold emit, with_trace, with_cpu_driver. cbn -[String.append].
  rewrite <- app_assoc. reflexivity.
Qed.

End Persistence.

(* ===================================================================== *)
(** ** The main loop                                                      *)
(* ===================================================================== *)

Section MainLoop.
Context {HW : Type} (VERSION : string).
Implicit Types d data : PpdApp HW.

Lemma selected_send_activate d1 X m :
  (X = d1 \/
   exists t,
     X = snd (activate_target_profile d1 t
                PPD_PROFILE_ACTIVATION_REASON_PROGRAM_HOLD) /\
     True) ->
  selected_profile (send_dbus_event VERSION X m) = selected_profile d1.
Proof.
  intros HX. destruct (fields_send_dbus_event VERSION X m) as ((-> & _) & _).
  destruct HX as [->|(t & -> & _)]; [reflexivity|].
  now destruct (fields_activate d1 t PPD_PROFILE_ACTIVATION_REASON_PROGRAM_HOLD)
    as ((-> & _) & _).
Qed.

Lemma selected_release_profile_hold d cookie :
  selected_profile (release_profile_hold VERSION d cookie) = selected_profile d.
Proof.
  destruct (profile_holds d !! cookie) as [hold|] eqn:Hl.
  2: { unfold release_profile_hold. now rewrite Hl. }
  destruct (release_profile_hold_shape VERSION d cookie hold Hl)
    as (X & m & -> & HX).
  rewrite (selected_send_activate (hold_removed d hold cookie)); [reflexivity|].
  destruct HX as [->|(t & -> & _)]; [now left|right; eauto].
Qed.

Lemma selected_fold_release (cookies : list Z) d :
  selected_profile (fold_left (release_profile_hold VERSION) cookies d)
  = selected_profile d.
Proof.
  revert d. induction cookies as [|c l IH]; intros d; [reflexivity|].
  cbn. rewrite IH. apply selected_release_profile_hold.
Qed.

Lemma selected_hold_profile d parameters invocation :
  selected_profile (hold_profile VERSION d parameters invocation)
  = selected_profile d.
Proof.
  destruct parameters as [[profile_name why] app_id].
  destruct (hold_profile_shape VERSION d profile_name why app_id invocation)
    as [(_ & text & ->)|(_ & _ & X & m & -> & HX)]; [reflexivity|].
  match type of HX with
  | X = ?d1 \/ _ => rewrite (selected_send_activate d1); [reflexivity|]
  end.
  destruct HX as [->|(t & -> & _)]; [now left|right; eauto].
Qed.

Lemma selected_handle_method_call d call invocation :
  selected_profile (handle_method_call VERSION d call invocation)
  = selected_profile d.
Proof.
  unfold handle_method_call. destruct (_ && _); [reflexivity|].
  destruct call as [pn why app|cookie|name]; [| |reflexivity].
  - destruct (check_action_permission _ _ _); [reflexivity|].
    apply selected_hold_profile.
  - unfold release_profile.
    destruct (profile_holds d !! cookie); [|reflexivity].
    apply selected_release_profile_hold.
Qed.

Lemma selected_driver_profile_changed d slot (profile : PpdProfile) :
  selected_profile (ppd_driver_emit_profile_changed VERSION slot profile d)
  = selected_profile d.
Proof.
  unfold ppd_driver_emit_profile_changed, driver_profile_changed_cb.
  repeat (break_inner; try reflexivity).
  destruct (fields_send_dbus_event VERSION
              (snd (activate_target_profile d profile
                      PPD_PROFILE_ACTIVATION_REASON_INTERNAL))
              PROP_ACTIVE_PROFILE) as ((-> & _) & _).
  now destruct (fields_activate d profile
                  PPD_PROFILE_ACTIVATION_REASON_INTERNAL) as ((-> & _) & _).
Qed.

Lemma selected_driver_set_performance_degraded d slot degraded :
  selected_profile (driver_set_performance_degraded VERSION slot degraded d)
  = selected_profile d.
Proof.
  unfold driver_set_performance_degraded,
    driver_performance_degraded_changed_cb.
  destruct (get_driver slot d); [|reflexivity].
  cbn [String.eqb Ascii.eqb Bool.eqb negb].
  destruct (_ =? 0); [destruct slot; reflexivity|].
  destruct (fields_send_dbus_event VERSION
              (g_object_set slot (PROP_PERFORMANCE_DEGRADED degraded) d)
              PROP_DEGRADED) as ((-> & _) & _).
  destruct slot; reflexivity.
Qed.

(** X6: from the state [main] builds, through [start_profile_drivers] and any
    sequence of inputs of the main loop, the arbitration state keeps its
    invariant: the active and the selected profile are each exactly one of
    the three profiles, every hold is for performance or power-saver, and
    every cookie of the registry is the id of a live watch on the bus name
    of the peer that took the hold. *)
Theorem reachable_states_keep_invariant data (objects : list (Backend HW))
    (inputs : list Input) :
  arbitration_invariant data ->
  arbitration_invariant
    (main_loop_run VERSION (start_profile_drivers VERSION data objects) inputs).
Proof.
  intros Hinv. unfold main_loop_run, start_profile_drivers.
  assert (H : arbitration_invariant
                (start_after_probe VERSION (probe_pass data objects))).
  { apply invariant_start_after_probe. now apply invariant_probe_pass. }
  revert H. generalize (start_after_probe VERSION (probe_pass data objects)).
  induction inputs as [|i l IH]; intros d H; [exact H|].
  cbn. apply IH. now apply invariant_dispatch.
Qed.

(** X7: the selected profile is written by a user set only: a turn of the main
    loop that changes it is an authorised write of the property
    ActiveProfile with the name of an available profile whose activation
    succeeded; after it the selected and the active profile are that
    profile and no hold is left. *)
Theorem selected_profile_changes_only_by_user_set data (input : Input) :
  let after := main_loop_dispatch VERSION data input in
  selected_profile after <> selected_profile data ->
  exists value invocation,
    input = BusPropertySet "ActiveProfile" value invocation /\
    auth data (sender invocation)
      (POWER_PROFILES_POLICY_NAMESPACE +:+ ".switch-profile") = true /\
    get_profile_available data (ppd_profile_from_str value) = true /\
    selected_profile after = ppd_profile_from_str value /\
    active_profile after = ppd_profile_from_str value /\
    profile_holds after = ∅.
Proof.
  intros after Hne. subst after.
  destruct input as [call inv|pn value inv|name|slot p|slot v];
    cbn [main_loop_dispatch] in *.
  - now rewrite selected_handle_method_call in Hne.
  - exists value, inv. revert Hne. unfold properties_set, handle_set_property.
    destruct (String.eqb_spec pn "ActiveProfile") as [->|]; cbn [negb];
      [|intros H; now elim H].
    unfold check_action_permission.
    destruct (auth data (sender inv) _) eqn:Hauth; [|intros H; now elim H].
    destruct (set_active_profile_shape VERSION data value)
      as [(text & -> & _)|[(-> & _)|(Hu & Hav & _ & d0 & m & Hd0 & Hr)]];
      [intros H; now elim H..|].
    cbn zeta in Hr. rewrite Hr. clear Hr.
    destruct (fields_activate d0 (ppd_profile_from_str value)
                PPD_PROFILE_ACTIVATION_REASON_USER) as ((Fs & Fh & _) & _).
    destruct (activate_target_profile_spec d0 (ppd_profile_from_str value)
                PPD_PROFILE_ACTIVATION_REASON_USER) as (_ & _ & A).
    assert (Hs0 : selected_profile d0 = selected_profile data).
    { destruct Hd0 as [[-> _]|[-> _]]; [reflexivity|].
      now destruct (release_all_profile_holds_spec data) as (_ & _ & -> & _). }
    assert (Hh0 : profile_holds d0 = ∅).
    { destruct Hd0 as [[-> E]|[-> _]]; [exact E|].
      now destruct (release_all_profile_holds_spec data) as (_ & _ & _ & ->). }
    destruct (fst (fst (activate_target_profile d0 _ _))) eqn:Hok.
    + intros _. cbn [fst snd emit with_trace selected_profile active_profile
                     profile_holds].
      destruct (fields_send_dbus_event VERSION
                  (with_selected_profile (ppd_profile_from_str value)
                     (snd (activate_target_profile d0
                             (ppd_profile_from_str value)
                             PPD_PROFILE_ACTIVATION_REASON_USER))) m)
        as ((Gs & Gh & _) & Ga).
      split; [reflexivity|]. split; [reflexivity|]. split; [exact Hav|].
      split; [exact Gs|]. split; [rewrite Ga; exact A|].
      rewrite Gh. cbn. now rewrite Fh.
    + destruct (snd (fst (activate_target_profile d0 _ _)));
        cbn [snd emit with_trace selected_profile];
        rewrite Fs, Hs0; intros H; now elim H.
  - unfold holder_disappeared in Hne. now rewrite selected_fold_release in Hne.
  - now rewrite selected_driver_profile_changed in Hne.
  - now rewrite selected_driver_set_performance_degraded in Hne.
Qed.

End MainLoop.

(* ===================================================================== *)
(** ** A peer that leaves the bus                                         *)
(* ===================================================================== *)

Section HolderDisappeared.
Context {HW : Type} (VERSION : string).
Implicit Types d data : PpdApp HW.

(** The signal [release_hold_notify] sends for a hold. *)
Lemma release_profile_hold_step d cookie hold :
  profile_holds d !! cookie = Some hold ->
  let after := release_profile_hold VERSION d cookie in
  profile_holds after = delete cookie (profile_holds d) /\
  name_watches after = delete cookie (name_watches d) /\
  exists tr,
    trace after
    = (trace d
       ++ UnwatchName cookie
       :: ProfileReleased (ph_requester hold)
            (if String.eqb (ph_requester_iface hold)
                           POWER_PROFILES_LEGACY_IFACE_NAME
             then POWER_PROFILES_LEGACY_DBUS_PATH else POWER_PROFILES_DBUS_PATH)
            (ph_requester_iface hold) cookie
       :: tr)%list /\
    forallb not_released tr = true.
Proof.
  intros Hl after. subst after.
  destruct (release_profile_hold_shape VERSION d cookie hold Hl)
    as (X & m & -> & HX).
  destruct (send_dbus_event_spec VERSION X m) as (tn & -> & Bn).
  apply notification_not_released in Bn.
  cbn [profile_holds name_watches trace with_trace].
  destruct HX as [->|(t & -> & _)].
  - split; [reflexivity|]. split; [reflexivity|].
    exists tn. split; [|exact Bn]. cbn. now rewrite <- !app_assoc.
  - destruct (activate_target_profile_spec (hold_removed d hold cookie) t
                PPD_PROFILE_ACTIVATION_REASON_PROGRAM_HOLD)
      as ((tb & -> & Bb) & (_ & -> & -> & _) & _).
    apply backend_not_released in Bb.
    split; [reflexivity|]. split; [reflexivity|].
    eexists (_ :: tb ++ tn)%list. split.
    + cbn. rewrite <- !app_assoc. cbn. reflexivity.
    + cbn. now rewrite forallb_app, Bb, Bn.
Qed.

Lemma fold_release_spec (cookies : list Z) d :
  NoDup cookies ->
  (forall c, c ∈ cookies -> is_Some (profile_holds d !! c)) ->
  let after := fold_left (release_profile_hold VERSION) cookies d in
  (forall k, profile_holds after !! k
             = if decide (k ∈ cookies) then None else profile_holds d !! k) /\
  (forall k, name_watches after !! k
             = if decide (k ∈ cookies) then None else name_watches d !! k) /\
  exists tr,
    trace after = (trace d ++ tr)%list /\
    (forall k, count_events (released_of k) tr
               = if decide (k ∈ cookies) then 1%nat else 0%nat) /\
    (forall k hold, profile_holds d !! k = Some hold -> k ∈ cookies ->
                    count_events (released_to hold k) tr = 1%nat).
Proof.
  revert d. induction cookies as [|c l IH]; intros d Hnd Hin; cbn zeta.
  { cbn. split; [reflexivity|]. split; [reflexivity|].
    exists []. rewrite app_nil_r. split; [reflexivity|].
    split; [reflexivity|]. intros k h _ Hk. now apply elem_of_nil in Hk. }
  apply NoDup_cons in Hnd as [Hc Hnd].
  destruct (Hin c) as [h Hh]; [now left|].
  destruct (release_profile_hold_step d c h Hh) as (Eh & En & tr1 & Et & B1).
  cbn [fold_left].
  set (d' := release_profile_hold VERSION d c) in *.
  destruct (IH d' Hnd) as (Ih & In & tr2 & Et2 & Ic & Ito).
  { intros k Hk. rewrite Eh. rewrite lookup_delete_ne.
    - apply Hin. now right.
    - intros ->. contradiction. }
  split; [|split].
  - intros k. rewrite Ih, Eh. destruct (decide (k ∈ l)) as [Hk|Hk].
    + rewrite decide_True by now right. reflexivity.
    + destruct (decide (k = c)) as [->|Hkc].
      * rewrite decide_True by now left. apply lookup_delete_eq.
      * rewrite decide_False by (intros [?|?]%elem_of_cons; contradiction).
        now apply lookup_delete_ne.
  - intros k. rewrite In, En. destruct (decide (k ∈ l)) as [Hk|Hk].
    + rewrite decide_True by now right. reflexivity.
    + destruct (decide (k = c)) as [->|Hkc].
      * rewrite decide_True by now left. apply lookup_delete_eq.
      * rewrite decide_False by (intros [?|?]%elem_of_cons; contradiction).
        now apply lookup_delete_ne.
  - eexists. split; [rewrite Et2, Et, <- app_assoc; reflexivity|].
    assert (Hrest : forall P, (forall e, P e = true -> not_released e = false) ->
              forall e1 e2, P e1 = false ->
              count_events P ((e1 :: e2 :: tr1) ++ tr2)
              = ((if P e2 then 1 else 0) + count_events P tr2)%nat).
    { intros P HP e1 e2 H1. rewrite count_events_app.
      unfold count_events at 1. cbn [List.filter]. rewrite H1.
      assert (H0 : length (List.filter P tr1) = 0%nat).
      { apply (count_events_none P not_released); [|exact B1].
        intros e He. destruct (P e) eqn:HPe; [|reflexivity].
        apply HP in HPe. congruence. }
      destruct (P e2); cbn [length]; rewrite H0; reflexivity. }
    split.
    + intros k. rewrite Hrest.
      * rewrite Ic. cbn [released_of].
        destruct (Z.eqb_spec c k) as [->|Hkc].
        -- rewrite (decide_False (P := k ∈ l)) by exact Hc.
           now rewrite decide_True by now left.
        -- destruct (decide (k ∈ l)) as [Hk|Hk].
           ++ rewrite decide_True by now right. reflexivity.
           ++ rewrite decide_False; [reflexivity|].
              intros [?|?]%elem_of_cons; [congruence|contradiction].
      * intros [] He; try discriminate He; reflexivity.
      * reflexivity.
    + intros k hold Hk Hkin. rewrite Hrest.
      * cbn [released_to]. destruct (Z.eqb_spec c k) as [->|Hkc].
        -- assert (hold = h) by congruence. subst hold.
           rewrite !String.eqb_refl. cbn [andb].
           rewrite (count_released_to_le h k tr2); [reflexivity|].
           rewrite Ic. now rewrite decide_False by exact Hc.
        -- cbn [andb]. apply Ito.
           ++ rewrite Eh. rewrite lookup_delete_ne by exact Hkc. exact Hk.
           ++ apply elem_of_cons in Hkin as [?|?]; [congruence|assumption].
      * intros [] He; try discriminate He; reflexivity.
      * reflexivity.
Qed.

Lemma vanished_cookies_spec (name : string) (holds : gmap Z ProfileHold) :
  let cookies :=
    omap (fun kv : Z * ProfileHold =>
            if negb (String.eqb (ph_requester (snd kv)) name) then None
            else Some (fst kv))
         (map_to_list holds) in
  NoDup cookies /\
  forall k, k ∈ cookies <->
            exists h, holds !! k = Some h /\ ph_requester h = name.
Proof.
  cbn zeta. split.
  - pose proof (NoDup_fst_map_to_list holds) as Hnd.
    induction (map_to_list holds) as [|[k h] l IH]; [constructor|].
    cbn in Hnd. apply NoDup_cons in Hnd as [Hk Hnd]. cbn.
    destruct (negb (String.eqb (ph_requester h) name)); [now apply IH|].
    apply NoDup_cons. split; [|now apply IH].
    intros (y & Hy & Hf)%list_elem_of_omap. apply Hk.
    destruct (negb (String.eqb (ph_requester (snd y)) name));
      [discriminate Hf|].
    injection Hf as <-. apply list_elem_of_fmap. now exists y.
  - intros k. rewrite list_elem_of_omap. split.
    + intros ([k' h] & Hin & Hf). cbn in Hf.
      destruct (String.eqb_spec (ph_requester h) name) as [E|E];
        cbn in Hf; [|discriminate Hf].
      injection Hf as ->. exists h. split; [|exact E].
      now apply elem_of_map_to_list in Hin.
    + intros (h & Hl & E). exists (k, h).
      split; [now apply elem_of_map_to_list|].
      cbn. rewrite E, String.eqb_refl. reflexivity.
Qed.

(** X8: when a peer leaves the bus, [holder_disappeared] takes exactly the
    holds of that peer out of the registry and leaves the others; each
    hold taken out gets one [ProfileReleased] signal, addressed as the
    hold was taken, and its name watch is dropped; no signal goes out for
    any other cookie; the selected profile stays; and a second call for the
    same name changes nothing. *)
Theorem holder_disappeared_releases_the_peer data (name : string) :
  let after := holder_disappeared VERSION name data in
  (forall cookie,
      profile_holds after !! cookie
      = match profile_holds data !! cookie with
        | Some hold =>
            if String.eqb (ph_requester hold) name then None else Some hold
        | None => None
        end) /\
  (forall cookie hold,
      profile_holds data !! cookie = Some hold ->
      ph_requester hold = name ->
      name_watches after !! cookie = None /\
      count_events (released_to hold cookie) (trace after)
      = S (count_events (released_to hold cookie) (trace data)) /\
      count_events (released_of cookie) (trace after)
      = S (count_events (released_of cookie) (trace data))) /\
  (forall cookie,
      (forall hold, profile_holds data !! cookie = Some hold ->
                    ph_requester hold <> name) ->
      count_events (released_of cookie) (trace after)
      = count_events (released_of cookie) (trace data)) /\
  selected_profile after = selected_profile data /\
  holder_disappeared VERSION name after = after.
Proof.
  intros after.
  destruct (vanished_cookies_spec name (profile_holds data)) as (Hnd & Hin).
  set (cookies := omap _ (map_to_list (profile_holds data))) in *.
  destruct (fold_release_spec cookies data Hnd) as (Hh & Hn & tr & Et & Hc & Hto).
  { intros c (h & Hl & _)%Hin. now exists h. }
  change (fold_left (release_profile_hold VERSION) cookies data)
    with after in *.
  assert (Hholds : forall cookie,
             profile_holds after !! cookie
             = match profile_holds data !! cookie with
               | Some hold =>
                   if String.eqb (ph_requester hold) name then None
                   else Some hold
               | None => None
               end).
  { intros k. rewrite Hh. destruct (decide (k ∈ cookies)) as [Hk|Hk].
    - apply Hin in Hk as (h & -> & E). now rewrite E, String.eqb_refl.
    - destruct (profile_holds data !! k) as [h|] eqn:Hl; [|reflexivity].
      destruct (String.eqb_spec (ph_requester h) name) as [E|E];
        [|reflexivity].
      exfalso. apply Hk, Hin. now exists h. }
  split; [exact Hholds|]. split; [|split; [|split]].
  - intros k h Hl E.
    assert (Hk : k ∈ cookies) by (apply Hin; now exists h).
    split; [|split].
    + rewrite Hn. now rewrite decide_True by exact Hk.
    + rewrite Et, count_events_app, (Hto k h Hl Hk). lia.
    + rewrite Et, count_events_app, Hc.
      rewrite decide_True by exact Hk. lia.
  - intros k Hk. rewrite Et, count_events_app, Hc.
    rewrite decide_False; [lia|].
    intros (h & Hl & E)%Hin. exact (Hk h Hl E).
  - apply selected_fold_release.
  - unfold holder_disappeared.
    assert (E : omap
                  (fun kv : Z * ProfileHold =>
                     if negb (String.eqb (ph_requester (snd kv)) name)
                     then None else Some (fst kv))
                  (map_to_list (profile_holds after)) = []).
    { destruct (omap _ (map_to_list (profile_holds after))) as [|c l] eqn:Ho;
        [reflexivity|].
      destruct (vanished_cookies_spec name (profile_holds after)) as (_ & Hin').
      cbn zeta in Hin'. rewrite Ho in Hin'.
      destruct (proj1 (Hin' c)) as (h & Hl & E); [now left|].
      rewrite Hholds in Hl.
      destruct (profile_holds data !! c) as [h'|]; [|discriminate Hl].
      destruct (String.eqb_spec (ph_requester h') name) as [E'|E'];
        [discriminate Hl|].
      injection Hl as ->. contradiction. }
    rewrite E. reflexivity.
Qed.

End HolderDisappeared.

(* ===================================================================== *)
(** ** The answers to bus calls                                           *)
(* ===================================================================== *)

Section BusCalls.
Context {HW : Type} (VERSION : string).
Implicit Types d data : PpdApp HW.

Lemma send_activate_trace d1 X m :
  (X = d1 \/
   exists t,
     X = snd (activate_target_profile d1 t
                PPD_PROFILE_ACTIVATION_REASON_PROGRAM_HOLD) /\ True) ->
  exists tr,
    trace (send_dbus_event VERSION X m) = (trace d1 ++ tr)%list /\
    forallb not_reply tr = true /\ forallb not_released tr = true.
Proof.
  intros HX.
  destruct (send_dbus_event_spec VERSION X m) as (tn & -> & Bn).
  cbn [trace with_trace].
  assert (Rn : forallb not_reply tn = true).
  { clear -Bn. induction tn as [|e l IH]; [reflexivity|]. cbn in *.
    apply andb_prop in Bn as [He Hl]. rewrite (IH Hl).
    destruct e; try discriminate He; reflexivity. }
  apply notification_not_released in Bn.
  destruct HX as [->|(t & -> & _)].
  - exists tn. auto.
  - destruct (activate_target_profile_spec d1 t
                PPD_PROFILE_ACTIVATION_REASON_PROGRAM_HOLD)
      as ((tb & -> & Bb) & _).
    assert (Rb : forallb not_reply tb = true).
    { clear -Bb. induction tb as [|e l IH]; [reflexivity|]. cbn in *.
      apply andb_prop in Bb as [He Hl]. rewrite (IH Hl).
      destruct e; try discriminate He; reflexivity. }
    apply backend_not_released in Bb.
    eexists (_ :: tb ++ tn)%list. split; [|split].
    + rewrite <- app_assoc. reflexivity.
    + cbn. now rewrite forallb_app, Rb, Rn.
    + cbn. now rewrite forallb_app, Bb, Bn.
Qed.

Lemma hold_profile_accepted_trace d profile_name why app_id invocation :
  let profile := ppd_profile_from_str profile_name in
  profile = PPD_PROFILE_PERFORMANCE \/ profile = PPD_PROFILE_POWER_SAVER ->
  get_profile_available d profile = true ->
  exists tr,
    trace (hold_profile VERSION d (profile_name, why, app_id) invocation)
    = (trace d
       ++ WatchName (sender invocation) (next_watch_id d)
       :: ReturnValue invocation (Some (next_watch_id d)) :: tr)%list /\
    forallb not_reply tr = true /\ forallb not_released tr = true.
Proof.
  intros profile Hp Hav.
  destruct (hold_profile_shape VERSION d profile_name why app_id invocation)
    as [(Hrej & _)|(_ & _ & X & m & -> & HX)].
  { exfalso. fold profile in Hrej. destruct Hrej as [[H1 H2]|H]; [|congruence].
    destruct Hp; contradiction. }
  match type of HX with
  | X = ?d1 \/ _ => destruct (send_activate_trace d1 X m) as (tr & -> & R)
  end.
  { destruct HX as [->|(t & -> & _)]; [now left|right; eauto]. }
  exists tr. split; [|exact R]. cbn. rewrite <- !app_assoc. reflexivity.
Qed.

Lemma ppd_driver_activate_profile_error slot p why d :
  ppd_profile_has_single_flag p = true ->
  driver_profile_support (get_driver slot d) p = true ->
  let r := ppd_driver_activate_profile slot p why d in
  fst (fst r) = false -> exists e, snd (fst r) = Some e.
Proof.
  intros Hp Hs. unfold ppd_driver_activate_profile.
  destruct (get_driver slot d) as [driver|]; [|discriminate Hs].
  rewrite Hp. cbn [negb].
  destruct (drv_activate_profile (drv_class driver)) as [method|];
    [|discriminate].
  destruct (snd (method (drv_hw driver) p why)) as [e|]; cbn;
    [eauto|discriminate].
Qed.

Lemma activate_target_profile_error d t why :
  ppd_profile_has_single_flag t = true ->
  let r := activate_target_profile d t why in
  fst (fst r) = false -> exists e, snd (fst r) = Some e.
Proof.
  intros Ht. unfold activate_target_profile. cbn zeta.
  set (d0 := emit (LogSettingActiveProfile t why (active_profile d)) d).
  destruct (driver_profile_support (cpu_driver d0) t) eqn:Hs0.
  - pose proof (ppd_driver_activate_profile_error CPU t why d0 Ht Hs0) as H1.
    destruct (ppd_driver_activate_profile CPU t why d0) as [[cpu_ok e1] d1].
    cbn [fst snd] in H1. destruct cpu_ok; cbn [negb].
    2: { intros _. destruct (H1 eq_refl) as (e & ->). cbn. eauto. }
    clear H1.
    destruct (driver_profile_support (platform_driver d1) t) eqn:Hs1.
    + pose proof (ppd_driver_activate_profile_error PLATFORM t why d1 Ht Hs1)
        as H2.
      destruct (ppd_driver_activate_profile PLATFORM t why d1)
        as [[platform_ok e2] d2].
      cbn [fst snd] in H2. destruct platform_ok; cbn [negb]; [discriminate|].
      destruct (H2 eq_refl) as (e & ->).
      destruct (negb (PPD_IS_DRIVER (cpu_driver d2))); [cbn; eauto|].
      destruct (ppd_driver_activate_profile CPU (active_profile d)
                  PPD_PROFILE_ACTIVATION_REASON_INTERNAL d2) as [[? ?] ?].
      cbn. eauto.
    + cbn [negb]. discriminate.
  - cbn [negb].
    destruct (driver_profile_support (platform_driver d0) t) eqn:Hs1.
    + pose proof (ppd_driver_activate_profile_error PLATFORM t why d0 Ht Hs1)
        as H2.
      destruct (ppd_driver_activate_profile PLATFORM t why d0)
        as [[platform_ok e2] d2].
      cbn [fst snd] in H2. destruct platform_ok; cbn [negb]; [discriminate|].
      destruct (H2 eq_refl) as (e & ->).
      destruct (negb (PPD_IS_DRIVER (cpu_driver d2))); [cbn; eauto|].
      destruct (ppd_driver_activate_profile CPU (active_profile d)
                  PPD_PROFILE_ACTIVATION_REASON_INTERNAL d2) as [[? ?] ?].
      cbn. eauto.
    + cbn [negb]. discriminate.
Qed.

Lemma set_active_profile_error d (profile : string) :
  let r := set_active_profile VERSION d profile in
  fst (fst r) = false -> exists e, snd (fst r) = Some e.
Proof.
  destruct (set_active_profile_shape VERSION d profile)
    as [(text & -> & _)|[(-> & _)|(Hu & _ & _ & d0 & m & _ & Hr)]].
  - cbn. eauto.
  - discriminate.
  - cbn zeta in Hr |- *. rewrite Hr.
    pose proof (activate_target_profile_error d0 (ppd_profile_from_str profile)
                  PPD_PROFILE_ACTIVATION_REASON_USER
                  (from_str_single_flag profile Hu)) as He.
    cbn zeta in He.
    destruct (fst (fst (activate_target_profile d0 _ _))); [discriminate|].
    cbn. intros _. now apply He.
Qed.

Lemma extends_tail (P : Event -> bool) d d' :
  extends P d d' ->
  exists tr, trace d' = (trace d ++ tr)%list /\ forallb P tr = true.
Proof. intros H. exact H. Qed.

(** X10: every call on the bus interface is answered exactly once: what a
    method call or a write of a property appends to the trace holds one
    reply, a value or an error, and it answers that call. *)
Theorem every_bus_call_is_answered_once data :
  (forall call invocation,
      exists tr,
        trace (handle_method_call VERSION data call invocation)
        = (trace data ++ tr)%list /\ answered_once invocation tr) /\
  (forall property_name value invocation,
      exists tr,
        trace (properties_set VERSION data property_name value invocation)
        = (trace data ++ tr)%list /\ answered_once invocation tr).
Proof.
  assert (Hone : forall invocation reply,
             (exists result, reply = ReturnValue invocation result) \/
             (exists error, reply = ReturnError invocation error) ->
             answered_once invocation [reply]).
  { intros inv reply H. exists [], reply, []. auto. }
  assert (Hlast : forall invocation tr reply,
             forallb not_reply tr = true ->
             (exists result, reply = ReturnValue invocation result) \/
             (exists error, reply = ReturnError invocation error) ->
             answered_once invocation (tr ++ [reply])).
  { intros inv tr reply Htr H. exists tr, reply, []. auto. }
  split.
  - intros call inv. unfold handle_method_call.
    destruct (_ && _).
    { eexists [_]. split; [reflexivity|]. apply Hone. right. eauto. }
    destruct call as [pn why app|cookie|name].
    + destruct (check_action_permission _ _ _).
      { eexists [_]. split; [reflexivity|]. apply Hone. right. eauto. }
      destruct (hold_profile_shape VERSION data pn why app inv)
        as [(_ & text & ->)|(Hp & Hav & _)].
      { eexists [_]. split; [reflexivity|]. apply Hone. right. eauto. }
      destruct (hold_profile_accepted_trace data pn why app inv Hp Hav)
        as (tr & -> & R & _).
      eexists. split; [reflexivity|].
      eexists [_], _, tr. split; [reflexivity|]. split; [reflexivity|].
      split; [exact R|]. left. eauto.
    + unfold release_profile.
      destruct (profile_holds data !! cookie).
      * destruct (extends_tail _ _ _
                    (release_profile_hold_no_reply VERSION data cookie))
          as (tr & Et & R).
        exists (tr ++ [ReturnValue inv None])%list. split.
        -- cbn. rewrite Et, <- app_assoc. reflexivity.
        -- apply Hlast; [exact R|]. left. eauto.
      * eexists [_]. split; [reflexivity|]. apply Hone. right. eauto.
    + eexists [_]. split; [reflexivity|]. apply Hone. right. eauto.
  - intros pn value inv. unfold properties_set, handle_set_property.
    destruct (negb (String.eqb pn "ActiveProfile")).
    { eexists [_]. split; [reflexivity|]. apply Hone. right. eauto. }
    destruct (check_action_permission _ _ _).
    { eexists [_]. split; [reflexivity|]. apply Hone. right. eauto. }
    destruct (extends_tail _ _ _
                (set_active_profile_no_reply VERSION data value))
      as (tr & Et & R).
    pose proof (set_active_profile_error data value) as He. cbn zeta in He.
    destruct (set_active_profile VERSION data value) as [[ok err] dd].
    cbn [fst snd] in *. destruct ok.
    + exists (tr ++ [ReturnValue inv None])%list. split.
      * cbn. rewrite Et, <- app_assoc. reflexivity.
      * apply Hlast; [exact R|]. left. eauto.
    + destruct (He eq_refl) as (e & ->).
      exists (tr ++ [ReturnError inv e])%list. split.
      * cbn. rewrite Et, <- app_assoc. reflexivity.
      * apply Hlast; [exact R|]. right. eauto.
Qed.

(** X11: a method call is refused exactly in the cases of [method_refused], and
    a refused call changes nothing: the state after it is the state before
    it with the error reply at the end of the trace. *)
Theorem refused_method_call_changes_nothing data call invocation :
  (exists error,
      handle_method_call VERSION data call invocation
      = emit (ReturnError invocation error) data) <->
  method_refused data call invocation = true.
Proof.
  unfold method_refused, handle_method_call.
  destruct (negb (String.eqb (interface_name invocation)
                             POWER_PROFILES_IFACE_NAME)
            && negb (String.eqb (interface_name invocation)
                                POWER_PROFILES_LEGACY_IFACE_NAME));
    cbn [orb]; [split; eauto|].
  assert (Hno : forall (d' : PpdApp HW) e1 e2 tr error,
             trace d' = (trace data ++ e1 :: e2 :: tr)%list ->
             d' = emit (ReturnError invocation error) data -> False).
  { intros d' e1 e2 tr error Et ->. cbn in Et.
    apply app_inv_head in Et. discriminate Et. }
  destruct call as [pn why app|cookie|name]; [| |split; eauto].
  - unfold check_action_permission.
    destruct (auth data (sender invocation) _); cbn [negb orb];
      [|split; eauto].
    destruct (hold_profile_shape VERSION data pn why app invocation)
      as [(Hrej & text & ->)|(Hp & Hav & _)].
    + split; [intros _|eauto].
      destruct Hrej as [[H1 H2]|H]; [|rewrite H; apply orb_true_r].
      apply Z.eqb_neq in H1, H2. now rewrite H1, H2.
    + destruct (hold_profile_accepted_trace data pn why app invocation Hp Hav)
        as (tr & Et & _).
      rewrite Hav. cbn [negb orb].
      split.
      * intros (error & E). exfalso. exact (Hno _ _ _ _ _ Et E).
      * intros H. exfalso.
        destruct Hp as [Hp|Hp]; rewrite Hp in H; cbn in H; discriminate H.
  - unfold release_profile.
    destruct (profile_holds data !! cookie) as [hold|] eqn:Hl;
      [|split; eauto].
    split; [|discriminate].
    intros (error & E). exfalso.
    destruct (release_profile_hold_step VERSION data cookie hold Hl)
      as (_ & _ & tr & Et & _).
    assert (Et' : trace (emit (ReturnValue invocation None)
                           (release_profile_hold VERSION data cookie))
                  = (trace data ++ UnwatchName cookie
                       :: ProfileReleased (ph_requester hold)
                            (if String.eqb (ph_requester_iface hold)
                                           POWER_PROFILES_LEGACY_IFACE_NAME
                             then POWER_PROFILES_LEGACY_DBUS_PATH
                             else POWER_PROFILES_DBUS_PATH)
                            (ph_requester_iface hold) cookie
                       :: (tr ++ [ReturnValue invocation None]))%list).
    { cbn. rewrite Et, <- app_assoc. reflexivity. }
    exact (Hno _ _ _ _ _ Et' E).
Qed.

(** X12: a write of ActiveProfile that fails always carries an error and never
    moves the active or the selected profile.  When the name is not one of
    a profile some driver implements, nothing at all changes.  When it is,
    the failure comes from a driver, and by then the holds are gone: the
    registry is empty and every hold got its [ProfileReleased] signal. *)
Theorem failed_user_set data (profile : string) :
  let r := set_active_profile VERSION data profile in
  fst (fst r) = false ->
  (exists error, snd (fst r) = Some error) /\
  active_profile (snd r) = active_profile data /\
  selected_profile (snd r) = selected_profile data /\
  (ppd_profile_from_str profile = PPD_PROFILE_UNSET \/
   get_profile_available data (ppd_profile_from_str profile) = false ->
   snd r = data) /\
  (ppd_profile_from_str profile <> PPD_PROFILE_UNSET ->
   get_profile_available data (ppd_profile_from_str profile) = true ->
   profile_holds (snd r) = ∅ /\
   forall cookie hold,
     profile_holds data !! cookie = Some hold ->
     count_events (released_to hold cookie) (trace (snd r))
     = S (count_events (released_to hold cookie) (trace data))).
Proof.
  intros r Hfail. split; [now apply set_active_profile_error|].
  subst r.
  destruct (set_active_profile_shape VERSION data profile)
    as [(text & Hr & Hbad)|[(Hr & _)|(Hu & Hav & _ & d0 & m & Hd0 & Hr)]].
  - rewrite Hr. cbn [fst snd]. split; [reflexivity|]. split; [reflexivity|].
    split; [reflexivity|].
    intros Hu' Hav'. destruct Hbad; [contradiction|congruence].
  - rewrite Hr in Hfail. discriminate Hfail.
  - cbn zeta in Hr. rewrite Hr in Hfail |- *. clear Hr.
    destruct (activate_target_profile_spec d0 (ppd_profile_from_str profile)
                PPD_PROFILE_ACTIVATION_REASON_USER)
      as ((tb & Et & Bb) & (Fs & Fh & _) & A).
    destruct (fst (fst (activate_target_profile d0 _ _))); [discriminate Hfail|].
    cbn [snd].
    assert (H0 : active_profile d0 = active_profile data /\
                 selected_profile d0 = selected_profile data /\
                 profile_holds d0 = ∅ /\
                 trace d0 = (trace data
                             ++ release_events
                                  (map_to_list (profile_holds data)))%list).
    { destruct Hd0 as [[-> E]|[-> _]].
      - rewrite E, map_to_list_empty. cbn. now rewrite app_nil_r.
      - destruct (release_all_profile_holds_spec data) as (T & A0 & S0 & H0).
        auto. }
    destruct H0 as (A0 & S0 & Hh0 & T0).
    split; [now rewrite A, A0|]. split; [now rewrite Fs, S0|].
    split; [intros [?|?]; [contradiction|congruence]|].
    intros _ _. split; [now rewrite Fh|].
    intros cookie hold Hl. rewrite Et, T0.
    rewrite !count_events_app.
    destruct (count_release_events_one cookie hold
                (map_to_list (profile_holds data))) as (_ & ->).
    + apply NoDup_fst_map_to_list.
    + now apply elem_of_map_to_list.
    + replace (count_events (released_to hold cookie)
                 (LogSettingActiveProfile (ppd_profile_from_str profile)
                    PPD_PROFILE_ACTIVATION_REASON_USER (active_profile d0)
                  :: tb)) with 0%nat; [lia|].
      symmetry. apply count_released_to_le.
      apply not_released_count. cbn. now apply backend_not_released.
Qed.

End BusCalls.

(* ===================================================================== *)
(** ** The signals of a bound driver                                      *)
(* ===================================================================== *)

Section DriverSignals.
Context {HW : Type} (VERSION : string).
Implicit Types d data : PpdApp HW.

(** The tests of a constant mask. *)
Ltac eval_masks :=
  repeat match goal with
         | |- context [Z.eqb ?a 0] =>
             let v := eval vm_compute in (Z.eqb a 0) in
             progress change (Z.eqb a 0) with v
         end.

Lemma send_dbus_event_active_profile d :
  send_dbus_event VERSION d PROP_ACTIVE_PROFILE
  = with_trace
      (trace d
       ++ [PropertiesChanged POWER_PROFILES_DBUS_PATH POWER_PROFILES_IFACE_NAME
             [("ActiveProfile", V_s (ppd_profile_to_str (active_profile d)))];
           PropertiesChanged POWER_PROFILES_LEGACY_DBUS_PATH
             POWER_PROFILES_LEGACY_IFACE_NAME
             [("ActiveProfile", V_s (ppd_profile_to_str (active_profile d)))]])%list
      d.
Proof.
  unfold send_dbus_event, send_dbus_event_iface, emit, get_active_profile,
    mask_has.
  eval_masks. cbn [negb app with_trace trace].
  rewrite <- app_assoc. reflexivity.
Qed.

Lemma send_dbus_event_degraded d :
  send_dbus_event VERSION d PROP_DEGRADED
  = with_trace
      (trace d
       ++ [PropertiesChanged POWER_PROFILES_DBUS_PATH POWER_PROFILES_IFACE_NAME
             [("PerformanceDegraded", V_s (get_performance_degraded d))];
           PropertiesChanged POWER_PROFILES_LEGACY_DBUS_PATH
             POWER_PROFILES_LEGACY_IFACE_NAME
             [("PerformanceDegraded", V_s (get_performance_degraded d))]])%list
      d.
Proof.
  unfold send_dbus_event, send_dbus_event_iface, emit, mask_has.
  eval_masks. cbn [negb app with_trace trace].
  rewrite <- app_assoc. reflexivity.
Qed.

(** X15: a profile change that comes from the firmware: when a bound driver
    reports the profile that is already active, nothing happens; otherwise
    the profile is activated for reason internal, the selected profile and
    the holds stay as they are, a success leaves the profile in the stored
    keys, and the two interfaces are told the active profile whether the
    activation succeeded or not. *)
Theorem firmware_profile_change data slot (profile : PpdProfile) :
  PPD_IS_DRIVER (get_driver slot data) = true ->
  ppd_profile_has_single_flag profile = true ->
  let a := activate_target_profile data profile
             PPD_PROFILE_ACTIVATION_REASON_INTERNAL in
  let after := ppd_driver_emit_profile_changed VERSION slot profile data in
  (profile = active_profile data -> after = data) /\
  (profile <> active_profile data ->
   selected_profile after = selected_profile data /\
   profile_holds after = profile_holds data /\
   active_profile after
   = (if fst (fst a) then profile else active_profile data) /\
   (fst (fst a) = true ->
    config after !! "Profile" = Some (ppd_profile_to_str profile)) /\
   trace after
   = (trace (snd a)
      ++ [PropertiesChanged POWER_PROFILES_DBUS_PATH POWER_PROFILES_IFACE_NAME
            [("ActiveProfile", V_s (ppd_profile_to_str (active_profile after)))];
          PropertiesChanged POWER_PROFILES_LEGACY_DBUS_PATH
            POWER_PROFILES_LEGACY_IFACE_NAME
            [("ActiveProfile",
              V_s (ppd_profile_to_str (active_profile after)))]])%list).
Proof.
  intros Hb Hp a after. subst a after.
  unfold ppd_driver_emit_profile_changed, driver_profile_changed_cb.
  rewrite Hb, Hp. cbn [negb].
  destruct (Z.eqb_spec profile (active_profile data)) as [E|E].
  { split; [reflexivity|contradiction]. }
  split; [contradiction|]. intros _.
  rewrite send_dbus_event_active_profile.
  cbn [selected_profile profile_holds active_profile config trace with_trace].
  destruct (activate_target_profile_spec data profile
              PPD_PROFILE_ACTIVATION_REASON_INTERNAL)
    as (_ & (Fs & Fh & _) & A).
  split; [exact Fs|]. split; [exact Fh|]. split; [exact A|].
  split; [|reflexivity].
  intros Hok.
  destruct (activate_target_profile_success data profile
              PPD_PROFILE_ACTIVATION_REASON_INTERNAL Hok) as (_ & _ & Hc).
  destruct (Hc eq_refl) as (-> & _). apply lookup_insert_eq.
Qed.

(** X16: a bound driver that sets its reason of degraded performance: the
    driver holds the reason (none for an empty string); when the driver
    advertises the performance profile the two interfaces are told the
    published string of the new state, and otherwise there is a warning
    and no notification; the arbitration state is not touched. *)
Theorem degraded_change_is_published data slot (driver : PpdDriver HW)
    (degraded : option string) :
  get_driver slot data = Some driver ->
  let after := driver_set_performance_degraded VERSION slot degraded data in
  ppd_driver_get_performance_degraded (get_driver slot after)
  = match degraded with
    | Some "" => None
    | other => other
    end /\
  active_profile after = active_profile data /\
  selected_profile after = selected_profile data /\
  profile_holds after = profile_holds data /\
  trace after
  = (trace data
     ++ (if Z.land (profiles driver) PPD_PROFILE_PERFORMANCE =? 0
         then [LogWarning
                 "Ignored 'performance-degraded' change on non-performance driver '%s'"
                 [A_str (driver_name driver)]]
         else
           [PropertiesChanged POWER_PROFILES_DBUS_PATH POWER_PROFILES_IFACE_NAME
              [("PerformanceDegraded", V_s (get_performance_degraded after))];
            PropertiesChanged POWER_PROFILES_LEGACY_DBUS_PATH
              POWER_PROFILES_LEGACY_IFACE_NAME
              [("PerformanceDegraded",
                V_s (get_performance_degraded after))]]))%list.
Proof.
  intros Hd after. subst after.
  unfold driver_set_performance_degraded,
    driver_performance_degraded_changed_cb.
  rewrite Hd. cbn [String.eqb Ascii.eqb Bool.eqb negb].
  pose proof (get_driver_g_object_set slot
                (PROP_PERFORMANCE_DEGRADED degraded) data) as HG.
  rewrite Hd in HG. cbn [option_map] in HG.
  assert (HF : active_profile
                 (g_object_set slot (PROP_PERFORMANCE_DEGRADED degraded) data)
               = active_profile data /\
               selected_profile
                 (g_object_set slot (PROP_PERFORMANCE_DEGRADED degraded) data)
               = selected_profile data /\
               profile_holds
                 (g_object_set slot (PROP_PERFORMANCE_DEGRADED degraded) data)
               = profile_holds data /\
               trace
                 (g_object_set slot (PROP_PERFORMANCE_DEGRADED degraded) data)
               = trace data).
  { destruct slot; repeat split. }
  set (G := g_object_set slot (PROP_PERFORMANCE_DEGRADED degraded) data) in *.
  destruct HF as (Fa & Fs & Fh & Ft).
  assert (HD : ppd_driver_get_performance_degraded (get_driver slot G)
               = match degraded with
                 | Some "" => None
                 | other => other
                 end).
  { rewrite HG. cbn. destruct degraded as [[|]|]; reflexivity. }
  rewrite HG.
  cbn [ppd_driver_get_profiles ppd_driver_get_driver_name
       ppd_driver_set_property profiles driver_name].
  destruct (Z.land (profiles driver) PPD_PROFILE_PERFORMANCE =? 0).
  - assert (E : get_driver slot
                  (emit (LogWarning
                           "Ignored 'performance-degraded' change on non-performance driver '%s'"
                           [A_str (driver_name driver)]) G)
                = get_driver slot G) by (destruct slot; reflexivity).
    rewrite E. split; [exact HD|].
    cbn [emit with_trace trace active_profile selected_profile profile_holds].
    rewrite Ft. auto.
  - rewrite send_dbus_event_degraded.
    assert (E : forall t, get_driver slot (with_trace t G) = get_driver slot G)
      by (intros t; destruct slot; reflexivity).
    rewrite E. split; [exact HD|].
    cbn [with_trace trace active_profile selected_profile profile_holds].
    rewrite Ft. split; [exact Fa|]. split; [exact Fs|]. split; [exact Fh|].
    reflexivity.
Qed.

End DriverSignals.

(* ===================================================================== *)
(** ** The probe loop                                                     *)
(* ===================================================================== *)

Section ProbeLoop.
Context {HW : Type}.
Implicit Types d data : PpdApp HW.

Lemma probe_candidate_ext d d' slot (object : Backend HW) :
  debug_options d' = debug_options d ->
  probe_candidate d' slot object = probe_candidate d slot object /\
  action_candidate d' object = action_candidate d object.
Proof.
  intros E.
  unfold probe_candidate, action_candidate, driver_blocked, action_blocked.
  now rewrite E.
Qed.

Lemma probe_turn_spec d (object : Backend HW) :
  let d' := probe_turn d object in
  debug_options d' = debug_options d /\
  (forall slot,
      get_driver slot d'
      = match get_driver slot d with
        | Some x => Some x
        | None => probe_candidate d slot object
        end) /\
  actions d' = (actions d ++ option_list (action_candidate d object))%list /\
  active_profile d' = active_profile d /\
  selected_profile d' = selected_profile d /\
  profile_holds d' = profile_holds d /\
  config d' = config d.
Proof.
  assert (Hsame : forall slot (c : option (PpdDriver HW)) d',
             get_driver slot d' = get_driver slot d ->
             (get_driver slot d = None -> c = None) ->
             get_driver slot d'
             = match get_driver slot d with
               | Some x => Some x
               | None => c
               end).
  { intros slot c d' -> Hc. destruct (get_driver slot d); [reflexivity|].
    now rewrite Hc. }
  destruct object as [driver|driver|action]; cbn zeta;
    unfold probe_turn, probe_driver, probe_action, probe_candidate,
      action_candidate.
  - destruct (driver_blocked d driver).
    { repeat split; try (now rewrite app_nil_r).
      intros slot. apply Hsame; [reflexivity|]. now destruct slot. }
    cbn [get_driver]. destruct (cpu_driver d) as [x|] eqn:Hx; cbn [PPD_IS_DRIVER].
    { repeat split; try (now rewrite app_nil_r).
      intros slot. apply Hsame; [reflexivity|].
      destruct slot; cbn; [congruence|reflexivity]. }
    destruct (Z.land (profiles driver) PPD_PROFILE_ALL =? 0).
    { repeat split; try (now rewrite app_nil_r).
      intros slot. apply Hsame; [now destruct slot|]. now destruct slot. }
    destruct (ppd_driver_probe driver) as [[] driver'];
      cbn [probe_result_eqb]; repeat split; try (now rewrite app_nil_r);
      intros slot;
      first [ apply Hsame; [now destruct slot|now destruct slot]
            | destruct slot; cbn; rewrite ?Hx; try reflexivity;
              now destruct (platform_driver d) ].
  - destruct (driver_blocked d driver).
    { repeat split; try (now rewrite app_nil_r).
      intros slot. apply Hsame; [reflexivity|]. now destruct slot. }
    cbn [get_driver].
    destruct (platform_driver d) as [x|] eqn:Hx; cbn [PPD_IS_DRIVER].
    { repeat split; try (now rewrite app_nil_r).
      intros slot. apply Hsame; [reflexivity|].
      destruct slot; cbn; [reflexivity|congruence]. }
    destruct (Z.land (profiles driver) PPD_PROFILE_ALL =? 0).
    { repeat split; try (now rewrite app_nil_r).
      intros slot. apply Hsame; [now destruct slot|]. now destruct slot. }
    destruct (ppd_driver_probe driver) as [[] driver'];
      cbn [probe_result_eqb]; repeat split; try (now rewrite app_nil_r);
      intros slot;
      first [ apply Hsame; [now destruct slot|now destruct slot]
            | destruct slot; cbn; rewrite ?Hx; try reflexivity;
              now destruct (cpu_driver d) ].
  - destruct (action_blocked d action).
    { repeat split; try (now rewrite app_nil_r).
      intros slot. apply Hsame; [reflexivity|]. now destruct slot. }
    destruct (ppd_action_probe action) as [[] action'];
      cbn [probe_result_eqb]; repeat split; try reflexivity;
      try (now rewrite app_nil_r);
      intros slot; (apply Hsame; [now destruct slot|now destruct slot]).
Qed.

Lemma probe_pass_selected d (objects : list (Backend HW)) :
  selected_profile (probe_pass d objects) = selected_profile d.
Proof.
  unfold probe_pass. fold (@probe_turn HW). revert d.
  induction objects as [|o l IH]; intros d; [reflexivity|].
  cbn [fold_left]. rewrite IH.
  now destruct (probe_turn_spec d o) as (_ & _ & _ & _ & -> & _).
Qed.

(** X17: the probe loop binds, in each slot that is empty, the first driver of
    the table made for that slot that is not blocked, advertises a
    profile, and whose probe succeeds; a slot that holds a driver keeps
    it.  It loads every action that is not blocked and whose probe does
    not fail, in the order of the table.  It leaves the active and the
    selected profile, the holds and the stored keys alone. *)
Theorem probe_pass_binds_first_success data (objects : list (Backend HW)) :
  let after := probe_pass data objects in
  (forall slot,
      get_driver slot after
      = match get_driver slot data with
        | Some x => Some x
        | None => head (omap (probe_candidate data slot) objects)
        end) /\
  actions after = (actions data ++ omap (action_candidate data) objects)%list /\
  active_profile after = active_profile data /\
  selected_profile after = selected_profile data /\
  profile_holds after = profile_holds data /\
  config after = config data.
Proof.
  cbn zeta. unfold probe_pass. fold (@probe_turn HW).
  enough (H : forall d,
             debug_options d = debug_options data ->
             (forall slot,
                 get_driver slot (fold_left probe_turn objects d)
                 = match get_driver slot d with
                   | Some x => Some x
                   | None => head (omap (probe_candidate data slot) objects)
                   end) /\
             actions (fold_left probe_turn objects d)
             = (actions d ++ omap (action_candidate data) objects)%list /\
             active_profile (fold_left probe_turn objects d)
             = active_profile d /\
             selected_profile (fold_left probe_turn objects d)
             = selected_profile d /\
             profile_holds (fold_left probe_turn objects d) = profile_holds d /\
             config (fold_left probe_turn objects d) = config d).
  { apply H. reflexivity. }
  induction objects as [|o l IH]; intros d Hdbg.
  { cbn. repeat split; try (now rewrite app_nil_r).
    intros slot. now destruct (get_driver slot d). }
  cbn [fold_left].
  destruct (probe_turn_spec d o) as (Hd & Hg & Ha & Hact & Hsel & Hh & Hc).
  destruct (IH (probe_turn d o)) as (Ig & Ia & Iact & Isel & Ih & Ic).
  { now rewrite Hd. }
  destruct (probe_candidate_ext data d CPU o Hdbg) as (_ & Eact).
  refine (conj _ (conj _ _)); [| |repeat split; congruence].
  - intros slot. rewrite Ig, Hg.
    destruct (probe_candidate_ext data d slot o Hdbg) as (-> & _).
    destruct (get_driver slot d); [reflexivity|]. cbn [omap list_omap].
    destruct (probe_candidate data slot o); reflexivity.
  - rewrite Ia, Ha, Eact, <- app_assoc. f_equal. cbn [omap list_omap].
    destruct (action_candidate data o); reflexivity.
Qed.

End ProbeLoop.

(* ===================================================================== *)
(** ** Profiles as flags                                                  *)
(* ===================================================================== *)

Section ProfileFlags.
Context {HW : Type}.
Implicit Types d data : PpdApp HW.

Lemma land_pow2 (k p : Z) :
  0 <= k -> Z.land (2 ^ k) p = if Z.testbit p k then 2 ^ k else 0.
Proof.
  intros Hk. apply Z.bits_inj'. intros n Hn.
  rewrite Z.land_spec, Z.pow2_bits_eqb by exact Hk.
  destruct (Z.eqb_spec k n) as [->|Hne].
  - destruct (Z.testbit p n); cbn [andb].
    + now rewrite Z.pow2_bits_eqb, Z.eqb_refl by exact Hk.
    + now rewrite Z.bits_0.
  - cbn [andb]. destruct (Z.testbit p k).
    + rewrite Z.pow2_bits_eqb by exact Hk. symmetry. now apply Z.eqb_neq.
    + now rewrite Z.bits_0.
Qed.

Lemma lor_eqb_0 (x y : Z) : (Z.lor x y =? 0) = (x =? 0) && (y =? 0).
Proof.
  destruct (Z.eqb_spec (Z.lor x y) 0) as [E|E].
  - apply Z.lor_eq_0_iff in E as [-> ->]. reflexivity.
  - destruct (Z.eqb_spec x 0) as [->|]; [|reflexivity].
    destruct (Z.eqb_spec y 0) as [->|]; [|reflexivity].
    now elim E.
Qed.

Lemma first_value_bits (p : PpdProfile) :
  g_flags_get_first_value ppd_profile_class p
  = if Z.testbit p 0 then nth_error ppd_profile_class 0
    else if Z.testbit p 1 then nth_error ppd_profile_class 1
    else if Z.testbit p 2 then nth_error ppd_profile_class 2
    else None.
Proof.
  unfold g_flags_get_first_value, ppd_profile_class, PPD_PROFILE_POWER_SAVER,
    PPD_PROFILE_BALANCED, PPD_PROFILE_PERFORMANCE.
  change (Z.shiftl 1 0) with (2 ^ 0). change (Z.shiftl 1 1) with (2 ^ 1).
  change (Z.shiftl 1 2) with (2 ^ 2).
  destruct (Z.eqb_spec p 0) as [->|Hp]; [reflexivity|].
  cbv beta iota delta [List.find value nth_error].
  rewrite !land_pow2 by lia.
  destruct (Z.testbit p 0); [reflexivity|].
  destruct (Z.testbit p 1); [reflexivity|].
  destruct (Z.testbit p 2); reflexivity.
Qed.

Lemma land_all_bits (p : PpdProfile) :
  (Z.land p PPD_PROFILE_ALL =? 0)
  = negb (Z.testbit p 0) && negb (Z.testbit p 1) && negb (Z.testbit p 2).
Proof.
  change PPD_PROFILE_ALL with (Z.lor (2 ^ 1) (Z.lor (2 ^ 0) (2 ^ 2))).
  rewrite !Z.land_lor_distr_r, !lor_eqb_0, !(Z.land_comm p).
  rewrite !land_pow2 by lia.
  destruct (Z.testbit p 0), (Z.testbit p 1), (Z.testbit p 2); reflexivity.
Qed.

(** X18: the three profiles are the only single flags; the name of a flags
    value is empty exactly when it holds none of the three profiles, and
    otherwise it is the name of the lowest profile the value holds, so that
    reading the name back gives a single profile that is part of the
    value. *)
Theorem profile_names_of_flags (p : PpdProfile) :
  (ppd_profile_has_single_flag p = true <->
   p = PPD_PROFILE_POWER_SAVER \/ p = PPD_PROFILE_BALANCED \/
   p = PPD_PROFILE_PERFORMANCE) /\
  (ppd_profile_to_str p = "" <-> Z.land p PPD_PROFILE_ALL = 0) /\
  (Z.land p PPD_PROFILE_ALL <> 0 ->
   let lowest := ppd_profile_from_str (ppd_profile_to_str p) in
   ppd_profile_has_single_flag lowest = true /\
   Z.land lowest p = lowest /\
   forall q, ppd_profile_has_single_flag q = true -> Z.land q p = q ->
             lowest <= q).
Proof.
  split; [|split].
  - split.
    + unfold ppd_profile_has_single_flag. rewrite first_value_bits.
      destruct (Z.testbit p 0); [cbn; intros H%Z.eqb_eq; auto|].
      destruct (Z.testbit p 1); [cbn; intros H%Z.eqb_eq; auto|].
      destruct (Z.testbit p 2); [cbn; intros H%Z.eqb_eq; auto|].
      discriminate.
    + intros [-> | [-> | ->]]; reflexivity.
  - rewrite <- Z.eqb_eq, land_all_bits.
    unfold ppd_profile_to_str. rewrite first_value_bits.
    destruct (Z.testbit p 0), (Z.testbit p 1), (Z.testbit p 2); cbn;
      split; (reflexivity || discriminate).
  - intros Hne%Z.eqb_neq. rewrite land_all_bits in Hne. cbn zeta.
    unfold ppd_profile_to_str. rewrite first_value_bits.
    assert (Hb : forall k, 0 <= k -> Z.testbit p k = false ->
                           Z.land (2 ^ k) p = 0).
    { intros k Hk Hf. now rewrite land_pow2, Hf by exact Hk. }
    assert (Ht : forall k, 0 <= k -> Z.testbit p k = true ->
                           Z.land (2 ^ k) p = 2 ^ k).
    { intros k Hk Hf. now rewrite land_pow2, Hf by exact Hk. }
    destruct (Z.testbit p 0) eqn:B0;
      [|destruct (Z.testbit p 1) eqn:B1;
        [|destruct (Z.testbit p 2) eqn:B2; [|discriminate Hne]]];
      cbn [nth_error ppd_profile_class value_nick];
      (split; [reflexivity|]);
      (split; [first [ exact (Ht 0 ltac:(lia) B0) | exact (Ht 1 ltac:(lia) B1)
                     | exact (Ht 2 ltac:(lia) B2) ]|]);
      intros q [-> | [-> | ->]]%single_flag_cases Hq;
      try (cbv; discriminate).
    + pose proof (Hb 0 ltac:(lia) B0) as H. change (2 ^ 0) with 1 in H.
      change PPD_PROFILE_POWER_SAVER with 1 in Hq. rewrite H in Hq.
      discriminate Hq.
    + pose proof (Hb 0 ltac:(lia) B0) as H. change (2 ^ 0) with 1 in H.
      change PPD_PROFILE_POWER_SAVER with 1 in Hq. rewrite H in Hq.
      discriminate Hq.
    + pose proof (Hb 1 ltac:(lia) B1) as H. change (2 ^ 1) with 2 in H.
      change PPD_PROFILE_BALANCED with 2 in Hq. rewrite H in Hq.
      discriminate Hq.
Qed.

(** A profile is available when some bound driver has one of its bits:
    the test is on the union of the flags of the bound drivers, and asking
    for a union of profiles asks for any of them. *)
Theorem availability_tests_any_bit data :
  (forall p : PpdProfile,
      get_profile_available data p
      = negb (Z.land (bound_profiles data) p =? 0)) /\
  (forall a b : PpdProfile,
      get_profile_available data (Z.lor a b)
      = get_profile_available data a || get_profile_available data b).
Proof.
  assert (H : forall p : PpdProfile,
             get_profile_available data p
             = negb (Z.land (bound_profiles data) p =? 0)).
  { intros p. unfold get_profile_available, driver_profile_support,
      bound_profiles.
    rewrite Z.land_lor_distr_l, lor_eqb_0.
    destruct (cpu_driver data), (platform_driver data); cbn;
      rewrite ?Z.land_0_l; change (0 =? 0) with true;
      repeat match goal with
             | |- context [Z.land ?a p =? 0] => destruct (Z.land a p =? 0)
             end; reflexivity. }
  split; [exact H|].
  intros a b. rewrite !H, Z.land_lor_distr_r, lor_eqb_0. apply negb_andb.
Qed.

(** X19: the published list of profiles names exactly the profiles that are
    available, in the order power-saver, balanced, performance. *)
Theorem published_profiles_are_the_available_ones data :
  exists entries,
    get_profiles_variant data = V_aasv entries /\
    List.map head entries
    = List.map (fun p => Some ("Profile", ppd_profile_to_str p))
        (List.filter (get_profile_available data)
           [PPD_PROFILE_POWER_SAVER; PPD_PROFILE_BALANCED;
            PPD_PROFILE_PERFORMANCE]).
Proof.
  unfold get_profiles_variant, NUM_PROFILES. cbn [seq omap list_omap].
  unfold profile_entry.
  change (Z.shiftl 1 (Z.of_nat 0)) with PPD_PROFILE_POWER_SAVER.
  change (Z.shiftl 1 (Z.of_nat 1)) with PPD_PROFILE_BALANCED.
  change (Z.shiftl 1 (Z.of_nat 2)) with PPD_PROFILE_PERFORMANCE.
  cbn [List.filter].
  destruct (get_profile_available data PPD_PROFILE_POWER_SAVER),
    (get_profile_available data PPD_PROFILE_BALANCED),
    (get_profile_available data PPD_PROFILE_PERFORMANCE);
    cbn [negb]; eexists; (split; [reflexivity|]); reflexivity.
Qed.

End ProfileFlags.

(* ===================================================================== *)
(** ** An accepted hold                                                   *)
(* ===================================================================== *)

Section AcceptedHold.
Context {HW : Type} (VERSION : string).
Implicit Types d data : PpdApp HW.

Lemma hold_profile_accepted d profile_name why app_id invocation :
  let profile := ppd_profile_from_str profile_name in
  let hold :=
    {| ph_profile := profile; ph_reason := why; ph_application_id := app_id;
       ph_requester := sender invocation;
       ph_requester_iface := interface_name invocation |} in
  let d1 := hold_added d hold invocation in
  let target := effective_hold_profile d1 in
  let go := negb (profile =? active_profile d)
            && (negb (target =? PPD_PROFILE_UNSET)
                && negb (target =? active_profile d)) in
  profile = PPD_PROFILE_PERFORMANCE \/ profile = PPD_PROFILE_POWER_SAVER ->
  get_profile_available d profile = true ->
  hold_profile VERSION d (profile_name, why, app_id) invocation
  = send_dbus_event VERSION
      (if go
       then snd (activate_target_profile d1 target
                   PPD_PROFILE_ACTIVATION_REASON_PROGRAM_HOLD)
       else d1)
      (if go then Z.lor PROP_ACTIVE_PROFILE_HOLDS PROP_ACTIVE_PROFILE
       else PROP_ACTIVE_PROFILE_HOLDS).
Proof.
  cbn zeta. intros Hp Hav. unfold hold_profile.
  assert (Hg : negb (ppd_profile_from_str profile_name =? PPD_PROFILE_PERFORMANCE)
               && negb (ppd_profile_from_str profile_name
                        =? PPD_PROFILE_POWER_SAVER) = false).
  { destruct Hp as [-> | ->]; reflexivity. }
  rewrite Hg, Hav. cbn [negb g_bus_watch_name_on_connection].
  match goal with
  | |- context [negb (?p =? active_profile ?x)] =>
      change x with (hold_added d
        {| ph_profile := ppd_profile_from_str profile_name;
           ph_reason := why; ph_application_id := app_id;
           ph_requester := sender invocation;
           ph_requester_iface := interface_name invocation |} invocation)
  end.
  set (d1 := hold_added d _ invocation).
  change (active_profile d1) with (active_profile d).
  destruct (negb (_ =? active_profile d)); cbn [andb]; [|reflexivity].
  destruct (negb (effective_hold_profile d1 =? PPD_PROFILE_UNSET)
            && negb (effective_hold_profile d1 =? active_profile d));
    reflexivity.
Qed.

(** X9: an accepted HoldProfile call: the hold is stored under the id of the
    watch set on the caller, which is the cookie; nothing else in the
    registry moves and the selected profile stays.  The active profile is
    afterwards the one before the call or the effective hold profile; a
    hold for power-saver makes power-saver the active profile whenever the
    drivers accept it. *)
Theorem accepted_hold_is_registered data profile_name why app_id invocation :
  let profile := ppd_profile_from_str profile_name in
  let cookie := next_watch_id data in
  let hold :=
    {| ph_profile := profile; ph_reason := why; ph_application_id := app_id;
       ph_requester := sender invocation;
       ph_requester_iface := interface_name invocation |} in
  let after :=
    hold_profile VERSION data (profile_name, why, app_id) invocation in
  profile = PPD_PROFILE_PERFORMANCE \/ profile = PPD_PROFILE_POWER_SAVER ->
  get_profile_available data profile = true ->
  profile_holds after = <[cookie := hold]> (profile_holds data) /\
  name_watches after = <[cookie := sender invocation]> (name_watches data) /\
  next_watch_id after = (cookie + 1) mod 2 ^ 32 /\
  selected_profile after = selected_profile data /\
  (active_profile after = active_profile data \/
   active_profile after = effective_hold_profile after) /\
  (profile = PPD_PROFILE_POWER_SAVER ->
   fst (fst (activate_target_profile (hold_added data hold invocation)
               PPD_PROFILE_POWER_SAVER
               PPD_PROFILE_ACTIVATION_REASON_PROGRAM_HOLD)) = true ->
   active_profile after = PPD_PROFILE_POWER_SAVER).
Proof.
  intros profile cookie hold after Hp Hav. subst after.
  rewrite (hold_profile_accepted data profile_name why app_id invocation Hp Hav).
  fold profile. fold hold.
  set (d1 := hold_added data hold invocation).
  set (target := effective_hold_profile d1).
  set (go := negb (profile =? active_profile data) && _).
  set (X := if go then _ else d1).
  destruct (fields_send_dbus_event VERSION X
              (if go then Z.lor PROP_ACTIVE_PROFILE_HOLDS PROP_ACTIVE_PROFILE
               else PROP_ACTIVE_PROFILE_HOLDS))
    as ((Fs & Fh & Fn & Fi & _) & Fa).
  destruct (activate_target_profile_spec d1 target
              PPD_PROFILE_ACTIVATION_REASON_PROGRAM_HOLD)
    as (_ & (Gs & Gh & Gn & Gi & _) & Ga).
  assert (HX : selected_profile X = selected_profile d1 /\
               profile_holds X = profile_holds d1 /\
               name_watches X = name_watches d1 /\
               next_watch_id X = next_watch_id d1).
  { subst X. destruct go; auto. }
  destruct HX as (Xs & Xh & Xn & Xi).
  rewrite Fs, Fh, Fn, Fi, Fa, Xs, Xh, Xn, Xi.
  split; [reflexivity|]. split; [reflexivity|]. split; [reflexivity|].
  split; [reflexivity|].
  assert (Ee : effective_hold_profile
                 (send_dbus_event VERSION X
                    (if go
                     then Z.lor PROP_ACTIVE_PROFILE_HOLDS PROP_ACTIVE_PROFILE
                     else PROP_ACTIVE_PROFILE_HOLDS)) = target).
  { apply effective_hold_profile_ext. now rewrite Fh, Xh. }
  rewrite Ee. split.
  - subst X. destruct go; [|now left]. rewrite Ga.
    destruct (fst (fst _)); [now right|now left].
  - intros Hps Hok.
    assert (Ht : target = PPD_PROFILE_POWER_SAVER).
    { apply loop_power_saver. exists (cookie, hold). split; [|exact Hps].
      apply elem_of_map_to_list. apply lookup_insert_eq. }
    subst X go. rewrite Ht, Hps in *.
    destruct (Z.eqb_spec PPD_PROFILE_POWER_SAVER (active_profile data))
      as [E|E]; cbn [negb andb]; [now symmetry|].
    change (PPD_PROFILE_POWER_SAVER =? PPD_PROFILE_UNSET) with false.
    cbn [negb andb]. rewrite Ga, Hok. reflexivity.
Qed.

(** Losing the bus name: the main loop is told to quit; before the
    drivers were started the exit status is a failure, and once they were
    started, which [start_profile_drivers] always records, the exit status
    stays what the start left. *)
Theorem name_lost_exit_status data (objects : list (Backend HW)) :
  let started := start_profile_drivers VERSION data objects in
  was_started started = true /\
  quit_requested (name_lost_handler started) = true /\
  exit_status (name_lost_handler started) = exit_status started /\
  (was_started data = false ->
   exit_status (name_lost_handler data) = EXIT_FAILURE /\
   quit_requested (name_lost_handler data) = true).
Proof.
  cbn zeta.
  assert (Hs : was_started (start_profile_drivers VERSION data objects) = true).
  { unfold start_profile_drivers, start_after_probe.
    destruct (activate_target_profile _ _ _) as [[ok e] dd]. reflexivity. }
  split; [exact Hs|]. split; [reflexivity|]. split.
  - unfold name_lost_handler, exit_status. cbn. now rewrite Hs.
  - intros H. unfold name_lost_handler, exit_status.
    cbn. rewrite H. split; reflexivity.
Qed.

End AcceptedHold.

(* ===================================================================== *)
(** ** The power source, sleep, stop and restart                          *)
(* ===================================================================== *)

Section Monitors.
Context {HW : Type} (VERSION : string).
Variable PPD_DRIVER_GET_CLASS : PpdDriverClass HW -> PpdDriverClassMonitors HW.
Variable PPD_ACTION_GET_CLASS : PpdActionClass HW -> PpdActionClassMonitors HW.
Implicit Types d : PpdApp HW.
Implicit Types data : PpdAppMonitors HW.

Lemma monitors_frame_refl d : monitors_frame d d.
Proof.
  split; [apply frame_refl|]. repeat split. apply extends_refl.
Qed.

Lemma monitors_frame_trans d1 d2 d3 :
  monitors_frame d1 d2 -> monitors_frame d2 d3 -> monitors_frame d1 d3.
Proof.
  intros (F1 & A1 & C1 & P1 & E1) (F2 & A2 & C2 & P2 & E2).
  split; [exact (frame_trans _ _ _ F1 F2)|].
  split; [congruence|]. split; [congruence|]. split; [congruence|].
  exact (extends_trans _ _ _ _ E1 E2).
Qed.

Lemma monitors_frame_emit d e : log_event e = true -> monitors_frame d (emit e d).
Proof.
  intros He. split; [repeat split|]. repeat split. now apply extends_emit.
Qed.

Lemma monitors_frame_set_driver d slot x :
  monitors_frame d (set_driver slot x d).
Proof.
  destruct slot; (split; [repeat split|]); repeat split;
    exists []; (split; [cbn; now rewrite app_nil_r|reflexivity]).
Qed.

Lemma get_driver_set_driver d slot slot' x :
  get_driver slot' (set_driver slot x d)
  = if match slot, slot' with CPU, CPU | PLATFORM, PLATFORM => true
                              | _, _ => false end
    then x else get_driver slot' d.
Proof. destruct slot, slot'; reflexivity. Qed.

(** One of the two blocks of a monitor, for a method [pick] of the
    class. *)
Lemma notify_driver_spec d slot (format : string)
    (call : PpdApp HW -> bool * option GError * PpdApp HW)
    (pick : PpdDriver HW -> option (HW -> HW * option GError)) :
  (forall d0 driver,
      get_driver slot d0 = Some driver ->
      call d0
      = match pick driver with
        | None => (true, None, d0)
        | Some f =>
            let r := f (drv_hw driver) in
            let d1 := set_driver slot (Some (with_hw (fst r) driver)) d0 in
            match snd r with
            | None => (true, None, d1)
            | Some e => (false, Some e, d1)
            end
        end) ->
  let d' := notify_driver slot format call d in
  (forall slot',
      get_driver slot' d'
      = if match slot, slot' with CPU, CPU | PLATFORM, PLATFORM => true
                                  | _, _ => false end
        then option_map (fun driver => after_method (pick driver) driver)
               (get_driver slot d)
        else get_driver slot' d) /\
  actions d' = actions d /\ monitors_frame d d'.
Proof.
  intros Hcall. cbn zeta. unfold notify_driver.
  destruct (get_driver slot d) as [driver|] eqn:Hd; cbn [PPD_IS_DRIVER].
  2: { split; [|split; [reflexivity|apply monitors_frame_refl]].
       intros slot'. destruct slot, slot'; cbn in Hd |- *; congruence. }
  rewrite (Hcall d driver Hd). unfold after_method. cbn [option_map].
  destruct (pick driver) as [f|].
  2: { cbn [negb]. split; [|split; [reflexivity|apply monitors_frame_refl]].
       intros slot'. destruct slot, slot'; cbn in Hd |- *; congruence. }
  cbn zeta. destruct (snd (f (drv_hw driver))) as [e|]; cbn [negb].
  - split; [|split].
    + intros slot'. destruct slot, slot'; reflexivity.
    + destruct slot; reflexivity.
    + eapply monitors_frame_trans; [apply monitors_frame_set_driver|].
      now apply monitors_frame_emit.
  - split; [|split].
    + intros slot'. destruct slot, slot'; reflexivity.
    + destruct slot; reflexivity.
    + apply monitors_frame_set_driver.
Qed.

Lemma actions_power_changed_spec (l : list (PpdAction HW)) reason :
  fst (actions_power_changed PPD_ACTION_GET_CLASS l reason)
  = List.map
      (fun action =>
         action_after_method
           (option_map (fun f hw => f hw reason)
              (act_power_changed (PPD_ACTION_GET_CLASS (act_class action))))
           action) l /\
  forallb log_event (snd (actions_power_changed PPD_ACTION_GET_CLASS l reason))
  = true.
Proof.
  induction l as [|a l [IH1 IH2]]; [split; reflexivity|].
  cbn [actions_power_changed fst snd List.map].
  rewrite IH1, forallb_app, IH2. unfold ppd_action_power_changed.
  destruct (act_power_changed (PPD_ACTION_GET_CLASS (act_class a))) as [f|];
    cbn; [|split; reflexivity].
  destruct (snd (f (act_hw a) reason)); split; reflexivity.
Qed.

Lemma power_reason_eqb_spec (a b : PpdPowerChangedReason) :
  power_reason_eqb a b = true <-> a = b.
Proof. destruct a, b; cbn; split; (reflexivity || discriminate). Qed.

Lemma ppd_driver_power_changed_call slot reason d0 (driver : PpdDriver HW) :
  get_driver slot d0 = Some driver ->
  ppd_driver_power_changed PPD_DRIVER_GET_CLASS slot reason d0
  = match option_map (fun f hw => f hw reason)
            (drv_power_changed (PPD_DRIVER_GET_CLASS (drv_class driver))) with
    | None => (true, None, d0)
    | Some f =>
        let r := f (drv_hw driver) in
        let d1 := set_driver slot (Some (with_hw (fst r) driver)) d0 in
        match snd r with
        | None => (true, None, d1)
        | Some e => (false, Some e, d1)
        end
    end.
Proof.
  intros Hd. unfold ppd_driver_power_changed. rewrite Hd.
  destruct (drv_power_changed _); reflexivity.
Qed.

Lemma ppd_driver_prepare_to_sleep_call slot start d0 (driver : PpdDriver HW) :
  get_driver slot d0 = Some driver ->
  ppd_driver_prepare_to_sleep PPD_DRIVER_GET_CLASS slot start d0
  = match option_map (fun f hw => f hw start)
            (drv_prepare_to_sleep (PPD_DRIVER_GET_CLASS (drv_class driver))) with
    | None => (true, None, d0)
    | Some f =>
        let r := f (drv_hw driver) in
        let d1 := set_driver slot (Some (with_hw (fst r) driver)) d0 in
        match snd r with
        | None => (true, None, d1)
        | Some e => (false, Some e, d1)
        end
    end.
Proof.
  intros Hd. unfold ppd_driver_prepare_to_sleep. rewrite Hd.
  destruct (drv_prepare_to_sleep _); reflexivity.
Qed.

(** The two blocks in a row, CPU then platform. *)
Lemma notify_both_spec d (format : string)
    (call : Slot -> PpdApp HW -> bool * option GError * PpdApp HW)
    (pick : PpdDriver HW -> option (HW -> HW * option GError)) :
  (forall slot d0 driver,
      get_driver slot d0 = Some driver ->
      call slot d0
      = match pick driver with
        | None => (true, None, d0)
        | Some f =>
            let r := f (drv_hw driver) in
            let d1 := set_driver slot (Some (with_hw (fst r) driver)) d0 in
            match snd r with
            | None => (true, None, d1)
            | Some e => (false, Some e, d1)
            end
        end) ->
  let d' := notify_driver PLATFORM format (call PLATFORM)
              (notify_driver CPU format (call CPU) d) in
  (forall slot,
      get_driver slot d'
      = option_map (fun driver => after_method (pick driver) driver)
          (get_driver slot d)) /\
  actions d' = actions d /\ monitors_frame d d'.
Proof.
  intros Hcall. cbn zeta.
  destruct (notify_driver_spec d CPU format (call CPU) pick (Hcall CPU))
    as (G1 & A1 & F1).
  set (d1 := notify_driver CPU format (call CPU) d) in *.
  destruct (notify_driver_spec d1 PLATFORM format (call PLATFORM) pick
              (Hcall PLATFORM)) as (G2 & A2 & F2).
  split; [|split].
  - intros [].
    + rewrite (G2 CPU). exact (G1 CPU).
    + rewrite (G2 PLATFORM), (G1 PLATFORM). reflexivity.
  - congruence.
  - exact (monitors_frame_trans _ _ _ F1 F2).
Qed.

Lemma upower_battery_set_power_changed_reason_spec data reason :
  let after :=
    upower_battery_set_power_changed_reason PPD_DRIVER_GET_CLASS
      PPD_ACTION_GET_CLASS data reason in
  (power_changed_reason data = reason -> after = data) /\
  (power_changed_reason data <> reason ->
   power_changed_reason after = reason /\
   (forall slot,
       get_driver slot (app after)
       = option_map
           (fun driver =>
              after_method
                (option_map (fun f hw => f hw reason)
                   (drv_power_changed (PPD_DRIVER_GET_CLASS (drv_class driver))))
                driver)
           (get_driver slot (app data))) /\
   actions (app after)
   = List.map
       (fun action =>
          action_after_method
            (option_map (fun f hw => f hw reason)
               (act_power_changed (PPD_ACTION_GET_CLASS (act_class action))))
            action)
       (actions (app data)) /\
   monitors_frame (app data) (app after)).
Proof.
  cbn zeta. unfold upower_battery_set_power_changed_reason.
  destruct (power_reason_eqb (power_changed_reason data) reason) eqn:E.
  { apply power_reason_eqb_spec in E. split; [reflexivity|contradiction]. }
  split.
  { intros H. apply power_reason_eqb_spec in H. congruence. }
  intros _. cbn [power_changed_reason app]. split; [reflexivity|].
  destruct (actions_power_changed_spec (actions (app data)) reason)
    as (HA & HT).
  set (a1 := with_trace _ (with_actions _ _)).
  destruct (notify_both_spec a1 "failed to update driver %s: %s"
              (fun slot => ppd_driver_power_changed PPD_DRIVER_GET_CLASS slot
                             reason)
              (fun driver =>
                 option_map (fun f hw => f hw reason)
                   (drv_power_changed (PPD_DRIVER_GET_CLASS (drv_class driver)))))
    as (G & A & F).
  { intros slot d0 driver Hd. now apply ppd_driver_power_changed_call. }
  split; [|split].
  - intros slot. rewrite G. now destruct slot.
  - rewrite A. exact HA.
  - eapply monitors_frame_trans; [|exact F].
    split; [repeat split|]. repeat split.
    eexists (_ :: _)%list. split.
    + subst a1. cbn. rewrite <- app_assoc. reflexivity.
    + cbn. exact HT.
Qed.

(** X20: a change of the power source reaches every back-end: a report of the
    source that is already recorded does nothing; otherwise the source is
    recorded and the method [power_changed] of every loaded action and of
    the two drivers is called, each on the hardware it left last, whether
    or not the one before it failed.  The arbitration state (active and
    selected profile, holds, stored keys) is not touched, and the trace
    only grows by lines of the log. *)
Theorem power_source_change_reaches_every_backend data reason :
  let after :=
    upower_battery_set_power_changed_reason PPD_DRIVER_GET_CLASS
      PPD_ACTION_GET_CLASS data reason in
  (power_changed_reason data = reason -> after = data) /\
  (power_changed_reason data <> reason ->
   power_changed_reason after = reason /\
   (forall slot,
       get_driver slot (app after)
       = option_map
           (fun driver =>
              after_method
                (option_map (fun f hw => f hw reason)
                   (drv_power_changed (PPD_DRIVER_GET_CLASS (drv_class driver))))
                driver)
           (get_driver slot (app data))) /\
   actions (app after)
   = List.map
       (fun action =>
          action_after_method
            (option_map (fun f hw => f hw reason)
               (act_power_changed (PPD_ACTION_GET_CLASS (act_class action))))
            action)
       (actions (app data)) /\
   monitors_frame (app data) (app after)).
Proof. apply upower_battery_set_power_changed_reason_spec. Qed.

(** X21: the sleep signal of the session manager reaches the two drivers on
    both edges: the method [prepare_to_sleep] of the CPU driver and of the
    platform driver is called with the flag of the signal, whether the
    system goes to sleep or wakes up; the actions are not told; the
    arbitration state and the recorded power source stay. *)
Theorem sleep_signal_reaches_both_drivers data (start : bool) :
  let after :=
    on_logind_prepare_for_sleep_cb PPD_DRIVER_GET_CLASS data start in
  (forall slot,
      get_driver slot (app after)
      = option_map
          (fun driver =>
             after_method
               (option_map (fun f hw => f hw start)
                  (drv_prepare_to_sleep
                     (PPD_DRIVER_GET_CLASS (drv_class driver))))
               driver)
          (get_driver slot (app data))) /\
  actions (app after) = actions (app data) /\
  power_changed_reason after = power_changed_reason data /\
  monitors_frame (app data) (app after).
Proof.
  cbn zeta. unfold on_logind_prepare_for_sleep_cb. cbn [app with_app
    power_changed_reason].
  destruct (notify_both_spec (app data) "failed to notify driver %s: %s"
              (fun slot => ppd_driver_prepare_to_sleep PPD_DRIVER_GET_CLASS slot
                             start)
              (fun driver =>
                 option_map (fun f hw => f hw start)
                   (drv_prepare_to_sleep
                      (PPD_DRIVER_GET_CLASS (drv_class driver)))))
    as (G & A & F).
  { intros slot d0 driver Hd. now apply ppd_driver_prepare_to_sleep_call. }
  auto.
Qed.

Lemma log_not_released (tr : list Event) :
  forallb log_event tr = true -> forallb not_released tr = true.
Proof.
  induction tr as [|e l IH]; [reflexivity|]. cbn.
  intros [He Hl]%andb_prop. rewrite (IH Hl).
  destruct e; try discriminate He; reflexivity.
Qed.

(** X22: the stop of the drivers: every hold is released, and its peer gets
    the [ProfileReleased] signal of the hold; the two driver slots, the
    actions and the deferred drivers are emptied; the power source is
    unknown again, which the back-ends are told before they go; the active
    and the selected profile and the stored keys stay.  A restart is a stop
    followed by a start: it keeps the selected profile and leaves the
    arbitration state within its invariant. *)
Theorem stop_releases_every_hold data :
  let after :=
    stop_profile_drivers PPD_DRIVER_GET_CLASS PPD_ACTION_GET_CLASS data in
  profile_holds (app after) = ∅ /\
  cpu_driver (app after) = None /\ platform_driver (app after) = None /\
  actions (app after) = [] /\ probed_drivers (app after) = [] /\
  power_changed_reason after = PPD_POWER_CHANGED_REASON_UNKNOWN /\
  logind_sleep_signal_id after = 0 /\
  active_profile (app after) = active_profile (app data) /\
  selected_profile (app after) = selected_profile (app data) /\
  config (app after) = config (app data) /\
  (forall cookie hold,
      profile_holds (app data) !! cookie = Some hold ->
      count_events (released_to hold cookie) (trace (app after))
      = S (count_events (released_to hold cookie) (trace (app data)))) /\
  (forall objects : list (Backend HW),
      let restarted :=
        restart_profile_drivers VERSION PPD_DRIVER_GET_CLASS
          PPD_ACTION_GET_CLASS data objects in
      selected_profile (app restarted) = selected_profile (app data) /\
      (arbitration_invariant (app data) ->
       arbitration_invariant (app restarted))).
Proof.
  cbn zeta. unfold restart_profile_drivers, stop_profile_drivers.
  set (d0 := if negb (logind_sleep_signal_id data =? 0) then _ else data).
  assert (H0 : app d0 = app data /\
               power_changed_reason d0 = power_changed_reason data /\
               logind_sleep_signal_id d0 = 0).
  { subst d0. destruct (Z.eqb_spec (logind_sleep_signal_id data) 0) as [E|E];
      cbn; auto. }
  destruct H0 as (Happ & _ & Hlog).
  destruct (upower_battery_set_power_changed_reason_spec d0
              PPD_POWER_CHANGED_REASON_UNKNOWN) as (Hsame & Hdiff).
  cbn zeta in Hsame, Hdiff.
  set (d1 := upower_battery_set_power_changed_reason PPD_DRIVER_GET_CLASS
               PPD_ACTION_GET_CLASS d0 PPD_POWER_CHANGED_REASON_UNKNOWN) in *.
  assert (H1 : power_changed_reason d1 = PPD_POWER_CHANGED_REASON_UNKNOWN /\
               logind_sleep_signal_id d1 = 0 /\
               monitors_frame (app data) (app d1)).
  { destruct (power_reason_eqb (power_changed_reason d0)
                PPD_POWER_CHANGED_REASON_UNKNOWN) eqn:E.
    - apply power_reason_eqb_spec in E. rewrite (Hsame E).
      split; [exact E|]. split; [exact Hlog|]. rewrite Happ.
      apply monitors_frame_refl.
    - assert (Hne : power_changed_reason d0
                    <> PPD_POWER_CHANGED_REASON_UNKNOWN).
      { intros H. apply power_reason_eqb_spec in H. congruence. }
      destruct (Hdiff Hne) as (R & _ & _ & F). split; [exact R|].
      split; [|now rewrite <- Happ].
      subst d1. unfold upower_battery_set_power_changed_reason.
      rewrite E. exact Hlog. }
  destruct H1 as (Hr & Hl & ((Fs & Fh & _) & Fa & Fc & _ & (tl & Et & Bl))).
  destruct (release_all_profile_holds_spec (app d1)) as (Tr & Ra & Rs & Rh).
  assert (Rc : config (release_all_profile_holds (app d1)) = config (app d1)).
  { unfold release_all_profile_holds.
    generalize (map_to_list (profile_holds (app d1))).
    intros l. generalize (app d1).
    induction l as [|kv l IH]; intros d; [reflexivity|].
    cbn [fold_left]. specialize (IH (g_bus_unwatch_name (fst kv)
                                       (release_hold_notify d (snd kv) (fst kv)))).
    cbn in IH |- *. exact IH. }
  set (released := release_all_profile_holds (app d1)) in *.
  set (stopped := with_platform_driver None
                    (with_cpu_driver None
                       (with_actions [] (with_probed_drivers [] released)))).
  assert (Sh : profile_holds stopped = ∅) by exact Rh.
  assert (Sa : active_profile stopped = active_profile (app data)).
  { change (active_profile stopped) with (active_profile released).
    now rewrite Ra, Fa. }
  assert (Ss : selected_profile stopped = selected_profile (app data)).
  { change (selected_profile stopped) with (selected_profile released).
    now rewrite Rs, Fs. }
  assert (Sc : config stopped = config (app data)).
  { change (config stopped) with (config released). now rewrite Rc, Fc. }
  assert (St : trace stopped = trace released) by reflexivity.
  cbn [app with_app power_changed_reason logind_sleep_signal_id].
  split; [exact Sh|]. do 4 (split; [reflexivity|]).
  split; [exact Hr|]. split; [exact Hl|].
  split; [exact Sa|]. split; [exact Ss|]. split; [exact Sc|]. split.
  - intros cookie hold Hh. rewrite St, Tr, Et, Fh.
    rewrite !count_events_app.
    destruct (count_release_events_one cookie hold
                (map_to_list (profile_holds (app data)))) as (_ & ->).
    + apply NoDup_fst_map_to_list.
    + now apply elem_of_map_to_list.
    + rewrite (count_released_to_le hold cookie tl); [lia|].
      apply not_released_count. now apply log_not_released.
  - intros objects. split.
    + destruct (start_after_probe_spec VERSION (probe_pass stopped objects))
        as (_ & _ & _ & _ & _ & _ & _ & _ & Hsp).
      unfold start_profile_drivers. rewrite Hsp.
      now rewrite probe_pass_selected.
    + intros (Ia & Is & _ & _).
      unfold start_profile_drivers.
      apply invariant_start_after_probe, invariant_probe_pass.
      split; [now rewrite Sa|]. split; [now rewrite Ss|].
      rewrite Sh. split; intros c h Hc; rewrite lookup_empty in Hc;
        discriminate Hc.
Qed.

End Monitors.

(* ===================================================================== *)
(** ** The theorems above on the concrete machine                         *)
(* ===================================================================== *)

Lemma fake_app_invariant : arbitration_invariant (Fake.app ∅).
Proof.
  split; [reflexivity|]. split; [reflexivity|].
  split; intros c h H; cbn in H; rewrite lookup_empty in H; discriminate H.
Defined.

Lemma reachable_states_keep_invariant_witness :
  arbitration_invariant
    (main_loop_run Fake.VERSION
       (start_profile_drivers Fake.VERSION (Fake.app ∅) (Fake.objects 0))
       [BusMethodCall (HoldProfile "performance" "video" "vlc")
          (Fake.peer ":1.42");
        BusPropertySet "ActiveProfile" "power-saver" (Fake.peer ":1.9");
        BusNameVanished ":1.42"]).
Proof.
  apply (reachable_states_keep_invariant Fake.VERSION (Fake.app ∅)
           (Fake.objects 0)).
  exact fake_app_invariant.
Defined.

Lemma selected_profile_changes_only_by_user_set_witness :
  let input :=
    BusPropertySet "ActiveProfile" "power-saver" (Fake.peer ":1.9") in
  let after := main_loop_dispatch Fake.VERSION Scenario.held input in
  exists value invocation,
    input = BusPropertySet "ActiveProfile" value invocation /\
    auth Scenario.held (sender invocation)
      (POWER_PROFILES_POLICY_NAMESPACE +:+ ".switch-profile") = true /\
    get_profile_available Scenario.held (ppd_profile_from_str value) = true /\
    selected_profile after = ppd_profile_from_str value /\
    active_profile after = ppd_profile_from_str value /\
    profile_holds after = ∅.
Proof.
  intros input after.
  apply (selected_profile_changes_only_by_user_set Fake.VERSION Scenario.held
           input).
  vm_compute. discriminate.
Defined.

Lemma firmware_profile_change_witness :
  let data := Fake.started 0 in
  let after :=
    ppd_driver_emit_profile_changed Fake.VERSION PLATFORM
      PPD_PROFILE_PERFORMANCE data in
  selected_profile after = PPD_PROFILE_BALANCED /\
  active_profile after = PPD_PROFILE_PERFORMANCE /\
  config after !! "Profile" = Some "performance".
Proof.
  intros data after.
  destruct (firmware_profile_change Fake.VERSION data PLATFORM
              PPD_PROFILE_PERFORMANCE) as (_ & H).
  - vm_compute. reflexivity.
  - reflexivity.
  - destruct H as (S & _ & A & C & _); [vm_compute; discriminate|].
    exact (conj S (conj A (C eq_refl))).
Defined.

Lemma degraded_change_is_published_witness :
  let data := Fake.started 0 in
  let after :=
    driver_set_performance_degraded Fake.VERSION CPU
      (Some "high-operating-temperature") data in
  ppd_driver_get_performance_degraded (get_driver CPU after)
  = Some "high-operating-temperature" /\
  active_profile after = active_profile data.
Proof.
  intros data after.
  destruct (degraded_change_is_published Fake.VERSION data CPU
              (with_hw PPD_PROFILE_BALANCED
                 (Fake.driver "intel_pstate" PPD_PROFILE_ALL 0))
              (Some "high-operating-temperature")) as (D & A & _).
  - vm_compute. reflexivity.
  - exact (conj D A).
Defined.

Lemma stored_profile_round_trip_witness :
  let r := activate_target_profile (Fake.started 0) PPD_PROFILE_PERFORMANCE
             PPD_PROFILE_ACTIVATION_REASON_USER in
  config (snd r) !! "Profile" = Some "performance" /\
  apply_configuration (snd r)
  = (true, with_active_profile PPD_PROFILE_PERFORMANCE (snd r)).
Proof.
  intros r.
  destruct (stored_profile_round_trip (Fake.started 0) PPD_PROFILE_PERFORMANCE
              PPD_PROFILE_ACTIVATION_REASON_USER) as (P & R & _).
  - vm_compute. reflexivity.
  - reflexivity.
  - reflexivity.
  - intros [] driver H; vm_compute in H; injection H as <-; discriminate.
  - refine (conj P (R (snd r) eq_refl _)).
    split; vm_compute; reflexivity.
Defined.

Lemma cpu_failure_aborts_activation_witness :
  let cpu := Fake.driver "intel_pstate" PPD_PROFILE_ALL PPD_PROFILE_PERFORMANCE in
  let data := with_cpu_driver (Some cpu) Scenario.bound in
  let r := activate_target_profile data PPD_PROFILE_PERFORMANCE
             PPD_PROFILE_ACTIVATION_REASON_USER in
  fst (fst r) = false /\
  platform_driver (snd r) = platform_driver data /\
  active_profile (snd r) = PPD_PROFILE_BALANCED.
Proof.
  intros cpu data r. subst r.
  rewrite (cpu_failure_aborts_activation data PPD_PROFILE_PERFORMANCE
             PPD_PROFILE_ACTIVATION_REASON_USER cpu
             (Fake.method PPD_PROFILE_PERFORMANCE)
             (Fake.io_error "write failed")).
  - split; [reflexivity|]. split; reflexivity.
  - reflexivity.
  - reflexivity.
  - reflexivity.
  - vm_compute. reflexivity.
  - vm_compute. reflexivity.
Defined.

Lemma failed_user_set_witness :
  let data :=
    hold_profile Fake.VERSION (Fake.started PPD_PROFILE_PERFORMANCE)
      ("power-saver", "battery", "updater") (Fake.peer ":1.7") in
  let r := set_active_profile Fake.VERSION data "performance" in
  active_profile (snd r) = PPD_PROFILE_POWER_SAVER /\
  selected_profile (snd r) = PPD_PROFILE_BALANCED /\
  profile_holds (snd r) = ∅.
Proof.
  intros data r.
  destruct (failed_user_set Fake.VERSION data "performance")
    as (_ & A & S & _ & H).
  - vm_compute. reflexivity.
  - destruct H as (E & _); [vm_compute; discriminate|vm_compute; reflexivity|].
    exact (conj A (conj S E)).
Defined.

Lemma accepted_hold_is_registered_witness :
  let after :=
    hold_profile Fake.VERSION (Fake.started 0)
      ("power-saver", "battery", "updater") (Fake.peer ":1.7") in
  profile_holds after
  = <[1 := {| ph_profile := PPD_PROFILE_POWER_SAVER; ph_reason := "battery";
              ph_application_id := "updater"; ph_requester := ":1.7";
              ph_requester_iface := POWER_PROFILES_IFACE_NAME |}]> ∅ /\
  active_profile after = PPD_PROFILE_POWER_SAVER.
Proof.
  intros after.
  destruct (accepted_hold_is_registered Fake.VERSION (Fake.started 0)
              "power-saver" "battery" "updater" (Fake.peer ":1.7"))
    as (H & _ & _ & _ & _ & A).
  - right. reflexivity.
  - vm_compute. reflexivity.
  - exact (conj H (A eq_refl ltac:(vm_compute; reflexivity))).
Defined.

(* ===================================================================== *)
(** ** Writing files                                                      *)
(* ===================================================================== *)

Section Files.

Local Open Scope nat_scope.

Lemma append_empty_r (s : string) : s +:+ "" = s.
Proof.
  induction s as [|c s IH]; [reflexivity|].
  change (String c (s +:+ "") = String c s). now rewrite IH.
Qed.

Lemma string_take_all (n : nat) (s : string) :
  (String.length s <= n)%nat -> string_take n s = s.
Proof.
  revert n. induction s as [|c s IH]; intros n Hn; [now destruct n|].
  destruct n as [|n]; cbn in Hn; [lia|]. cbn. rewrite IH by lia. reflexivity.
Qed.

Lemma string_take_length (n : nat) (s : string) :
  String.length (string_take n s) = Nat.min n (String.length s).
Proof.
  revert n. induction s as [|c s IH]; intros [|n]; cbn; try reflexivity.
  now rewrite IH.
Qed.

Lemma string_take_take (n m : nat) (s : string) :
  (n <= m)%nat -> string_take n (string_take m s) = string_take n s.
Proof.
  revert n m. induction s as [|c s IH]; intros [|n] [|m] H; cbn;
    try reflexivity; try lia.
  rewrite IH by lia. reflexivity.
Qed.

Lemma append_length (a b : string) :
  String.length (a +:+ b) = (String.length a + String.length b)%nat.
Proof.
  induction a as [|c a IH]; [reflexivity|].
  change (S (String.length (a +:+ b))
          = S (String.length a + String.length b)).
  now rewrite IH.
Qed.

Lemma write_loop_zero fuel value chunk : write_loop fuel value 0 chunk = "".
Proof. now destruct fuel. Qed.

Lemma turn_bounds size chunk :
  (0 < size)%nat -> (0 < turn size chunk <= size)%nat.
Proof. intros H. destruct chunk as [k|]; cbn; lia. Qed.

Lemma write_loop_step fuel value size chunk :
  (0 < size)%nat ->
  write_loop (S fuel) value size chunk
  = string_take (turn size chunk) value
    +:+ write_loop fuel value (size - turn size chunk) chunk.
Proof. intros H. destruct size; [lia|]. reflexivity. Qed.

Lemma write_loop_length fuel value size chunk :
  (size <= fuel)%nat -> (size <= String.length value)%nat ->
  String.length (write_loop fuel value size chunk) = size.
Proof.
  revert size. induction fuel as [|fuel IH]; intros size Hf Hv.
  { assert (size = 0%nat) as -> by lia. reflexivity. }
  destruct (Nat.eq_dec size 0) as [->|Hs]; [reflexivity|].
  pose proof (turn_bounds size chunk ltac:(lia)) as Ht.
  rewrite write_loop_step by lia.
  rewrite append_length, string_take_length, IH by lia. lia.
Qed.

Lemma write_loop_fuel fuel fuel' value size chunk :
  (size <= fuel)%nat -> (size <= fuel')%nat ->
  write_loop fuel value size chunk = write_loop fuel' value size chunk.
Proof.
  revert fuel' size. induction fuel as [|fuel IH]; intros fuel' size Hf Hf'.
  { assert (size = 0%nat) as -> by lia. now rewrite !write_loop_zero. }
  destruct (Nat.eq_dec size 0) as [->|Hs]; [now rewrite !write_loop_zero|].
  destruct fuel' as [|fuel']; [lia|].
  pose proof (turn_bounds size chunk ltac:(lia)) as Ht.
  rewrite !write_loop_step by lia. f_equal. apply IH; lia.
Qed.

Lemma write_loop_prefix fuel value size chunk (m : nat) :
  (size <= m)%nat ->
  write_loop fuel (string_take m value) size chunk
  = write_loop fuel value size chunk.
Proof.
  revert size. induction fuel as [|fuel IH]; intros size Hm; [reflexivity|].
  destruct (Nat.eq_dec size 0) as [->|Hs]; [reflexivity|].
  pose proof (turn_bounds size chunk ltac:(lia)) as Ht.
  rewrite !write_loop_step by lia.
  rewrite string_take_take by lia. f_equal. apply IH. lia.
Qed.

Lemma write_loop_whole value chunk :
  (String.length value <= turn (String.length value) chunk)%nat ->
  write_loop (String.length value) value (String.length value) chunk = value.
Proof.
  intros H. destruct (String.length value) as [|n] eqn:E.
  { destruct value; [reflexivity|discriminate E]. }
  rewrite write_loop_step by lia.
  pose proof (turn_bounds (S n) chunk ltac:(lia)) as Ht.
  replace (S n - turn (S n) chunk)%nat with 0%nat by lia.
  rewrite write_loop_zero, append_empty_r. apply string_take_all. lia.
Qed.

Lemma get_string_take_0 (n : nat) (s : string) :
  String.get 0 (string_take (S n) s) = String.get 0 s.
Proof. now destruct s. Qed.

Lemma get_append_0 (a b : string) :
  (0 < String.length a)%nat -> String.get 0 (a +:+ b) = String.get 0 a.
Proof. destruct a; cbn; [lia|reflexivity]. Qed.

(** X23: a write the kernel takes in pieces.  [ppd_utils_write] reports
    success and has sent as many bytes as the value has; when no piece is
    short the file holds the value; but after a short write of [n] bytes
    the loop sends the first bytes of the value again instead of the bytes
    that follow, so that the file holds the first [n] bytes of the value
    followed by what a write of its first [length - n] bytes sends, and
    differs from the value as soon as byte [n] of the value is not its
    first byte. *)
Theorem short_write_resends_the_start (sys : Sys) (filename value old : string)
    (k : positive) :
  files sys !! filename = Some old ->
  kernel sys filename value = Takes (Some k) ->
  let n := Pos.to_nat k in
  let size := String.length value in
  let r := ppd_utils_write (Some filename) (Some value) sys in
  fst (fst r) = true /\ snd (fst r) = None /\
  exists sent,
    files (snd r) = <[filename := sent]> (files sys) /\
    String.length sent = size /\
    ((size <= n)%nat -> sent = value) /\
    ((n < size)%nat ->
     sent = string_take n value
            +:+ write_loop (size - n) (string_take (size - n) value)
                  (size - n) (Some k) /\
     (String.get n value <> String.get 0 value -> sent <> value)).
Proof.
  intros Hf Hk n size r. subst r. unfold ppd_utils_write.
  rewrite Hf, Hk. cbn [fst snd files with_files].
  split; [reflexivity|]. split; [reflexivity|].
  fold size. exists (write_loop size value size (Some k)).
  split; [reflexivity|]. split; [now apply write_loop_length|].
  assert (Hn : (0 < n)%nat) by (subst n; lia).
  split.
  - intros Hle. apply write_loop_whole. fold size. cbn. fold n. lia.
  - intros Hlt.
    assert (Hturn : turn size (Some k) = n) by (cbn; fold n; lia).
    assert (Hsent : write_loop size value size (Some k)
                    = string_take n value
                      +:+ write_loop (size - n) (string_take (size - n) value)
                            (size - n) (Some k)).
    { destruct size as [|m] eqn:Em; [lia|].
      rewrite write_loop_step, Hturn by lia. f_equal.
      rewrite write_loop_prefix by lia. apply write_loop_fuel; lia. }
    split; [exact Hsent|].
    intros Hget Heq. apply Hget. rewrite <- Heq at 1. rewrite Hsent.
    assert (Hlen : String.length (string_take n value) = n).
    { rewrite string_take_length. fold size. lia. }
    pose proof (append_correct2 (string_take n value)
                  (write_loop (size - n) (string_take (size - n) value)
                     (size - n) (Some k)) 0) as Hc.
    rewrite Hlen in Hc. cbn [Nat.add] in Hc. rewrite <- Hc.
    destruct (size - n)%nat as [|m] eqn:Em; [lia|].
    rewrite write_loop_step by lia.
    pose proof (turn_bounds (S m) (Some k) ltac:(lia)) as Ht.
    destruct (turn (S m) (Some k)) as [|t] eqn:Et; [lia|].
    rewrite get_append_0.
    + rewrite !get_string_take_0. reflexivity.
    + rewrite string_take_length, string_take_length. fold size. lia.
Qed.

Lemma ppd_utils_write_writable (sys : Sys) (filename value : string) :
  writable sys filename value ->
  ppd_utils_write (Some filename) (Some value) sys
  = (true, None, with_files (<[filename := value]> (files sys)) sys).
Proof.
  intros [[old Hf] Hk]. unfold ppd_utils_write. rewrite Hf, Hk.
  rewrite write_loop_whole by (cbn; lia). reflexivity.
Qed.

Lemma writable_with_files (sys : Sys) (filename value g v : string) :
  writable sys g v ->
  writable (with_files (<[filename := value]> (files sys)) sys) g v.
Proof.
  intros [[old Hf] Hk]. split; [|exact Hk]. cbn.
  destruct (decide (filename = g)) as [->|Hne].
  - rewrite lookup_insert_eq. eauto.
  - rewrite lookup_insert_ne by exact Hne. eauto.
Qed.

Lemma with_files_with_files (sys : Sys) (m m' : gmap string string) :
  with_files m' (with_files m sys) = with_files m' sys.
Proof. reflexivity. Qed.

Lemma written_lookup (l : list string) (value : string)
    (m : gmap string string) (g : string) :
  written l value m !! g = if decide (g ∈ l) then Some value else m !! g.
Proof.
  unfold written. revert m. induction l as [|f l IH]; intros m; cbn.
  { reflexivity. }
  rewrite IH. destruct (decide (g ∈ l)) as [Hin|Hin].
  - rewrite decide_True by now right. reflexivity.
  - destruct (decide (f = g)) as [->|Hne].
    + rewrite decide_True by now left. apply lookup_insert_eq.
    + rewrite decide_False by (intros [?|?]%elem_of_cons; congruence).
      now apply lookup_insert_ne.
Qed.

Lemma write_files_loop_writable (l : list string) (value : string) (sys : Sys) :
  (forall g, g ∈ l -> writable sys g value) ->
  ppd_utils_write_files_loop l (Some value) sys
  = (true, None, with_files (written l value (files sys)) sys).
Proof.
  revert sys. induction l as [|f l IH]; intros sys Hw.
  { destruct sys. reflexivity. }
  cbn [ppd_utils_write_files_loop].
  rewrite ppd_utils_write_writable by (apply Hw; now left). cbn [negb].
  rewrite IH.
  - reflexivity.
  - intros g Hg. apply writable_with_files. apply Hw. now right.
Qed.

(** X24: [ppd_utils_write_files] writes the files in order and stops at the
    first one that cannot be written: when every file exists and is
    written whole, each file of the list holds the value afterwards and
    no other file has changed; when a file of the list does not exist,
    the files before it hold the value, the call fails with the error that
    names that file, and the files after it are not written. *)
Theorem write_files_stops_at_first_failure (sys : Sys) (value : string) :
  (forall filenames,
      (forall g, g ∈ filenames -> writable sys g value) ->
      let r := ppd_utils_write_files (Some filenames) (Some value) sys in
      fst (fst r) = true /\ snd (fst r) = None /\
      forall g, files (snd r) !! g
                = if decide (g ∈ filenames) then Some value
                  else files sys !! g) /\
  (forall before missing after,
      (forall g, g ∈ before -> writable sys g value) ->
      files sys !! missing = None ->
      let r :=
        ppd_utils_write_files (Some (before ++ missing :: after)%list)
          (Some value) sys in
      fst (fst r) = false /\
      snd (fst r)
      = Some {| err_code := BACKEND_ERROR G_IO_ERROR_NOT_FOUND;
                message := "Could not open '" +:+ missing
                           +:+ "' for writing" |} /\
      forall g, files (snd r) !! g
                = if decide (g ∈ before) then Some value
                  else files sys !! g).
Proof.
  split.
  - intros l Hw. cbn zeta. unfold ppd_utils_write_files.
    rewrite write_files_loop_writable by exact Hw.
    cbn [fst snd files with_files]. split; [reflexivity|].
    split; [reflexivity|]. intros g. apply written_lookup.
  - intros before missing after Hw Hm. cbn zeta.
    unfold ppd_utils_write_files.
    assert (H : forall sys0,
               (forall g, g ∈ before -> writable sys0 g value) ->
               files sys0 !! missing = None ->
               ppd_utils_write_files_loop (before ++ missing :: after)
                 (Some value) sys0
               = (false,
                  Some {| err_code := BACKEND_ERROR G_IO_ERROR_NOT_FOUND;
                          message := "Could not open '" +:+ missing
                                     +:+ "' for writing" |},
                  with_files (written before value (files sys0)) sys0)).
    { clear. induction before as [|f l IH]; intros sys0 Hw Hm.
      - change ([] ++ missing :: after)%list with (missing :: after).
        cbn [ppd_utils_write_files_loop]. unfold ppd_utils_write.
        rewrite Hm. destruct sys0. reflexivity.
      - change ((f :: l) ++ missing :: after)%list
          with (f :: (l ++ missing :: after))%list.
        cbn [ppd_utils_write_files_loop].
        rewrite ppd_utils_write_writable by (apply Hw; now left).
        cbn [negb]. rewrite IH.
        + reflexivity.
        + intros g Hg. apply writable_with_files. apply Hw. now right.
        + cbn. rewrite lookup_insert_ne; [exact Hm|].
          intros ->. destruct (Hw missing) as [[old Ho] _]; [now left|].
          congruence. }
    rewrite (H sys Hw Hm). cbn [fst snd files with_files].
    split; [reflexivity|]. split; [reflexivity|].
    intros g. apply written_lookup.
Qed.

End Files.

(* ===================================================================== *)
(** ** The CPU driver of Intel                                            *)
(* ===================================================================== *)

Section Intel.

Import IntelPstate.

Implicit Types pstate : PpdDriverIntelPstate.

Lemma writable_written (sys : Sys) (l : list string) (value g v : string) :
  writable sys g v ->
  writable (with_files (written l value (files sys)) sys) g v.
Proof.
  intros [[old Hf] Hk]. split; [|exact Hk]. cbn.
  rewrite written_lookup. destruct (decide (g ∈ l)); eauto.
Qed.

Lemma single_flag_prefs (profile : PpdProfile) (battery : bool) :
  ppd_profile_has_single_flag profile = true ->
  (exists v, profile_to_epp_pref profile battery = Some v) /\
  (exists v, profile_to_epb_pref profile battery = Some v) /\
  (profile =? PPD_PROFILE_UNSET) = false.
Proof.
  intros [-> | [-> | ->]]%single_flag_cases; cbn; eauto.
Qed.

Lemma with_activated_profile_same pstate :
  with_activated_profile (activated_profile pstate) pstate = pstate.
Proof. now destruct pstate. Qed.

(** The driver state after [apply_pref_to_devices]. *)
Lemma apply_pref_to_devices_state pstate (profile : PpdProfile) (sys : Sys) :
  let r := apply_pref_to_devices pstate profile sys in
  (fst (fst (fst r)) = false -> snd (fst r) = pstate) /\
  (snd (fst r) = pstate \/ snd (fst r) = with_activated_profile profile pstate) /\
  (profile = PPD_PROFILE_UNSET -> r = (true, None, pstate, sys)) /\
  (fst (fst (fst r)) = true -> snd (fst (fst r)) = None).
Proof.
  cbn zeta. unfold apply_pref_to_devices.
  destruct (Z.eqb_spec profile PPD_PROFILE_UNSET) as [E|E].
  { cbn. auto. }
  assert (H : forall X : bool * option GError * PpdDriverIntelPstate * Sys,
             (fst (fst (fst X)) = false -> snd (fst X) = pstate) /\
             (snd (fst X) = pstate \/
              snd (fst X) = with_activated_profile profile pstate) /\
             (fst (fst (fst X)) = true -> snd (fst (fst X)) = None) ->
             (fst (fst (fst X)) = false -> snd (fst X) = pstate) /\
             (snd (fst X) = pstate \/
              snd (fst X) = with_activated_profile profile pstate) /\
             (profile = PPD_PROFILE_UNSET -> X = (true, None, pstate, sys)) /\
             (fst (fst (fst X)) = true -> snd (fst (fst X)) = None)).
  { intros X (A & B & C). split; [exact A|]. split; [exact B|].
    split; [contradiction|exact C]. }
  apply H. clear H.
  destruct (epp_devices pstate) as [epp|], (epb_devices pstate) as [epb|];
    try (cbn; split; [auto|split; [auto|discriminate]]);
    destruct (negb _);
    try (cbn; split; [auto|split; [auto|discriminate]]).
  all: repeat match goal with
         | |- context [ppd_utils_write_files ?a ?b ?c] =>
             let ok := fresh "ok" in
             destruct (ppd_utils_write_files a b c) as [[ok ?] ?];
             destruct ok; cbn [negb]
         end.
  all: cbn; split; [auto; discriminate|split; [auto|]]; auto; discriminate.
Qed.

(** X25: an activation by the driver of Intel.  For the unset profile nothing
    is done.  A failure leaves the driver as it was (the profile it
    records as activated is the one of the last success).  For one of the
    three profiles, on a driver that has a device and whose device files
    all exist and take the value of the profile whole, the activation
    succeeds and records
    the profile; afterwards every file of energy_perf_bias holds the bias
    of the profile, every file of energy_performance_preference holds its
    preference, both chosen by the power source the driver has recorded,
    and no other file has changed. *)
Theorem intel_pstate_activation pstate (profile : PpdProfile)
    (reason : PpdProfileActivationReason) (sys : Sys) :
  let r := ppd_driver_intel_pstate_activate_profile pstate profile reason sys in
  let epp := default [] (epp_devices pstate) in
  let epb := default [] (epb_devices pstate) in
  (profile = PPD_PROFILE_UNSET -> r = (true, None, pstate, sys)) /\
  (fst (fst (fst r)) = false -> snd (fst r) = pstate) /\
  (ppd_profile_has_single_flag profile = true ->
   epp <> [] \/ epb <> [] ->
   (forall g v, g ∈ epp ->
                profile_to_epp_pref profile (on_battery pstate) = Some v ->
                writable sys g v) ->
   (forall g v, g ∈ epb ->
                profile_to_epb_pref profile (on_battery pstate) = Some v ->
                writable sys g v) ->
   fst (fst (fst r)) = true /\ snd (fst (fst r)) = None /\
   snd (fst r) = with_activated_profile profile pstate /\
   forall g,
     files (snd r) !! g
     = if decide (g ∈ epb)
       then profile_to_epb_pref profile (on_battery pstate)
       else if decide (g ∈ epp)
            then profile_to_epp_pref profile (on_battery pstate)
            else files sys !! g).
Proof.
  cbn zeta. unfold ppd_driver_intel_pstate_activate_profile.
  destruct (apply_pref_to_devices_state pstate profile sys)
    as (Hf & _ & Hu & _).
  split; [exact Hu|]. split; [exact Hf|]. clear Hf Hu.
  intros Hp Hne Hw Hwb.
  destruct (single_flag_prefs profile (on_battery pstate) Hp)
    as ((v1 & E1) & (v2 & E2) & E0).
  unfold apply_pref_to_devices. rewrite E0, E1, E2.
  cbn [log_unreached].
  destruct (epp_devices pstate) as [epp|] eqn:Hepp,
           (epb_devices pstate) as [epb|] eqn:Hepb;
    cbn [default] in Hne, Hw |- *.
  - assert (Hn : nonempty (Some epp) || nonempty (Some epb) = true).
    { destruct epp, epb; cbn; try reflexivity. now destruct Hne as [H|H]; elim H. }
    rewrite Hn. cbn [negb]. unfold ppd_utils_write_files.
    rewrite write_files_loop_writable by (intros g Hg; now apply Hw).
    cbn [negb].
    rewrite write_files_loop_writable
      by (intros g Hg; now apply writable_written, Hwb).
    cbn [negb fst snd files with_files]. unfold id. repeat split.
    intros g. rewrite !written_lookup.
    destruct (decide (g ∈ epb)); [reflexivity|].
    destruct (decide (g ∈ epp)); reflexivity.
  - assert (Hn : nonempty (Some epp) || nonempty None = true).
    { destruct epp; cbn; try reflexivity. now destruct Hne as [H|H]; elim H. }
    rewrite Hn. cbn [negb]. unfold ppd_utils_write_files.
    rewrite write_files_loop_writable by (intros g Hg; now apply Hw).
    cbn [negb fst snd files with_files]. unfold id. repeat split.
    intros g. rewrite written_lookup.
    rewrite (decide_False (P := g ∈ []))
      by (intros H; now apply elem_of_nil in H).
    destruct (decide (g ∈ epp)); reflexivity.
  - assert (Hn : nonempty None || nonempty (Some epb) = true).
    { destruct epb; cbn; try reflexivity. now destruct Hne as [H|H]; elim H. }
    rewrite Hn. cbn [negb]. unfold ppd_utils_write_files.
    rewrite write_files_loop_writable by (intros g Hg; now apply Hwb).
    cbn [negb fst snd files with_files]. unfold id. repeat split.
    intros g. rewrite written_lookup.
    destruct (decide (g ∈ epb)); [reflexivity|].
    rewrite (decide_False (P := g ∈ []))
      by (intros H; now apply elem_of_nil in H).
    reflexivity.
  - destruct Hne as [H|H]; now elim H.
Qed.

(** [apply_pref_to_devices] on a driver with a device, for one of the
    three profiles and files that take its values. *)
Lemma apply_pref_to_devices_written pstate (profile : PpdProfile) (sys : Sys) :
  let r := apply_pref_to_devices pstate profile sys in
  let epp := default [] (epp_devices pstate) in
  let epb := default [] (epb_devices pstate) in
  ppd_profile_has_single_flag profile = true ->
  epp <> [] \/ epb <> [] ->
  (forall g v, g ∈ epp ->
               profile_to_epp_pref profile (on_battery pstate) = Some v ->
               writable sys g v) ->
  (forall g v, g ∈ epb ->
               profile_to_epb_pref profile (on_battery pstate) = Some v ->
               writable sys g v) ->
  fst (fst (fst r)) = true /\ snd (fst (fst r)) = None /\
  snd (fst r) = with_activated_profile profile pstate /\
  forall g,
    files (snd r) !! g
    = if decide (g ∈ epb)
      then profile_to_epb_pref profile (on_battery pstate)
      else if decide (g ∈ epp)
           then profile_to_epp_pref profile (on_battery pstate)
           else files sys !! g.
Proof.
  cbn zeta.
  intros Hp Hne Hw Hwb.
  destruct (single_flag_prefs profile (on_battery pstate) Hp)
    as ((v1 & E1) & (v2 & E2) & E0).
  unfold apply_pref_to_devices. rewrite E0, E1, E2.
  cbn [log_unreached].
  destruct (epp_devices pstate) as [epp|] eqn:Hepp,
           (epb_devices pstate) as [epb|] eqn:Hepb;
    cbn [default] in Hne, Hw |- *.
  - assert (Hn : nonempty (Some epp) || nonempty (Some epb) = true).
    { destruct epp, epb; cbn; try reflexivity. now destruct Hne as [H|H]; elim H. }
    rewrite Hn. cbn [negb]. unfold ppd_utils_write_files.
    rewrite write_files_loop_writable by (intros g Hg; now apply Hw).
    cbn [negb].
    rewrite write_files_loop_writable
      by (intros g Hg; now apply writable_written, Hwb).
    cbn [negb fst snd files with_files]. unfold id. repeat split.
    intros g. rewrite !written_lookup.
    destruct (decide (g ∈ epb)); [reflexivity|].
    destruct (decide (g ∈ epp)); reflexivity.
  - assert (Hn : nonempty (Some epp) || nonempty None = true).
    { destruct epp; cbn; try reflexivity. now destruct Hne as [H|H]; elim H. }
    rewrite Hn. cbn [negb]. unfold ppd_utils_write_files.
    rewrite write_files_loop_writable by (intros g Hg; now apply Hw).
    cbn [negb fst snd files with_files]. unfold id. repeat split.
    intros g. rewrite written_lookup.
    rewrite (decide_False (P := g ∈ []))
      by (intros H; now apply elem_of_nil in H).
    destruct (decide (g ∈ epp)); reflexivity.
  - assert (Hn : nonempty None || nonempty (Some epb) = true).
    { destruct epb; cbn; try reflexivity. now destruct Hne as [H|H]; elim H. }
    rewrite Hn. cbn [negb]. unfold ppd_utils_write_files.
    rewrite write_files_loop_writable by (intros g Hg; now apply Hwb).
    cbn [negb fst snd files with_files]. unfold id. repeat split.
    intros g. rewrite written_lookup.
    destruct (decide (g ∈ epb)); [reflexivity|].
    rewrite (decide_False (P := g ∈ []))
      by (intros H; now apply elem_of_nil in H).
    reflexivity.
  - destruct Hne as [H|H]; now elim H.
Qed.

(** X26: the monitors never move the profile of the driver of Intel.  A
    change of the power source records whether the machine runs on
    battery (an unknown source counts as mains) and writes again the
    profile that was activated last, with the values of the new source:
    the call returns what [apply_pref_to_devices] returns on the driver
    with the new source; the recorded profile stays; before the first
    activation it writes nothing; and for a recorded profile, on a driver
    that has a device and whose device files all take the values, the call
    succeeds and every file of energy_perf_bias and of
    energy_performance_preference holds the value of the recorded profile
    for the new source, no other file being changed.  The sleep signal
    does nothing when the machine goes to sleep, and on wake-up writes
    again the profile that was activated last; the driver comes out as it
    went in. *)
Theorem intel_pstate_monitors_keep_the_profile pstate (sys : Sys) :
  (forall reason,
      let r := ppd_driver_intel_pstate_power_changed pstate reason sys in
      activated_profile (snd (fst r)) = activated_profile pstate /\
      on_battery (snd (fst r))
      = match reason with
        | PPD_POWER_CHANGED_REASON_BATTERY => true
        | _ => false
        end /\
      epp_devices (snd (fst r)) = epp_devices pstate /\
      epb_devices (snd (fst r)) = epb_devices pstate /\
      (activated_profile pstate = PPD_PROFILE_UNSET ->
       fst (fst (fst r)) = true /\ snd r = sys) /\
      (let battery :=
         match reason with
         | PPD_POWER_CHANGED_REASON_BATTERY => true
         | _ => false
         end in
       let profile := activated_profile pstate in
       let epp := default [] (epp_devices pstate) in
       let epb := default [] (epb_devices pstate) in
       r = apply_pref_to_devices (with_on_battery battery pstate) profile sys /\
       (ppd_profile_has_single_flag profile = true ->
        epp <> [] \/ epb <> [] ->
        (forall g v, g ∈ epp ->
                     profile_to_epp_pref profile battery = Some v ->
                     writable sys g v) ->
        (forall g v, g ∈ epb ->
                     profile_to_epb_pref profile battery = Some v ->
                     writable sys g v) ->
        fst (fst (fst r)) = true /\ snd (fst (fst r)) = None /\
        snd (fst r) = with_on_battery battery pstate /\
        forall g,
          files (snd r) !! g
          = if decide (g ∈ epb)
            then profile_to_epb_pref profile battery
            else if decide (g ∈ epp)
                 then profile_to_epp_pref profile battery
                 else files sys !! g))) /\
  (forall start,
      let r := ppd_driver_intel_pstate_prepare_for_sleep pstate start sys in
      let again :=
        ppd_driver_intel_pstate_activate_profile pstate
          (activated_profile pstate) PPD_PROFILE_ACTIVATION_REASON_RESUME sys in
      snd (fst r) = pstate /\
      (start = true -> r = (true, None, pstate, sys)) /\
      (start = false ->
       fst (fst (fst r)) = fst (fst (fst again)) /\
       files (snd r) = files (snd again) /\
       snd (fst (fst r))
       = g_prefix_error (snd (fst (fst again)))
           "Could not reapply energy_perf_bias preference on resume: ")).
Proof.
  split.
  - intros reason. cbn zeta. unfold ppd_driver_intel_pstate_power_changed.
    set (battery := match reason with
                    | PPD_POWER_CHANGED_REASON_BATTERY => true
                    | _ => false
                    end).
    set (p1 := with_on_battery battery pstate).
    replace (match reason with
             | PPD_POWER_CHANGED_REASON_UNKNOWN | PPD_POWER_CHANGED_REASON_AC =>
                 with_on_battery false pstate
             | PPD_POWER_CHANGED_REASON_BATTERY => with_on_battery true pstate
             end) with p1 by (subst p1 battery; now destruct reason).
    change (activated_profile p1) with (activated_profile pstate).
    destruct (apply_pref_to_devices_state p1 (activated_profile pstate) sys)
      as (_ & Hs & Hu & _).
    assert (Hsame : with_activated_profile (activated_profile pstate) p1 = p1)
      by (subst p1; now destruct pstate).
    rewrite Hsame in Hs.
    assert (Hs' : snd (fst (apply_pref_to_devices p1 (activated_profile pstate)
                              sys)) = p1) by (destruct Hs; assumption).
    rewrite Hs'. split; [reflexivity|]. split; [reflexivity|].
    split; [reflexivity|]. split; [reflexivity|].
    split.
    { intros Hunset. rewrite Hu by congruence. split; reflexivity. }
    split; [reflexivity|].
    intros Hsingle Hne Hw Hwb.
    destruct (apply_pref_to_devices_written p1 (activated_profile pstate) sys
                Hsingle Hne Hw Hwb) as (Ok & Err & _ & Hfiles).
    split; [exact Ok|]. split; [exact Err|]. split; [reflexivity|].
    exact Hfiles.
  - intros start. cbn zeta.
    unfold ppd_driver_intel_pstate_prepare_for_sleep.
    destruct start.
    { split; [reflexivity|]. split; [reflexivity|discriminate]. }
    unfold ppd_driver_intel_pstate_activate_profile.
    destruct (apply_pref_to_devices_state pstate (activated_profile pstate) sys)
      as (_ & Hs & _ & Hok).
    rewrite with_activated_profile_same in Hs.
    assert (Hs' : snd (fst (apply_pref_to_devices pstate
                              (activated_profile pstate) sys)) = pstate)
      by (destruct Hs; assumption).
    destruct (apply_pref_to_devices pstate (activated_profile pstate) sys)
      as [[[ok e] p'] s'].
    cbn [fst snd] in Hs', Hok. subst p'.
    destruct ok; cbn [negb fst snd].
    + rewrite (Hok eq_refl).
      split; [reflexivity|]. split; [discriminate|]. intros _.
      split; [reflexivity|]. split; reflexivity.
    + split; [reflexivity|]. split; [discriminate|]. intros _.
      split; [reflexivity|]. split; [|reflexivity].
      destruct e; reflexivity.
Qed.

End Intel.

(* ===================================================================== *)
(** ** The theorems on files on a concrete machine                        *)
(* ===================================================================== *)

Lemma short_write_resends_the_start_witness :
  let r := ppd_utils_write (Some Laptop.epp0) (Some "performance") Laptop.slow in
  fst (fst r) = true /\
  files (snd r) !! Laptop.epp0 <> Some "performance".
Proof.
  intros r.
  destruct (short_write_resends_the_start Laptop.slow Laptop.epp0
              "performance" "balance_performance" 4)
    as (Ok & _ & sent & Hfiles & _ & _ & Hshort).
  - reflexivity.
  - reflexivity.
  - destruct Hshort as (_ & Hne); [vm_compute; lia|].
    split; [exact Ok|]. fold r in Hfiles. rewrite Hfiles, lookup_insert_eq.
    intros E. apply Hne; [vm_compute; discriminate|].
    now injection E.
Defined.

Lemma laptop_writable (g v : string) :
  g ∈ [Laptop.epp0; Laptop.epp1] \/ g ∈ [Laptop.epb0; Laptop.epb1] ->
  writable Laptop.sys g v.
Proof.
  intros H. split; [|reflexivity].
  assert (Hg : g = Laptop.epp0 \/ g = Laptop.epp1 \/ g = Laptop.epb0
               \/ g = Laptop.epb1).
  { destruct H as [H|H]; repeat (apply elem_of_cons in H as [H|H]; [auto|]);
      now apply elem_of_nil in H. }
  destruct Hg as [-> | [-> | [-> | ->]]]; vm_compute; eauto.
Defined.

Lemma intel_pstate_activation_witness :
  let r :=
    IntelPstate.ppd_driver_intel_pstate_activate_profile Laptop.pstate
      PPD_PROFILE_POWER_SAVER PPD_PROFILE_ACTIVATION_REASON_USER Laptop.sys in
  fst (fst (fst r)) = true /\
  IntelPstate.activated_profile (snd (fst r)) = PPD_PROFILE_POWER_SAVER /\
  files (snd r) !! Laptop.epp1 = Some "power" /\
  files (snd r) !! Laptop.epb0 = Some "15" /\
  files (snd r) !! Laptop.no_turbo = Some "0".
Proof.
  intros r.
  destruct (intel_pstate_activation Laptop.pstate PPD_PROFILE_POWER_SAVER
              PPD_PROFILE_ACTIVATION_REASON_USER Laptop.sys) as (_ & _ & H).
  destruct H as (Ok & _ & St & Hf).
  - reflexivity.
  - left. discriminate.
  - intros g v Hg _. apply laptop_writable. now left.
  - intros g v Hg _. apply laptop_writable. now right.
  - fold r in Ok, St, Hf. split; [exact Ok|]. split; [now rewrite St|].
    rewrite !Hf. repeat split.
Defined.

Lemma intel_pstate_monitors_keep_the_profile_witness :
  let pstate :=
    IntelPstate.with_activated_profile PPD_PROFILE_BALANCED Laptop.pstate in
  let r :=
    IntelPstate.ppd_driver_intel_pstate_power_changed pstate
      PPD_POWER_CHANGED_REASON_BATTERY Laptop.sys in
  fst (fst (fst r)) = true /\
  IntelPstate.activated_profile (snd (fst r)) = PPD_PROFILE_BALANCED /\
  IntelPstate.on_battery (snd (fst r)) = true /\
  files Laptop.sys !! Laptop.epp0 = Some "balance_performance" /\
  files (snd r) !! Laptop.epp0 = Some "balance_power" /\
  files (snd r) !! Laptop.epb1 = Some "8" /\
  files (snd r) !! Laptop.no_turbo = Some "0".
Proof.
  intros pstate r.
  destruct (intel_pstate_monitors_keep_the_profile pstate Laptop.sys)
    as [H _].
  destruct (H PPD_POWER_CHANGED_REASON_BATTERY)
    as (Hprofile & Hbattery & _ & _ & _ & _ & Hwritten).
  destruct Hwritten as (Ok & _ & _ & Hf).
  - reflexivity.
  - left. discriminate.
  - intros g v Hg _. apply laptop_writable. now left.
  - intros g v Hg _. apply laptop_writable. now right.
  - fold r in Hprofile, Hbattery, Ok, Hf.
    split; [exact Ok|]. split; [exact Hprofile|]. split; [exact Hbattery|].
    split; [reflexivity|]. rewrite !Hf. repeat split.
Defined.

(* ===================================================================== *)
(** ** The CPU driver of AMD                                              *)
(* ===================================================================== *)

Section Amd.

Import AmdPstate.

Variable g_build_filename : string -> string -> string.

Implicit Types pstate : PpdDriverAmdPstate.

(** One write of a value to a file. *)
Lemma ppd_utils_write_spec (sys : Sys) (filename value : string) :
  let r := ppd_utils_write (Some filename) (Some value) sys in
  kernel (snd r) = kernel sys /\ journal (snd r) = journal sys /\
  (forall g, g <> filename -> files (snd r) !! g = files sys !! g) /\
  (fst (fst r) = false -> is_Some (snd (fst r))) /\
  (fst (fst r) = true -> snd (fst r) = None) /\
  (whole_writes sys -> fst (fst r) = true ->
   files (snd r) !! filename = Some value).
Proof.
  cbn zeta. unfold ppd_utils_write.
  destruct (files sys !! filename) as [old|] eqn:Hf.
  2:{ cbn. repeat split; eauto; discriminate. }
  destruct (kernel sys filename value) as [code|code msg|chunk] eqn:Hk.
  - cbn. repeat split; eauto; discriminate.
  - destruct (String.length value =? 0)%nat eqn:Hl; cbn.
    + repeat split; eauto; try discriminate.
      * intros g Hg. now apply lookup_insert_ne.
      * intros _ _. rewrite lookup_insert_eq. f_equal.
        apply Nat.eqb_eq in Hl. destruct value; [reflexivity|discriminate Hl].
    + repeat split; eauto; try discriminate.
      intros g Hg. now apply lookup_insert_ne.
  - cbn. repeat split; eauto; try discriminate.
    + intros g Hg. now apply lookup_insert_ne.
    + intros Hw _. destruct chunk as [k|]; [now elim (Hw filename value k)|].
      rewrite lookup_insert_eq. f_equal. apply write_loop_whole. cbn. lia.
Qed.

Ltac write_step f v sys :=
  let H := fresh "H" in
  let ok := fresh "ok" in
  let err := fresh "err" in
  let sys1 := fresh "sys" in
  let Hk := fresh "Hk" in
  let Hj := fresh "Hj" in
  let Hfr := fresh "Hfr" in
  let Hfail := fresh "Hfail" in
  let Hok := fresh "Hok" in
  let Hset := fresh "Hset" in
  pose proof (ppd_utils_write_spec sys f v) as H; cbn zeta in H;
  destruct (ppd_utils_write (Some f) (Some v) sys) as [[ok err] sys1];
  cbn [fst snd] in H; destruct H as (Hk & Hj & Hfr & Hfail & Hok & Hset);
  destruct ok; cbn [negb].

(** One turn of the loop, for the values of a profile. *)
Lemma apply_pref_to_device_spec (base e g c : string) (mf : option string)
    (sys : Sys) :
  let r :=
    apply_pref_to_device g_build_filename base (Some e) (Some g) (Some c) mf
      sys in
  kernel (snd r) = kernel sys /\ journal (snd r) = journal sys /\
  (fst (fst r) = false -> is_Some (snd (fst r))) /\
  (whole_writes sys -> fst (fst r) = true ->
   forall x v,
     (x = g_build_filename base "scaling_governor" /\ v = g) \/
     (x = g_build_filename base "energy_performance_preference" /\ v = e) \/
     files sys !! x = Some v ->
     (x = g_build_filename base "scaling_governor" -> v = g) ->
     (x = g_build_filename base "energy_performance_preference" -> v = e) ->
     x <> g_build_filename base "boost" ->
     x <> g_build_filename base "scaling_min_freq" ->
     files (snd r) !! x = Some v).
Proof.
  cbn zeta. unfold apply_pref_to_device.
  match goal with |- context [ppd_utils_write (Some ?f) (Some ?v) ?s] =>
    write_step f v s end.
  2:{ cbn. repeat split; auto; discriminate. }
  match goal with |- context [ppd_utils_write (Some ?f) (Some ?v) ?s] =>
    write_step f v s end.
  2:{ cbn. repeat split; auto; try congruence; discriminate. }
  assert (Hend : forall (err' : option GError) (sys' : Sys),
             kernel sys' = kernel sys1 -> journal sys' = journal sys1 ->
             (forall x, x <> g_build_filename base "boost" ->
                        x <> g_build_filename base "scaling_min_freq" ->
                        files sys' !! x = files sys1 !! x) ->
             kernel sys' = kernel sys /\ journal sys' = journal sys /\
             (true = false -> is_Some err') /\
             (whole_writes sys -> true = true ->
              forall x v,
                (x = g_build_filename base "scaling_governor" /\ v = g) \/
                (x = g_build_filename base "energy_performance_preference"
                 /\ v = e) \/
                files sys !! x = Some v ->
                (x = g_build_filename base "scaling_governor" -> v = g) ->
                (x = g_build_filename base "energy_performance_preference"
                 -> v = e) ->
                x <> g_build_filename base "boost" ->
                x <> g_build_filename base "scaling_min_freq" ->
                files sys' !! x = Some v)).
  { intros err' sys' Hk' Hj' Hfr'.
    split; [congruence|]. split; [congruence|]. split; [discriminate|].
    intros Hw _ x v Hx Hg He Hc Hs.
    assert (Hw0 : whole_writes sys0).
    { intros f' v' k'. rewrite Hk. apply Hw. }
    specialize (Hset Hw eq_refl). specialize (Hset0 Hw0 eq_refl).
    rewrite Hfr' by assumption.
    destruct (decide (x = g_build_filename base
                             "energy_performance_preference")) as [->|Ne].
    { rewrite (He eq_refl). exact Hset0. }
    rewrite Hfr0 by exact Ne.
    destruct (decide (x = g_build_filename base "scaling_governor"))
      as [->|Ng].
    { rewrite (Hg eq_refl). exact Hset. }
    rewrite Hfr by exact Ng.
    destruct Hx as [[? _]|[[? _]|Hx]]; [contradiction|contradiction|exact Hx]. }
  assert (Hbad : forall (err' : option GError) (sys' : Sys),
             kernel sys' = kernel sys1 -> journal sys' = journal sys1 ->
             is_Some err' ->
             kernel sys' = kernel sys /\ journal sys' = journal sys /\
             (false = false -> is_Some err') /\
             (whole_writes sys -> false = true ->
              forall x v,
                (x = g_build_filename base "scaling_governor" /\ v = g) \/
                (x = g_build_filename base "energy_performance_preference"
                 /\ v = e) \/
                files sys !! x = Some v ->
                (x = g_build_filename base "scaling_governor" -> v = g) ->
                (x = g_build_filename base "energy_performance_preference"
                 -> v = e) ->
                x <> g_build_filename base "boost" ->
                x <> g_build_filename base "scaling_min_freq" ->
                files sys' !! x = Some v)).
  { intros err' sys' Hk' Hj' Herr.
    split; [congruence|]. split; [congruence|]. split; [auto|discriminate]. }
  clear Hk Hj Hfr Hfail Hok Hset Hk0 Hj0 Hfr0 Hfail0 Hok0 Hset0.
  destruct (g_file_test_exists (g_build_filename base "boost") sys1).
  - match goal with |- context [ppd_utils_write (Some ?f) (Some ?v) ?s] =>
      write_step f v s end.
    2:{ cbn [fst snd]. apply Hbad; auto. }
    match goal with |- context [files sys2 !! ?path] =>
      destruct (files sys2 !! path) as [min_freq_val|] end.
    + match goal with |- context [ppd_utils_write (Some ?f) (Some ?v) ?s] =>
        write_step f v s end; cbn [fst snd].
      * apply Hend; [congruence|congruence|].
        intros x Hc Hs. rewrite Hfr0 by exact Hs. now apply Hfr.
      * apply Hbad; [congruence|congruence|auto].
    + cbn [fst snd]. apply Hend; [congruence|congruence|].
      intros x Hc Hs. now apply Hfr.
  - match goal with |- context [files sys1 !! ?path] =>
      destruct (files sys1 !! path) as [min_freq_val|] end.
    + match goal with |- context [ppd_utils_write (Some ?f) (Some ?v) ?s] =>
        write_step f v s end; cbn [fst snd].
      * apply Hend; [congruence|congruence|].
        intros x Hc Hs. now apply Hfr.
      * apply Hbad; [congruence|congruence|auto].
    + cbn [fst snd]. apply Hend; reflexivity.
Qed.

(** The loop over the devices, for the values of a profile. *)
Lemma apply_pref_to_devices_loop_spec (devices : list string)
    (e g c : string) (mf : option string) (sys : Sys) :
  let r :=
    apply_pref_to_devices_loop g_build_filename devices (Some e) (Some g)
      (Some c) mf sys in
  kernel (snd r) = kernel sys /\ journal (snd r) = journal sys /\
  (fst (fst r) = false -> is_Some (snd (fst r))) /\
  (whole_writes sys -> fst (fst r) = true ->
   forall x v,
     (exists b, b ∈ devices /\
                x = g_build_filename b "scaling_governor" /\ v = g) \/
     (exists b, b ∈ devices /\
                x = g_build_filename b "energy_performance_preference" /\
                v = e) \/
     files sys !! x = Some v ->
     (forall b, b ∈ devices ->
        (x = g_build_filename b "scaling_governor" -> v = g) /\
        (x = g_build_filename b "energy_performance_preference" -> v = e) /\
        x <> g_build_filename b "boost" /\
        x <> g_build_filename b "scaling_min_freq") ->
     files (snd r) !! x = Some v).
Proof.
  revert sys. induction devices as [|b0 rest IH]; intros sys; cbn zeta.
  { cbn. split; [reflexivity|]. split; [reflexivity|].
    split; [discriminate|]. intros _ _ x v Hx _.
    destruct Hx as [(b & Hb & _)|[(b & Hb & _)|Hx]];
      [now apply elem_of_nil in Hb|now apply elem_of_nil in Hb|exact Hx]. }
  cbn [apply_pref_to_devices_loop].
  pose proof (apply_pref_to_device_spec b0 e g c mf sys) as Hd.
  cbn zeta in Hd.
  destruct (apply_pref_to_device g_build_filename b0 (Some e) (Some g)
              (Some c) mf sys) as [[ok err] sys1].
  cbn [fst snd] in Hd. destruct Hd as (Hk & Hj & Hfail & Hpost).
  destruct ok; cbn [negb].
  2:{ cbn [fst snd]. split; [exact Hk|]. split; [exact Hj|].
      split; [exact Hfail|discriminate]. }
  specialize (IH sys1). cbn zeta in IH.
  destruct IH as (Hk' & Hj' & Hfail' & Hpost').
  split; [congruence|]. split; [congruence|]. split; [exact Hfail'|].
  intros Hw Hok x v Hx Hall.
  assert (Hw1 : whole_writes sys1).
  { intros f' v' k'. rewrite Hk. apply Hw. }
  assert (H0 : (x = g_build_filename b0 "scaling_governor" -> v = g) /\
               (x = g_build_filename b0 "energy_performance_preference"
                -> v = e) /\
               x <> g_build_filename b0 "boost" /\
               x <> g_build_filename b0 "scaling_min_freq").
  { apply Hall. now left. }
  destruct H0 as (Hg & He & Hc & Hs).
  apply (Hpost' Hw1 Hok).
  2:{ intros b Hb. apply Hall. now right. }
  destruct Hx as [(b & Hb & Hxb & Hv)|[(b & Hb & Hxb & Hv)|Hx]].
  - apply elem_of_cons in Hb as [->|Hb].
    + right. right. apply (Hpost Hw eq_refl); auto.
    + left. eauto.
  - apply elem_of_cons in Hb as [->|Hb].
    + right. right. apply (Hpost Hw eq_refl); auto.
    + right. left. eauto.
  - right. right. apply (Hpost Hw eq_refl); auto.
Qed.

Lemma amd_single_flag_prefs (profile : PpdProfile) (battery : bool) :
  ppd_profile_has_single_flag profile = true ->
  exists e g c m,
    profile_to_epp_pref profile battery = Some e /\
    profile_to_gov_pref profile = Some g /\
    profile_to_cpb_pref profile = Some c /\
    profile_to_min_freq profile = Some m /\
    (profile =? PPD_PROFILE_UNSET) = false.
Proof.
  intros [-> | [-> | ->]]%single_flag_cases; cbn; eauto 10.
Qed.

(** [apply_pref_to_devices] on an array and one of the three profiles. *)
Lemma apply_pref_to_devices_single (devices : list string)
    (profile : PpdProfile) (battery : bool) (sys : Sys) :
  ppd_profile_has_single_flag profile = true ->
  exists e g c m,
    profile_to_epp_pref profile battery = Some e /\
    profile_to_gov_pref profile = Some g /\
    apply_pref_to_devices g_build_filename (Some devices) profile battery sys
    = Some (apply_pref_to_devices_loop g_build_filename devices (Some e)
              (Some g) (Some c) (Some m) sys).
Proof.
  intros Hp.
  destruct (amd_single_flag_prefs profile battery Hp)
    as (e & g & c & m & He & Hg & Hc & Hm & Hu).
  exists e, g, c, m. split; [exact He|]. split; [exact Hg|].
  unfold apply_pref_to_devices. rewrite Hu, He, Hg, Hc, Hm. reflexivity.
Qed.

(** What a run of [apply_pref_to_devices] that succeeds leaves in the
    files of the devices. *)
Lemma apply_pref_to_devices_post (devices : list string)
    (profile : PpdProfile) (battery : bool) (sys : Sys) :
  ppd_profile_has_single_flag profile = true ->
  exists r,
    apply_pref_to_devices g_build_filename (Some devices) profile battery sys
    = Some r /\
    kernel (snd r) = kernel sys /\ journal (snd r) = journal sys /\
    (fst (fst r) = false -> is_Some (snd (fst r))) /\
    (whole_writes sys -> attributes_apart g_build_filename devices ->
     fst (fst r) = true ->
     forall b, b ∈ devices ->
       files (snd r) !! g_build_filename b "scaling_governor"
       = profile_to_gov_pref profile /\
       files (snd r) !! g_build_filename b "energy_performance_preference"
       = profile_to_epp_pref profile battery).
Proof.
  intros Hp.
  destruct (apply_pref_to_devices_single devices profile battery sys Hp)
    as (e & g & c & m & He & Hg & Happly).
  eexists. split; [exact Happly|].
  destruct (apply_pref_to_devices_loop_spec devices e g c (Some m) sys)
    as (Hk & Hj & Hfail & Hpost).
  split; [exact Hk|]. split; [exact Hj|]. split; [exact Hfail|].
  intros Hw Hapart Hok b Hb. rewrite He, Hg. split.
  - apply (Hpost Hw Hok).
    + left. eauto.
    + intros b' Hb'. destruct (Hapart b b' Hb Hb') as (A & B & C & D & E & F).
      repeat split; auto; intros; contradiction.
  - apply (Hpost Hw Hok).
    + right. left. eauto.
    + intros b' Hb'. destruct (Hapart b b' Hb Hb') as (A & B & C & D & E & F).
      repeat split; auto; intros; contradiction.
Qed.

Lemma apply_pref_to_device_ok (base e g c : string) (mf : option string)
    (sys : Sys) :
  let r :=
    apply_pref_to_device g_build_filename base (Some e) (Some g) (Some c) mf
      sys in
  fst (fst r) = true -> snd (fst r) = None.
Proof.
  cbn zeta. unfold apply_pref_to_device.
  match goal with |- context [ppd_utils_write (Some ?f) (Some ?v) ?s] =>
    write_step f v s end; [|discriminate].
  match goal with |- context [ppd_utils_write (Some ?f) (Some ?v) ?s] =>
    write_step f v s end; [|discriminate].
  rewrite (Hok0 eq_refl).
  destruct (g_file_test_exists (g_build_filename base "boost") sys1).
  - match goal with |- context [ppd_utils_write (Some ?f) (Some ?v) ?s] =>
      write_step f v s end; [|discriminate].
    rewrite (Hok1 eq_refl).
    match goal with |- context [files sys2 !! ?path] =>
      destruct (files sys2 !! path) as [min_freq_val|] end; [|reflexivity].
    match goal with |- context [ppd_utils_write (Some ?f) (Some ?v) ?s] =>
      write_step f v s end; [|discriminate].
    intros _. now apply Hok2.
  - match goal with |- context [files sys1 !! ?path] =>
      destruct (files sys1 !! path) as [min_freq_val|] end; [|reflexivity].
    match goal with |- context [ppd_utils_write (Some ?f) (Some ?v) ?s] =>
      write_step f v s end; [|discriminate].
    intros _. now apply Hok1.
Qed.

Lemma apply_pref_to_devices_loop_ok (devices : list string)
    (e g c : string) (mf : option string) (sys : Sys) :
  let r :=
    apply_pref_to_devices_loop g_build_filename devices (Some e) (Some g)
      (Some c) mf sys in
  fst (fst r) = true -> snd (fst r) = None.
Proof.
  revert sys. induction devices as [|b rest IH]; intros sys; cbn zeta.
  { reflexivity. }
  cbn [apply_pref_to_devices_loop].
  destruct (apply_pref_to_device _ _ _ _ _ _ _) as [[ok1 e1] sys1].
  destruct ok1; cbn [negb]; [apply IH|discriminate].
Qed.

(** X27: an activation by the driver of AMD that succeeds.  For one of the
    three profiles, on a kernel that takes every write whole and on
    devices whose attribute files are apart, a call that returns [TRUE]
    has recorded the profile, has logged nothing, and has left in every
    device the governor and the energy preference of the profile, the
    preference chosen by the power source the driver has recorded. *)
Theorem amd_pstate_activation_writes_every_device pstate
    (profile : PpdProfile) (reason : PpdProfileActivationReason) (sys : Sys)
    (devices : list string) (error : option GError) pstate' (sys' : Sys) :
  epp_devices pstate = Some devices ->
  ppd_profile_has_single_flag profile = true ->
  whole_writes sys ->
  attributes_apart g_build_filename devices ->
  ppd_driver_amd_pstate_activate_profile g_build_filename pstate profile
    reason sys = Some (true, error, pstate', sys') ->
  error = None /\
  pstate' = with_activated_profile profile pstate /\
  journal sys' = journal sys /\
  forall b, b ∈ devices ->
    files sys' !! g_build_filename b "scaling_governor"
    = profile_to_gov_pref profile /\
    files sys' !! g_build_filename b "energy_performance_preference"
    = profile_to_epp_pref profile (on_battery pstate).
Proof.
  intros Hdev Hp Hw Hapart Hact.
  unfold ppd_driver_amd_pstate_activate_profile in Hact.
  rewrite Hdev in Hact. destruct devices as [|b0 rest]; [discriminate Hact|].
  destruct (apply_pref_to_devices_post (b0 :: rest) profile
              (on_battery pstate) sys Hp)
    as ([[ok e] s1] & Happly & Hk & Hj & Hfail & Hpost).
  rewrite Happly in Hact. cbn [fst snd] in Hk, Hj, Hfail, Hpost.
  destruct ok; cbn [negb andb] in Hact.
  2:{ destruct (negb (activated_profile pstate =? PPD_PROFILE_UNSET)).
      - destruct (apply_pref_to_devices _ _ _ _ _) as [[[? ?] ?]|];
          discriminate Hact.
      - discriminate Hact. }
  injection Hact as <- <- <-.
  assert (He : e = None).
  { destruct (apply_pref_to_devices_single (b0 :: rest) profile
                (on_battery pstate) sys Hp)
      as (e' & g' & c' & m' & _ & _ & Happly').
    rewrite Happly' in Happly. injection Happly as Happly.
    pose proof (apply_pref_to_devices_loop_ok (b0 :: rest) e' g' c' (Some m')
                  sys) as Hnone.
    cbv zeta in Hnone.
    change (apply_pref_to_devices_loop g_build_filename (b0 :: rest)
              (Some e') (Some g') (Some c') (Some m') sys = (true, e, s1))
      in Happly.
    rewrite Happly in Hnone. now apply Hnone. }
  split; [exact He|]. split; [reflexivity|]. split; [exact Hj|].
  exact (Hpost Hw Hapart eq_refl).
Qed.

(** X28: an activation by the driver of AMD that fails.  The driver keeps the
    profile it had recorded and the caller gets the error of the write
    that failed.  When a profile was active before, the driver then
    writes that profile again, device by device: either this succeeds,
    nothing is logged, and every device holds the governor and the
    energy preference of the previous profile again, whatever the failed
    attempt had written; or it fails as well and the driver logs one
    warning with the message of the second error, which is set. *)
Theorem amd_pstate_failed_activation_restores pstate
    (profile : PpdProfile) (reason : PpdProfileActivationReason) (sys : Sys)
    (devices : list string) (error : option GError) pstate' (sys' : Sys) :
  epp_devices pstate = Some devices ->
  devices <> [] ->
  ppd_profile_has_single_flag profile = true ->
  ppd_profile_has_single_flag (activated_profile pstate) = true ->
  whole_writes sys ->
  attributes_apart g_build_filename devices ->
  ppd_driver_amd_pstate_activate_profile g_build_filename pstate profile
    reason sys = Some (false, error, pstate', sys') ->
  is_Some error /\ pstate' = pstate /\
  ((journal sys' = journal sys /\
    forall b, b ∈ devices ->
      files sys' !! g_build_filename b "scaling_governor"
      = profile_to_gov_pref (activated_profile pstate) /\
      files sys' !! g_build_filename b "energy_performance_preference"
      = profile_to_epp_pref (activated_profile pstate) (on_battery pstate))
   \/
   exists error_local,
     journal sys'
     = (journal sys
        ++ [LogWarning "failed to restore previous profile: %s"
              [A_message (Some error_local)]])%list).
Proof.
  intros Hdev Hne Hp Hprev Hw Hapart Hact.
  unfold ppd_driver_amd_pstate_activate_profile in Hact.
  rewrite Hdev in Hact. destruct devices as [|b0 rest]; [contradiction|].
  destruct (apply_pref_to_devices_post (b0 :: rest) profile
              (on_battery pstate) sys Hp)
    as ([[ok e] s1] & Happly & Hk & Hj & Hfail & _).
  rewrite Happly in Hact. cbn [fst snd] in Hk, Hj, Hfail.
  destruct ok; cbn [negb andb] in Hact; [discriminate Hact|].
  destruct (amd_single_flag_prefs (activated_profile pstate) true Hprev)
    as (_ & _ & _ & _ & _ & _ & _ & _ & Hu).
  rewrite Hu in Hact. cbn [negb] in Hact.
  destruct (apply_pref_to_devices_post (b0 :: rest) (activated_profile pstate)
              (on_battery pstate) s1 Hprev)
    as ([[ok2 e2] s2] & Happly2 & Hk2 & Hj2 & Hfail2 & Hpost2).
  rewrite Happly2 in Hact. cbn [fst snd] in Hk2, Hj2, Hfail2, Hpost2.
  injection Hact as <- <- <-.
  split; [now apply Hfail|]. split; [reflexivity|].
  destruct ok2; cbn [negb].
  - left. split; [congruence|].
    apply Hpost2; [|exact Hapart|reflexivity].
    intros f' v' k'. rewrite Hk. apply Hw.
  - right. destruct (Hfail2 eq_refl) as [el ->]. exists el.
    cbn. now rewrite Hj2, Hj.
Qed.

(** X29: the driver of AMD and a null array of devices.
    [ppd_driver_amd_pstate_activate_profile] tests the array and always
    returns; what it leaves is a driver that holds no profile without a
    device, when it was given one.
    [ppd_driver_amd_pstate_power_changed] does not test the array: it
    reads through a null pointer exactly when a profile is recorded and
    the array is null, which such a driver excludes; otherwise it records
    whether the machine runs on battery (an unknown source counts as
    mains), keeps the recorded profile and the devices, and writes
    nothing before the first activation. *)
Theorem amd_pstate_power_changed_needs_devices pstate (sys : Sys) :
  (forall profile reason,
      exists r,
        ppd_driver_amd_pstate_activate_profile g_build_filename pstate
          profile reason sys = Some r /\
        (has_devices pstate -> has_devices (snd (fst r)))) /\
  (forall reason,
      let battery :=
        match reason with
        | PPD_POWER_CHANGED_REASON_BATTERY => true
        | _ => false
        end in
      let r :=
        ppd_driver_amd_pstate_power_changed g_build_filename pstate reason
          sys in
      (r = None <->
       activated_profile pstate <> PPD_PROFILE_UNSET /\
       epp_devices pstate = None) /\
      (has_devices pstate -> r <> None) /\
      (forall ok error pstate' sys',
          r = Some (ok, error, pstate', sys') ->
          pstate' = with_on_battery battery pstate /\
          (has_devices pstate -> has_devices pstate') /\
          (activated_profile pstate = PPD_PROFILE_UNSET ->
           ok = true /\ sys' = sys))).
Proof.
  assert (Hsome : forall devices profile battery s,
             exists r, apply_pref_to_devices g_build_filename (Some devices)
                         profile battery s = Some r).
  { intros devices profile battery s. unfold apply_pref_to_devices.
    destruct (profile =? PPD_PROFILE_UNSET); eauto. }
  split.
  - intros profile reason. unfold ppd_driver_amd_pstate_activate_profile.
    destruct (epp_devices pstate) as [[|b0 rest]|] eqn:Hdev.
    + eexists. split; [reflexivity|]. auto.
    + destruct (Hsome (b0 :: rest) profile (on_battery pstate) sys)
        as ([[ret e] s1] & ->).
      destruct (negb ret && negb (activated_profile pstate =? PPD_PROFILE_UNSET)).
      * destruct (Hsome (b0 :: rest) (activated_profile pstate)
                    (on_battery pstate) s1) as ([[ret2 e2] s2] & ->).
        eexists. split; [reflexivity|]. auto.
      * eexists. split; [reflexivity|]. cbn [fst snd].
        destruct ret; [|auto]. intros _ _. cbn. rewrite Hdev. eauto.
    + eexists. split; [reflexivity|]. auto.
  - intros reason. cbn zeta.
    unfold ppd_driver_amd_pstate_power_changed.
    set (battery := match reason with
                    | PPD_POWER_CHANGED_REASON_BATTERY => true
                    | _ => false
                    end).
    replace (match reason with
             | PPD_POWER_CHANGED_REASON_UNKNOWN | PPD_POWER_CHANGED_REASON_AC =>
                 with_on_battery false pstate
             | PPD_POWER_CHANGED_REASON_BATTERY => with_on_battery true pstate
             end) with (with_on_battery battery pstate)
      by (subst battery; now destruct reason).
    cbn [epp_devices activated_profile on_battery with_on_battery].
    unfold apply_pref_to_devices.
    destruct (Z.eqb_spec (activated_profile pstate) PPD_PROFILE_UNSET)
      as [Hu|Hu].
    { split; [split; [intros E; discriminate E|now intros [? _]]|].
      split; [intros _ E; discriminate E|].
      intros ok error pstate' sys' E. injection E as <- <- <- <-.
      split; [reflexivity|]. split; [|auto].
      intros _ Hset. cbn in Hset. contradiction. }
    destruct (epp_devices pstate) as [devices|] eqn:Hdev.
    + destruct (apply_pref_to_devices_loop _ _ _ _ _ _ _) as [[ok1 e1] s1].
      split; [split; [intros E; discriminate E|now intros [_ ?]]|].
      split; [intros _ E; discriminate E|].
      intros ok error pstate' sys' E.
      injection E as <- <- <- <-.
      split; [reflexivity|]. split; [|contradiction].
      intros Hd _. cbn. exact (Hd Hu).
    + split; [split; [auto|reflexivity]|].
      split; [|discriminate].
      intros Hd. destruct (Hd Hu) as (b & rest & E). congruence.
Qed.

End Amd.

(* ===================================================================== *)
(** ** The theorems on the driver of AMD on a concrete machine            *)
(* ===================================================================== *)

Lemma desktop_whole_writes : whole_writes Desktop.sys.
Proof.
  intros filename value k. cbn.
  destruct (_ && _); discriminate.
Defined.

Lemma desktop_attributes_apart :
  AmdPstate.attributes_apart Desktop.join [Desktop.policy0; Desktop.policy1].
Proof.
  intros b b' Hb Hb'.
  assert (E : b = Desktop.policy0 \/ b = Desktop.policy1).
  { repeat (apply elem_of_cons in Hb as [Hb|Hb]; [auto|]).
    now apply elem_of_nil in Hb. }
  assert (E' : b' = Desktop.policy0 \/ b' = Desktop.policy1).
  { repeat (apply elem_of_cons in Hb' as [Hb'|Hb']; [auto|]).
    now apply elem_of_nil in Hb'. }
  destruct E as [-> | ->], E' as [-> | ->]; cbv zeta;
    repeat lazymatch goal with |- _ /\ _ => split end;
    apply String.eqb_neq; vm_compute; reflexivity.
Defined.

Lemma amd_pstate_activation_writes_every_device_witness :
  let r :=
    AmdPstate.ppd_driver_amd_pstate_activate_profile Desktop.join
      Desktop.pstate PPD_PROFILE_POWER_SAVER
      PPD_PROFILE_ACTIVATION_REASON_USER Desktop.sys in
  exists sys',
    r = Some (true, None,
              AmdPstate.with_activated_profile PPD_PROFILE_POWER_SAVER
                Desktop.pstate, sys') /\
    files sys' !! Desktop.join Desktop.policy1 "scaling_governor"
    = Some "powersave" /\
    files sys' !! Desktop.join Desktop.policy1 "energy_performance_preference"
    = Some "power".
Proof.
  intros r.
  pose (e := match r with Some (_, e, _, _) => e | None => None end).
  pose (p := match r with Some (_, _, p, _) => p | None => Desktop.pstate end).
  pose (s := match r with Some (_, _, _, s) => s | None => Desktop.sys end).
  assert (E : r = Some (true, e, p, s)) by (vm_compute; reflexivity).
  destruct (amd_pstate_activation_writes_every_device Desktop.join
              Desktop.pstate PPD_PROFILE_POWER_SAVER
              PPD_PROFILE_ACTIVATION_REASON_USER Desktop.sys
              [Desktop.policy0; Desktop.policy1] e p s)
    as (He & Hp & _ & Hfiles).
  - reflexivity.
  - reflexivity.
  - exact desktop_whole_writes.
  - exact desktop_attributes_apart.
  - exact E.
  - exists s. rewrite E, He, Hp. split; [reflexivity|].
    apply (Hfiles Desktop.policy1). right. now left.
Defined.

Lemma amd_pstate_failed_activation_restores_witness :
  let r :=
    AmdPstate.ppd_driver_amd_pstate_activate_profile Desktop.join
      Desktop.pstate PPD_PROFILE_PERFORMANCE
      PPD_PROFILE_ACTIVATION_REASON_USER Desktop.sys in
  exists error sys',
    r = Some (false, Some error, Desktop.pstate, sys') /\
    journal sys' = [] /\
    files sys' !! Desktop.join Desktop.policy0 "scaling_governor"
    = Some "powersave" /\
    files sys' !! Desktop.join Desktop.policy0 "energy_performance_preference"
    = Some "balance_performance".
Proof.
  intros r.
  pose (e := match r with Some (_, e, _, _) => e | None => None end).
  pose (p := match r with Some (_, _, p, _) => p | None => Desktop.pstate end).
  pose (s := match r with Some (_, _, _, s) => s | None => Desktop.sys end).
  assert (E : r = Some (false, e, p, s)) by (vm_compute; reflexivity).
  destruct (amd_pstate_failed_activation_restores Desktop.join
              Desktop.pstate PPD_PROFILE_PERFORMANCE
              PPD_PROFILE_ACTIVATION_REASON_USER Desktop.sys
              [Desktop.policy0; Desktop.policy1] e p s)
    as ([error He] & Hp & Hrestored).
  - reflexivity.
  - discriminate.
  - reflexivity.
  - reflexivity.
  - exact desktop_whole_writes.
  - exact desktop_attributes_apart.
  - exact E.
  - exists error, s. rewrite E, He, Hp.
    destruct Hrestored as [[Hj Hfiles]|[error_local Hj]].
    + split; [reflexivity|]. split; [exact Hj|].
      apply (Hfiles Desktop.policy0). now left.
    + exfalso. vm_compute in Hj. discriminate Hj.
Defined.
